(** * A shallow embedding of the range-aware stream/download proxy and its
      session-credential cache (muxfox/baby).

    Three variants of the same subsystem live in the repository:
    - [Express]: the Node.js server on the native [fetch] client
      (src/index.js, first document);
    - [Worker]: the Cloudflare Worker (src/index.js, second document);
    - [Axios]: the Node.js server on axios with a cookie jar
      (src/unnamed/part_000).

    Conventions of the embedding.
    - A JavaScript string is a Rocq [string]: a sequence of code units in
      0..255 (header values are byte strings; code units above 255 are outside
      the model).
    - A JavaScript number is [NaN] or an integer [Num z] kept exactly.  The
      model is that of JavaScript on the integers of [JS.safe], up to 2^53 in
      absolute value: beyond, JavaScript rounds and, from 1e21 on, prints an
      exponent.  A length in a statement is the length of a resource of
      the CDN; a statement on a number read from the request is made for the
      integers of [JS.safe].
    - A header or query value that may be [null] or [undefined] is an
      [option string]; a query value is a string when it is present.
    - Asynchronous code is run to completion in program order: a handler is a
      function of the environment (clock, upstream) and of the store (module
      variables, response object, log of upstream calls) in a state and
      exception monad.  [await fetch(...)] and a call of axios ask the oracle
      [fetch] of the environment and append their argument to the log: the
      log holds what the code passes to the client, the request of [fetch] or
      the config of axios.  What the client makes of it is the oracle's: the
      headers axios, Node and the cookie jar add before a request leaves are
      not in the log, and a request the client refuses is a call that fails.
    - A header value read from an upstream answer is taken to be one the
      platform accepts when it is written back.  The name of a download comes
      from the query, and the platform refuses some characters in a header
      value ([JS.nodeHeaderValue], [JS.fetchHeaderValue]): the download
      handlers fail where they write it.
    - The answer of a request is the response object when the handler is
      done.  A body [BodyNone] says that the response was neither written nor
      ended: whatever head [writeHead] has prepared, nothing has reached the
      client.
    - The handlers of the three variants are run by [serve] and
      [Worker.serve] as on a GET request that has reached them.  The entry
      point of the Worker, with its routes and the OPTIONS method, is
      [Router.fetch]; the CORS middleware of the Express servers is
      [Middleware.cors]; the search and info routes of the fetch variants and
      the trending and sources routes of the Worker are in [Catalog], the
      catalog routes of the server on axios in [AxiosCatalog].
    - Functions of the platform are parameters of the definitions that call
      them: [JSON.stringify], the encoding of [URLSearchParams],
      [encodeURIComponent], [decodeURIComponent], the url axios builds from
      the [params] of a request, the body parsers of Express and what Express
      answers to a method without a route.
    - Not modelled: console output, the headers Express adds by itself, the
      cookie jar inside the axios wrapper, the transfer of the body after
      [pipe] (a piped response holds the upstream body), the text of the HTML
      pages, the text of the messages of the errors the platform throws (a
      fixed text stands for it), and the trending and sources routes of the
      Express server on fetch. *)

From Stdlib Require Import ZArith Lia List Bool Ascii String Permutation.
Import ListNotations.
Local Open Scope string_scope.
Local Open Scope Z_scope.

(** ** JavaScript primitives *)
Module JS.

(** *** Numbers *)
Inductive num := NaN | Num (z : Z).

Definition isNaN (n : num) : bool :=
  match n with NaN => true | Num _ => false end.

(** [!n] is true for [NaN] and for zero. *)
Definition numTruthy (n : num) : bool :=
  match n with NaN => false | Num z => negb (z =? 0) end.

Definition sub (a b : num) : num :=
  match a, b with Num x, Num y => Num (x - y) | _, _ => NaN end.

Definition add (a b : num) : num :=
  match a, b with Num x, Num y => Num (x + y) | _, _ => NaN end.

(** Every comparison with [NaN] is false. *)
Definition lt (a b : num) : bool :=
  match a, b with Num x, Num y => x <? y | _, _ => false end.

Definition gt (a b : num) : bool := lt b a.

Definition ge (a b : num) : bool :=
  match a, b with Num x, Num y => y <=? x | _, _ => false end.

(** The integers a JavaScript number holds one by one, up to 2^53 in
    absolute value.  On them [parseInt] returns the integer that is written
    and a number is printed by its decimal digits, as in this model; beyond,
    [parseInt] rounds and the printing changes. *)
Definition safe (z : Z) : Prop := - 2 ^ 53 <= z <= 2 ^ 53.

(** *** Characters *)
Definition code (c : ascii) : Z := Z.of_N (N_of_ascii c).

(** White space of [trim], [parseInt] and the regular expression class
    [\s], on the code units 0..255. *)
Definition isWhite (c : ascii) : bool :=
  let n := code c in
  ((9 <=? n) && (n <=? 13)) || (n =? 32) || (n =? 160).

(** Value of a character as a digit of a radix up to 36. *)
Definition digitVal (c : ascii) : option Z :=
  let n := code c in
  if (48 <=? n) && (n <=? 57) then Some (n - 48)
  else if (97 <=? n) && (n <=? 122) then Some (n - 87)
  else if (65 <=? n) && (n <=? 90) then Some (n - 55)
  else None.

Definition digitChar (d : Z) : ascii := ascii_of_N (Z.to_N (48 + d)).

Definition dquote : ascii := ascii_of_N 34.

(** *** Strings *)
Definition strTruthy (s : string) : bool :=
  match s with EmptyString => false | String _ _ => true end.

(** Truthiness of a value that is a string, [null] or [undefined]. *)
Definition optTruthy (o : option string) : bool :=
  match o with Some s => strTruthy s | None => false end.

(** [a || b] on such a value with a string default. *)
Definition orElse (o : option string) (d : string) : string :=
  match o with
  | Some s => if strTruthy s then s else d
  | None => d
  end.

Definition startsWith (s p : string) : bool := String.prefix p s.

Fixpoint drop (n : nat) (s : string) : string :=
  match n, s with
  | O, _ => s
  | S n', String _ r => drop n' r
  | S _, EmptyString => EmptyString
  end.

Definition endsWith (s p : string) : bool :=
  (String.length p <=? String.length s)%nat
  && String.eqb (drop (String.length s - String.length p) s) p.

(** [s.split(sep)] for a one-character separator: never empty. *)
Fixpoint split (sep : ascii) (s : string) : list string :=
  match s with
  | EmptyString => [EmptyString]
  | String c r =>
      if Ascii.eqb c sep then EmptyString :: split sep r
      else match split sep r with
           | h :: t => String c h :: t
           | [] => [String c EmptyString]
           end
  end.

(** [s.replace(/pat/, '')] for a literal pattern: the first occurrence is
    removed. *)
Fixpoint removeFirst (pat s : string) : string :=
  if String.prefix pat s then drop (String.length pat) s
  else match s with
       | EmptyString => EmptyString
       | String c r => String c (removeFirst pat r)
       end.

Fixpoint trimStart (s : string) : string :=
  match s with
  | String c r => if isWhite c then trimStart r else s
  | EmptyString => EmptyString
  end.

Fixpoint trimEnd (s : string) : string :=
  match s with
  | EmptyString => EmptyString
  | String c r =>
      match trimEnd r with
      | EmptyString => if isWhite c then EmptyString else String c EmptyString
      | r' => String c r'
      end
  end.

Definition trim (s : string) : string := trimEnd (trimStart s).

Definition join (sep : string) (l : list string) : string :=
  String.concat sep l.

Fixpoint repeatChar (n : nat) (c : ascii) : string :=
  match n with O => EmptyString | S n' => String c (repeatChar n' c) end.

(** [s.padStart(n, c)] for a one-character filler. *)
Definition padStart (n : nat) (c : ascii) (s : string) : string :=
  repeatChar (n - String.length s) c ++ s.

Fixpoint toLowerCase (s : string) : string :=
  match s with
  | EmptyString => EmptyString
  | String c r =>
      let n := code c in
      String (if (65 <=? n) && (n <=? 90) then ascii_of_N (Z.to_N (n + 32)) else c)
             (toLowerCase r)
  end.

(** *** Header values *)

Fixpoint every (p : ascii -> bool) (s : string) : bool :=
  match s with
  | EmptyString => true
  | String c r => p c && every p r
  end.

(** The values Node accepts in [res.setHeader] and [res.set]: those without
    a character outside [\t\x20-\x7e\x80-\xff]; on another value they throw
    ERR_INVALID_CHAR. *)
Definition nodeHeaderValue (v : string) : bool :=
  every (fun c => let n := code c in
                  (n =? 9) || ((32 <=? n) && (n <=? 126)) || (128 <=? n)) v.

(** The values the [Headers] of the Fetch standard accept, for a value that
    neither begins nor ends with white space (which they strip first): those
    without NUL, line feed and carriage return; on another value
    [new Response] throws a TypeError. *)
Definition fetchHeaderValue (v : string) : bool :=
  every (fun c => let n := code c in
                  negb ((n =? 0) || (n =? 10) || (n =? 13))) v.

(** *** parseInt *)

(** The longest prefix of digits of radix [R], read most significant digit
    first; [None] when there is no digit. *)
Fixpoint parseDigits (R : Z) (s : string) (acc : option Z) : option Z :=
  match s with
  | EmptyString => acc
  | String c r =>
      match digitVal c with
      | Some d =>
          if d <? R
          then parseDigits R r (Some (match acc with Some a => a * R | None => 0 end + d))
          else acc
      | None => acc
      end
  end.

(** An optional sign before the digits. *)
Definition stripSign (s : string) : Z * string :=
  match s with
  | String c r =>
      if Ascii.eqb c "-" then (-1, r)
      else if Ascii.eqb c "+" then (1, r)
      else (1, s)
  | EmptyString => (1, s)
  end.

(** [parseInt(s, radix)]; [radix = 0] stands for an omitted radix. *)
Definition parseInt (s : string) (radix : Z) : num :=
  let '(sign, s2) := stripSign (trimStart s) in
  if negb (radix =? 0) && ((radix <? 2) || (36 <? radix)) then NaN
  else
    let stripPrefix := (radix =? 0) || (radix =? 16) in
    let R0 := if radix =? 0 then 10 else radix in
    let '(R, s3) :=
      if stripPrefix && (String.prefix "0x" s2 || String.prefix "0X" s2)
      then (16, drop 2 s2) else (R0, s2) in
    match parseDigits R s3 None with
    | Some v => Num (sign * v)
    | None => NaN
    end.

(** [parseInt] of a value that may be [null] ([absent] is its string
    form, ["null"] or ["undefined"]). *)
Definition parseIntOpt (absent : string) (o : option string) (radix : Z) : num :=
  parseInt (match o with Some s => s | None => absent end) radix.

(** *** Number to string *)
Fixpoint digitsOf (fuel : nat) (n : Z) : string :=
  match fuel with
  | O => EmptyString
  | S f =>
      if n <? 10 then String (digitChar n) EmptyString
      else digitsOf f (n / 10) ++ String (digitChar (n mod 10)) EmptyString
  end.

Definition natToString (n : Z) : string :=
  digitsOf (S (Z.to_nat (Z.log2 n))) n.

Definition intToString (z : Z) : string :=
  if z <? 0 then String "-" (natToString (- z)) else natToString z.

Definition numToString (n : num) : string :=
  match n with NaN => "NaN" | Num z => intToString z end.

End JS.

(** ** HTTP and the effect monad *)

(** A JSON value, as far as the handlers look into one. *)
#[warnings="-register-all"]
Inductive Json :=
| JNull
| JBool (b : bool)
| JNum (z : Z)
| JStr (s : string)
| JArr (l : list Json)
| JObj (fields : list (string * Json)).

Module Http.

(** A plain object used as a header map, in insertion order. *)
Definition Obj := list (string * string).

Fixpoint objGet (k : string) (o : Obj) : option string :=
  match o with
  | [] => None
  | (k', v) :: r => if String.eqb k k' then Some v else objGet k r
  end.

(** [o[k] = v]: an existing key keeps its place. *)
Fixpoint objSet (k v : string) (o : Obj) : Obj :=
  match o with
  | [] => [(k, v)]
  | (k', v') :: r => if String.eqb k k' then (k, v) :: r else (k', v') :: objSet k v r
  end.

(** [{...a, ...b}]. *)
Definition spread (a b : Obj) : Obj :=
  fold_left (fun o kv => objSet (fst kv) (snd kv) o) b a.

(** The [Headers] object of an upstream response, through the methods the
    code calls.  [h_getSetCookie] is [None] on a runtime whose [Headers] has
    no [getSetCookie] method; [h_entries] is what iterating the object
    yields. *)
Record Headers := {
  h_get : string -> option string;
  h_getSetCookie : option (list string);
  h_entries : list (string * string)
}.

(** The header lines of a response as it is received, name and value, in
    order. *)
Definition Lines := list (string * string).

Definition named (k : string) (line : string * string) : bool :=
  String.eqb (JS.toLowerCase (fst line)) k.

(** The values of the lines whose name is [k] in lower case, in order. *)
Definition valuesOf (k : string) (lines : Lines) : list string :=
  map snd (filter (named k) lines).

(** The [Set-Cookie] headers of a response. *)
Definition setCookies (lines : Lines) : list string := valuesOf "set-cookie" lines.

(** [get(name)]: the values of the lines of that name, whatever its case,
    joined with [", "]; [null] when there is none. *)
Definition combined (k : string) (lines : Lines) : option string :=
  match valuesOf (JS.toLowerCase k) lines with
  | [] => None
  | vs => Some (JS.join ", " vs)
  end.

Fixpoint insertEntry (x : string * string) (l : list (string * string))
  : list (string * string) :=
  match l with
  | [] => [x]
  | y :: r => if String.leb (fst x) (fst y) then x :: l else y :: insertEntry x r
  end.

Definition sortEntries (l : list (string * string)) : list (string * string) :=
  fold_right insertEntry [] l.

(** What iterating the object yields: the names in lower case, sorted, each
    once with its combined value; on a runtime that has [getSetCookie], one
    entry for each [Set-Cookie] header. *)
Definition entriesOf (modern : bool) (lines : Lines) : list (string * string) :=
  let names := nodup string_dec (map (fun line => JS.toLowerCase (fst line)) lines) in
  sortEntries
    (flat_map (fun k =>
                 if modern && String.eqb k "set-cookie"
                 then map (fun v => (k, v)) (valuesOf k lines)
                 else [(k, JS.join ", " (valuesOf k lines))])
              names).

(** The [Headers] object of a response received with the header lines
    [lines], on a runtime that has [getSetCookie] ([modern]) or has not. *)
Definition received (modern : bool) (lines : Lines) : Headers :=
  {| h_get := fun k => combined k lines;
     h_getSetCookie := if modern then Some (setCookies lines) else None;
     h_entries := entriesOf modern lines |}.

Record UpResponse := {
  up_status : Z;
  up_headers : Headers;
  up_body : string;
  up_data : option Json  (* the body parsed as JSON, when it is JSON *)
}.

Record Request := {
  rq_url : string;
  rq_method : string;
  rq_headers : Obj;
  rq_body : option string
}.

(** The outcome of one upstream call: a response, or a rejected promise
    (for [fetch] a failure of the connection; for axios also a status
    outside 2xx). *)
Inductive FetchResult :=
| FetchOk (r : UpResponse)
| FetchFail (message : string).

(** The world of one call: the clock and the upstream. *)
Record Env := {
  now : Z;
  fetch : Request -> FetchResult
}.

(** The incoming request, through what the handlers read. *)
Record InRequest := {
  q_url : option string;
  q_title : option string;
  q_season : option string;
  q_episode : option string;
  q_quality : option string;
  h_range : option string
}.

(** The body of an answer; [BodyText t] is the plain text [t]. *)
Inductive Body :=
| BodyNone                      (* nothing written *)
| BodyEmpty                     (* ended without a body *)
| BodyJson (j : Json)
| BodyPipe (upstreamBody : string)
| BodyText (text : string).

(** The program state: the module-level variables of a variant (and, for
    the Express servers, the response object in construction) and the log of
    upstream calls. *)
Record Store (S : Type) := { user : S; calls : list Request }.
Arguments user {S} _.
Arguments calls {S} _.

(** What one request leaves behind: the status, the headers and the body of
    the response when the handler is done, the upstream calls and the
    variables.  With the body [BodyNone] the response was neither written nor
    ended: the status and the headers are those of the response object, and
    nothing has reached the client. *)
Record Seen (V : Type) := {
  seenStatus : Z;
  seenHeaders : Obj;
  seenBody : Body;
  seenCalls : list Request;
  seenVars : V
}.
Arguments seenStatus {V} _.
Arguments seenHeaders {V} _.
Arguments seenBody {V} _.
Arguments seenCalls {V} _.
Arguments seenVars {V} _.

Inductive Outcome (A : Type) :=
| Ok (a : A)
| Throw (message : string).
Arguments Ok {A} _.
Arguments Throw {A} _.

Definition M (S A : Type) : Type := Env -> Store S -> Outcome A * Store S.

Definition ret {S A} (a : A) : M S A := fun _ s => (Ok a, s).

Definition bind {S A B} (m : M S A) (k : A -> M S B) : M S B :=
  fun e s =>
    match m e s with
    | (Ok a, s') => k a e s'
    | (Throw msg, s') => (Throw msg, s')
    end.

Definition throw {S A} (msg : string) : M S A := fun _ s => (Throw msg, s).

(** [try { m } catch (error) { h error.message }] *)
Definition tryCatch {S A} (m : M S A) (h : string -> M S A) : M S A :=
  fun e s =>
    match m e s with
    | (Ok a, s') => (Ok a, s')
    | (Throw msg, s') => h msg e s'
    end.

Definition getNow {S} : M S Z := fun e s => (Ok (now e), s).

Definition get {S} : M S S := fun _ s => (Ok (user s), s).

Definition put {S} (u : S) : M S unit :=
  fun _ s => (Ok tt, {| user := u; calls := calls s |}).

(** [await fetch(...)], and a call of axios: the argument of the call is
    logged; a call that fails throws. *)
Definition doFetch {S} (rq : Request) : M S UpResponse :=
  fun e s =>
    let s' := {| user := user s; calls := (calls s ++ [rq])%list |} in
    match fetch e rq with
    | FetchOk r => (Ok r, s')
    | FetchFail msg => (Throw msg, s')
    end.

Definition GET (url : string) (headers : Obj) : Request :=
  {| rq_url := url; rq_method := "GET"; rq_headers := headers; rq_body := None |}.

Definition HEAD (url : string) (headers : Obj) : Request :=
  {| rq_url := url; rq_method := "HEAD"; rq_headers := headers; rq_body := None |}.

(** Options of [makeApiRequest]. *)
Record Options := {
  o_method : option string;
  o_headers : Obj;
  o_body : option string
}.

Definition noOptions : Options :=
  {| o_method := None; o_headers := []; o_body := None |}.

Definition jsonTruthy (j : Json) : bool :=
  match j with
  | JNull => false
  | JBool b => b
  | JNum z => negb (z =? 0)
  | JStr s => JS.strTruthy s
  | JArr _ | JObj _ => true
  end.

Fixpoint fieldOf (k : string) (fs : list (string * Json)) : option Json :=
  match fs with
  | [] => None
  | (k', v) :: r => if String.eqb k k' then Some v else fieldOf k r
  end.

(** [j.data], [None] for [undefined]. *)
Definition dataOf (j : Json) : option Json :=
  match j with JObj fs => fieldOf "data" fs | _ => None end.

Definition errorJson (message : string) : Json :=
  JObj [("status", JStr "error"); ("message", JStr message)].

Definition successJson (content : Json) : Json :=
  JObj [("status", JStr "success"); ("data", content)].

End Http.

Import Http.

Declare Scope js_scope.
Delimit Scope js_scope with js.
Notation "x <- m ;; k" := (bind m (fun x => k))
  (at level 61, m at next level, right associativity) : js_scope.
Notation "m ;;; k" := (bind m (fun _ => k))
  (at level 61, right associativity) : js_scope.
Local Open Scope js_scope.

(** ** Code shared verbatim by the variants *)
Module Common.

(** The headers sent to the CDN by every stream and download handler. *)
Definition cdnHeaders : Obj :=
  [("User-Agent", "okhttp/4.12.0");
   ("Referer", "https://fmoviesunblocked.net/");
   ("Origin", "https://fmoviesunblocked.net")].

(** The same with [Range: bytes=<start>-<end>]. *)
Definition rangeHeaders (start end_ : JS.num) : Obj :=
  app cdnHeaders
      [("Range", "bytes=" ++ JS.numToString start ++ "-" ++ JS.numToString end_)].

Definition SELECTED_HOST : string := "h5.aoneroom.com".
Definition HOST_URL : string := "https://" ++ SELECTED_HOST.

Definition DEFAULT_HEADERS : Obj :=
  let q := String JS.dquote EmptyString in
  [("X-Client-Info", "{" ++ q ++ "timezone" ++ q ++ ":" ++ q ++ "Africa/Nairobi" ++ q ++ "}");
   ("Accept-Language", "en-US,en;q=0.5");
   ("Accept", "application/json");
   ("User-Agent", "okhttp/4.12.0");
   ("Referer", HOST_URL);
   ("Host", SELECTED_HOST);
   ("Connection", "keep-alive");
   ("X-Forwarded-For", "1.1.1.1");
   ("CF-Connecting-IP", "1.1.1.1");
   ("X-Real-IP", "1.1.1.1")].

Definition bootstrapUrl : string :=
  HOST_URL ++ "/wefeed-h5-bff/app/get-latest-app-pkgs?app_name=moviebox".

Definition bootstrapRequest : Request := GET bootstrapUrl DEFAULT_HEADERS.

Definition COOKIE_CACHE_DURATION : Z := 3600000.

(** The request [makeApiRequest] of the fetch variants sends: the default
    headers under those of [options], and a [Cookie] header when [cookies]
    is truthy. *)
Definition apiRequest (url : string) (options : Options) (cookies : option string)
  : Request :=
  let headers := spread DEFAULT_HEADERS (o_headers options) in
  let headers :=
    match cookies with
    | Some c => if JS.strTruthy c then objSet "Cookie" c headers else headers
    | None => headers
    end in
  {| rq_url := url;
     rq_method := match o_method options with Some m => m | None => "GET" end;
     rq_headers := headers;
     rq_body := o_body options |}.

(** The [name=value] pair of one [Set-Cookie] header:
    [cookie.split(';')[0].trim()]. *)
Definition cookiePair (cookie : string) : string :=
  JS.trim (hd EmptyString (JS.split ";" cookie)).

(** The parsing of a [Range] header, the same statements in the stream
    handlers of the three variants and in the Worker's download handler:
    [parts], [start], [end] and the suffix form. *)
Definition rangeWindow (range : string) (fileSize : JS.num) : JS.num * JS.num :=
  let parts := JS.split "-" (JS.removeFirst "bytes=" range) in
  let start := JS.parseInt (hd EmptyString parts) 10 in
  let end_ :=
    match nth_error parts 1 with
    | Some p => if JS.strTruthy p then JS.parseInt p 10 else JS.sub fileSize (JS.Num 1)
    | None => JS.sub fileSize (JS.Num 1)
    end in
  if JS.isNaN start && negb (JS.isNaN end_)
  then (JS.sub fileSize end_, JS.sub fileSize (JS.Num 1))
  else (start, end_).

(** The validation of the window in the Worker and axios variants; [true]
    when the answer is 416. *)
Definition rangeInvalid (start end_ fileSize : JS.num) : bool :=
  JS.isNaN start || JS.isNaN end_ || JS.lt start (JS.Num 0)
  || JS.ge end_ fileSize || JS.gt start end_.

(** [sanitizeFilename] (src/index.js:64-70, 575-581; part_000:826-833): the
    characters it removes. *)
Definition hostile (c : ascii) : bool :=
  existsb (Ascii.eqb c) ["<"; ">"; ":"; JS.dquote; "/"; "\"; "|"; "?"; "*"]%char.

Fixpoint removeHostile (s : string) : string :=
  match s with
  | EmptyString => EmptyString
  | String c r => if hostile c then removeHostile r else String c (removeHostile r)
  end.

(** Every maximal run of characters satisfying [p] becomes one ["_"]. *)
Fixpoint collapseRuns (p : ascii -> bool) (inRun : bool) (s : string) : string :=
  match s with
  | EmptyString => EmptyString
  | String c r =>
      if p c
      then if inRun then collapseRuns p true r else String "_" (collapseRuns p true r)
      else String c (collapseRuns p false r)
  end.

Definition sanitizeFilename (filename : string) : string :=
  JS.trim
    (collapseRuns (Ascii.eqb "_") false
       (collapseRuns JS.isWhite false (removeHostile filename))).

(** The file name before the extension, from title, season/episode and
    quality, as the three download handlers build it. *)
Definition baseFilename (req : InRequest) : string :=
  let title := JS.orElse (q_title req) "video" in
  let quality := JS.orElse (q_quality req) "" in
  let filename := sanitizeFilename title in
  let filename :=
    match q_season req, q_episode req with
    | Some season, Some episode =>
        if JS.strTruthy season && JS.strTruthy episode
        then filename ++ "_S" ++ JS.padStart 2 "0" season
                      ++ "E" ++ JS.padStart 2 "0" episode
        else filename
    | _, _ => filename
    end in
  if JS.strTruthy quality then filename ++ "_" ++ quality else filename.

Definition contentDisposition (filename : string) : string :=
  "attachment; filename=" ++ String JS.dquote filename ++ String JS.dquote EmptyString.

End Common.

Import Common.

(** ** The response object of the Express servers *)
Module Server.

Record Res := {
  statusCode : Z;
  resHeaders : Obj;
  headersSent : bool;
  resBody : Body
}.

Definition freshRes : Res :=
  {| statusCode := 200; resHeaders := []; headersSent := false; resBody := BodyNone |}.

(** Module-level variables of the variant and the response of the request
    being served. *)
Record State (V : Type) := { vars : V; res : Res }.
Arguments vars {V} _.
Arguments res {V} _.

Section Ops.
Context {V : Type}.

Definition modifyRes (f : Res -> Res) : M (State V) unit :=
  s <- get ;; put {| vars := vars s; res := f (res s) |}.

Definition setVars (v : V) : M (State V) unit :=
  s <- get ;; put {| vars := v; res := res s |}.

(** [res.status(c)] *)
Definition resStatus (c : Z) : M (State V) unit :=
  modifyRes (fun r => {| statusCode := c; resHeaders := resHeaders r;
                         headersSent := headersSent r; resBody := resBody r |}).

(** [res.setHeader(k, v)], [res.header(k, v)] *)
Definition resSetHeader (k v : string) : M (State V) unit :=
  modifyRes (fun r => {| statusCode := statusCode r;
                         resHeaders := objSet k v (resHeaders r);
                         headersSent := headersSent r; resBody := resBody r |}).

(** The message of the error Node throws for a header value it refuses. *)
Definition invalidChar (k : string) : string :=
  "Invalid character in header content [" ++ String JS.dquote k
    ++ String JS.dquote "]".

(** [res.setHeader(k, v)] and [res.set(k, v)] for a value that comes from
    the request: Node throws on a value it refuses. *)
Definition resSetHeaderChecked (k v : string) : M (State V) unit :=
  if JS.nodeHeaderValue v then resSetHeader k v else throw (invalidChar k).

(** [res.set({...})] *)
Definition resSet (hs : Obj) : M (State V) unit :=
  modifyRes (fun r => {| statusCode := statusCode r;
                         resHeaders := spread (resHeaders r) hs;
                         headersSent := headersSent r; resBody := resBody r |}).

(** [res.writeHead(c, headers)] *)
Definition resWriteHead (c : Z) (hs : Obj) : M (State V) unit :=
  modifyRes (fun r => {| statusCode := c;
                         resHeaders := spread (resHeaders r) hs;
                         headersSent := true; resBody := resBody r |}).

Definition resEnd (b : Body) : M (State V) unit :=
  modifyRes (fun r => {| statusCode := statusCode r; resHeaders := resHeaders r;
                         headersSent := true; resBody := b |}).

(** [res.json(j)] *)
Definition resJson (j : Json) : M (State V) unit := resEnd (BodyJson j).

(** [res.send()] *)
Definition resSend : M (State V) unit := resEnd BodyEmpty.

(** [stream.pipe(res)] *)
Definition resPipe (upstreamBody : string) : M (State V) unit :=
  resEnd (BodyPipe upstreamBody).

(** One request served by handler [h]: the response object starts
    fresh, the variables are [v] and the log of upstream calls is [log].
    The result shows the response object when the handler is done. *)
Definition serve (h : M (State V) unit) (e : Env) (v : V) (log : list Request)
  : Seen V :=
  let s := snd (h e {| user := {| vars := v; res := freshRes |}; calls := log |}) in
  {| seenStatus := statusCode (res (user s));
     seenHeaders := resHeaders (res (user s));
     seenBody := resBody (res (user s));
     seenCalls := calls s;
     seenVars := vars (user s) |}.

End Ops.

End Server.

Import Server.

(** ** The Express server on [fetch] (src/index.js, first document) *)
Module Express.

Record Vars := { cookieCache : option string; cookieCacheTime : Z }.

Definition initial : Vars := {| cookieCache := None; cookieCacheTime := 0 |}.

Abbreviation St := (State Vars).

Definition processApiResponse (data : Json) : Json :=
  if jsonTruthy data
  then match dataOf data with
       | Some d => if jsonTruthy d then d else data
       | None => data
       end
  else data.

(** The array [setCookieHeaders] built from [getSetCookie()] or, without
    that method, from [get('set-cookie')]. *)
Definition setCookieHeaders (response : UpResponse) : list string :=
  match h_getSetCookie (up_headers response) with
  | Some arr => arr
  | None =>
      match h_get (up_headers response) "set-cookie" with
      | Some s => if JS.strTruthy s then [s] else []
      | None => []
      end
  end.

(** [cookieCache && (now - cookieCacheTime) < COOKIE_CACHE_DURATION] *)
Definition cacheFresh (v : Vars) (now : Z) : bool :=
  JS.optTruthy (cookieCache v) && (now - cookieCacheTime v <? COOKIE_CACHE_DURATION).

(** [getCookies] (src/index.js:72-108) *)
Definition getCookies : M St (option string) :=
  now <- getNow ;;
  s <- get ;;
  if cacheFresh (vars s) now
  then ret (cookieCache (vars s))
  else
    tryCatch
      (response <- doFetch bootstrapRequest ;;
       let hs := setCookieHeaders response in
       (if (0 <? List.length hs)%nat
        then setVars {| cookieCache := Some (JS.join "; " (map cookiePair hs));
                        cookieCacheTime := now |}
        else ret tt) ;;;
       s' <- get ;;
       ret (cookieCache (vars s')))
      (fun _ => ret None).

(** [makeApiRequest] (src/index.js:110-124) *)
Definition makeApiRequest (url : string) (options : Options) : M St UpResponse :=
  cookies <- getCookies ;;
  doFetch (apiRequest url options cookies).

(** [await response.json()] *)
Definition responseJson (response : UpResponse) : M St Json :=
  match up_data response with
  | Some j => ret j
  | None => throw "Unexpected token in JSON"
  end.

(** [GET /api/homepage] (src/index.js:129-138) *)
Definition homepage : M St unit :=
  tryCatch
    (response <- makeApiRequest (HOST_URL ++ "/wefeed-h5-bff/web/home") noOptions ;;
     data <- responseJson response ;;
     let content := processApiResponse data in
     resJson (successJson content))
    (fun message => resStatus 500 ;;; resJson (errorJson message)).

(** The condition under which [/api/stream] answers 400, on a present
    [url]. *)
Definition invalidStreamUrl (streamUrl : string) : bool :=
  negb (JS.strTruthy streamUrl)
  || (negb (JS.startsWith streamUrl "https://bcdnxw.hakunaymatata.com/")
      && negb (JS.startsWith streamUrl "https://valiw.hakunaymatata.com/")
      && negb (JS.startsWith streamUrl "https://bcdnw.hakunaymatata.com/")).

Definition rejectStream : M St unit :=
  resStatus 400 ;;; resJson (errorJson "Invalid stream URL").

(** [GET /api/stream] (src/index.js:288-363) *)
Definition stream (req : InRequest) : M St unit :=
  tryCatch
    (match q_url req with
     | None => rejectStream
     | Some streamUrl =>
         if invalidStreamUrl streamUrl then rejectStream
         else
           let range := h_range req in
           headResponse <- doFetch (HEAD streamUrl cdnHeaders) ;;
           let fileSize :=
             JS.parseIntOpt "null" (h_get (up_headers headResponse) "content-length") 0 in
           let contentType :=
             JS.orElse (h_get (up_headers headResponse) "content-type") "video/mp4" in
           if negb (JS.numTruthy fileSize)
           then resStatus 500 ;;;
                resJson (JObj [("message", JStr "Could not determine file size")])
           else
             let serveFull :=
               let headers :=
                 [("Content-Length", JS.numToString fileSize);
                  ("Content-Type", contentType);
                  ("Accept-Ranges", "bytes")] in
               resWriteHead 200 headers ;;;
               videoResponse <- doFetch (GET streamUrl cdnHeaders) ;;
               resPipe (up_body videoResponse) in
             match range with
             | None => serveFull
             | Some range =>
                 if negb (JS.strTruthy range) then serveFull
                 else
                   let '(start, end_) := rangeWindow range fileSize in
                   if JS.ge start fileSize || JS.gt start end_
                   then resStatus 416 ;;;
                        resSetHeader "Content-Range"
                          ("bytes */" ++ JS.numToString fileSize) ;;;
                        resSend
                   else
                     let chunkSize := JS.add (JS.sub end_ start) (JS.Num 1) in
                     let headers :=
                       [("Content-Range",
                          "bytes " ++ JS.numToString start ++ "-" ++ JS.numToString end_
                                   ++ "/" ++ JS.numToString fileSize);
                        ("Accept-Ranges", "bytes");
                        ("Content-Length", JS.numToString chunkSize);
                        ("Content-Type", contentType)] in
                     resWriteHead 206 headers ;;;
                     videoResponse <-
                       doFetch (GET streamUrl (rangeHeaders start end_)) ;;
                     resPipe (up_body videoResponse)
             end
     end)
    (fun _ =>
       s <- get ;;
       if negb (headersSent (res s))
       then resStatus 500 ;;; resJson (JObj [("message", JStr "Stream error")])
       else ret tt).

(** [GET /api/download] (src/index.js:366-423) *)
Definition download (req : InRequest) : M St unit :=
  tryCatch
    (match q_url req with
     | Some (String _ _ as downloadUrl) =>  (* a url that is present and not empty *)
         let filename := baseFilename req in
         let filename :=
           if negb (JS.endsWith filename ".mp4") then filename ++ ".mp4" else filename in
         headResponse <- doFetch (HEAD downloadUrl cdnHeaders) ;;
         let fileSize := h_get (up_headers headResponse) "content-length" in
         let contentType :=
           JS.orElse (h_get (up_headers headResponse) "content-type") "video/mp4" in
         resSetHeaderChecked "Content-Disposition" (contentDisposition filename) ;;;
         resSetHeader "Content-Type" contentType ;;;
         (if JS.optTruthy fileSize
          then resSetHeader "Content-Length" (JS.orElse fileSize "")
          else ret tt) ;;;
         response <- doFetch (GET downloadUrl cdnHeaders) ;;
         resPipe (up_body response)
     | _ => resStatus 400 ;;; resJson (JObj [("message", JStr "No URL provided")])
     end)
    (fun message =>
       s <- get ;;
       if negb (headersSent (res s))
       then resStatus 500 ;;; resJson (JObj [("message", JStr message)])
       else ret tt).

End Express.

(** ** The Cloudflare Worker (src/index.js, second document) *)
Module Worker.

Record Vars := { cookieCache : option string; cookieCacheTime : Z }.

Definition initial : Vars := {| cookieCache := None; cookieCacheTime := 0 |}.

Record Response := { status : Z; headers : Obj; body : Body }.

Definition processApiResponse (data : Json) : Json :=
  if jsonTruthy data
  then match dataOf data with
       | Some d => if jsonTruthy d then d else data
       | None => data
       end
  else data.

Definition setVars (v : Vars) : M Vars unit := put v.

(** [getSetCookie()] or, without that method, the [set-cookie] entries of
    the iterated headers. *)
Definition setCookieHeaders (response : UpResponse) : list string :=
  match h_getSetCookie (up_headers response) with
  | Some arr => arr
  | None =>
      map snd
          (filter (fun kv => String.eqb (JS.toLowerCase (fst kv)) "set-cookie")
                  (h_entries (up_headers response)))
  end.

(** [cookieCache && (now - cookieCacheTime) < COOKIE_CACHE_DURATION] *)
Definition cacheFresh (v : Vars) (now : Z) : bool :=
  JS.optTruthy (cookieCache v) && (now - cookieCacheTime v <? COOKIE_CACHE_DURATION).

(** [getCookies] (src/index.js:515-557) *)
Definition getCookies : M Vars (option string) :=
  now <- getNow ;;
  v <- get ;;
  if cacheFresh v now
  then ret (cookieCache v)
  else
    tryCatch
      (response <- doFetch bootstrapRequest ;;
       let hs := setCookieHeaders response in
       (if (0 <? List.length hs)%nat
        then setVars {| cookieCache := Some (JS.join "; " (map cookiePair hs));
                        cookieCacheTime := now |}
        else ret tt) ;;;
       v' <- get ;;
       ret (cookieCache v'))
      (fun _ => ret None).

(** [makeApiRequest] (src/index.js:559-573) *)
Definition makeApiRequest (url : string) (options : Options) : M Vars UpResponse :=
  cookies <- getCookies ;;
  doFetch (apiRequest url options cookies).

Definition corsHeaders : Obj :=
  [("Access-Control-Allow-Origin", "*");
   ("Access-Control-Allow-Methods", "GET, POST, PUT, DELETE, OPTIONS");
   ("Access-Control-Allow-Headers",
     "Origin, X-Requested-With, Content-Type, Accept, Authorization")].

(** [new Response(JSON.stringify(j), {status, headers: {'Content-Type':
    'application/json', ...corsHeaders()}})] *)
Definition jsonResponse (st : Z) (j : Json) : Response :=
  {| status := st;
     headers := spread [("Content-Type", "application/json")] corsHeaders;
     body := BodyJson j |}.

Definition responseJson (response : UpResponse) : M Vars Json :=
  match up_data response with
  | Some j => ret j
  | None => throw "Unexpected token in JSON"
  end.

(** [handleHomepage] (src/index.js:591-605) *)
Definition handleHomepage : M Vars Response :=
  response <- makeApiRequest (HOST_URL ++ "/wefeed-h5-bff/web/home") noOptions ;;
  data <- responseJson response ;;
  let content := processApiResponse data in
  ret (jsonResponse 200 (successJson content)).

(** The condition under which a target url is answered 400, on a present
    [url]; the same in [handleStream] and [handleDownload]. *)
Definition invalidUrl (url : string) : bool :=
  negb (JS.strTruthy url)
  || (negb (JS.startsWith url "https://bcdnw.hakunaymatata.com/")
      && negb (JS.startsWith url "https://valiw.hakunaymatata.com/")).

Definition noFileSize : Response :=
  jsonResponse 500 (errorJson "Could not determine file size").

Definition notSatisfiable (fileSize : JS.num) : Response :=
  {| status := 416;
     headers :=
       spread [("Content-Range", "bytes */" ++ JS.numToString fileSize);
               ("Content-Type", "application/json")] corsHeaders;
     body := BodyJson (errorJson "Range not satisfiable") |}.

(** [handleStream] (src/index.js:796-908) *)
Definition handleStream (req : InRequest) : M Vars Response :=
  let reject := ret (jsonResponse 400 (errorJson "Invalid stream URL")) in
  match q_url req with
  | None => reject
  | Some streamUrl =>
      if invalidUrl streamUrl then reject
      else
        let range := h_range req in
        headResponse <- doFetch (HEAD streamUrl cdnHeaders) ;;
        let fileSize :=
          JS.parseIntOpt "null" (h_get (up_headers headResponse) "content-length") 0 in
        let contentType :=
          JS.orElse (h_get (up_headers headResponse) "content-type") "video/mp4" in
        if negb (JS.numTruthy fileSize) || JS.isNaN fileSize then ret noFileSize
        else
          let serveFull :=
            response <- doFetch (GET streamUrl cdnHeaders) ;;
            ret {| status := 200;
                   headers :=
                     spread [("Content-Type", contentType);
                             ("Content-Length", JS.numToString fileSize);
                             ("Accept-Ranges", "bytes");
                             ("Cache-Control", "no-cache")] corsHeaders;
                   body := BodyPipe (up_body response) |} in
          match range with
          | None => serveFull
          | Some range =>
              if negb (JS.strTruthy range) then serveFull
              else
                let '(start, end_) := rangeWindow range fileSize in
                if rangeInvalid start end_ fileSize then ret (notSatisfiable fileSize)
                else
                  let chunkSize := JS.add (JS.sub end_ start) (JS.Num 1) in
                  response <- doFetch (GET streamUrl (rangeHeaders start end_)) ;;
                  ret {| status := 206;
                         headers :=
                           spread
                             [("Content-Type", contentType);
                              ("Content-Length", JS.numToString chunkSize);
                              ("Content-Range",
                                "bytes " ++ JS.numToString start ++ "-"
                                         ++ JS.numToString end_ ++ "/"
                                         ++ JS.numToString fileSize);
                              ("Accept-Ranges", "bytes");
                              ("Cache-Control", "no-cache")] corsHeaders;
                         body := BodyPipe (up_body response) |}
          end
  end.

(** [new Response(body, {status, headers})] for headers that hold the name
    of a download, which comes from the request: the constructor throws a
    TypeError on a header value it refuses. *)
Definition newResponse (filename : string) (r : Response) : M Vars Response :=
  if JS.fetchHeaderValue (contentDisposition filename)
  then ret r
  else throw "Invalid header value".

(** [handleDownload] (src/index.js:910-1043) *)
Definition handleDownload (req : InRequest) : M Vars Response :=
  let reject := ret (jsonResponse 400 (errorJson "Invalid download URL")) in
  match q_url req with
  | None => reject
  | Some downloadUrl =>
      if invalidUrl downloadUrl then reject
      else
        let filename := baseFilename req ++ ".mp4" in
        let range := h_range req in
        headResponse <- doFetch (HEAD downloadUrl cdnHeaders) ;;
        let fileSize :=
          JS.parseIntOpt "null" (h_get (up_headers headResponse) "content-length") 0 in
        let contentType :=
          JS.orElse (h_get (up_headers headResponse) "content-type") "video/mp4" in
        if negb (JS.numTruthy fileSize) || JS.isNaN fileSize then ret noFileSize
        else
          let serveFull :=
            response <- doFetch (GET downloadUrl cdnHeaders) ;;
            newResponse filename
              {| status := 200;
                 headers :=
                   spread [("Content-Type", contentType);
                           ("Content-Length", JS.numToString fileSize);
                           ("Content-Disposition", contentDisposition filename);
                           ("Accept-Ranges", "bytes")] corsHeaders;
                 body := BodyPipe (up_body response) |} in
          match range with
          | None => serveFull
          | Some range =>
              if negb (JS.strTruthy range) then serveFull
              else
                let '(start, end_) := rangeWindow range fileSize in
                if rangeInvalid start end_ fileSize then ret (notSatisfiable fileSize)
                else
                  let chunkSize := JS.add (JS.sub end_ start) (JS.Num 1) in
                  response <- doFetch (GET downloadUrl (rangeHeaders start end_)) ;;
                  newResponse filename
                    {| status := 206;
                       headers :=
                         spread
                           [("Content-Type", contentType);
                            ("Content-Length", JS.numToString chunkSize);
                            ("Content-Range",
                              "bytes " ++ JS.numToString start ++ "-"
                                       ++ JS.numToString end_ ++ "/"
                                       ++ JS.numToString fileSize);
                            ("Content-Disposition", contentDisposition filename);
                            ("Accept-Ranges", "bytes")] corsHeaders;
                       body := BodyPipe (up_body response) |}
          end
  end.

(** The routes of the exported [fetch] handler that are modelled. *)
Inductive Route := RHomepage | RStream | RDownload | RUnknown.

Definition notFound : Response :=
  jsonResponse 404
    (JObj [("status", JStr "error");
           ("message", JStr "Endpoint not found");
           ("availableEndpoints",
             JArr [JStr "GET /api/homepage"; JStr "GET /api/trending";
                   JStr "GET /api/search/:query"; JStr "GET /api/info/:movieId";
                   JStr "GET /api/sources/:movieId"; JStr "GET /api/stream?url=...";
                   JStr "GET /api/download?url=..."])]).

Definition dispatch (route : Route) (req : InRequest) : M Vars Response :=
  match route with
  | RHomepage => handleHomepage
  | RStream => handleStream req
  | RDownload => handleDownload req
  | RUnknown => ret notFound
  end.

(** The exported [fetch(request, env, ctx)] (src/index.js:1193-1273) on a
    GET request: the routes inside [try], and the [catch] that answers 500. *)
Definition fetchHandler (route : Route) (req : InRequest) : M Vars Response :=
  tryCatch (dispatch route req)
    (fun message =>
       ret (jsonResponse 500
              (JObj [("status", JStr "error");
                     ("message", JStr "Internal server error");
                     ("error", JStr message)]))).

(** One request served by the Worker.  [fetchHandler] always returns a
    response ([fetchHandler_answers]), so the last case is never taken. *)
Definition serve (route : Route) (req : InRequest) (e : Env) (v : Vars)
           (log : list Request) : Seen Vars :=
  match fetchHandler route req e {| user := v; calls := log |} with
  | (Ok r, s) =>
      {| seenStatus := status r; seenHeaders := headers r; seenBody := body r;
         seenCalls := calls s; seenVars := user s |}
  | (Throw _, s) =>
      {| seenStatus := 500; seenHeaders := []; seenBody := BodyNone;
         seenCalls := calls s; seenVars := user s |}
  end.

End Worker.

(** ** The Express server on axios (src/unnamed/part_000) *)
Module Axios.

(** What [processApiResponse] returns: JSON data or the response object
    itself. *)
Inductive Payload := PJson (j : Json) | PResponse (r : UpResponse).

(** [movieboxAppInfo] is written by the bootstrap and read nowhere; the
    cookie jar belongs to the axios wrapper and is not part of the state. *)
Record Vars := { movieboxAppInfo : option Payload; cookiesInitialized : bool }.

Definition initial : Vars := {| movieboxAppInfo := None; cookiesInitialized := false |}.

Abbreviation St := (State Vars).

(** [response.data]: the parsed body, or the text of a body that is not
    JSON. *)
Definition dataField (response : UpResponse) : Json :=
  match up_data response with
  | Some j => j
  | None => JStr (up_body response)
  end.

Definition processApiResponse (response : UpResponse) : Payload :=
  let data := dataField response in
  match dataOf data with
  | Some d =>
      if jsonTruthy data && jsonTruthy d then PJson d
      else if jsonTruthy data then PJson data else PResponse response
  | None => if jsonTruthy data then PJson data else PResponse response
  end.

(** [ensureCookiesAreAssigned] (part_000:92-115) *)
Definition ensureCookiesAreAssigned : M St bool :=
  s <- get ;;
  (if negb (cookiesInitialized (vars s))
   then tryCatch
          (response <- doFetch bootstrapRequest ;;
           setVars {| movieboxAppInfo := Some (processApiResponse response);
                      cookiesInitialized := true |})
          (fun message => throw message)
   else ret tt) ;;;
  s' <- get ;;
  ret (cookiesInitialized (vars s')).

(** [res.json({status: 'success', data: content})].  The response object
    of axios, which [processApiResponse] returns when the data are falsy,
    holds a circular structure, on which [JSON.stringify] throws. *)
Definition resSuccess (content : Payload) : M St unit :=
  match content with
  | PJson j => resJson (successJson j)
  | PResponse _ => throw "Converting circular structure to JSON"
  end.

(** [makeApiRequest] (part_000:117-134), on the [headers] and [method] of
    its options: a [headers] key of [options] replaces the merged headers,
    because [...options] is spread last.  The call of axios is logged with
    its config. *)
Definition makeApiRequest (url : string) (headers : option Obj) (method : option string)
  : M St UpResponse :=
  ensureCookiesAreAssigned ;;;
  let config :=
    {| rq_url := url;
       rq_method := match method with Some m => m | None => "GET" end;
       rq_headers :=
         match headers with
         | Some h => h
         | None => spread DEFAULT_HEADERS []
         end;
       rq_body := None |} in
  tryCatch (doFetch config) (fun message => throw message).

(** [GET /api/homepage] (part_000:417-434) *)
Definition homepage : M St unit :=
  tryCatch
    (response <- makeApiRequest (HOST_URL ++ "/wefeed-h5-bff/web/home") None None ;;
     resSuccess (processApiResponse response))
    (fun message =>
       resStatus 500 ;;;
       resJson (JObj [("status", JStr "error");
                      ("message", JStr "Failed to fetch homepage content");
                      ("error", JStr message)])).

Definition invalidUrl (url : string) : bool :=
  negb (JS.strTruthy url)
  || (negb (JS.startsWith url "https://bcdnw.hakunaymatata.com/")
      && negb (JS.startsWith url "https://valiw.hakunaymatata.com/")).

(** The first match of [/bytes \d+-\d+\/(\d+)/] and its group. *)
Definition isDigit (c : ascii) : bool := (48 <=? JS.code c) && (JS.code c <=? 57).

Fixpoint takeDigits (s : string) : string * string :=
  match s with
  | String c r =>
      if isDigit c then let '(d, rest) := takeDigits r in (String c d, rest)
      else (EmptyString, s)
  | EmptyString => (EmptyString, EmptyString)
  end.

Definition matchHere (s : string) : option string :=
  if String.prefix "bytes " s then
    let '(d1, r1) := takeDigits (JS.drop 6 s) in
    match d1, r1 with
    | String _ _, String "-" r2 =>
        let '(d2, r3) := takeDigits r2 in
        match d2, r3 with
        | String _ _, String "/" r4 =>
            match fst (takeDigits r4) with
            | String _ _ as d3 => Some d3
            | EmptyString => None
            end
        | _, _ => None
        end
    | _, _ => None
    end
  else None.

Fixpoint matchContentRange (s : string) : option string :=
  match matchHere s with
  | Some g => Some g
  | None =>
      match s with
      | String _ r => matchContentRange r
      | EmptyString => None
      end
  end.

(** The probe of the stream handler: HEAD, and when that call fails a GET
    of [bytes=0-0].  An unassigned [fileSize] ([undefined]) is [NaN] here:
    both are falsy and the value is only tested before it is used. *)
Definition probe (streamUrl : string) : M St (JS.num * string) :=
  tryCatch
    (headResponse <- doFetch (HEAD streamUrl cdnHeaders) ;;
     ret (JS.parseIntOpt "undefined" (h_get (up_headers headResponse) "content-length") 0,
          JS.orElse (h_get (up_headers headResponse) "content-type") "video/mp4"))
    (fun _ =>
       testResponse <-
         doFetch (GET streamUrl (app cdnHeaders [("Range", "bytes=0-0")])) ;;
       let fileSize :=
         match h_get (up_headers testResponse) "content-range" with
         | Some contentRange =>
             if JS.strTruthy contentRange
             then match matchContentRange contentRange with
                  | Some g => JS.parseInt g 0
                  | None => JS.NaN
                  end
             else JS.NaN
         | None => JS.NaN
         end in
       ret (fileSize,
            JS.orElse (h_get (up_headers testResponse) "content-type") "video/mp4")).

(** [GET /api/stream] (part_000:663-823) *)
Definition stream (req : InRequest) : M St unit :=
  tryCatch
    (let streamUrl := JS.orElse (q_url req) "" in
     if invalidUrl streamUrl
     then resStatus 400 ;;; resJson (errorJson "Invalid stream URL")
     else
       let range := h_range req in
       p <- probe streamUrl ;;
       let '(fileSize, contentType) := p in
       if negb (JS.numTruthy fileSize) || JS.isNaN fileSize
       then throw "Could not determine file size"
       else
         let serveFull :=
           response <- doFetch (GET streamUrl cdnHeaders) ;;
           resStatus 200 ;;;
           resSet [("Content-Type", contentType);
                   ("Content-Length", JS.numToString fileSize);
                   ("Accept-Ranges", "bytes");
                   ("Cache-Control", "no-cache")] ;;;
           resPipe (up_body response) in
         match range with
         | None => serveFull
         | Some range =>
             if negb (JS.strTruthy range) then serveFull
             else
               let '(start, end_) := rangeWindow range fileSize in
               if rangeInvalid start end_ fileSize
               then resStatus 416 ;;;
                    resSet [("Content-Range", "bytes */" ++ JS.numToString fileSize)] ;;;
                    resJson (errorJson "Range not satisfiable")
               else
                 let chunkSize := JS.add (JS.sub end_ start) (JS.Num 1) in
                 response <- doFetch (GET streamUrl (rangeHeaders start end_)) ;;
                 resStatus 206 ;;;
                 resSet [("Content-Type", contentType);
                         ("Content-Length", JS.numToString chunkSize);
                         ("Content-Range",
                           "bytes " ++ JS.numToString start ++ "-"
                                    ++ JS.numToString end_ ++ "/"
                                    ++ JS.numToString fileSize);
                         ("Accept-Ranges", "bytes");
                         ("Cache-Control", "no-cache")] ;;;
                 resPipe (up_body response)
         end)
    (fun message =>
       s <- get ;;
       if negb (headersSent (res s))
       then resStatus 500 ;;;
            resJson (JObj [("status", JStr "error");
                           ("message", JStr "Failed to stream video");
                           ("error", JStr message)])
       else ret tt).

(** A header value that may be [undefined], as [res.set] writes it. *)
Definition headerString (o : option string) : string :=
  match o with Some s => s | None => "undefined" end.

(** [GET /api/download] (part_000:836-920).  The one [res.set({...})] sets
    its three headers in order; the last holds the name of the download. *)
Definition download (req : InRequest) : M St unit :=
  tryCatch
    (let reject := resStatus 400 ;;; resJson (errorJson "Invalid download URL") in
     match q_url req with
     | None => reject
     | Some downloadUrl =>
         if invalidUrl downloadUrl then reject
         else
           let filename := baseFilename req ++ ".mp4" in
           response <- doFetch (GET downloadUrl cdnHeaders) ;;
           resSet [("Content-Type", headerString (h_get (up_headers response) "content-type"));
                   ("Content-Length",
                     headerString (h_get (up_headers response) "content-length"))] ;;;
           resSetHeaderChecked "Content-Disposition" (contentDisposition filename) ;;;
           resPipe (up_body response)
     end)
    (fun message =>
       resStatus 500 ;;;
       resJson (JObj [("status", JStr "error");
                      ("message", JStr "Failed to proxy download");
                      ("error", JStr message)])).

End Axios.

(** ** Stub upstreams for the examples *)
Module Stub.

Definition headersOf (contentLength : option string) (setCookie : list string) : Headers :=
  {| h_get := fun k => if String.eqb k "content-length" then contentLength else None;
     h_getSetCookie := Some setCookie;
     h_entries := map (fun c => ("set-cookie", c)) setCookie |}.

Definition response (contentLength : option string) (setCookie : list string)
  : UpResponse :=
  {| up_status := 200;
     up_headers := headersOf contentLength setCookie;
     up_body := "bytes";
     up_data := Some (JObj [("data", JObj [("items", JArr [])])]) |}.

(** An upstream that answers every call, with this [Content-Length] and
    these [Set-Cookie] headers. *)
Definition upstream (t : Z) (contentLength : option string) (setCookie : list string)
  : Env :=
  {| now := t; fetch := fun _ => FetchOk (response contentLength setCookie) |}.



(** An upstream that cannot be reached. *)
Definition unreachable (t : Z) : Env :=
  {| now := t; fetch := fun _ => FetchFail "fetch failed" |}.

Definition request (url : option string) (range : option string) : InRequest :=
  {| q_url := url; q_title := Some "Wednesday"; q_season := Some "1";
     q_episode := Some "1"; q_quality := Some "720p"; h_range := range |}.

Definition cdnUrl : string := "https://valiw.hakunaymatata.com/v/1.mp4".

Definition foreignUrl : string := "https://example.org/v/1.mp4".

End Stub.

(** ** Predicates used in the statements *)

(** Every character of [s] satisfies [p]. *)
Fixpoint strForall (p : ascii -> bool) (s : string) : bool :=
  match s with
  | EmptyString => true
  | String c r => p c && strForall p r
  end.

Definition isDecDigit (c : ascii) : bool :=
  match JS.digitVal c with Some d => d <? 10 | None => false end.

(** The window [start, end] can be served from a resource of [fileSize]
    bytes: [0 <= start <= end < fileSize]. *)
Definition Satisfiable (start end_ fileSize : JS.num) : Prop :=
  exists s e n, start = JS.Num s /\ end_ = JS.Num e /\ fileSize = JS.Num n
                /\ 0 <= s /\ s <= e /\ e < n.

(** A header of a response, by its exact name. *)
Definition header (name : string) (hs : Obj) : option string := objGet name hs.

(** The length and the type read from the answer [hr] to the probe;
    [absent] is how a missing header reads, ["null"] or ["undefined"]. *)
Definition lengthOf (absent : string) (hr : UpResponse) : JS.num :=
  JS.parseIntOpt absent (h_get (up_headers hr) "content-length") 0.

Definition typeOf (hr : UpResponse) : string :=
  JS.orElse (h_get (up_headers hr) "content-type") "video/mp4".

(** The metadata probe of [url] is answered by [hr], whose [Content-Length]
    reads as [n]. *)
Definition Probed (e : Env) (url : string) (hr : UpResponse) (n : Z) : Prop :=
  fetch e (HEAD url cdnHeaders) = FetchOk hr /\ lengthOf "null" hr = JS.Num n.

(** The answer of the axios stream handler to a failure [m] caught before
    the headers are sent. *)
Definition streamFailed (v : Axios.Vars) (m : string) (log : list Request)
  : Seen Axios.Vars :=
  {| seenStatus := 500;
     seenHeaders := [];
     seenBody :=
       BodyJson (JObj [("status", JStr "error");
                       ("message", JStr "Failed to stream video");
                       ("error", JStr m)]);
     seenCalls := log;
     seenVars := v |}.

(** The answer 200 that pipes [body], the whole resource of [n] bytes, after
    the upstream calls [log]. *)
Definition Whole {V} (x : Seen V) (n : Z) (body : string) (log : list Request) : Prop :=
  seenStatus x = 200
  /\ header "Content-Length" (seenHeaders x) = Some (JS.numToString (JS.Num n))
  /\ header "Accept-Ranges" (seenHeaders x) = Some "bytes"
  /\ header "Content-Range" (seenHeaders x) = None
  /\ seenBody x = BodyPipe body
  /\ seenCalls x = log.

(** The framing of a response that serves the window [[s, e]] of [n] bytes:
    200 or 206, [Content-Length] and, on a partial response,
    [Content-Range]. *)
Definition Framing {V} (x : Seen V) (partial : bool) (s e n : Z) : Prop :=
  seenStatus x = (if partial then 206 else 200)
  /\ header "Content-Length" (seenHeaders x) = Some (JS.numToString (JS.Num (e - s + 1)))
  /\ (partial = true ->
      header "Content-Range" (seenHeaders x)
      = Some ("bytes " ++ JS.numToString (JS.Num s) ++ "-" ++ JS.numToString (JS.Num e)
                       ++ "/" ++ JS.numToString (JS.Num n))).

(** The answer 416 for a resource of [n] bytes. *)
Definition Unsatisfied {V} (x : Seen V) (n : Z) : Prop :=
  seenStatus x = 416
  /\ header "Content-Range" (seenHeaders x) = Some ("bytes */" ++ JS.numToString (JS.Num n)).

(** The request [req] with another [Range] header. *)
Definition withRange (range : option string) (req : InRequest) : InRequest :=
  {| q_url := q_url req; q_title := q_title req; q_season := q_season req;
     q_episode := q_episode req; q_quality := q_quality req; h_range := range |}.

(** The store after one more upstream call. *)
Definition logged {S} (rq : Request) (s : Store S) : Store S :=
  {| user := user s; calls := (calls s ++ [rq])%list |}.

(** ** Predicates used in the further properties *)

(** [t] is empty or does not begin with a decimal digit. *)
Definition noDigitAhead (t : string) : bool :=
  match t with
  | EmptyString => true
  | String c _ => negb (isDecDigit c)
  end.

(** A partial answer whose window lies within the resource: some
    [0 <= s <= t < n] with [Content-Range: bytes s-t/n] and [Content-Length]
    [t - s + 1], the body being asked upstream with [Range: bytes=s-t]. *)
Definition WithinResource {V} (x : Seen V) : Prop :=
  exists s t n url,
    0 <= s /\ s <= t /\ t < n
    /\ header "Content-Range" (seenHeaders x)
       = Some ("bytes " ++ JS.numToString (JS.Num s) ++ "-" ++ JS.numToString (JS.Num t)
                        ++ "/" ++ JS.numToString (JS.Num n))
    /\ header "Content-Length" (seenHeaders x)
       = Some (JS.numToString (JS.Num (t - s + 1)))
    /\ last (seenCalls x) (GET "" []) = GET url (rangeHeaders (JS.Num s) (JS.Num t)).

(** No two underscores follow each other in [s]; [prev] tells whether an
    underscore precedes [s]. *)
Fixpoint noDouble (prev : bool) (s : string) : bool :=
  match s with
  | EmptyString => true
  | String c r =>
      if Ascii.eqb "_" c then negb prev && noDouble true r else noDouble false r
  end.

(** A character a sanitized name may hold: not removed by the first step
    and not white space. *)
Definition plain (c : ascii) : bool := negb (hostile c) && negb (JS.isWhite c).

(** [url] starts with one of [prefixes]. *)
Definition startsWithOneOf (prefixes : list string) (url : string) : bool :=
  existsb (JS.startsWith url) prefixes.

(** The upstream calls one stream or download request adds to the log, with
    the status it is answered with: the calls [probe] that look for the
    length alone, or followed by one call for the body, whole or in part. *)
Inductive Traffic (url : string) (probe : list Request) : Z -> list Request -> Prop :=
| TrafficProbe status :
    status = 500 \/ status = 416 -> Traffic url probe status probe
| TrafficWhole status :
    status = 200 \/ status = 500 ->
    Traffic url probe status (probe ++ [GET url cdnHeaders])%list
| TrafficPart status start end_ :
    status = 206 \/ status = 500 ->
    Traffic url probe status (probe ++ [GET url (rangeHeaders start end_)])%list.

(** What a handler that proxies [q_url req] did on one request: it answered
    400 without a call, or the url passed the check [allowed] and the calls
    are a [Traffic] to it. *)
Definition Proxied {V} (allowed : string -> bool) (probes : string -> list (list Request))
           (req : InRequest) (log : list Request) (x : Seen V) : Prop :=
  (seenStatus x = 400 /\ seenCalls x = log)
  \/ exists url probe new,
       q_url req = Some url /\ allowed url = true /\ In probe (probes url)
       /\ seenCalls x = (log ++ new)%list
       /\ Traffic url probe (seenStatus x) new.

(** The metadata probe of the fetch variants, and the two forms of the
    probe of the axios stream handler. *)
Definition headProbe (url : string) : list (list Request) :=
  [[HEAD url cdnHeaders]].

Definition axiosProbe (url : string) : list (list Request) :=
  [[HEAD url cdnHeaders];
   [HEAD url cdnHeaders; GET url (app cdnHeaders [("Range", "bytes=0-0")])]].

Definition noProbe (url : string) : list (list Request) := [[]].

(** Every call of [new] asks for the url of the request, with GET or HEAD,
    at one of [prefixes], and carries no [Cookie] header. *)
Definition ToCdn (prefixes : list string) (req : InRequest) (new : list Request) : Prop :=
  Forall (fun rq =>
            q_url req = Some (rq_url rq)
            /\ startsWithOneOf prefixes (rq_url rq) = true
            /\ (rq_method rq = "GET" \/ rq_method rq = "HEAD")
            /\ header "Cookie" (rq_headers rq) = None) new.

(** What the status of an answer tells about the calls made for it: none
    for a 400, the probe alone for a 416, the probe and one call for the
    whole body for a 200, the probe and one call with a [Range] header for a
    206; and no other status than these and 500 occurs. *)
Definition Economy {V} (probes : string -> list (list Request))
           (req : InRequest) (log : list Request) (x : Seen V) : Prop :=
  (seenStatus x = 400 -> seenCalls x = log)
  /\ (seenStatus x = 416 ->
      exists url probe,
        q_url req = Some url /\ In probe (probes url)
        /\ seenCalls x = (log ++ probe)%list)
  /\ (seenStatus x = 200 ->
      exists url probe,
        q_url req = Some url /\ In probe (probes url)
        /\ seenCalls x = (log ++ probe ++ [GET url cdnHeaders])%list)
  /\ (seenStatus x = 206 ->
      exists url probe start end_,
        q_url req = Some url /\ In probe (probes url)
        /\ seenCalls x = (log ++ probe ++ [GET url (rangeHeaders start end_)])%list)
  /\ In (seenStatus x) [200; 206; 400; 416; 500].




(** [t] is empty or does not begin with a digit of the pattern [\d]. *)
Definition noDigitNext (t : string) : bool :=
  match t with
  | EmptyString => true
  | String c _ => negb (Axios.isDigit c)
  end.

(** An upstream that refuses HEAD and answers every GET with the
    [Content-Range] of the first byte of [n]. *)
Definition noHead (n : string) : Env :=
  {| now := 0;
     fetch := fun rq =>
       if String.eqb (rq_method rq) "HEAD"
       then FetchFail "Request failed with status code 405"
       else FetchOk {| up_status := 206;
                       up_headers :=
                         {| h_get := fun k =>
                              if String.eqb k "content-range"
                              then Some ("bytes 0-0/" ++ n) else None;
                            h_getSetCookie := None;
                            h_entries := [] |};
                       up_body := "b";
                       up_data := None |} |}.

(** ** The catalog routes beyond the homepage *)

(** The code the search and info handlers of the fetch variants share
    verbatim: what they do to the content the upstream returned.  A value
    read from a document is a [Json]; [None] stands for [undefined]. *)
Module Catalog.

(** Truthiness of a value that may be [undefined]. *)
Definition truthy (o : option Json) : bool :=
  match o with Some j => jsonTruthy j | None => false end.

(** [x[k] = v] on the fields of an object: an existing key keeps its
    place, a new one comes last. *)
Fixpoint fieldSet (k : string) (v : Json) (fs : list (string * Json))
  : list (string * Json) :=
  match fs with
  | [] => [(k, v)]
  | (k', v') :: r => if String.eqb k k' then (k, v) :: r else (k', v') :: fieldSet k v r
  end.

(** [x?.k]: [undefined] on [null] and [undefined]; a value that is not an
    object has none of the properties the handlers read. *)
Definition optProp (x : option Json) (k : string) : option Json :=
  match x with
  | Some (JObj fs) => fieldOf k fs
  | _ => None
  end.

(** [c && c.url], when it is truthy. *)
Definition urlOf (c : option Json) : option Json :=
  if truthy c && truthy (optProp c "url") then optProp c "url" else None.

Definition bindO {A B} (m : Outcome A) (k : A -> Outcome B) : Outcome B :=
  match m with
  | Ok a => k a
  | Throw message => Throw message
  end.

(** [l.forEach(f)] for an [f] that changes its argument in place, and
    [l.filter(f)]: the first exception ends the loop. *)
Fixpoint mapO {A B} (f : A -> Outcome B) (l : list A) : Outcome (list B) :=
  match l with
  | [] => Ok []
  | x :: r => bindO (f x) (fun y => bindO (mapO f r) (fun ys => Ok (y :: ys)))
  end.

Fixpoint filterO {A} (f : A -> Outcome bool) (l : list A) : Outcome (list A) :=
  match l with
  | [] => Ok []
  | x :: r =>
      bindO (f x) (fun keep =>
      bindO (filterO f r) (fun ys => Ok (if keep then x :: ys else ys)))
  end.

(** The message of the TypeError of V8 for a property read on [null]. *)
Definition nullRead (k : string) : string :=
  "Cannot read properties of null (reading '" ++ k ++ "')".

(** The two statements that give [item] its [thumbnail]:
    [if (item.cover && item.cover.url) item.thumbnail = item.cover.url;
     if (item.stills && item.stills.url && !item.thumbnail)
       item.thumbnail = item.stills.url;] *)
Definition fixThumbnail (item : Json) : Outcome Json :=
  match item with
  | JNull => Throw (nullRead "cover")
  | JObj fs =>
      let fs1 :=
        match urlOf (fieldOf "cover" fs) with
        | Some u => fieldSet "thumbnail" u fs
        | None => fs
        end in
      let fs2 :=
        match urlOf (fieldOf "stills" fs1) with
        | Some u =>
            if negb (truthy (fieldOf "thumbnail" fs1))
            then fieldSet "thumbnail" u fs1 else fs1
        | None => fs1
        end in
      Ok (JObj fs2)
  | _ => Ok item
  end.

(** [item.subjectType === subjectType] *)
Definition hasType (subjectType : Z) (item : Json) : Outcome bool :=
  match item with
  | JNull => Throw (nullRead "subjectType")
  | JObj fs =>
      Ok (match fieldOf "subjectType" fs with
          | Some (JNum z) => z =? subjectType
          | _ => false
          end)
  | _ => Ok false
  end.

(** What the search handlers do to [content]: the filter by type when a
    type is asked for, then the thumbnails
    (src/index.js:185-195, 657-672). *)
Definition postSearch (subjectType : Z) (content : Json) : Outcome Json :=
  match content with
  | JNull => Throw (nullRead "items")
  | JObj fs =>
      bindO
        (if negb (subjectType =? 0) && truthy (fieldOf "items" fs)
         then match fieldOf "items" fs with
              | Some (JArr l) =>
                  bindO (filterO (hasType subjectType) l)
                        (fun l' => Ok (fieldSet "items" (JArr l') fs))
              | _ => Throw "content.items.filter is not a function"
              end
         else Ok fs)
        (fun fs1 =>
           if truthy (fieldOf "items" fs1)
           then match fieldOf "items" fs1 with
                | Some (JArr l) =>
                    bindO (mapO fixThumbnail l)
                          (fun l' => Ok (JObj (fieldSet "items" (JArr l') fs1)))
                | _ => Throw "content.items.forEach is not a function"
                end
           else Ok (JObj fs1))
  | _ => Ok content
  end.

(** What the info handlers do to [content]: the thumbnail of
    [content.subject], by the two statements of [fixThumbnail]
    (src/index.js:211-214, 689-696). *)
Definition postInfo (content : Json) : Outcome Json :=
  match content with
  | JNull => Throw (nullRead "subject")
  | JObj fs =>
      if truthy (fieldOf "subject" fs)
      then match fieldOf "subject" fs with
           | Some subject =>
               bindO (fixThumbnail subject)
                     (fun subject' => Ok (JObj (fieldSet "subject" subject' fs)))
           | None => Ok content
           end
      else Ok content
  | _ => Ok content
  end.

(** [parseInt(x) || d] *)
Definition orNum (n : JS.num) (d : Z) : Z :=
  match n with
  | JS.Num z => if z =? 0 then d else z
  | JS.NaN => d
  end.

(** A pure step that may throw, inside a handler. *)
Definition liftO {S A} (o : Outcome A) : M S A := fun _ s => (o, s).

(** The query of a search request: the decoded [:query] of the path and the
    [page], [perPage] and [type] parameters. *)
Record SearchRequest := {
  s_query : string;
  s_page : option string;
  s_perPage : option string;
  s_type : option string
}.

Definition searchUrl : string := HOST_URL ++ "/wefeed-h5-bff/web/subject/search".

Definition detailUrl : string := HOST_URL ++ "/wefeed-h5-bff/web/subject/detail".

(** [String(x)], the conversion a template literal and [URLSearchParams]
    apply to a value: an array is the join of its elements, where [null]
    counts as the empty string. *)
Fixpoint display (j : Json) : string :=
  match j with
  | JNull => "null"
  | JBool true => "true"
  | JBool false => "false"
  | JNum z => JS.intToString z
  | JStr s => s
  | JArr l =>
      JS.join ","
        (map (fun x => match x with JNull => EmptyString | _ => display x end) l)
  | JObj _ => "[object Object]"
  end.

Definition displayOpt (o : option Json) : string :=
  match o with Some j => display j | None => "undefined" end.

(** An object literal as [JSON.stringify] shows it: a property whose value
    is [undefined] is left out. *)
Fixpoint literal (ps : list (string * option Json)) : list (string * Json) :=
  match ps with
  | [] => []
  | (k, Some v) :: r => (k, v) :: literal r
  | (_, None) :: r => literal r
  end.

(** [a || d] on values. *)
Definition orJson (o : option Json) (d : Json) : Json :=
  match o with
  | Some j => if jsonTruthy j then j else d
  | None => d
  end.

(** The request for the sources of a film or an episode: the [:movieId] of
    the path, the [season] and [episode] parameters and the
    [x-forwarded-proto] and [host] headers. *)
Record SourcesRequest := {
  r_movieId : string;
  r_season : option string;
  r_episode : option string;
  r_proto : option string;
  r_host : option string
}.

Definition trendingUrl : string := HOST_URL ++ "/wefeed-h5-bff/web/subject/trending".

Definition downloadUrl : string := HOST_URL ++ "/wefeed-h5-bff/web/subject/download".

Section Library.

(** Functions of the platform that are taken as they are: [JSON.stringify]
    and the encoding of one value by [URLSearchParams]. *)
Variable stringify : Json -> string.
Variable formEncode : string -> string.

(** The options of the search request for [payload]. *)
Definition searchOptions (payload : Json) : Options :=
  {| o_method := Some "POST";
     o_headers := [("Content-Type", "application/json")];
     o_body := Some (stringify payload) |}.

(** [new URLSearchParams({ subjectId: movieId })] after the detail url. *)
Definition infoUrl (movieId : string) : string :=
  detailUrl ++ "?subjectId=" ++ formEncode movieId.

(** [handleSearch] of the Worker (src/index.js:633-681). *)
Definition handleSearch (rq : SearchRequest) : M Worker.Vars Worker.Response :=
  let page := orNum (JS.parseIntOpt "null" (s_page rq) 0) 1 in
  let perPage := orNum (JS.parseIntOpt "null" (s_perPage rq) 0) 24 in
  let subjectType := orNum (JS.parseIntOpt "null" (s_type rq) 0) 0 in
  let payload :=
    JObj [("keyword", JStr (s_query rq)); ("page", JNum page);
          ("perPage", JNum perPage); ("subjectType", JNum subjectType)] in
  response <- Worker.makeApiRequest searchUrl (searchOptions payload) ;;
  data <- Worker.responseJson response ;;
  content <- liftO (postSearch subjectType (Worker.processApiResponse data)) ;;
  ret (Worker.jsonResponse 200 (successJson content)).

(** [handleInfo] of the Worker (src/index.js:683-707). *)
Definition handleInfo (movieId : string) : M Worker.Vars Worker.Response :=
  response <- Worker.makeApiRequest (infoUrl movieId) noOptions ;;
  data <- Worker.responseJson response ;;
  content <- liftO (postInfo (Worker.processApiResponse data)) ;;
  ret (Worker.jsonResponse 200 (successJson content)).

(** [handleTrending] of the Worker (src/index.js:607-631).
    [URLSearchParams] encodes the text of each value, for a number the text
    [String] gives; the names are letters, which it leaves as they are. *)
Definition handleTrending (page perPage : option string)
  : M Worker.Vars Worker.Response :=
  let page := orNum (JS.parseIntOpt "null" page 0) 0 in
  let perPage := orNum (JS.parseIntOpt "null" perPage 0) 18 in
  let params :=
    "page=" ++ formEncode (JS.intToString page)
            ++ "&perPage=" ++ formEncode (JS.intToString perPage)
            ++ "&uid=" ++ formEncode "5591179548772780352" in
  response <- Worker.makeApiRequest (trendingUrl ++ "?" ++ params) noOptions ;;
  data <- Worker.responseJson response ;;
  let content := Worker.processApiResponse data in
  ret (Worker.jsonResponse 200 (successJson content)).

Variable encodeURIComponent : string -> string.

(** The referer of the request for the sources. *)
Definition refererUrl (detailPath : Json) (movieId : string) : string :=
  "https://fmoviesunblocked.net/spa/videoPlayPage/movies/" ++ display detailPath
    ++ "?id=" ++ movieId ++ "&type=/movie/detail".

Definition sourcesOptions (detailPath : Json) (movieId : string) : Options :=
  {| o_method := None;
     o_headers := [("Referer", refererUrl detailPath movieId);
                   ("Origin", "https://fmoviesunblocked.net")];
     o_body := None |}.

(** The entry of [processedSources] for one [file] of the downloads. *)
Definition processSource (baseUrl : string) (title : Json) (season episode : Z)
           (file : Json) : Outcome Json :=
  match file with
  | JNull => Throw (nullRead "url")
  | _ =>
      let url := optProp (Some file) "url" in
      let quality := orJson (optProp (Some file) "resolution") (JStr "Unknown") in
      let downloadParams :=
        "url=" ++ formEncode (displayOpt url)
               ++ "&title=" ++ formEncode (display title)
               ++ "&quality=" ++ formEncode (display quality) in
      let downloadParams :=
        if (0 <? season) && (0 <? episode)
        then downloadParams ++ "&season=" ++ formEncode (JS.intToString season)
                            ++ "&episode=" ++ formEncode (JS.intToString episode)
        else downloadParams in
      Ok (JObj (literal
                  [("id", optProp (Some file) "id");
                   ("quality", Some quality);
                   ("directUrl", url);
                   ("downloadUrl",
                     Some (JStr (baseUrl ++ "/api/download?" ++ downloadParams)));
                   ("streamUrl",
                     Some (JStr (baseUrl ++ "/api/stream?url="
                                         ++ encodeURIComponent (displayOpt url))));
                   ("size", optProp (Some file) "size");
                   ("format", Some (JStr "mp4"))]))
  end.

(** What [handleSources] does to the content of the second answer. *)
Definition postSources (baseUrl : string) (movieInfo : Json) (season episode : Z)
           (content : Json) : Outcome Json :=
  if jsonTruthy content && truthy (optProp (Some content) "downloads")
  then match content, optProp (Some content) "downloads" with
       | JObj fs, Some (JArr l) =>
           let title :=
             orJson (optProp (optProp (Some movieInfo) "subject") "title")
                    (JStr "video") in
           bindO (mapO (processSource baseUrl title season episode) l)
                 (fun sources => Ok (JObj (fieldSet "processedSources" (JArr sources) fs)))
       | _, _ => Throw "content.downloads.map is not a function"
       end
  else Ok content.

(** [handleSources] of the Worker (src/index.js:709-794). *)
Definition handleSources (rq : SourcesRequest) : M Worker.Vars Worker.Response :=
  let movieId := r_movieId rq in
  let season := orNum (JS.parseIntOpt "null" (r_season rq) 0) 0 in
  let episode := orNum (JS.parseIntOpt "null" (r_episode rq) 0) 0 in
  infoResponse <- Worker.makeApiRequest (infoUrl movieId) noOptions ;;
  infoData <- Worker.responseJson infoResponse ;;
  let movieInfo := Worker.processApiResponse infoData in
  let detailPath := optProp (optProp (Some movieInfo) "subject") "detailPath" in
  match detailPath with
  | Some path =>
      if negb (jsonTruthy path)
      then ret (Worker.jsonResponse 500 (errorJson "Could not get movie detail path"))
      else
        let params :=
          "subjectId=" ++ formEncode movieId
                       ++ "&se=" ++ formEncode (JS.intToString season)
                       ++ "&ep=" ++ formEncode (JS.intToString episode) in
        response <- Worker.makeApiRequest (downloadUrl ++ "?" ++ params)
                      (sourcesOptions path movieId) ;;
        data <- Worker.responseJson response ;;
        let content := Worker.processApiResponse data in
        let protocol := JS.orElse (r_proto rq) "https" in
        let host := match r_host rq with Some h => h | None => "null" end in
        let baseUrl := protocol ++ "://" ++ host in
        content <- liftO (postSources baseUrl movieInfo season episode content) ;;
        ret (Worker.jsonResponse 200 (successJson content))
  | None => ret (Worker.jsonResponse 500 (errorJson "Could not get movie detail path"))
  end.

(** The [try] and [catch] of the exported [fetch] around a route handler
    (src/index.js:1203-1270). *)
Definition guarded (h : M Worker.Vars Worker.Response) : M Worker.Vars Worker.Response :=
  tryCatch h
    (fun message =>
       ret (Worker.jsonResponse 500
              (JObj [("status", JStr "error");
                     ("message", JStr "Internal server error");
                     ("error", JStr message)]))).

(** One request served by the Worker through a route handler [h]. *)
Definition workerServe (h : M Worker.Vars Worker.Response) (e : Env) (v : Worker.Vars)
           (log : list Request) : Seen Worker.Vars :=
  match guarded h e {| user := v; calls := log |} with
  | (Ok r, s) =>
      {| seenStatus := Worker.status r; seenHeaders := Worker.headers r;
         seenBody := Worker.body r; seenCalls := calls s; seenVars := user s |}
  | (Throw _, s) =>
      {| seenStatus := 500; seenHeaders := []; seenBody := BodyNone;
         seenCalls := calls s; seenVars := user s |}
  end.

(** A query value of the Express server as it goes into the payload:
    [req.query.page || d]. *)
Definition orValue (o : option string) (d : Z) : Json :=
  match o with
  | Some s => if JS.strTruthy s then JStr s else JNum d
  | None => JNum d
  end.

(** [GET /api/search/:query] of the Express server (src/index.js:162-201). *)
Definition search (rq : SearchRequest) : M Express.St unit :=
  tryCatch
    (let page := orValue (s_page rq) 1 in
     let perPage := orValue (s_perPage rq) 24 in
     let subjectType := orNum (JS.parseIntOpt "undefined" (s_type rq) 0) 0 in
     let payload :=
       JObj [("keyword", JStr (s_query rq)); ("page", page);
             ("perPage", perPage); ("subjectType", JNum subjectType)] in
     response <- Express.makeApiRequest searchUrl (searchOptions payload) ;;
     data <- Express.responseJson response ;;
     content <- liftO (postSearch subjectType (Express.processApiResponse data)) ;;
     resJson (successJson content))
    (fun message => resStatus 500 ;;; resJson (errorJson message)).

(** [GET /api/info/:movieId] of the Express server (src/index.js:204-220). *)
Definition info (movieId : string) : M Express.St unit :=
  tryCatch
    (response <- Express.makeApiRequest (infoUrl movieId) noOptions ;;
     data <- Express.responseJson response ;;
     content <- liftO (postInfo (Express.processApiResponse data)) ;;
     resJson (successJson content))
    (fun message => resStatus 500 ;;; resJson (errorJson message)).

End Library.

End Catalog.

(** ** The entry point of the Worker *)
Module Router.

(** [s.split(sep)] for a separator of one character or more; [skip] counts
    the characters of a separator just found that are still to pass. *)
Fixpoint splitBy (sep : string) (skip : nat) (s : string) : list string :=
  match s with
  | EmptyString => [EmptyString]
  | String c r =>
      match skip with
      | S k => splitBy sep k r
      | O =>
          if String.prefix sep s
          then EmptyString :: splitBy sep (String.length sep - 1) r
          else match splitBy sep 0 r with
               | h :: t => String c h :: t
               | [] => [String c EmptyString]
               end
      end
  end.

(** [pathname.split(prefix)[1]] *)
Definition afterPrefix (prefix pathname : string) : option string :=
  nth_error (splitBy prefix 0 pathname) 1.

(** The request, through what the entry point and the handlers read of it:
    the method, the path, [searchParams.get] and [headers.get]. *)
Record Incoming := {
  i_method : string;
  i_pathname : string;
  i_param : string -> option string;
  i_header : string -> option string
}.

(** What the stream and download handlers read. *)
Definition proxied (rq : Incoming) : InRequest :=
  {| q_url := i_param rq "url";
     q_title := i_param rq "title";
     q_season := i_param rq "season";
     q_episode := i_param rq "episode";
     q_quality := i_param rq "quality";
     h_range := i_header rq "range" |}.

(** An answer of the entry point: the page of [getHomePage], whose text is
    constant and is left out, or the answer of a handler. *)
Inductive Reply :=
| Page (headers : Obj)
| Api (r : Worker.Response).

Definition replyStatus (r : Reply) : Z :=
  match r with Page _ => 200 | Api r => Worker.status r end.

Definition replyHeaders (r : Reply) : Obj :=
  match r with Page hs => hs | Api r => Worker.headers r end.

(** [getHomePage] (src/index.js:1045-1190) *)
Definition getHomePage : Reply :=
  Page (spread [("Content-Type", "text/html")] Worker.corsHeaders).

Section Library.

Variable stringify : Json -> string.
Variable formEncode : string -> string.
Variable encodeURIComponent : string -> string.

(** [decodeURIComponent], which throws on a malformed escape. *)
Variable decodeURIComponent : string -> Outcome string.

Definition api (h : M Worker.Vars Worker.Response) : M Worker.Vars Reply :=
  r <- h ;; ret (Api r).

(** [x[1]] of a split that has no second part is [undefined]; the routes
    reach it only behind [startsWith], where there is one. *)
Definition part (o : option string) : string :=
  match o with Some s => s | None => "undefined" end.

(** The routes, inside the [try] of [fetch] (src/index.js:1203-1256). *)
Definition routes (rq : Incoming) : M Worker.Vars Reply :=
  let pathname := i_pathname rq in
  if String.eqb pathname "/" then ret getHomePage
  else if String.eqb pathname "/api/homepage" then api Worker.handleHomepage
  else if String.eqb pathname "/api/trending"
       then api (Catalog.handleTrending formEncode
                   (i_param rq "page") (i_param rq "perPage"))
  else if JS.startsWith pathname "/api/search/"
       then query <- Catalog.liftO
                       (decodeURIComponent (part (afterPrefix "/api/search/" pathname))) ;;
            api (Catalog.handleSearch stringify
                   {| Catalog.s_query := query;
                      Catalog.s_page := i_param rq "page";
                      Catalog.s_perPage := i_param rq "perPage";
                      Catalog.s_type := i_param rq "type" |})
  else if JS.startsWith pathname "/api/info/"
       then api (Catalog.handleInfo formEncode (part (afterPrefix "/api/info/" pathname)))
  else if JS.startsWith pathname "/api/sources/"
       then api (Catalog.handleSources formEncode encodeURIComponent
                   {| Catalog.r_movieId := part (afterPrefix "/api/sources/" pathname);
                      Catalog.r_season := i_param rq "season";
                      Catalog.r_episode := i_param rq "episode";
                      Catalog.r_proto := i_header rq "x-forwarded-proto";
                      Catalog.r_host := i_header rq "host" |})
  else if String.eqb pathname "/api/stream" then api (Worker.handleStream (proxied rq))
  else if String.eqb pathname "/api/download" then api (Worker.handleDownload (proxied rq))
  else ret (Api Worker.notFound).

(** The exported [fetch(request, env, ctx)] (src/index.js:1193-1273). *)
Definition fetch (rq : Incoming) : M Worker.Vars Reply :=
  if String.eqb (i_method rq) "OPTIONS"
  then ret (Api {| Worker.status := 200; Worker.headers := Worker.corsHeaders;
                   Worker.body := BodyEmpty |})
  else
    tryCatch (routes rq)
      (fun message =>
         ret (Api (Worker.jsonResponse 500
                     (JObj [("status", JStr "error");
                            ("message", JStr "Internal server error");
                            ("error", JStr message)])))).

End Library.

End Router.

(** ** Predicates on the answers of the catalog routes *)

(** The items of [content], when it is an object whose [items] is truthy. *)
Definition shownItems (content : Json) : option Json :=
  match content with
  | JObj fs => if Catalog.truthy (fieldOf "items" fs) then fieldOf "items" fs else None
  | _ => None
  end.

(** [item] is an object whose [subjectType] is the number [t]. *)
Definition OfType (t : Z) (item : Json) : Prop :=
  exists fs, item = JObj fs /\ fieldOf "subjectType" fs = Some (JNum t).

(** [item] is not [null], and when it is an object: its [thumbnail] is the
    url of its cover when the cover has one, and is truthy when its stills
    have one. *)
Definition Thumbed (item : Json) : Prop :=
  match item with
  | JNull => False
  | JObj fs =>
      (forall u, Catalog.urlOf (fieldOf "cover" fs) = Some u ->
                 fieldOf "thumbnail" fs = Some u)
      /\ (Catalog.urlOf (fieldOf "stills" fs) <> None ->
          Catalog.truthy (fieldOf "thumbnail" fs) = true)
  | _ => True
  end.

(** The answer [x] is a 200 that carries [content] as its data. *)
Definition Success {V} (x : Seen V) (content : Json) : Prop :=
  seenStatus x = 200 /\ seenBody x = BodyJson (successJson content).

(** The contents on which the search handlers throw: [null], or an object
    whose [items] is truthy and is not an array free of [null]. *)
Definition Unsearchable (content : Json) : Prop :=
  content = JNull
  \/ exists fs,
       content = JObj fs
       /\ Catalog.truthy (fieldOf "items" fs) = true
       /\ forall l, fieldOf "items" fs = Some (JArr l) -> In JNull l.

(** An upstream that answers every call with the document [data]. *)
Definition answering (data : Json) : Env :=
  {| now := 0;
     fetch := fun _ =>
       FetchOk {| up_status := 200;
                  up_headers := Stub.headersOf None [];
                  up_body := "";
                  up_data := Some data |} |}.

(** A search result of two films and one series. *)
Definition sampleItems : Json :=
  JObj [("data",
         JObj [("items",
                JArr [JObj [("title", JStr "A"); ("subjectType", JNum 1);
                            ("cover", JObj [("url", JStr "https://img/a.jpg")])];
                      JObj [("title", JStr "B"); ("subjectType", JNum 2);
                            ("stills", JObj [("url", JStr "https://img/b.jpg")])];
                      JObj [("title", JStr "C"); ("subjectType", JNum 1)]])])].

Definition sampleSearch (type : option string) : Catalog.SearchRequest :=
  {| Catalog.s_query := "a"; Catalog.s_page := None; Catalog.s_perPage := None;
     Catalog.s_type := type |}.

(** The detail path of a film in the content of the answer to the info
    request: [movieInfo?.subject?.detailPath]. *)
Definition detailPathOf (movieInfo : Json) : option Json :=
  Catalog.optProp (Catalog.optProp (Some movieInfo) "subject") "detailPath".

(** The entry [source] of [processedSources] is the one of [file] for a
    server at [baseUrl]: it names the file, its quality and its format, and
    its two links lead to the stream and download routes of this server with
    the url of the file as their [url] parameter; the download link also
    carries the title, the quality and [tail]. *)
Definition SourceOf (formEncode encodeURIComponent : string -> string) (baseUrl : string)
           (title : Json) (tail : string) (file source : Json) : Prop :=
  let url := Catalog.optProp (Some file) "url" in
  let quality := Catalog.orJson (Catalog.optProp (Some file) "resolution") (JStr "Unknown") in
  exists fs,
    source = JObj fs
    /\ fieldOf "format" fs = Some (JStr "mp4")
    /\ fieldOf "id" fs = Catalog.optProp (Some file) "id"
    /\ fieldOf "size" fs = Catalog.optProp (Some file) "size"
    /\ fieldOf "directUrl" fs = url
    /\ fieldOf "quality" fs = Some quality
    /\ fieldOf "streamUrl" fs
       = Some (JStr (baseUrl ++ "/api/stream?url="
                             ++ encodeURIComponent (Catalog.displayOpt url)))
    /\ fieldOf "downloadUrl" fs
       = Some (JStr (baseUrl ++ "/api/download?url=" ++ formEncode (Catalog.displayOpt url)
                             ++ "&title=" ++ formEncode (Catalog.display title)
                             ++ "&quality=" ++ formEncode (Catalog.display quality)
                             ++ tail)).

(** The season and episode parameters of a download link: present when
    both numbers are positive. *)
Definition episodeTail (formEncode : string -> string) (season episode : Z) : string :=
  if (0 <? season) && (0 <? episode)
  then "&season=" ++ formEncode (JS.intToString season)
                  ++ "&episode=" ++ formEncode (JS.intToString episode)
  else "".

Definition sampleSources (season episode : option string) : Catalog.SourcesRequest :=
  {| Catalog.r_movieId := "42"; Catalog.r_season := season; Catalog.r_episode := episode;
     Catalog.r_proto := None; Catalog.r_host := Some "api.example" |}.

(** The documents of the examples: the info of a film with the detail path
    [p], and its one download. *)
Definition sampleInfo (p : Json) : Json :=
  JObj [("data", JObj [("subject", JObj [("title", JStr "Film"); ("detailPath", p)])])].

Definition sampleFile : Json :=
  JObj [("id", JStr "7"); ("url", JStr "https://valiw.hakunaymatata.com/f.mp4");
        ("resolution", JNum 720)].

Definition sampleDownloads : Json :=
  JObj [("data", JObj [("downloads", JArr [sampleFile])])].

Definition document (data : Json) : UpResponse :=
  {| up_status := 200; up_headers := Stub.headersOf None []; up_body := "";
     up_data := Some data |}.

(** An upstream for the sources of a film: the info request is answered
    with the detail path [p], every other request with the download. *)
Definition sourcesUpstream (p : Json) : Env :=
  {| now := 0;
     fetch := fun rq =>
       if String.prefix Catalog.detailUrl (rq_url rq)
       then FetchOk (document (sampleInfo p))
       else FetchOk (document sampleDownloads) |}.

(** The three headers of [corsHeaders] are among [hs]. *)
Definition Cors (hs : Obj) : Prop :=
  header "Access-Control-Allow-Origin" hs = Some "*"
  /\ header "Access-Control-Allow-Methods" hs = Some "GET, POST, PUT, DELETE, OPTIONS"
  /\ header "Access-Control-Allow-Headers" hs
     = Some "Origin, X-Requested-With, Content-Type, Accept, Authorization".

(** The statuses the servers answer with. *)
Definition statuses : list Z := [200; 206; 400; 404; 416; 500].

(** An answer of a handler of the Worker that carries the CORS headers and
    one of the statuses. *)
Definition Fine (r : Worker.Response) : Prop :=
  Cors (Worker.headers r) /\ In (Worker.status r) statuses.

(** A handler that returns only such answers. *)
Definition Sound (h : M Worker.Vars Worker.Response) : Prop :=
  forall e s r s', h e s = (Ok r, s') -> Fine r.

(** ** The CORS middleware of the Express servers *)
Module Middleware.

Section Cors.
Context {V : Type}.

(** Functions of Express that are taken as they are: the two body parsers
    registered before the middleware ([express.json()] and
    [express.urlencoded()], src/index.js:8-9, part_000:11-12), which pass a
    request without a body on as it is and end a request whose body they
    cannot read; and what Express does with a request whose method is not
    GET at the path of a route registered with [app.get] (for HEAD it runs
    the handler and sends no body, for the others it answers by itself). *)
Variable bodyParsers : M (State V) unit.
Variable otherMethod : string -> M (State V) unit.

(** [res.sendStatus(200)]: the status, and its reason phrase as the body. *)
Definition sendStatus200 : M (State V) unit :=
  resStatus 200 ;;; resEnd (BodyText "OK").

(** The middleware before every route (src/index.js:12-20,
    part_000:15-24); [next] is what follows it. *)
Definition cors (method : string) (next : M (State V) unit) : M (State V) unit :=
  resSetHeader "Access-Control-Allow-Origin" "*" ;;;
  resSetHeader "Access-Control-Allow-Methods" "GET, POST, PUT, DELETE, OPTIONS" ;;;
  resSetHeader "Access-Control-Allow-Headers"
               "Origin, X-Requested-With, Content-Type, Accept, Authorization" ;;;
  if String.eqb method "OPTIONS" then sendStatus200 else next.

(** A route [app.get(path, h)] on a request at its path. *)
Definition route (method : string) (h : M (State V) unit) : M (State V) unit :=
  if String.eqb method "GET" then h else otherMethod method.

(** The application on a request at the path of the route of [h]: the body
    parsers, the middleware, the route. *)
Definition app (method : string) (h : M (State V) unit) : M (State V) unit :=
  bodyParsers ;;; cors method (route method h).

(** One request of the given method served by the application. *)
Definition serveApp (method : string) (h : M (State V) unit) (e : Env) (v : V)
           (log : list Request) : Seen V :=
  let s := snd (app method h e
                  {| user := {| vars := v; res := freshRes |}; calls := log |}) in
  {| seenStatus := statusCode (res (user s));
     seenHeaders := resHeaders (res (user s));
     seenBody := resBody (res (user s));
     seenCalls := calls s;
     seenVars := vars (user s) |}.

End Cors.

End Middleware.

(** What the middleware answers to a preflight request. *)
Definition Preflight {V} (x : Seen V) (v : V) (log : list Request) : Prop :=
  seenStatus x = 200 /\ seenBody x = BodyText "OK" /\ seenCalls x = log
  /\ seenVars x = v.

(** The answer [x] of the middleware and a handler is the answer [y] of the
    handler alone, with the CORS headers. *)
Definition WithCors {V} (x y : Seen V) : Prop :=
  Cors (seenHeaders x)
  /\ seenStatus x = seenStatus y
  /\ seenBody x = seenBody y
  /\ seenCalls x = seenCalls y
  /\ seenVars x = seenVars y
  /\ forall k v, header k (seenHeaders y) = Some v -> header k (seenHeaders x) = Some v.

(** The paths that have a route in the Worker. *)
Definition routed (pathname : string) : bool :=
  String.eqb pathname "/"
  || String.eqb pathname "/api/homepage"
  || String.eqb pathname "/api/trending"
  || JS.startsWith pathname "/api/search/"
  || JS.startsWith pathname "/api/info/"
  || JS.startsWith pathname "/api/sources/"
  || String.eqb pathname "/api/stream"
  || String.eqb pathname "/api/download".

(** No [/] in [s]. *)
Definition oneSegment (s : string) : bool :=
  strForall (fun x => negb (Ascii.eqb x "/")) s.

(** ** The catalog routes of the server on axios (src/unnamed/part_000) *)
Module AxiosCatalog.

Import Catalog.

(** A step on the content that is JSON; the response object, which
    [processApiResponse] returns when the data are falsy, has none of the
    properties the handlers read and is left as it is. *)
Definition onJson (f : Json -> Outcome Json) (p : Axios.Payload) : Outcome Axios.Payload :=
  match p with
  | Axios.PJson j => bindO (f j) (fun j' => Ok (Axios.PJson j'))
  | Axios.PResponse _ => Ok p
  end.

(** The content as a value, for the properties read with [?.]. *)
Definition jsonOf (p : Axios.Payload) : option Json :=
  match p with
  | Axios.PJson j => Some j
  | Axios.PResponse _ => None
  end.

(** The options of [makeApiRequestWithCookies]: the keys the handlers
    use. *)
Record AxiosOptions := {
  a_method : option string;
  a_headers : option Obj;
  a_params : option (list (string * string));
  a_data : option Json
}.

Section Library.

(** Functions taken as they are: the serialisation of [data] by axios
    ([JSON.stringify]), the url axios builds from [url] and [params], and
    the two encodings the sources handler calls. *)
Variable stringify : Json -> string.
Variable buildURL : string -> list (string * string) -> string.
Variable formEncode : string -> string.
Variable encodeURIComponent : string -> string.

(** [makeApiRequestWithCookies] (part_000:136-153): a [headers] key of the
    options replaces the merged headers, because [...options] is spread
    last.  The call of axios is logged with its config: the headers axios,
    Node and the cookie jar add to the request that leaves are not in it. *)
Definition makeApiRequestWithCookies (url : string) (options : AxiosOptions)
  : M Axios.St UpResponse :=
  Axios.ensureCookiesAreAssigned ;;;
  let config :=
    {| rq_url :=
         match a_params options with
         | Some params => buildURL url params
         | None => url
         end;
       rq_method := match a_method options with Some m => m | None => "GET" end;
       rq_headers :=
         match a_headers options with
         | Some h => h
         | None => spread DEFAULT_HEADERS []
         end;
       rq_body :=
         match a_data options with
         | Some data => Some (stringify data)
         | None => None
         end |} in
  tryCatch (doFetch config) (fun message => throw message).

(** The answer of a [catch] clause. *)
Definition resFailure (what message : string) : M Axios.St unit :=
  resStatus 500 ;;;
  resJson (JObj [("status", JStr "error"); ("message", JStr what);
                 ("error", JStr message)]).

(** [GET /api/trending] (part_000:437-467) *)
Definition trending (page perPage : option string) : M Axios.St unit :=
  tryCatch
    (let page := orNum (JS.parseIntOpt "undefined" page 0) 0 in
     let perPage := orNum (JS.parseIntOpt "undefined" perPage 0) 18 in
     let params :=
       [("page", JS.intToString page); ("perPage", JS.intToString perPage);
        ("uid", "5591179548772780352")] in
     response <- makeApiRequestWithCookies trendingUrl
                   {| a_method := Some "GET"; a_headers := None;
                      a_params := Some params; a_data := None |} ;;
     Axios.resSuccess (Axios.processApiResponse response))
    (resFailure "Failed to fetch trending content").

(** [GET /api/search/:query] (part_000:470-520) *)
Definition search (rq : SearchRequest) : M Axios.St unit :=
  tryCatch
    (let page := orNum (JS.parseIntOpt "undefined" (s_page rq) 0) 1 in
     let perPage := orNum (JS.parseIntOpt "undefined" (s_perPage rq) 0) 24 in
     let subjectType := orNum (JS.parseIntOpt "undefined" (s_type rq) 0) 0 in
     let payload :=
       JObj [("keyword", JStr (s_query rq)); ("page", JNum page);
             ("perPage", JNum perPage); ("subjectType", JNum subjectType)] in
     response <- makeApiRequestWithCookies searchUrl
                   {| a_method := Some "POST"; a_headers := None;
                      a_params := None; a_data := Some payload |} ;;
     content <- liftO (onJson (postSearch subjectType)
                              (Axios.processApiResponse response)) ;;
     Axios.resSuccess content)
    (resFailure "Failed to search content").

(** [GET /api/info/:movieId] (part_000:523-556) *)
Definition info (movieId : string) : M Axios.St unit :=
  tryCatch
    (response <- makeApiRequestWithCookies detailUrl
                   {| a_method := Some "GET"; a_headers := None;
                      a_params := Some [("subjectId", movieId)]; a_data := None |} ;;
     content <- liftO (onJson postInfo (Axios.processApiResponse response)) ;;
     Axios.resSuccess content)
    (resFailure "Failed to fetch movie/series info").

(** The headers of the request for the sources. *)
Definition sourcesHeaders (detailPath : Json) (movieId : string) : Obj :=
  [("Referer", refererUrl detailPath movieId);
   ("Origin", "https://fmoviesunblocked.net");
   ("X-Forwarded-For", "1.1.1.1");
   ("CF-Connecting-IP", "1.1.1.1");
   ("X-Real-IP", "1.1.1.1")].

(** [GET /api/sources/:movieId] (part_000:559-660); [r_host] is
    [req.get('host')], which reads as [undefined] when absent. *)
Definition sources (rq : SourcesRequest) : M Axios.St unit :=
  tryCatch
    (let movieId := r_movieId rq in
     let season := orNum (JS.parseIntOpt "undefined" (r_season rq) 0) 0 in
     let episode := orNum (JS.parseIntOpt "undefined" (r_episode rq) 0) 0 in
     infoResponse <- makeApiRequestWithCookies detailUrl
                       {| a_method := Some "GET"; a_headers := None;
                          a_params := Some [("subjectId", movieId)]; a_data := None |} ;;
     let movieInfo := Axios.processApiResponse infoResponse in
     let detailPath := optProp (optProp (jsonOf movieInfo) "subject") "detailPath" in
     match detailPath with
     | Some path =>
         if negb (jsonTruthy path)
         then throw "Could not get movie detail path for referer header"
         else
           let params :=
             [("subjectId", movieId); ("se", JS.intToString season);
              ("ep", JS.intToString episode)] in
           response <- makeApiRequestWithCookies downloadUrl
                         {| a_method := Some "GET";
                            a_headers := Some (sourcesHeaders path movieId);
                            a_params := Some params; a_data := None |} ;;
           let protocol := JS.orElse (r_proto rq) "https" in
           let host := match r_host rq with Some h => h | None => "undefined" end in
           let baseUrl := protocol ++ "://" ++ host in
           let info := match jsonOf movieInfo with Some j => j | None => JNull end in
           content <- liftO (onJson (postSources formEncode encodeURIComponent baseUrl
                                       info season episode)
                                    (Axios.processApiResponse response)) ;;
           Axios.resSuccess content
     | None => throw "Could not get movie detail path for referer header"
     end)
    (resFailure "Failed to fetch streaming sources").

End Library.

End AxiosCatalog.

(** The headers of the config of a call of axios, as the log holds it: the
    headers the code passes to axios, before axios, Node and the cookie jar
    add theirs. *)
Definition configHeaders (call : Request) : Obj := rq_headers call.

(** The answer 500 of a [catch] clause of the server on axios. *)
Definition Failed {V} (x : Seen V) (what message : string) : Prop :=
  seenStatus x = 500
  /\ seenBody x = BodyJson (JObj [("status", JStr "error"); ("message", JStr what);
                                  ("error", JStr message)]).

(** A numeric parameter as the Worker reads it: [parseInt(x) || d]. *)
Definition paging (o : option string) (d : Z) : Z :=
  Catalog.orNum (JS.parseIntOpt "null" o 0) d.

(** The calls [new] go to the catalog host, under the path of its API. *)
Definition ToCatalog (new : list Request) : Prop :=
  Forall (fun q => JS.startsWith (rq_url q) (HOST_URL ++ "/wefeed-h5-bff/") = true) new.

(** A handler whose upstream calls all go to the catalog host. *)
Definition OnCatalog {S A} (h : M S A) : Prop :=
  forall e s, exists new, calls (snd (h e s)) = (calls s ++ new)%list /\ ToCatalog new.

(** * Facts about the JavaScript primitives *)
Section JSFacts.

Lemma digitVal_digitChar d : 0 <= d < 10 -> JS.digitVal (JS.digitChar d) = Some d.
Proof.
  intros H.
  assert (d = 0 \/ d = 1 \/ d = 2 \/ d = 3 \/ d = 4 \/ d = 5 \/ d = 6 \/ d = 7
          \/ d = 8 \/ d = 9) as Hd by lia.
  repeat (destruct Hd as [-> | Hd]; [reflexivity |]); subst; reflexivity.
Qed.

Lemma isDecDigit_digitChar d : 0 <= d < 10 -> isDecDigit (JS.digitChar d) = true.
Proof.
  intros H. unfold isDecDigit. rewrite digitVal_digitChar by assumption.
  apply Z.ltb_lt; lia.
Qed.

Lemma strForall_app p s t :
  strForall p (s ++ t) = strForall p s && strForall p t.
Proof.
  induction s as [| c s IH]; simpl; [reflexivity |].
  rewrite IH, andb_assoc; reflexivity.
Qed.

(** The digits written for [n] are decimal digits, and at least one. *)
Lemma digitsOf_digits f n :
  0 <= n -> strForall isDecDigit (JS.digitsOf f n) = true.
Proof.
  revert n; induction f as [| f IH]; intros n Hn; simpl; [reflexivity |].
  destruct (n <? 10) eqn:E.
  - apply Z.ltb_lt in E. simpl. rewrite isDecDigit_digitChar by lia. reflexivity.
  - rewrite strForall_app, IH by (apply Z.div_pos; lia). simpl.
    rewrite isDecDigit_digitChar; [reflexivity |].
    apply Z.mod_pos_bound; lia.
Qed.

Lemma digitsOf_nonempty f n : JS.strTruthy (JS.digitsOf (S f) n) = true.
Proof.
  simpl. destruct (n <? 10); [reflexivity |].
  destruct (JS.digitsOf f (n / 10)); reflexivity.
Qed.

(** Reading a run of decimal digits and then [t] is reading [t] from where
    the run ends. *)
Lemma parseDigits_app s t acc :
  strForall isDecDigit s = true ->
  JS.parseDigits 10 (s ++ t) acc = JS.parseDigits 10 t (JS.parseDigits 10 s acc).
Proof.
  revert acc; induction s as [| c s IH]; intros acc H; simpl in *; [reflexivity |].
  apply andb_true_iff in H as [Hc Hs]. unfold isDecDigit in Hc.
  destruct (JS.digitVal c) as [d |]; [| discriminate].
  rewrite Hc. apply IH, Hs.
Qed.

Lemma parseDigits_digitsOf f n :
  0 <= n < 10 ^ Z.of_nat (S f) ->
  JS.parseDigits 10 (JS.digitsOf (S f) n) None = Some n.
Proof.
  revert n; induction f as [| f IH]; intros n Hn;
    change (JS.digitsOf (S ?g) n)
      with (if n <? 10 then String (JS.digitChar n) EmptyString
            else JS.digitsOf g (n / 10) ++ String (JS.digitChar (n mod 10)) EmptyString);
    destruct (n <? 10) eqn:E.
  - simpl. rewrite digitVal_digitChar by (apply Z.ltb_lt in E; lia).
    rewrite E. reflexivity.
  - apply Z.ltb_ge in E. change (10 ^ Z.of_nat 1) with 10 in Hn. lia.
  - simpl. rewrite digitVal_digitChar by (apply Z.ltb_lt in E; lia).
    rewrite E. reflexivity.
  - apply Z.ltb_ge in E.
    rewrite parseDigits_app by (apply digitsOf_digits, Z.div_pos; lia).
    rewrite IH.
    + simpl. rewrite digitVal_digitChar by (apply Z.mod_pos_bound; lia).
      replace (n mod 10 <? 10) with true
        by (symmetry; apply Z.ltb_lt, Z.mod_pos_bound; lia).
      f_equal. rewrite (Z.div_mod n 10) at 3 by lia. lia.
    + split; [apply Z.div_pos; lia |].
      apply Z.div_lt_upper_bound; [lia |].
      rewrite (Nat2Z.inj_succ (S f)), Z.pow_succ_r in Hn by lia. lia.
Qed.

Lemma natToString_bound n : 0 <= n -> n < 10 ^ Z.of_nat (S (Z.to_nat (Z.log2 n))).
Proof.
  intros Hn. rewrite Nat2Z.inj_succ, Z2Nat.id by apply Z.log2_nonneg.
  destruct (Z.eq_dec n 0) as [-> | Hz]; [reflexivity |].
  apply Z.lt_le_trans with (2 ^ Z.succ (Z.log2 n)).
  - apply Z.log2_spec; lia.
  - apply Z.pow_le_mono_l. split; [lia | lia].
Qed.

Lemma natToString_digits n : 0 <= n -> strForall isDecDigit (JS.natToString n) = true.
Proof. intros; apply digitsOf_digits; assumption. Qed.

Lemma natToString_truthy n : JS.strTruthy (JS.natToString n) = true.
Proof. apply digitsOf_nonempty. Qed.

Lemma isDecDigit_code c : isDecDigit c = true -> 48 <= JS.code c <= 57.
Proof.
  unfold isDecDigit, JS.digitVal. set (n := JS.code c).
  destruct ((48 <=? n) && (n <=? 57)) eqn:E1.
  - intros _. apply andb_true_iff in E1 as [A B]. apply Z.leb_le in A, B. lia.
  - destruct ((97 <=? n) && (n <=? 122)) eqn:E2.
    + intros H; apply Z.ltb_lt in H.
      apply andb_true_iff in E2 as [A B]. apply Z.leb_le in A, B. lia.
    + destruct ((65 <=? n) && (n <=? 90)) eqn:E3; [| discriminate].
      intros H; apply Z.ltb_lt in H.
      apply andb_true_iff in E3 as [A B]. apply Z.leb_le in A, B. lia.
Qed.

Lemma isDecDigit_not_white c : isDecDigit c = true -> JS.isWhite c = false.
Proof.
  intros H. apply isDecDigit_code in H. unfold JS.isWhite.
  set (n := JS.code c) in *.
  replace (n <=? 13) with false by (symmetry; apply Z.leb_gt; lia).
  replace (n =? 32) with false by (symmetry; apply Z.eqb_neq; lia).
  replace (n =? 160) with false by (symmetry; apply Z.eqb_neq; lia).
  rewrite andb_false_r. reflexivity.
Qed.

Lemma isDecDigit_neq c (k : ascii) :
  isDecDigit c = true -> (JS.code k < 48 \/ 57 < JS.code k) -> Ascii.eqb c k = false.
Proof.
  intros Hc Hk. apply isDecDigit_code in Hc.
  apply Ascii.eqb_neq. intros ->. lia.
Qed.

(** [parseInt] reads back what [numToString] wrote for a number that is
    not negative. *)
Lemma parseInt_natToString n : 0 <= n -> JS.parseInt (JS.natToString n) 10 = JS.Num n.
Proof.
  intros Hn.
  pose proof (natToString_digits n Hn) as Hd.
  pose proof (natToString_truthy n) as Ht.
  pose proof (parseDigits_digitsOf _ n (conj Hn (natToString_bound n Hn))) as Hp.
  fold (JS.natToString n) in Hp.
  unfold JS.parseInt.
  destruct (JS.natToString n) as [| c r] eqn:E; [discriminate |].
  simpl in Hd. apply andb_true_iff in Hd as [Hc Hr].
  simpl JS.trimStart. rewrite (isDecDigit_not_white c Hc).
  assert (Ascii.eqb c "-" = false) as Hm
      by (apply isDecDigit_neq; [assumption | left; vm_compute; reflexivity]).
  assert (Ascii.eqb c "+" = false) as Hq
      by (apply isDecDigit_neq; [assumption | left; vm_compute; reflexivity]).
  unfold JS.stripSign. rewrite Hm, Hq.
  cbn -[JS.parseDigits Z.mul]. rewrite Hp. f_equal. lia.
Qed.

Lemma numToString_nonneg n : 0 <= n -> JS.numToString (JS.Num n) = JS.natToString n.
Proof.
  intros Hn. unfold JS.numToString, JS.intToString.
  replace (n <? 0) with false by (symmetry; apply Z.ltb_ge; lia). reflexivity.
Qed.

(** A string without the separator is one part. *)
Lemma split_none sep s :
  strForall (fun c => negb (Ascii.eqb c sep)) s = true -> JS.split sep s = [s].
Proof.
  induction s as [| c s IH]; simpl; [reflexivity |].
  intros H. apply andb_true_iff in H as [Hc Hs].
  apply negb_true_iff in Hc. rewrite Hc, (IH Hs). reflexivity.
Qed.

Lemma strForall_impl (p q : ascii -> bool) s :
  (forall c, p c = true -> q c = true) ->
  strForall p s = true -> strForall q s = true.
Proof.
  intros Hpq. induction s as [| c s IH]; simpl; [reflexivity |].
  intros H. apply andb_true_iff in H as [Hc Hs].
  rewrite (Hpq c Hc), (IH Hs). reflexivity.
Qed.

Lemma split_digits s :
  strForall isDecDigit s = true -> JS.split "-" s = [s].
Proof.
  intros H. apply split_none.
  apply strForall_impl with (p := isDecDigit); [| assumption].
  intros c Hc. apply negb_true_iff, isDecDigit_neq; [assumption |].
  left; vm_compute; reflexivity.
Qed.

Lemma removeFirst_prefix pat s : JS.removeFirst pat (pat ++ s) = JS.drop (String.length pat) (pat ++ s).
Proof.
  assert (String.prefix pat (pat ++ s) = true) as H.
  { induction pat as [| c p IH]; simpl; [destruct s; reflexivity |].
    destruct (ascii_dec c c); [assumption | congruence]. }
  destruct (pat ++ s) eqn:E; cbn [JS.removeFirst]; rewrite H; reflexivity.
Qed.

Lemma parseIntOpt_absent a b o r n :
  JS.parseIntOpt a o r = JS.Num n -> JS.parseInt a r = JS.NaN ->
  JS.parseIntOpt b o r = JS.Num n.
Proof.
  destruct o as [s |]; unfold JS.parseIntOpt; [tauto | congruence].
Qed.

End JSFacts.

(** * Facts about the range window *)
Section Window.

(** The suffix form [bytes=-K]: the last [K] bytes. *)
Lemma rangeWindow_suffix K N :
  0 <= K ->
  rangeWindow ("bytes=-" ++ JS.numToString (JS.Num K)) (JS.Num N)
  = (JS.Num (N - K), JS.Num (N - 1)).
Proof.
  intros HK. rewrite numToString_nonneg by assumption.
  unfold rangeWindow.
  change ("bytes=-" ++ JS.natToString K)
    with ("bytes=" ++ String "-" (JS.natToString K)).
  rewrite removeFirst_prefix.
  change (JS.drop (String.length "bytes=") ("bytes=" ++ String "-" (JS.natToString K)))
    with (String "-" (JS.natToString K)).
  change (JS.split "-" (String "-" (JS.natToString K)))
    with (EmptyString :: JS.split "-" (JS.natToString K)).
  rewrite split_digits by (apply natToString_digits; assumption).
  cbn [hd nth_error]. rewrite natToString_truthy.
  rewrite parseInt_natToString by assumption.
  reflexivity.
Qed.

(** The check of the Worker and axios variants is the negation of
    [Satisfiable]. *)
Lemma rangeInvalid_false start end_ n :
  rangeInvalid start end_ (JS.Num n) = false <-> Satisfiable start end_ (JS.Num n).
Proof.
  unfold rangeInvalid, Satisfiable. split.
  - destruct start as [| s], end_ as [| e]; simpl; try discriminate.
    intros H. repeat (apply orb_false_iff in H as [H ?]).
    exists s, e, n. repeat split; try reflexivity.
    + apply Z.ltb_ge; assumption.
    + apply Z.ltb_ge; assumption.
    + apply Z.leb_gt; assumption.
  - intros (s & e & n' & -> & -> & [= <-] & H0 & H1 & H2). simpl.
    repeat (apply orb_false_iff; split); try reflexivity;
      try (apply Z.ltb_ge; lia); apply Z.leb_gt; lia.
Qed.

(** A satisfiable window also passes the weaker check of the Express
    stream handler. *)
Lemma express_check_satisfiable start end_ n :
  Satisfiable start end_ (JS.Num n) ->
  JS.ge start (JS.Num n) || JS.gt start end_ = false.
Proof.
  intros (s & e & n' & -> & -> & [= <-] & H0 & H1 & H2). simpl.
  apply orb_false_iff; split; [apply Z.leb_gt | apply Z.ltb_ge]; lia.
Qed.

End Window.

Example parseInt_null : JS.parseIntOpt "null" None 0 = JS.NaN.
Proof. reflexivity. Qed.

Example parseInt_undefined : JS.parseIntOpt "undefined" None 0 = JS.NaN.
Proof. reflexivity. Qed.

Example parseInt_hex : JS.parseInt "0x10" 0 = JS.Num 16.
Proof. reflexivity. Qed.

Example parseInt_trailing : JS.parseInt " 12ab" 10 = JS.Num 12.
Proof. reflexivity. Qed.

Example split_suffix : JS.split "-" "-500" = [""; "500"].
Proof. reflexivity. Qed.

Example numToString_1000 : JS.numToString (JS.Num 1000) = "1000".
Proof. reflexivity. Qed.

Example removeFirst_bytes : JS.removeFirst "bytes=" "bytes=0-99" = "0-99".
Proof. reflexivity. Qed.

Example trim_pair : JS.trim "  a=1 " = "a=1".
Proof. reflexivity. Qed.

Example filename_episode :
  baseFilename (Stub.request None None) ++ ".mp4" = "Wednesday_S01E01_720p.mp4".
Proof. reflexivity. Qed.

Example window_explicit : rangeWindow "bytes=200-299" (JS.Num 1000) = (JS.Num 200, JS.Num 299).
Proof. reflexivity. Qed.

Example window_open : rangeWindow "bytes=200-" (JS.Num 1000) = (JS.Num 200, JS.Num 999).
Proof. reflexivity. Qed.

Example matchContentRange_total : Axios.matchContentRange "bytes 0-0/12345" = Some "12345".
Proof. reflexivity. Qed.

(** * Running the handlers *)

#[local] Arguments JS.numToString : simpl never.
#[local] Arguments JS.parseInt : simpl never.
#[local] Arguments JS.parseIntOpt : simpl never.
#[local] Arguments JS.orElse : simpl never.
#[local] Arguments JS.join : simpl never.
#[local] Arguments rangeWindow : simpl never.
#[local] Arguments rangeInvalid : simpl never.
#[local] Arguments Worker.invalidUrl : simpl never.
#[local] Arguments Axios.invalidUrl : simpl never.
#[local] Arguments Express.invalidStreamUrl : simpl never.
#[local] Arguments Express.cacheFresh : simpl never.
#[local] Arguments Worker.cacheFresh : simpl never.
#[local] Arguments baseFilename : simpl never.
#[local] Arguments contentDisposition : simpl never.
#[local] Arguments String.append : simpl never.
#[local] Arguments apiRequest : simpl never.
#[local] Arguments bootstrapRequest : simpl never.

(** Unfolds the monad and the operations on the response object. *)
Ltac monad :=
  cbv [bind ret tryCatch doFetch Http.get put getNow throw
       modifyRes setVars resStatus resSetHeader resSetHeaderChecked resSet
       resWriteHead resEnd resJson resSend resPipe Worker.setVars
       Worker.newResponse serve Worker.serve Worker.fetchHandler Worker.dispatch];
  cbn [user calls vars res fst snd statusCode resHeaders headersSent resBody
       seenStatus seenHeaders seenBody seenCalls seenVars
       Worker.status Worker.headers Worker.body].

Ltac nonzero N :=
  replace (N =? 0) with false by (symmetry; apply Z.eqb_neq; assumption).

(** The exported handler of the Worker answers every request. *)
Lemma fetchHandler_answers route req e s :
  exists r s', Worker.fetchHandler route req e s = (Ok r, s').
Proof.
  unfold Worker.fetchHandler, tryCatch.
  destruct (Worker.dispatch route req e s) as [[r | m] s']; eexists; eexists; reflexivity.
Qed.

Section WorkerRun.
Variables (e : Env) (v : Worker.Vars) (log : list Request).
Variables (req : InRequest) (url : string).
Hypothesis Hurl : q_url req = Some url.

Lemma Worker_rejects route :
  route = Worker.RStream \/ route = Worker.RDownload ->
  Worker.invalidUrl url = true ->
  let x := Worker.serve route req e v log in
  seenStatus x = 400 /\ seenCalls x = log /\ seenVars x = v.
Proof.
  intros [-> | ->] H; monad;
    unfold Worker.handleStream, Worker.handleDownload; rewrite Hurl, H;
    repeat split; reflexivity.
Qed.

Hypothesis Hok : Worker.invalidUrl url = false.
Variable hr : UpResponse.
Hypothesis Hhead : fetch e (HEAD url cdnHeaders) = FetchOk hr.


Lemma Worker_stream_nosize :
  lengthOf "null" hr = JS.Num 0 \/ lengthOf "null" hr = JS.NaN ->
  Worker.serve Worker.RStream req e v log =
  {| seenStatus := 500;
     seenHeaders := ("Content-Type", "application/json") :: Worker.corsHeaders;
     seenBody := BodyJson (errorJson "Could not determine file size");
     seenCalls := (log ++ [HEAD url cdnHeaders])%list;
     seenVars := v |}.
Proof.
  intros H. monad. unfold Worker.handleStream. rewrite Hurl, Hok.
  monad. rewrite Hhead. fold (lengthOf "null" hr).
  destruct H as [-> | ->]; reflexivity.
Qed.

Variable N : Z.
Hypothesis Hsize : lengthOf "null" hr = JS.Num N.
Hypothesis HN : N <> 0.

Lemma Worker_stream_ranged range start end_ :
  h_range req = Some range -> JS.strTruthy range = true ->
  rangeWindow range (JS.Num N) = (start, end_) ->
  Worker.serve Worker.RStream req e v log =
  if rangeInvalid start end_ (JS.Num N)
  then {| seenStatus := 416;
          seenHeaders :=
            ("Content-Range", "bytes */" ++ JS.numToString (JS.Num N))
              :: ("Content-Type", "application/json") :: Worker.corsHeaders;
          seenBody := BodyJson (errorJson "Range not satisfiable");
          seenCalls := (log ++ [HEAD url cdnHeaders])%list;
          seenVars := v |}
  else
    let log' :=
      ((log ++ [HEAD url cdnHeaders]) ++ [GET url (rangeHeaders start end_)])%list in
    match fetch e (GET url (rangeHeaders start end_)) with
    | FetchOk gr =>
        {| seenStatus := 206;
           seenHeaders :=
             app [("Content-Type", typeOf hr);
              ("Content-Length", JS.numToString (JS.add (JS.sub end_ start) (JS.Num 1)));
              ("Content-Range",
                "bytes " ++ JS.numToString start ++ "-" ++ JS.numToString end_
                         ++ "/" ++ JS.numToString (JS.Num N));
              ("Accept-Ranges", "bytes");
              ("Cache-Control", "no-cache")] Worker.corsHeaders;
           seenBody := BodyPipe (up_body gr);
           seenCalls := log';
           seenVars := v |}
    | FetchFail m =>
        {| seenStatus := 500;
           seenHeaders := ("Content-Type", "application/json") :: Worker.corsHeaders;
           seenBody :=
             BodyJson (JObj [("status", JStr "error");
                             ("message", JStr "Internal server error");
                             ("error", JStr m)]);
           seenCalls := log';
           seenVars := v |}
    end.
Proof.
  intros Hr Ht Hw. monad. unfold Worker.handleStream. rewrite Hurl, Hok, Hr.
  monad. rewrite Hhead. fold (lengthOf "null" hr). rewrite Hsize. cbn [JS.numTruthy JS.isNaN].
  nonzero N. cbn [negb orb]. rewrite Ht. cbn [negb]. rewrite Hw.
  destruct (rangeInvalid start end_ (JS.Num N)); [reflexivity |].
  destruct (fetch e (GET url (rangeHeaders start end_))); reflexivity.
Qed.

Lemma Worker_stream_full :
  JS.optTruthy (h_range req) = false ->
  Worker.serve Worker.RStream req e v log =
  let log' := ((log ++ [HEAD url cdnHeaders]) ++ [GET url cdnHeaders])%list in
  match fetch e (GET url cdnHeaders) with
  | FetchOk gr =>
      {| seenStatus := 200;
         seenHeaders :=
           app [("Content-Type", typeOf hr);
                ("Content-Length", JS.numToString (JS.Num N));
                ("Accept-Ranges", "bytes");
                ("Cache-Control", "no-cache")] Worker.corsHeaders;
         seenBody := BodyPipe (up_body gr);
         seenCalls := log';
         seenVars := v |}
  | FetchFail m =>
      {| seenStatus := 500;
         seenHeaders := ("Content-Type", "application/json") :: Worker.corsHeaders;
         seenBody :=
           BodyJson (JObj [("status", JStr "error");
                           ("message", JStr "Internal server error");
                           ("error", JStr m)]);
         seenCalls := log';
         seenVars := v |}
  end.
Proof.
  intros Hr. monad. unfold Worker.handleStream. rewrite Hurl, Hok.
  monad. rewrite Hhead. fold (lengthOf "null" hr). rewrite Hsize. cbn [JS.numTruthy JS.isNaN].
  nonzero N. cbn [negb orb].
  destruct (h_range req) as [range |];
    [simpl in Hr; rewrite Hr; cbn [negb] |];
    destruct (fetch e (GET url cdnHeaders)); reflexivity.
Qed.

End WorkerRun.

Section ExpressRun.
Variables (e : Env) (v : Express.Vars) (log : list Request).
Variables (req : InRequest) (url : string).
Hypothesis Hurl : q_url req = Some url.

Lemma Express_stream_rejects :
  Express.invalidStreamUrl url = true ->
  let x := serve (Express.stream req) e v log in
  seenStatus x = 400 /\ seenCalls x = log /\ seenVars x = v.
Proof.
  intros H. unfold Express.stream, Express.rejectStream. rewrite Hurl, H.
  monad. repeat split; reflexivity.
Qed.

Hypothesis Hok : Express.invalidStreamUrl url = false.
Variable hr : UpResponse.
Hypothesis Hhead : fetch e (HEAD url cdnHeaders) = FetchOk hr.


Lemma Express_stream_nosize :
  lengthOf "null" hr = JS.Num 0 \/ lengthOf "null" hr = JS.NaN ->
  serve (Express.stream req) e v log =
  {| seenStatus := 500;
     seenHeaders := [];
     seenBody := BodyJson (JObj [("message", JStr "Could not determine file size")]);
     seenCalls := (log ++ [HEAD url cdnHeaders])%list;
     seenVars := v |}.
Proof.
  intros H. unfold Express.stream. rewrite Hurl, Hok.
  monad. rewrite Hhead. fold (lengthOf "null" hr).
  destruct H as [-> | ->]; reflexivity.
Qed.

Variable N : Z.
Hypothesis Hsize : lengthOf "null" hr = JS.Num N.
Hypothesis HN : N <> 0.

Lemma Express_stream_ranged range start end_ :
  h_range req = Some range -> JS.strTruthy range = true ->
  rangeWindow range (JS.Num N) = (start, end_) ->
  serve (Express.stream req) e v log =
  if JS.ge start (JS.Num N) || JS.gt start end_
  then {| seenStatus := 416;
          seenHeaders := [("Content-Range", "bytes */" ++ JS.numToString (JS.Num N))];
          seenBody := BodyEmpty;
          seenCalls := (log ++ [HEAD url cdnHeaders])%list;
          seenVars := v |}
  else
    {| seenStatus := 206;
       seenHeaders :=
         [("Content-Range",
            "bytes " ++ JS.numToString start ++ "-" ++ JS.numToString end_
                     ++ "/" ++ JS.numToString (JS.Num N));
          ("Accept-Ranges", "bytes");
          ("Content-Length", JS.numToString (JS.add (JS.sub end_ start) (JS.Num 1)));
          ("Content-Type", typeOf hr)];
       seenBody :=
         match fetch e (GET url (rangeHeaders start end_)) with
         | FetchOk gr => BodyPipe (up_body gr)
         | FetchFail _ => BodyNone
         end;
       seenCalls :=
         ((log ++ [HEAD url cdnHeaders]) ++ [GET url (rangeHeaders start end_)])%list;
       seenVars := v |}.
Proof.
  intros Hr Ht Hw. unfold Express.stream. rewrite Hurl, Hok, Hr.
  monad. rewrite Hhead. fold (lengthOf "null" hr). rewrite Hsize. cbn [JS.numTruthy].
  nonzero N. cbn [negb]. rewrite Ht. cbn [negb]. rewrite Hw.
  destruct (JS.ge start (JS.Num N) || JS.gt start end_); [reflexivity |].
  monad.
  destruct (fetch e (GET url (rangeHeaders start end_))); reflexivity.
Qed.

Lemma Express_stream_full :
  JS.optTruthy (h_range req) = false ->
  serve (Express.stream req) e v log =
  {| seenStatus := 200;
     seenHeaders :=
       [("Content-Length", JS.numToString (JS.Num N));
        ("Content-Type", typeOf hr);
        ("Accept-Ranges", "bytes")];
     seenBody :=
       match fetch e (GET url cdnHeaders) with
       | FetchOk gr => BodyPipe (up_body gr)
       | FetchFail _ => BodyNone
       end;
     seenCalls := ((log ++ [HEAD url cdnHeaders]) ++ [GET url cdnHeaders])%list;
     seenVars := v |}.
Proof.
  intros Hr. unfold Express.stream. rewrite Hurl, Hok.
  monad. rewrite Hhead. fold (lengthOf "null" hr). rewrite Hsize. cbn [JS.numTruthy].
  nonzero N. cbn [negb].
  destruct (h_range req) as [range |];
    [simpl in Hr; rewrite Hr; cbn [negb] |];
    monad; destruct (fetch e (GET url cdnHeaders)); reflexivity.
Qed.

End ExpressRun.

Section ExpressDownload.
Variables (e : Env) (v : Express.Vars) (log : list Request).
Variables (req : InRequest) (url : string) (hr gr : UpResponse).
Hypothesis Hurl : q_url req = Some url.
Hypothesis Hpresent : JS.strTruthy url = true.
Hypothesis Hhead : fetch e (HEAD url cdnHeaders) = FetchOk hr.
Hypothesis Hget : fetch e (GET url cdnHeaders) = FetchOk gr.
Hypothesis Hname :
  JS.nodeHeaderValue
    (contentDisposition
       (if negb (JS.endsWith (baseFilename req) ".mp4")
        then baseFilename req ++ ".mp4" else baseFilename req)) = true.

(** Any url that is present is fetched, and the [Range] header is not
    read. *)
Lemma Express_download_run :
  let x := serve (Express.download req) e v log in
  seenStatus x = 200
  /\ header "Content-Disposition" (seenHeaders x)
     = Some (contentDisposition
               (if negb (JS.endsWith (baseFilename req) ".mp4")
                then baseFilename req ++ ".mp4" else baseFilename req))
  /\ header "Content-Range" (seenHeaders x) = None
  /\ seenBody x = BodyPipe (up_body gr)
  /\ seenCalls x = ((log ++ [HEAD url cdnHeaders]) ++ [GET url cdnHeaders])%list.
Proof.
  unfold Express.download. rewrite Hurl.
  destruct url as [| c u]; [discriminate |].
  monad. rewrite Hhead, Hname. monad. rewrite Hget.
  destruct (JS.optTruthy (h_get (up_headers hr) "content-length"));
    monad; repeat split; reflexivity.
Qed.

End ExpressDownload.

Section AxiosRun.
Variables (e : Env) (v : Axios.Vars) (log : list Request).
Variables (req : InRequest) (url : string).
Hypothesis Hurl : q_url req = Some url.

Lemma orElse_url : Axios.invalidUrl (JS.orElse (q_url req) "") = Axios.invalidUrl url.
Proof. rewrite Hurl. destruct url; reflexivity. Qed.

Lemma Axios_stream_rejects :
  Axios.invalidUrl url = true ->
  let x := serve (Axios.stream req) e v log in
  seenStatus x = 400 /\ seenCalls x = log /\ seenVars x = v.
Proof.
  intros H. unfold Axios.stream. rewrite orElse_url, H.
  monad. repeat split; reflexivity.
Qed.

Lemma Axios_download_rejects :
  Axios.invalidUrl url = true ->
  let x := serve (Axios.download req) e v log in
  seenStatus x = 400 /\ seenCalls x = log /\ seenVars x = v.
Proof.
  intros H. unfold Axios.download. rewrite Hurl, H.
  monad. repeat split; reflexivity.
Qed.

Hypothesis Hok : Axios.invalidUrl url = false.

Lemma orElse_allowed : JS.orElse (q_url req) "" = url.
Proof. rewrite Hurl. destruct url; [discriminate | reflexivity]. Qed.

Lemma Axios_download_run gr :
  fetch e (GET url cdnHeaders) = FetchOk gr ->
  JS.nodeHeaderValue (contentDisposition (baseFilename req ++ ".mp4")) = true ->
  let x := serve (Axios.download req) e v log in
  seenStatus x = 200
  /\ header "Content-Disposition" (seenHeaders x)
     = Some (contentDisposition (baseFilename req ++ ".mp4"))
  /\ header "Content-Range" (seenHeaders x) = None
  /\ seenBody x = BodyPipe (up_body gr)
  /\ seenCalls x = (log ++ [GET url cdnHeaders])%list.
Proof.
  intros Hget Hname. unfold Axios.download. rewrite Hurl, Hok.
  monad. rewrite Hget. monad. rewrite Hname. monad. repeat split; reflexivity.
Qed.

Variable hr : UpResponse.
Hypothesis Hhead : fetch e (HEAD url cdnHeaders) = FetchOk hr.


Lemma Axios_stream_nosize :
  lengthOf "undefined" hr = JS.Num 0 \/ lengthOf "undefined" hr = JS.NaN ->
  serve (Axios.stream req) e v log =
  {| seenStatus := 500;
     seenHeaders := [];
     seenBody :=
       BodyJson (JObj [("status", JStr "error");
                       ("message", JStr "Failed to stream video");
                       ("error", JStr "Could not determine file size")]);
     seenCalls := (log ++ [HEAD url cdnHeaders])%list;
     seenVars := v |}.
Proof.
  intros H. unfold Axios.stream, Axios.probe. rewrite orElse_allowed, Hok.
  monad. rewrite Hhead. fold (lengthOf "undefined" hr).
  destruct H as [-> | ->]; reflexivity.
Qed.

Variable N : Z.
Hypothesis Hsize : lengthOf "undefined" hr = JS.Num N.
Hypothesis HN : N <> 0.

Lemma Axios_stream_ranged range start end_ :
  h_range req = Some range -> JS.strTruthy range = true ->
  rangeWindow range (JS.Num N) = (start, end_) ->
  serve (Axios.stream req) e v log =
  if rangeInvalid start end_ (JS.Num N)
  then {| seenStatus := 416;
          seenHeaders := [("Content-Range", "bytes */" ++ JS.numToString (JS.Num N))];
          seenBody := BodyJson (errorJson "Range not satisfiable");
          seenCalls := (log ++ [HEAD url cdnHeaders])%list;
          seenVars := v |}
  else
    let log' :=
      ((log ++ [HEAD url cdnHeaders]) ++ [GET url (rangeHeaders start end_)])%list in
    match fetch e (GET url (rangeHeaders start end_)) with
    | FetchOk gr =>
        {| seenStatus := 206;
           seenHeaders :=
             [("Content-Type", typeOf hr);
              ("Content-Length", JS.numToString (JS.add (JS.sub end_ start) (JS.Num 1)));
              ("Content-Range",
                "bytes " ++ JS.numToString start ++ "-" ++ JS.numToString end_
                         ++ "/" ++ JS.numToString (JS.Num N));
              ("Accept-Ranges", "bytes");
              ("Cache-Control", "no-cache")];
           seenBody := BodyPipe (up_body gr);
           seenCalls := log';
           seenVars := v |}
    | FetchFail m => streamFailed v m log'
    end.
Proof.
  intros Hr Ht Hw. unfold Axios.stream, Axios.probe. rewrite orElse_allowed, Hok, Hr.
  monad. rewrite Hhead. fold (lengthOf "undefined" hr). rewrite Hsize. cbn [JS.numTruthy JS.isNaN].
  nonzero N. cbn [negb orb]. rewrite Ht. cbn [negb]. rewrite Hw.
  destruct (rangeInvalid start end_ (JS.Num N)); [reflexivity |].
  monad.
  destruct (fetch e (GET url (rangeHeaders start end_))); reflexivity.
Qed.

Lemma Axios_stream_full :
  JS.optTruthy (h_range req) = false ->
  serve (Axios.stream req) e v log =
  let log' := ((log ++ [HEAD url cdnHeaders]) ++ [GET url cdnHeaders])%list in
  match fetch e (GET url cdnHeaders) with
  | FetchOk gr =>
      {| seenStatus := 200;
         seenHeaders :=
           [("Content-Type", typeOf hr);
            ("Content-Length", JS.numToString (JS.Num N));
            ("Accept-Ranges", "bytes");
            ("Cache-Control", "no-cache")];
         seenBody := BodyPipe (up_body gr);
         seenCalls := log';
         seenVars := v |}
  | FetchFail m => streamFailed v m log'
  end.
Proof.
  intros Hr. unfold Axios.stream, Axios.probe. rewrite orElse_allowed, Hok.
  monad. rewrite Hhead. fold (lengthOf "undefined" hr). rewrite Hsize. cbn [JS.numTruthy JS.isNaN].
  nonzero N. cbn [negb orb].
  destruct (h_range req) as [range |];
    [simpl in Hr; rewrite Hr; cbn [negb] |];
    monad; destruct (fetch e (GET url cdnHeaders)); reflexivity.
Qed.

End AxiosRun.

(** A request without a [url] is answered 400 by every handler, before any
    upstream call. *)
Lemma absent_url_rejected (e : Env) (req : InRequest) (log : list Request) :
  q_url req = None ->
  (forall v, let x := serve (Express.stream req) e v log in
             seenStatus x = 400 /\ seenCalls x = log)
  /\ (forall v, let x := serve (Express.download req) e v log in
                seenStatus x = 400 /\ seenCalls x = log)
  /\ (forall v, let x := Worker.serve Worker.RStream req e v log in
                seenStatus x = 400 /\ seenCalls x = log)
  /\ (forall v, let x := Worker.serve Worker.RDownload req e v log in
                seenStatus x = 400 /\ seenCalls x = log)
  /\ (forall v, let x := serve (Axios.stream req) e v log in
                seenStatus x = 400 /\ seenCalls x = log)
  /\ (forall v, let x := serve (Axios.download req) e v log in
                seenStatus x = 400 /\ seenCalls x = log).
Proof.
  intros H.
  repeat split;
    unfold Express.stream, Express.rejectStream, Express.download, Worker.serve,
      Worker.fetchHandler, Worker.dispatch, Worker.handleStream, Worker.handleDownload,
      Axios.stream, Axios.download;
    rewrite H; reflexivity.
Qed.

(** * The claims *)

(** ** C1: the allow-list *)

(** C1 (the code departs from the claim).  The claim: a stream or download
    request whose [url] does not begin with an allowed CDN origin is answered
    400 without any upstream call.  The stream handlers and the download
    handlers of the Worker and axios variants do so ([Express_stream_rejects],
    [Worker_rejects], [Axios_stream_rejects], [Axios_download_rejects]); the
    download handler of the Express variant only tests that [url] is present:
    for a url on a foreign host it probes and fetches that url and answers
    200. *)
Theorem C1_express_download_fetches_foreign_url :
  let x := serve (Express.download (Stub.request (Some Stub.foreignUrl) None))
                 (Stub.upstream 0 (Some "1000") []) Express.initial [] in
  Express.invalidStreamUrl Stub.foreignUrl = true
  /\ seenStatus x = 200
  /\ seenBody x = BodyPipe "bytes"
  /\ seenCalls x = [HEAD Stub.foreignUrl cdnHeaders; GET Stub.foreignUrl cdnHeaders].
Proof. vm_compute. repeat split; reflexivity. Qed.

(** ** C2: unsatisfiable ranges *)

(** The Worker and axios stream handlers answer 416 with
    [Content-Range: bytes */N] for every window that is not satisfiable. *)
Lemma Worker_stream_unsatisfiable (e : Env) (v : Worker.Vars) (log : list Request)
      (req : InRequest) (url range : string) (hr : UpResponse) (N : Z)
      (start end_ : JS.num) :
  q_url req = Some url -> Worker.invalidUrl url = false ->
  Probed e url hr N -> N <> 0 ->
  h_range req = Some range -> JS.strTruthy range = true ->
  rangeWindow range (JS.Num N) = (start, end_) ->
  ~ Satisfiable start end_ (JS.Num N) ->
  Unsatisfied (Worker.serve Worker.RStream req e v log) N.
Proof.
  intros Hurl Hok [Hhead Hsize] HN Hr Ht Hw Hns.
  rewrite (Worker_stream_ranged e v log req url Hurl Hok hr Hhead N Hsize HN
             range start end_ Hr Ht Hw).
  destruct (rangeInvalid start end_ (JS.Num N)) eqn:E.
  - split; reflexivity.
  - apply rangeInvalid_false in E. contradiction.
Qed.

Lemma Axios_stream_unsatisfiable (e : Env) (v : Axios.Vars) (log : list Request)
      (req : InRequest) (url range : string) (hr : UpResponse) (N : Z)
      (start end_ : JS.num) :
  q_url req = Some url -> Axios.invalidUrl url = false ->
  Probed e url hr N -> N <> 0 ->
  h_range req = Some range -> JS.strTruthy range = true ->
  rangeWindow range (JS.Num N) = (start, end_) ->
  ~ Satisfiable start end_ (JS.Num N) ->
  Unsatisfied (serve (Axios.stream req) e v log) N.
Proof.
  intros Hurl Hok [Hhead Hsize] HN Hr Ht Hw Hns.
  apply parseIntOpt_absent with (b := "undefined") in Hsize; [| reflexivity].
  rewrite (Axios_stream_ranged e v log req url Hurl Hok hr Hhead N Hsize HN
             range start end_ Hr Ht Hw).
  destruct (rangeInvalid start end_ (JS.Num N)) eqn:E.
  - split; reflexivity.
  - apply rangeInvalid_false in E. contradiction.
Qed.

(** C2 (the code departs from the claim).  The claim: whenever [start > end],
    [end >= N] or a bound is not a number that is not negative, the answer is
    416 with [Content-Range: bytes */N].  The Worker and axios stream handlers
    do so ([Worker_stream_unsatisfiable], [Axios_stream_unsatisfiable]); the
    Express stream handler only tests [start >= fileSize || start > end]: for
    [Range: bytes=0-2000] on 1000 bytes it answers 206 and announces 2001
    bytes. *)
Theorem C2_express_stream_serves_beyond_length :
  let x := serve (Express.stream (Stub.request (Some Stub.cdnUrl) (Some "bytes=0-2000")))
                 (Stub.upstream 0 (Some "1000") []) Express.initial [] in
  rangeWindow "bytes=0-2000" (JS.Num 1000) = (JS.Num 0, JS.Num 2000)
  /\ seenStatus x = 206
  /\ header "Content-Range" (seenHeaders x) = Some "bytes 0-2000/1000"
  /\ header "Content-Length" (seenHeaders x) = Some "2001".
Proof. vm_compute. repeat split; reflexivity. Qed.

(** The same defect on a bound that is not a number: [Range: bytes=5-abc]. *)
Example express_stream_serves_NaN :
  let x := serve (Express.stream (Stub.request (Some Stub.cdnUrl) (Some "bytes=5-abc")))
                 (Stub.upstream 0 (Some "1000") []) Express.initial [] in
  seenStatus x = 206
  /\ header "Content-Range" (seenHeaders x) = Some "bytes 5-NaN/1000".
Proof. vm_compute. split; reflexivity. Qed.

(** ** C7: framing of a served window *)

(** The three stream handlers on a [Range] header whose window [[s, t]] is
    satisfiable. *)
Lemma stream_ranged_framing (e : Env) (req : InRequest) (url range : string)
      (hr gr : UpResponse) (N s t : Z) (log : list Request)
      (ve : Express.Vars) (vw : Worker.Vars) (va : Axios.Vars) :
  q_url req = Some url ->
  Probed e url hr N ->
  0 <= s -> s <= t -> t < N ->
  h_range req = Some range -> JS.strTruthy range = true ->
  rangeWindow range (JS.Num N) = (JS.Num s, JS.Num t) ->
  fetch e (GET url (rangeHeaders (JS.Num s) (JS.Num t))) = FetchOk gr ->
  (Express.invalidStreamUrl url = false ->
   Framing (serve (Express.stream req) e ve log) true s t N)
  /\ (Worker.invalidUrl url = false ->
      Framing (Worker.serve Worker.RStream req e vw log) true s t N)
  /\ (Axios.invalidUrl url = false ->
      Framing (serve (Axios.stream req) e va log) true s t N).
Proof.
  intros Hurl [Hhead Hsize] H0 H1 H2 Hr Ht Hw Hget.
  assert (N <> 0) as HN by lia.
  pose proof (parseIntOpt_absent _ "undefined" _ _ _ Hsize eq_refl) as HsizeA.
  assert (Satisfiable (JS.Num s) (JS.Num t) (JS.Num N)) as Hsat
      by (exists s, t, N; repeat split; assumption).
  pose proof (express_check_satisfiable _ _ _ Hsat) as HcheckE.
  apply rangeInvalid_false in Hsat.
  split; [| split]; intros Hok.
  - rewrite (Express_stream_ranged e ve log req url Hurl Hok hr Hhead N Hsize HN
               range _ _ Hr Ht Hw), HcheckE, Hget.
    repeat split; reflexivity.
  - rewrite (Worker_stream_ranged e vw log req url Hurl Hok hr Hhead N Hsize HN
               range _ _ Hr Ht Hw), Hsat, Hget.
    repeat split; reflexivity.
  - rewrite (Axios_stream_ranged e va log req url Hurl Hok hr Hhead N HsizeA HN
               range _ _ Hr Ht Hw), Hsat, Hget.
    repeat split; reflexivity.
Qed.

(** The three stream handlers without a [Range] header. *)
Lemma stream_full_whole (e : Env) (req : InRequest) (url : string)
      (hr gr : UpResponse) (N : Z) (log : list Request)
      (ve : Express.Vars) (vw : Worker.Vars) (va : Axios.Vars) :
  q_url req = Some url ->
  Probed e url hr N -> 0 < N ->
  h_range req = None ->
  fetch e (GET url cdnHeaders) = FetchOk gr ->
  let log' := (log ++ [HEAD url cdnHeaders; GET url cdnHeaders])%list in
  (Express.invalidStreamUrl url = false ->
   Whole (serve (Express.stream req) e ve log) N (up_body gr) log')
  /\ (Worker.invalidUrl url = false ->
      Whole (Worker.serve Worker.RStream req e vw log) N (up_body gr) log')
  /\ (Axios.invalidUrl url = false ->
      Whole (serve (Axios.stream req) e va log) N (up_body gr) log').
Proof.
  intros Hurl [Hhead Hsize] HN Hr Hget log'. subst log'.
  assert (N <> 0) as HN0 by lia.
  pose proof (parseIntOpt_absent _ "undefined" _ _ _ Hsize eq_refl) as HsizeA.
  assert (JS.optTruthy (h_range req) = false) as Hf by (rewrite Hr; reflexivity).
  unfold Whole.
  split; [| split]; intros Hok.
  - rewrite (Express_stream_full e ve log req url Hurl Hok hr Hhead N Hsize HN0 Hf), Hget.
    cbn [seenStatus seenHeaders seenBody seenCalls]. rewrite <- app_assoc.
    repeat split; reflexivity.
  - rewrite (Worker_stream_full e vw log req url Hurl Hok hr Hhead N Hsize HN0 Hf), Hget.
    cbn [seenStatus seenHeaders seenBody seenCalls]. rewrite <- app_assoc.
    repeat split; reflexivity.
  - rewrite (Axios_stream_full e va log req url Hurl Hok hr Hhead N HsizeA HN0 Hf), Hget.
    cbn [seenStatus seenHeaders seenBody seenCalls]. rewrite <- app_assoc.
    repeat split; reflexivity.
Qed.

Lemma Whole_framing {V} (x : Seen V) (N : Z) (body : string) (log : list Request) :
  Whole x N body log -> Framing x false 0 (N - 1) N.
Proof.
  intros (Hs & Hl & _). unfold Framing.
  replace (N - 1 - 0 + 1) with N by lia.
  repeat split; try assumption. discriminate.
Qed.

(** C7.  For a satisfiable window [[s, t]] of a resource of [N] bytes each
    of the three stream handlers answers 206 with [Content-Length]
    [t - s + 1] and [Content-Range: bytes s-t/N]; without a [Range] header the
    window is [[0, N - 1]] and each answers 200 with [Content-Length]
    [(N - 1) - 0 + 1]. *)
Theorem C7_window_framing (e : Env) (req : InRequest) (url : string)
        (hr gr : UpResponse) (N s t : Z) (log : list Request)
        (ve : Express.Vars) (vw : Worker.Vars) (va : Axios.Vars) :
  q_url req = Some url ->
  Probed e url hr N ->
  0 <= s -> s <= t -> t < N ->
  (forall range,
      h_range req = Some range -> JS.strTruthy range = true ->
      rangeWindow range (JS.Num N) = (JS.Num s, JS.Num t) ->
      fetch e (GET url (rangeHeaders (JS.Num s) (JS.Num t))) = FetchOk gr ->
      (Express.invalidStreamUrl url = false ->
       Framing (serve (Express.stream req) e ve log) true s t N)
      /\ (Worker.invalidUrl url = false ->
          Framing (Worker.serve Worker.RStream req e vw log) true s t N)
      /\ (Axios.invalidUrl url = false ->
          Framing (serve (Axios.stream req) e va log) true s t N))
  /\ (h_range req = None ->
      fetch e (GET url cdnHeaders) = FetchOk gr ->
      (Express.invalidStreamUrl url = false ->
       Framing (serve (Express.stream req) e ve log) false 0 (N - 1) N)
      /\ (Worker.invalidUrl url = false ->
          Framing (Worker.serve Worker.RStream req e vw log) false 0 (N - 1) N)
      /\ (Axios.invalidUrl url = false ->
          Framing (serve (Axios.stream req) e va log) false 0 (N - 1) N)).
Proof.
  intros Hurl HP H0 H1 H2.
  split.
  - intros range Hr Ht Hw Hget.
    exact (stream_ranged_framing e req url range hr gr N s t log ve vw va
             Hurl HP H0 H1 H2 Hr Ht Hw Hget).
  - intros Hr Hget.
    assert (0 < N) as HN by lia.
    destruct (stream_full_whole e req url hr gr N log ve vw va Hurl HP HN Hr Hget)
      as (HE & HW & HA).
    split; [| split]; intros Hok.
    + exact (Whole_framing _ _ _ _ (HE Hok)).
    + exact (Whole_framing _ _ _ _ (HW Hok)).
    + exact (Whole_framing _ _ _ _ (HA Hok)).
Qed.

Lemma C7_witness :
  let req := Stub.request (Some Stub.cdnUrl) (Some "bytes=200-299") in
  let e := Stub.upstream 0 (Some "1000") [] in
  Framing (serve (Express.stream req) e Express.initial []) true 200 299 1000
  /\ Framing (Worker.serve Worker.RStream req e Worker.initial []) true 200 299 1000
  /\ Framing (serve (Axios.stream req) e Axios.initial []) true 200 299 1000.
Proof.
  intros req e.
  assert (0 <= 200) as H0 by lia.
  assert (200 <= 299) as H1 by lia.
  assert (299 < 1000) as H2 by lia.
  destruct (proj1 (C7_window_framing e req Stub.cdnUrl
                     (Stub.response (Some "1000") []) (Stub.response (Some "1000") [])
                     1000 200 299 [] Express.initial Worker.initial Axios.initial
                     eq_refl (conj eq_refl eq_refl) H0 H1 H2)
                  "bytes=200-299" eq_refl eq_refl eq_refl eq_refl) as (HE & HW & HA).
  exact (conj (HE eq_refl) (conj (HW eq_refl) (HA eq_refl))).
Defined.

(** ** C8: a request without a Range header *)

(** C8.  Without a [Range] header and with a known length [N > 0] each of
    the three stream handlers answers 200 with [Content-Length: N] and
    [Accept-Ranges: bytes]; the body is that of one GET without a [Range]
    header, the whole window [[0, N - 1]]. *)
Theorem C8_no_range_full_body (e : Env) (req : InRequest) (url : string)
        (hr gr : UpResponse) (N : Z) (log : list Request)
        (ve : Express.Vars) (vw : Worker.Vars) (va : Axios.Vars) :
  q_url req = Some url ->
  h_range req = None ->
  Probed e url hr N -> 0 < N ->
  fetch e (GET url cdnHeaders) = FetchOk gr ->
  let log' := (log ++ [HEAD url cdnHeaders; GET url cdnHeaders])%list in
  Satisfiable (JS.Num 0) (JS.Num (N - 1)) (JS.Num N)
  /\ (Express.invalidStreamUrl url = false ->
      Whole (serve (Express.stream req) e ve log) N (up_body gr) log')
  /\ (Worker.invalidUrl url = false ->
      Whole (Worker.serve Worker.RStream req e vw log) N (up_body gr) log')
  /\ (Axios.invalidUrl url = false ->
      Whole (serve (Axios.stream req) e va log) N (up_body gr) log').
Proof.
  intros Hurl Hr HP HN Hget log'.
  split; [exists 0, (N - 1), N; repeat split; lia |].
  exact (stream_full_whole e req url hr gr N log ve vw va Hurl HP HN Hr Hget).
Qed.

Lemma C8_witness :
  let req := Stub.request (Some Stub.cdnUrl) None in
  let e := Stub.upstream 0 (Some "1000") [] in
  Whole (Worker.serve Worker.RStream req e Worker.initial []) 1000 "bytes"
        [HEAD Stub.cdnUrl cdnHeaders; GET Stub.cdnUrl cdnHeaders].
Proof.
  assert (0 < 1000) as HN by lia.
  exact (proj1 (proj2 (proj2
           (C8_no_range_full_body (Stub.upstream 0 (Some "1000") [])
              (Stub.request (Some Stub.cdnUrl) None)
              Stub.cdnUrl (Stub.response (Some "1000") [])
              (Stub.response (Some "1000") []) 1000 []
              Express.initial Worker.initial Axios.initial
              eq_refl eq_refl (conj eq_refl eq_refl) HN eq_refl))) eq_refl).
Defined.

(** ** C10: a length of zero *)

(** C10.  When the probe is answered with a [Content-Length] that reads as
    0, each stream handler gives the answer it gives when the header is
    missing: 500, after the probe alone, so nothing is ever served. *)
Theorem C10_zero_length_is_no_length (e : Env) (req : InRequest) (url : string)
        (hr : UpResponse) (log : list Request)
        (ve : Express.Vars) (vw : Worker.Vars) (va : Axios.Vars) :
  q_url req = Some url ->
  fetch e (HEAD url cdnHeaders) = FetchOk hr ->
  lengthOf "null" hr = JS.Num 0 \/ h_get (up_headers hr) "content-length" = None ->
  (Express.invalidStreamUrl url = false ->
   serve (Express.stream req) e ve log =
     {| seenStatus := 500;
        seenHeaders := [];
        seenBody := BodyJson (JObj [("message", JStr "Could not determine file size")]);
        seenCalls := (log ++ [HEAD url cdnHeaders])%list;
        seenVars := ve |})
  /\ (Worker.invalidUrl url = false ->
      Worker.serve Worker.RStream req e vw log =
        {| seenStatus := 500;
           seenHeaders := ("Content-Type", "application/json") :: Worker.corsHeaders;
           seenBody := BodyJson (errorJson "Could not determine file size");
           seenCalls := (log ++ [HEAD url cdnHeaders])%list;
           seenVars := vw |})
  /\ (Axios.invalidUrl url = false ->
      serve (Axios.stream req) e va log =
        streamFailed va "Could not determine file size" (log ++ [HEAD url cdnHeaders])).
Proof.
  intros Hurl Hhead Hzero.
  assert (lengthOf "null" hr = JS.Num 0 \/ lengthOf "null" hr = JS.NaN) as HE.
  { destruct Hzero as [H | H]; [left; exact H |].
    right. unfold lengthOf. rewrite H. reflexivity. }
  assert (lengthOf "undefined" hr = JS.Num 0 \/ lengthOf "undefined" hr = JS.NaN) as HA.
  { destruct Hzero as [H | H].
    - left. exact (parseIntOpt_absent _ _ _ _ _ H eq_refl).
    - right. unfold lengthOf. rewrite H. reflexivity. }
  split; [| split]; intros Hok.
  - exact (Express_stream_nosize e ve log req url Hurl Hok hr Hhead HE).
  - exact (Worker_stream_nosize e vw log req url Hurl Hok hr Hhead HE).
  - exact (Axios_stream_nosize e va log req url Hurl Hok hr Hhead HA).
Qed.

Lemma C10_witness :
  seenStatus (serve (Express.stream (Stub.request (Some Stub.cdnUrl) None))
                    (Stub.upstream 0 (Some "0") []) Express.initial []) = 500.
Proof.
  rewrite (proj1 (C10_zero_length_is_no_length
                    (Stub.upstream 0 (Some "0") [])
                    (Stub.request (Some Stub.cdnUrl) None) Stub.cdnUrl
                    (Stub.response (Some "0") []) []
                    Express.initial Worker.initial Axios.initial
                    eq_refl eq_refl (or_introl eq_refl)) eq_refl).
  reflexivity.
Defined.

(** A zero length and a missing length, side by side. *)
Example zero_and_missing_length :
  let req := Stub.request (Some Stub.cdnUrl) (Some "bytes=0-0") in
  Worker.serve Worker.RStream req (Stub.upstream 0 (Some "0") []) Worker.initial []
  = Worker.serve Worker.RStream req (Stub.upstream 0 None []) Worker.initial [].
Proof. reflexivity. Qed.

(** In the axios variant the same holds when the length comes from the
    [Content-Range] of the fallback probe. *)
Example axios_fallback_zero_length :
  let e := {| now := 0;
              fetch := fun rq =>
                if String.eqb (rq_method rq) "HEAD" then FetchFail "HEAD refused"
                else FetchOk {| up_status := 206;
                                up_headers :=
                                  {| h_get := fun k =>
                                       if String.eqb k "content-range"
                                       then Some "bytes 0-0/0" else None;
                                     h_getSetCookie := None; h_entries := [] |};
                                up_body := ""; up_data := None |} |} in
  seenStatus (serve (Axios.stream (Stub.request (Some Stub.cdnUrl) None))
                    e Axios.initial []) = 500.
Proof. reflexivity. Qed.

(** ** C6: the suffix form *)

(** C6 as stated fails: a suffix as long as the resource, [bytes=-1000] on
    1000 bytes, is served whole with 206, not refused with 416. *)
Lemma C6_counterexample :
  let x := Worker.serve Worker.RStream
             (Stub.request (Some Stub.cdnUrl) (Some "bytes=-1000"))
             (Stub.upstream 0 (Some "1000") []) Worker.initial [] in
  1000 >= 1000
  /\ seenStatus x <> 416
  /\ seenStatus x = 206
  /\ header "Content-Range" (seenHeaders x) = Some "bytes 0-999/1000".
Proof. vm_compute. repeat split; try reflexivity; discriminate. Qed.

(** A suffix of no byte, [bytes=-0], is refused although [0 < N]. *)
Example suffix_zero_refused :
  let x := Worker.serve Worker.RStream
             (Stub.request (Some Stub.cdnUrl) (Some "bytes=-0"))
             (Stub.upstream 0 (Some "1000") []) Worker.initial [] in
  seenStatus x = 416.
Proof. reflexivity. Qed.

(** The Express stream handler serves a suffix longer than the resource from
    a negative start. *)
Example express_suffix_negative_start :
  let x := serve (Express.stream (Stub.request (Some Stub.cdnUrl) (Some "bytes=-2000")))
                 (Stub.upstream 0 (Some "1000") []) Express.initial [] in
  seenStatus x = 206
  /\ header "Content-Range" (seenHeaders x) = Some "bytes -1000-999/1000".
Proof. vm_compute. split; reflexivity. Qed.

(** The check of the stream handlers on the window of [bytes=-0]. *)
Lemma suffix_zero_checks N :
  rangeInvalid (JS.Num (N - 0)) (JS.Num (N - 1)) (JS.Num N) = true
  /\ JS.ge (JS.Num (N - 0)) (JS.Num N) || JS.gt (JS.Num (N - 0)) (JS.Num (N - 1)) = true.
Proof.
  split.
  - unfold rangeInvalid. cbn [JS.isNaN JS.lt JS.ge JS.gt orb].
    replace (N - 1 <? N - 0) with true by (symmetry; apply Z.ltb_lt; lia).
    rewrite !orb_true_r. reflexivity.
  - cbn [JS.ge]. replace (N <=? N - 0) with true by (symmetry; apply Z.leb_le; lia).
    reflexivity.
Qed.

(** C6, amended.  For [Range: bytes=-K] on [N > 0] bytes: when [0 < K <= N]
    each of the three stream handlers serves the window [[N - K, N - 1]] with
    206; when [K = 0] each answers 416; when [K > N] the Worker and axios
    handlers answer 416. *)
Theorem C6_suffix_range (e : Env) (req : InRequest) (url : string)
        (hr : UpResponse) (N K : Z) (log : list Request)
        (ve : Express.Vars) (vw : Worker.Vars) (va : Axios.Vars) :
  q_url req = Some url ->
  Probed e url hr N -> 0 < N -> 0 <= K ->
  h_range req = Some ("bytes=-" ++ JS.numToString (JS.Num K)) ->
  (0 < K <= N ->
   rangeWindow ("bytes=-" ++ JS.numToString (JS.Num K)) (JS.Num N)
     = (JS.Num (N - K), JS.Num (N - 1))
   /\ Satisfiable (JS.Num (N - K)) (JS.Num (N - 1)) (JS.Num N)
   /\ forall gr,
       fetch e (GET url (rangeHeaders (JS.Num (N - K)) (JS.Num (N - 1)))) = FetchOk gr ->
       (Express.invalidStreamUrl url = false ->
        Framing (serve (Express.stream req) e ve log) true (N - K) (N - 1) N)
       /\ (Worker.invalidUrl url = false ->
           Framing (Worker.serve Worker.RStream req e vw log) true (N - K) (N - 1) N)
       /\ (Axios.invalidUrl url = false ->
           Framing (serve (Axios.stream req) e va log) true (N - K) (N - 1) N))
  /\ (K = 0 ->
      (Express.invalidStreamUrl url = false ->
       Unsatisfied (serve (Express.stream req) e ve log) N)
      /\ (Worker.invalidUrl url = false ->
          Unsatisfied (Worker.serve Worker.RStream req e vw log) N)
      /\ (Axios.invalidUrl url = false ->
          Unsatisfied (serve (Axios.stream req) e va log) N))
  /\ (N < K ->
      (Worker.invalidUrl url = false ->
       Unsatisfied (Worker.serve Worker.RStream req e vw log) N)
      /\ (Axios.invalidUrl url = false ->
          Unsatisfied (serve (Axios.stream req) e va log) N)).
Proof.
  intros Hurl HP HN HK Hr.
  pose proof (rangeWindow_suffix K N HK) as Hw.
  assert (JS.strTruthy ("bytes=-" ++ JS.numToString (JS.Num K)) = true) as Ht
      by reflexivity.
  assert (N <> 0) as HN0 by lia.
  split; [| split].
  - intros HKN.
    assert (Satisfiable (JS.Num (N - K)) (JS.Num (N - 1)) (JS.Num N)) as Hsat
        by (exists (N - K), (N - 1), N; repeat split; lia).
    split; [exact Hw | split; [exact Hsat |]].
    intros gr Hget.
    refine (stream_ranged_framing e req url _ hr gr N (N - K) (N - 1) log ve vw va
              Hurl HP _ _ _ Hr Ht Hw Hget); lia.
  - intros ->. destruct HP as [Hhead Hsize].
    pose proof (parseIntOpt_absent _ "undefined" _ _ _ Hsize eq_refl) as HsizeA.
    destruct (suffix_zero_checks N) as [HcW HcE].
    split; [| split]; intros Hok.
    + rewrite (Express_stream_ranged e ve log req url Hurl Hok hr Hhead N Hsize HN0
                 _ _ _ Hr Ht Hw), HcE.
      split; reflexivity.
    + rewrite (Worker_stream_ranged e vw log req url Hurl Hok hr Hhead N Hsize HN0
                 _ _ _ Hr Ht Hw), HcW.
      split; reflexivity.
    + rewrite (Axios_stream_ranged e va log req url Hurl Hok hr Hhead N HsizeA HN0
                 _ _ _ Hr Ht Hw), HcW.
      split; reflexivity.
  - intros HKN.
    assert (~ Satisfiable (JS.Num (N - K)) (JS.Num (N - 1)) (JS.Num N)) as Hns.
    { intros (s & t & n & [= <-] & [= <-] & [= <-] & H0 & _). lia. }
    split; intros Hok.
    + exact (Worker_stream_unsatisfiable e vw log req url _ hr N _ _
               Hurl Hok HP HN0 Hr Ht Hw Hns).
    + exact (Axios_stream_unsatisfiable e va log req url _ hr N _ _
               Hurl Hok HP HN0 Hr Ht Hw Hns).
Qed.

Lemma C6_witness :
  Framing (Worker.serve Worker.RStream
             (Stub.request (Some Stub.cdnUrl) (Some "bytes=-500"))
             (Stub.upstream 0 (Some "1000") []) Worker.initial [])
          true 500 999 1000.
Proof.
  assert (0 < 1000) as HN by lia.
  assert (0 <= 500) as HK by lia.
  assert (0 < 500 <= 1000) as HKN by lia.
  pose proof (C6_suffix_range (Stub.upstream 0 (Some "1000") [])
                (Stub.request (Some Stub.cdnUrl) (Some "bytes=-500"))
                Stub.cdnUrl (Stub.response (Some "1000") []) 1000 500 []
                Express.initial Worker.initial Axios.initial
                eq_refl (conj eq_refl eq_refl) HN HK eq_refl) as H.
  destruct H as [H _]. destruct (H HKN) as (_ & _ & Hserved).
  exact (proj1 (proj2 (Hserved (Stub.response (Some "1000") []) eq_refl)) eq_refl).
Defined.

(** ** C3: the download endpoint *)

(** C3 as stated fails: the Express download handler answers a valid
    [Range: bytes=0-99] with 200 and no [Content-Range], where the stream
    handler answers 206; so does the axios download handler. *)
Lemma C3_counterexample :
  let req := Stub.request (Some Stub.cdnUrl) (Some "bytes=0-99") in
  let e := Stub.upstream 0 (Some "1000") [] in
  let s := serve (Express.stream req) e Express.initial [] in
  let d := serve (Express.download req) e Express.initial [] in
  let a := serve (Axios.download req) e Axios.initial [] in
  seenStatus s = 206
  /\ seenStatus d <> 206 /\ seenStatus d = 200
  /\ header "Content-Range" (seenHeaders d) = None
  /\ seenStatus a = 200
  /\ header "Content-Range" (seenHeaders a) = None.
Proof. vm_compute. repeat split; try reflexivity; discriminate. Qed.

(** The download handlers of the Express and axios variants do not read the
    [Range] header. *)
Lemma download_ignores_range (e : Env) (req : InRequest) (range : option string) :
  Express.download (withRange range req) e = Express.download req e
  /\ Axios.download (withRange range req) e = Axios.download req e.
Proof. split; reflexivity. Qed.

Ltac settle :=
  solve [ unfold Worker.noFileSize, Worker.notSatisfiable, Worker.jsonResponse; cbn;
          intuition (try reflexivity; try discriminate; try congruence) ].

(** In the Worker the download handler makes the upstream calls of the
    stream handler.  When the name of the download makes a header value, it
    answers as the stream handler does: same status, same [Content-Range]
    and [Content-Length], and its 200 and 206 carry [Content-Disposition:
    attachment].  When it does not, the download handler fails where the
    stream handler answers 200 or 206, and answers as it does otherwise. *)
Lemma Worker_download_as_stream (e : Env) (req : InRequest) (log : list Request)
      (vw : Worker.Vars) :
  let s := Worker.serve Worker.RStream req e vw log in
  let d := Worker.serve Worker.RDownload req e vw log in
  let valid := JS.fetchHeaderValue (contentDisposition (baseFilename req ++ ".mp4")) in
  seenCalls d = seenCalls s
  /\ (seenStatus d = 200 \/ seenStatus d = 206 ->
      valid = true
      /\ header "Content-Disposition" (seenHeaders d)
         = Some (contentDisposition (baseFilename req ++ ".mp4")))
  /\ (valid = true \/ (seenStatus s <> 200 /\ seenStatus s <> 206) ->
      seenStatus d = seenStatus s
      /\ header "Content-Range" (seenHeaders d) = header "Content-Range" (seenHeaders s)
      /\ header "Content-Length" (seenHeaders d)
         = header "Content-Length" (seenHeaders s))
  /\ (valid = false -> seenStatus s = 200 \/ seenStatus s = 206 -> seenStatus d = 500).
Proof.
  monad. unfold Worker.handleStream, Worker.handleDownload.
  destruct (q_url req) as [url |];
    [destruct (Worker.invalidUrl url) |]; try settle.
  monad.
  destruct (fetch e (HEAD url cdnHeaders)) as [hr | m]; try settle.
  set (fileSize := JS.parseIntOpt "null" (h_get (up_headers hr) "content-length") 0).
  destruct (negb (JS.numTruthy fileSize) || JS.isNaN fileSize); try settle.
  destruct (h_range req) as [range |];
    [destruct (JS.strTruthy range); cbn [negb] |].
  - destruct (rangeWindow range fileSize) as [start end_].
    destruct (rangeInvalid start end_ fileSize); try settle.
    destruct (fetch e (GET url (rangeHeaders start end_))); try settle.
    destruct (JS.fetchHeaderValue _); settle.
  - destruct (fetch e (GET url cdnHeaders)); try settle.
    destruct (JS.fetchHeaderValue _); settle.
  - destruct (fetch e (GET url cdnHeaders)); try settle.
    destruct (JS.fetchHeaderValue _); settle.
Qed.

(** C3, amended.  In the Worker, for every request whose download name
    (built from the title, season, episode and quality of the query) makes a
    header value the platform accepts, the download endpoint has the range
    semantics of the stream endpoint: on every upstream the two give the same
    status, the same [Content-Range] and [Content-Length] and make the same
    upstream calls; a [Range] header whose window is satisfiable is answered
    206 with [Content-Range: bytes start-end/N]; one whose window is not is
    answered 416 with [Content-Range: bytes */N], whatever the name; and
    every 200 or 206 carries [Content-Disposition: attachment].  The download
    handlers of the Express and axios variants do not read the [Range]
    header: their answer is the same whatever it is, and every 200 carries
    [Content-Disposition: attachment]. *)
Theorem C3_download_range_semantics (e : Env) (req : InRequest) (log : list Request)
        (ve : Express.Vars) (vw : Worker.Vars) (va : Axios.Vars) :
  let name := baseFilename req ++ ".mp4" in
  (let s := Worker.serve Worker.RStream req e vw log in
   let d := Worker.serve Worker.RDownload req e vw log in
   (JS.fetchHeaderValue (contentDisposition name) = true ->
    seenStatus d = seenStatus s
    /\ header "Content-Range" (seenHeaders d) = header "Content-Range" (seenHeaders s)
    /\ header "Content-Length" (seenHeaders d) = header "Content-Length" (seenHeaders s)
    /\ seenCalls d = seenCalls s)
   /\ (seenStatus d = 200 \/ seenStatus d = 206 ->
       header "Content-Disposition" (seenHeaders d) = Some (contentDisposition name)))
  /\ (forall (url range : string) (hr : UpResponse) (N : Z) (start end_ : JS.num),
         q_url req = Some url -> Worker.invalidUrl url = false ->
         Probed e url hr N -> N <> 0 ->
         h_range req = Some range -> JS.strTruthy range = true ->
         rangeWindow range (JS.Num N) = (start, end_) ->
         let d := Worker.serve Worker.RDownload req e vw log in
         (~ Satisfiable start end_ (JS.Num N) -> Unsatisfied d N)
         /\ (Satisfiable start end_ (JS.Num N) ->
             JS.fetchHeaderValue (contentDisposition name) = true ->
             forall gr,
               fetch e (GET url (rangeHeaders start end_)) = FetchOk gr ->
               seenStatus d = 206
               /\ header "Content-Range" (seenHeaders d)
                  = Some ("bytes " ++ JS.numToString start ++ "-" ++ JS.numToString end_
                                   ++ "/" ++ JS.numToString (JS.Num N))
               /\ header "Content-Disposition" (seenHeaders d)
                  = Some (contentDisposition name)))
  /\ (forall range,
         let d := serve (Express.download (withRange range req)) e ve log in
         d = serve (Express.download req) e ve log
         /\ (seenStatus d = 200 ->
             exists filename,
               header "Content-Disposition" (seenHeaders d)
               = Some (contentDisposition filename)))
  /\ (forall range,
         let d := serve (Axios.download (withRange range req)) e va log in
         d = serve (Axios.download req) e va log
         /\ (seenStatus d = 200 ->
             header "Content-Disposition" (seenHeaders d)
             = Some (contentDisposition name))).
Proof.
  intros name.
  pose proof (Worker_download_as_stream e req log vw) as Hsame.
  cbv zeta in Hsame. fold name in Hsame.
  destruct Hsame as (Hcalls & Hcd & Hok & Hbad).
  split; [| split; [| split]].
  - cbv zeta. split; [| intros H; exact (proj2 (Hcd H))].
    intros Hv. destruct (Hok (or_introl Hv)) as (Hst & Hcr & Hcl).
    repeat split; assumption.
  - intros url range hr N start end_ Hurl Hallowed [Hhead Hsize] HN Hr Ht Hw d. subst d.
    pose proof (Worker_stream_ranged e vw log req url Hurl Hallowed hr Hhead N Hsize HN
                  range start end_ Hr Ht Hw) as Hs.
    split.
    + intros Hns.
      assert (rangeInvalid start end_ (JS.Num N) = true) as Hinv.
      { destruct (rangeInvalid start end_ (JS.Num N)) eqn:E; [reflexivity |].
        apply rangeInvalid_false in E. contradiction. }
      rewrite Hinv in Hs.
      destruct Hok as (Hst & Hcr & _).
      { right. rewrite Hs. split; discriminate. }
      unfold Unsatisfied. rewrite Hst, Hcr, Hs. split; reflexivity.
    + intros Hsat Hv gr Hget. apply rangeInvalid_false in Hsat.
      rewrite Hsat, Hget in Hs.
      destruct (Hok (or_introl Hv)) as (Hst & Hcr & _).
      assert (seenStatus (Worker.serve Worker.RDownload req e vw log) = 206) as H206
          by (rewrite Hst, Hs; reflexivity).
      split; [exact H206 | split].
      * rewrite Hcr, Hs. reflexivity.
      * exact (proj2 (Hcd (or_intror H206))).
  - intros range d. subst d. split; [reflexivity |].
    change (Express.download (withRange range req)) with (Express.download req).
    unfold Express.download. monad.
    destruct (q_url req) as [[| c url] |]; try (cbn; discriminate).
    monad.
    destruct (fetch e (HEAD (String c url) cdnHeaders)) as [hr | m];
      try (cbn; discriminate).
    destruct (JS.nodeHeaderValue _); [| cbn; discriminate].
    destruct (JS.optTruthy (h_get (up_headers hr) "content-length"));
      monad;
      (destruct (fetch e (GET (String c url) cdnHeaders)) as [gr | m];
       [cbn; intros _; eexists; reflexivity | cbn; discriminate]).
  - intros range d. subst d. split; [reflexivity |].
    change (Axios.download (withRange range req)) with (Axios.download req).
    unfold Axios.download. monad.
    destruct (q_url req) as [url |]; try (cbn; discriminate).
    destruct (Axios.invalidUrl url); try (cbn; discriminate).
    monad.
    destruct (fetch e (GET url cdnHeaders)) as [gr | m]; try (cbn; discriminate).
    monad. destruct (JS.nodeHeaderValue _); [| cbn; discriminate].
    cbn. intros _. reflexivity.
Qed.

Lemma C3_witness :
  let req := Stub.request (Some Stub.cdnUrl) (Some "bytes=0-99") in
  let e := Stub.upstream 0 (Some "1000") [] in
  seenStatus (Worker.serve Worker.RDownload req e Worker.initial [])
  = seenStatus (Worker.serve Worker.RStream req e Worker.initial []).
Proof.
  exact (proj1 (proj1 (proj1 (C3_download_range_semantics
                         (Stub.upstream 0 (Some "1000") [])
                         (Stub.request (Some Stub.cdnUrl) (Some "bytes=0-99")) []
                         Express.initial Worker.initial Axios.initial)) eq_refl)).
Defined.

(** A line feed in the quality: the stream endpoint serves the window, the
    three download endpoints answer 500, the Express one after the probe
    alone. *)
Example download_name_refused :
  let lf := String (ascii_of_N 10) EmptyString in
  let req := {| q_url := Some Stub.cdnUrl; q_title := Some "Wednesday";
                q_season := None; q_episode := None;
                q_quality := Some ("x" ++ lf ++ "y");
                h_range := Some "bytes=0-99" |} in
  let e := Stub.upstream 0 (Some "1000") [] in
  seenStatus (Worker.serve Worker.RStream req e Worker.initial []) = 206
  /\ seenStatus (Worker.serve Worker.RDownload req e Worker.initial []) = 500
  /\ seenStatus (serve (Express.download req) e Express.initial []) = 500
  /\ seenCalls (serve (Express.download req) e Express.initial [])
     = [HEAD Stub.cdnUrl cdnHeaders]
  /\ seenStatus (serve (Axios.download req) e Axios.initial []) = 500.
Proof. vm_compute. repeat split; reflexivity. Qed.

(** The Worker's download endpoint on the scenarios of the stream
    endpoint. *)
Example worker_download_partial :
  let x := Worker.serve Worker.RDownload
             (Stub.request (Some Stub.cdnUrl) (Some "bytes=200-299"))
             (Stub.upstream 0 (Some "1000") []) Worker.initial [] in
  seenStatus x = 206
  /\ header "Content-Range" (seenHeaders x) = Some "bytes 200-299/1000"
  /\ header "Content-Length" (seenHeaders x) = Some "100"
  /\ header "Content-Disposition" (seenHeaders x)
     = Some (contentDisposition "Wednesday_S01E01_720p.mp4").
Proof. vm_compute. repeat split; reflexivity. Qed.

Example worker_download_unsatisfiable :
  let x := Worker.serve Worker.RDownload
             (Stub.request (Some Stub.cdnUrl) (Some "bytes=1000-1100"))
             (Stub.upstream 0 (Some "1000") []) Worker.initial [] in
  seenStatus x = 416
  /\ header "Content-Range" (seenHeaders x) = Some "bytes */1000".
Proof. vm_compute. split; reflexivity. Qed.

(** * The credential cache *)

Section ExpressCache.
Variables (e : Env) (s : Store Express.St).

Lemma Express_getCookies_fresh :
  Express.cacheFresh (vars (user s)) (now e) = true ->
  Express.getCookies e s = (Ok (Express.cookieCache (vars (user s))), s).
Proof. intros H. unfold Express.getCookies. monad. rewrite H. reflexivity. Qed.

Hypothesis Hstale : Express.cacheFresh (vars (user s)) (now e) = false.

Lemma Express_getCookies_failed message :
  fetch e bootstrapRequest = FetchFail message ->
  Express.getCookies e s = (Ok None, logged bootstrapRequest s).
Proof.
  intros H. unfold Express.getCookies. monad. rewrite Hstale, H. reflexivity.
Qed.

Lemma Express_getCookies_refreshed r :
  fetch e bootstrapRequest = FetchOk r ->
  Express.getCookies e s =
  match Express.setCookieHeaders r with
  | [] => (Ok (Express.cookieCache (vars (user s))), logged bootstrapRequest s)
  | hs =>
      let cookies := JS.join "; " (map cookiePair hs) in
      (Ok (Some cookies),
       {| user := {| vars := {| Express.cookieCache := Some cookies;
                                Express.cookieCacheTime := now e |};
                     res := res (user s) |};
          calls := (calls s ++ [bootstrapRequest])%list |})
  end.
Proof.
  intros H. unfold Express.getCookies. monad. rewrite Hstale, H.
  destruct (Express.setCookieHeaders r); reflexivity.
Qed.

Lemma Express_getCookies_one_call :
  calls (snd (Express.getCookies e s)) = (calls s ++ [bootstrapRequest])%list.
Proof.
  destruct (fetch e bootstrapRequest) as [r | m] eqn:H.
  - rewrite (Express_getCookies_refreshed r H).
    destruct (Express.setCookieHeaders r); reflexivity.
  - rewrite (Express_getCookies_failed m H). reflexivity.
Qed.

End ExpressCache.

Section WorkerCache.
Variables (e : Env) (s : Store Worker.Vars).

Lemma Worker_getCookies_fresh :
  Worker.cacheFresh (user s) (now e) = true ->
  Worker.getCookies e s = (Ok (Worker.cookieCache (user s)), s).
Proof. intros H. unfold Worker.getCookies. monad. rewrite H. reflexivity. Qed.

Hypothesis Hstale : Worker.cacheFresh (user s) (now e) = false.

Lemma Worker_getCookies_failed message :
  fetch e bootstrapRequest = FetchFail message ->
  Worker.getCookies e s = (Ok None, logged bootstrapRequest s).
Proof.
  intros H. unfold Worker.getCookies. monad. rewrite Hstale, H. reflexivity.
Qed.

Lemma Worker_getCookies_refreshed r :
  fetch e bootstrapRequest = FetchOk r ->
  Worker.getCookies e s =
  match Worker.setCookieHeaders r with
  | [] => (Ok (Worker.cookieCache (user s)), logged bootstrapRequest s)
  | hs =>
      let cookies := JS.join "; " (map cookiePair hs) in
      (Ok (Some cookies),
       {| user := {| Worker.cookieCache := Some cookies;
                     Worker.cookieCacheTime := now e |};
          calls := (calls s ++ [bootstrapRequest])%list |})
  end.
Proof.
  intros H. unfold Worker.getCookies. monad. rewrite Hstale, H.
  destruct (Worker.setCookieHeaders r); reflexivity.
Qed.

Lemma Worker_getCookies_one_call :
  calls (snd (Worker.getCookies e s)) = (calls s ++ [bootstrapRequest])%list.
Proof.
  destruct (fetch e bootstrapRequest) as [r | m] eqn:H.
  - rewrite (Worker_getCookies_refreshed r H).
    destruct (Worker.setCookieHeaders r); reflexivity.
  - rewrite (Worker_getCookies_failed m H). reflexivity.
Qed.

End WorkerCache.

(** The pair kept from a [Set-Cookie] header is what precedes its first
    [;], without the white space around it. *)
Lemma split_first sep a b :
  strForall (fun c => negb (Ascii.eqb c sep)) a = true ->
  JS.split sep (a ++ String sep b) = a :: JS.split sep b.
Proof.
  induction a as [| c a IH]; intros H.
  - simpl. rewrite Ascii.eqb_refl. reflexivity.
  - simpl in H. apply andb_true_iff in H as [Hc Ha].
    apply negb_true_iff in Hc.
    change (String c a ++ String sep b) with (String c (a ++ String sep b)).
    cbn [JS.split]. rewrite Hc, (IH Ha). reflexivity.
Qed.


(** ** The headers of a response as received *)

Section ReceivedHeaders.









Variables (r : UpResponse) (lines : Lines).





End ReceivedHeaders.

(** ** C9: what a refresh stores *)




(** Without [getSetCookie] the Express variant reads one header value from
    [get('set-cookie')] and keeps the pair before its first [;]. *)
Example express_single_header_value :
  let r := {| up_status := 200;
              up_headers :=
                {| h_get := fun k =>
                     if String.eqb k "set-cookie"
                     then Some "sid=1; Path=/, lang=en; HttpOnly" else None;
                   h_getSetCookie := None;
                   h_entries := [] |};
              up_body := ""; up_data := None |} in
  Express.setCookieHeaders r = ["sid=1; Path=/, lang=en; HttpOnly"]
  /\ JS.join "; " (map cookiePair (Express.setCookieHeaders r)) = "sid=1".
Proof. split; reflexivity. Qed.

(** The headers as a runtime without [getSetCookie] shows them. *)
Example received_legacy :
  let hs := received false [("Content-Type", "text/html"); ("Set-Cookie", "a=1; Path=/");
                            ("set-cookie", "b=2")] in
  h_get hs "set-cookie" = Some "a=1; Path=/, b=2"
  /\ h_entries hs = [("content-type", "text/html"); ("set-cookie", "a=1; Path=/, b=2")].
Proof. split; reflexivity. Qed.

Example refresh_without_cookies_keeps_cache :
  let held := {| Express.cookieCache := Some "sid=1"; Express.cookieCacheTime := 7 |} in
  let s := {| user := {| vars := held; res := freshRes |}; calls := [] |} in
  vars (user (snd (Express.getCookies (Stub.upstream 3600007 None []) s))) = held.
Proof. reflexivity. Qed.

Section AxiosSession.
Variables (e : Env) (s : Store Axios.St).

Lemma Axios_ensure_initialised :
  Axios.cookiesInitialized (vars (user s)) = true ->
  Axios.ensureCookiesAreAssigned e s = (Ok true, s).
Proof.
  intros H. unfold Axios.ensureCookiesAreAssigned. monad. rewrite H.
  cbn [negb]. rewrite H. reflexivity.
Qed.

Hypothesis Hnot : Axios.cookiesInitialized (vars (user s)) = false.

Lemma Axios_ensure_first r :
  fetch e bootstrapRequest = FetchOk r ->
  Axios.ensureCookiesAreAssigned e s =
  (Ok true,
   {| user := {| vars := {| Axios.movieboxAppInfo := Some (Axios.processApiResponse r);
                            Axios.cookiesInitialized := true |};
                 res := res (user s) |};
      calls := (calls s ++ [bootstrapRequest])%list |}).
Proof.
  intros H. unfold Axios.ensureCookiesAreAssigned. monad. rewrite Hnot.
  cbn [negb]. rewrite H. reflexivity.
Qed.

Lemma Axios_ensure_failed message :
  fetch e bootstrapRequest = FetchFail message ->
  Axios.ensureCookiesAreAssigned e s = (Throw message, logged bootstrapRequest s).
Proof.
  intros H. unfold Axios.ensureCookiesAreAssigned. monad. rewrite Hnot.
  cbn [negb]. rewrite H. reflexivity.
Qed.

End AxiosSession.

(** ** C4: a failed bootstrap call *)

(** C4 as stated fails: with the expired credential [sid=1] in the cache and
    an upstream that cannot be reached, [getCookies] of the Express variant
    returns [null], not the credential the cache holds; and in the axios
    variant the failure reaches the client as a 500. *)
Lemma C4_counterexample :
  let held := {| Express.cookieCache := Some "sid=1"; Express.cookieCacheTime := 0 |} in
  let s := {| user := {| vars := held; res := freshRes |}; calls := [] |} in
  let e := Stub.unreachable 3600000 in
  fst (Express.getCookies e s) = Ok None
  /\ fst (Express.getCookies e s) <> Ok (Express.cookieCache held)
  /\ vars (user (snd (Express.getCookies e s))) = held
  /\ seenStatus (serve Axios.homepage e Axios.initial []) = 500.
Proof. vm_compute. repeat split; try reflexivity; discriminate. Qed.

(** C4, amended.  In the fetch variants a failed bootstrap call is caught in
    [getCookies], which returns [null] and leaves the cache as it was;
    [makeApiRequest] then sends the catalog request without a [Cookie] header
    and its outcome is that of this request alone, so the homepage is served
    when the catalog answers.  In the axios variant
    [ensureCookiesAreAssigned] throws the failure again and the homepage
    handler answers 500. *)
Theorem C4_bootstrap_failure (e : Env) (message : string) :
  fetch e bootstrapRequest = FetchFail message ->
  (forall (s : Store Express.St) (url : string) (options : Options),
      Express.cacheFresh (vars (user s)) (now e) = false ->
      Express.getCookies e s = (Ok None, logged bootstrapRequest s)
      /\ Express.makeApiRequest url options e s
         = doFetch (apiRequest url options None) e (logged bootstrapRequest s))
  /\ (forall (s : Store Worker.Vars) (url : string) (options : Options),
         Worker.cacheFresh (user s) (now e) = false ->
         Worker.getCookies e s = (Ok None, logged bootstrapRequest s)
         /\ Worker.makeApiRequest url options e s
            = doFetch (apiRequest url options None) e (logged bootstrapRequest s))
  /\ (forall (v : Express.Vars) (log : list Request) (r : UpResponse) (j : Json),
         Express.cacheFresh v (now e) = false ->
         fetch e (apiRequest (HOST_URL ++ "/wefeed-h5-bff/web/home") noOptions None)
           = FetchOk r ->
         up_data r = Some j ->
         let x := serve Express.homepage e v log in
         seenStatus x = 200
         /\ seenBody x = BodyJson (successJson (Express.processApiResponse j))
         /\ seenVars x = v)
  /\ (forall (v : Worker.Vars) (log : list Request) (r : UpResponse) (j : Json)
             (req : InRequest),
         Worker.cacheFresh v (now e) = false ->
         fetch e (apiRequest (HOST_URL ++ "/wefeed-h5-bff/web/home") noOptions None)
           = FetchOk r ->
         up_data r = Some j ->
         let x := Worker.serve Worker.RHomepage req e v log in
         seenStatus x = 200
         /\ seenBody x = BodyJson (successJson (Worker.processApiResponse j))
         /\ seenVars x = v)
  /\ (forall (s : Store Axios.St),
         Axios.cookiesInitialized (vars (user s)) = false ->
         Axios.ensureCookiesAreAssigned e s = (Throw message, logged bootstrapRequest s))
  /\ (forall (v : Axios.Vars) (log : list Request),
         Axios.cookiesInitialized v = false ->
         let x := serve Axios.homepage e v log in
         seenStatus x = 500
         /\ seenBody x
            = BodyJson (JObj [("status", JStr "error");
                              ("message", JStr "Failed to fetch homepage content");
                              ("error", JStr message)])).
Proof.
  intros H. repeat apply conj.
  - intros s url options Hs.
    pose proof (Express_getCookies_failed e s Hs message H) as Hg.
    split; [exact Hg |].
    unfold Express.makeApiRequest, bind. rewrite Hg. reflexivity.
  - intros s url options Hs.
    pose proof (Worker_getCookies_failed e s Hs message H) as Hg.
    split; [exact Hg |].
    unfold Worker.makeApiRequest, bind. rewrite Hg. reflexivity.
  - intros v log r j Hs Hr Hj x. subst x.
    unfold serve, Express.homepage, Express.makeApiRequest, tryCatch, bind.
    rewrite (Express_getCookies_failed e
               {| user := {| vars := v; res := freshRes |}; calls := log |}
               Hs message H).
    unfold doFetch. rewrite Hr. unfold Express.responseJson. rewrite Hj.
    repeat split; reflexivity.
  - intros v log r j req Hs Hr Hj x. subst x.
    unfold Worker.serve, Worker.fetchHandler, Worker.dispatch, Worker.handleHomepage,
      Worker.makeApiRequest, tryCatch, bind.
    rewrite (Worker_getCookies_failed e {| user := v; calls := log |} Hs message H).
    unfold doFetch. rewrite Hr. unfold Worker.responseJson. rewrite Hj.
    repeat split; reflexivity.
  - intros s Hs. exact (Axios_ensure_failed e s Hs message H).
  - intros v log Hs x. subst x.
    unfold serve, Axios.homepage, Axios.makeApiRequest, tryCatch, bind.
    rewrite (Axios_ensure_failed e
               {| user := {| vars := v; res := freshRes |}; calls := log |}
               Hs message H).
    split; reflexivity.
Qed.

Lemma C4_witness :
  let s := {| user := {| vars := Express.initial; res := freshRes |}; calls := [] |} in
  Express.getCookies (Stub.unreachable 0) s = (Ok None, logged bootstrapRequest s).
Proof.
  intros s.
  exact (proj1 (proj1 (C4_bootstrap_failure (Stub.unreachable 0) "fetch failed" eq_refl)
                      s EmptyString noOptions eq_refl)).
Defined.

(** ** C5: the time to live *)

(** C5 as stated fails: the axios variant keeps no time; once the session is
    initialised a call just past the hour makes no refresh attempt. *)
Lemma C5_counterexample :
  let s0 := {| user := {| vars := Axios.initial; res := freshRes |}; calls := [] |} in
  let s1 := snd (Axios.ensureCookiesAreAssigned (Stub.upstream 0 None ["sid=1"]) s0) in
  let s2 :=
    snd (Axios.ensureCookiesAreAssigned (Stub.upstream 3600001 None ["sid=2"]) s1) in
  calls s1 = [bootstrapRequest]
  /\ 3600001 - 0 > COOKIE_CACHE_DURATION
  /\ calls s2 = calls s1
  /\ calls s2 <> (calls s1 ++ [bootstrapRequest])%list.
Proof. vm_compute. repeat split; try reflexivity; discriminate. Qed.

(** In the fetch variants a second call makes a second bootstrap call when
    the first one stored nothing. *)
Example second_call_after_empty_answer :
  let s0 := {| user := Worker.initial; calls := [] |} in
  let s1 := snd (Worker.getCookies (Stub.upstream 0 None []) s0) in
  let s2 := snd (Worker.getCookies (Stub.upstream 1 None []) s1) in
  calls s2 = [bootstrapRequest; bootstrapRequest].
Proof. reflexivity. Qed.

(** C5, amended.  In the fetch variants, after a call at time [t1] whose
    bootstrap call stored a credential [c] that is not empty, a call at [t2]
    with [t2 - t1 < 3600000] returns [c] and leaves the log of upstream calls
    as it is, and a call with [t2 - t1 >= 3600000] makes exactly one bootstrap
    call.  The axios variant has no time to live: after the call that
    initialised the session no call makes a bootstrap call. *)
Theorem C5_ttl (e1 e2 : Env) (r1 : UpResponse) :
  fetch e1 bootstrapRequest = FetchOk r1 ->
  (forall s0 : Store Express.St,
      Express.cacheFresh (vars (user s0)) (now e1) = false ->
      let c := JS.join "; " (map cookiePair (Express.setCookieHeaders r1)) in
      Express.setCookieHeaders r1 <> [] -> JS.strTruthy c = true ->
      let s1 := snd (Express.getCookies e1 s0) in
      fst (Express.getCookies e1 s0) = Ok (Some c)
      /\ calls s1 = (calls s0 ++ [bootstrapRequest])%list
      /\ (now e2 - now e1 < COOKIE_CACHE_DURATION ->
          Express.getCookies e2 s1 = (Ok (Some c), s1))
      /\ (COOKIE_CACHE_DURATION <= now e2 - now e1 ->
          calls (snd (Express.getCookies e2 s1)) = (calls s1 ++ [bootstrapRequest])%list))
  /\ (forall s0 : Store Worker.Vars,
         Worker.cacheFresh (user s0) (now e1) = false ->
         let c := JS.join "; " (map cookiePair (Worker.setCookieHeaders r1)) in
         Worker.setCookieHeaders r1 <> [] -> JS.strTruthy c = true ->
         let s1 := snd (Worker.getCookies e1 s0) in
         fst (Worker.getCookies e1 s0) = Ok (Some c)
         /\ calls s1 = (calls s0 ++ [bootstrapRequest])%list
         /\ (now e2 - now e1 < COOKIE_CACHE_DURATION ->
             Worker.getCookies e2 s1 = (Ok (Some c), s1))
         /\ (COOKIE_CACHE_DURATION <= now e2 - now e1 ->
             calls (snd (Worker.getCookies e2 s1))
             = (calls s1 ++ [bootstrapRequest])%list))
  /\ (forall s0 : Store Axios.St,
         Axios.cookiesInitialized (vars (user s0)) = false ->
         let s1 := snd (Axios.ensureCookiesAreAssigned e1 s0) in
         calls s1 = (calls s0 ++ [bootstrapRequest])%list
         /\ Axios.ensureCookiesAreAssigned e2 s1 = (Ok true, s1)).
Proof.
  intros H. split; [| split].
  - intros s0 Hs c Hne Hc s1. subst s1.
    rewrite (Express_getCookies_refreshed e1 s0 Hs r1 H).
    fold c in Hc |- *.
    destruct (Express.setCookieHeaders r1) as [| h hs] eqn:E; [congruence |].
    cbn [fst snd calls]. fold c.
    split; [reflexivity | split; [reflexivity | split]].
    + intros Hlt. rewrite Express_getCookies_fresh; [reflexivity |].
      unfold Express.cacheFresh. cbn [user vars Express.cookieCache
        Express.cookieCacheTime JS.optTruthy]. rewrite Hc.
      apply Z.ltb_lt. exact Hlt.
    + intros Hge. apply Express_getCookies_one_call.
      unfold Express.cacheFresh. cbn [user vars Express.cookieCache
        Express.cookieCacheTime JS.optTruthy]. rewrite Hc.
      apply Z.ltb_ge. exact Hge.
  - intros s0 Hs c Hne Hc s1. subst s1.
    rewrite (Worker_getCookies_refreshed e1 s0 Hs r1 H).
    fold c in Hc |- *.
    destruct (Worker.setCookieHeaders r1) as [| h hs] eqn:E; [congruence |].
    cbn [fst snd calls]. fold c.
    split; [reflexivity | split; [reflexivity | split]].
    + intros Hlt. rewrite Worker_getCookies_fresh; [reflexivity |].
      unfold Worker.cacheFresh. cbn [user Worker.cookieCache
        Worker.cookieCacheTime JS.optTruthy]. rewrite Hc.
      apply Z.ltb_lt. exact Hlt.
    + intros Hge. apply Worker_getCookies_one_call.
      unfold Worker.cacheFresh. cbn [user Worker.cookieCache
        Worker.cookieCacheTime JS.optTruthy]. rewrite Hc.
      apply Z.ltb_ge. exact Hge.
  - intros s0 Hs s1. subst s1.
    rewrite (Axios_ensure_first e1 s0 Hs r1 H). cbn [snd calls].
    split; [reflexivity |].
    apply Axios_ensure_initialised. reflexivity.
Qed.

Lemma C5_witness :
  let e1 := Stub.upstream 0 None ["sid=1; Path=/"] in
  let e2 := Stub.upstream 3599999 None ["sid=2; Path=/"] in
  let s0 := {| user := Worker.initial; calls := [] |} in
  Worker.getCookies e2 (snd (Worker.getCookies e1 s0))
  = (Ok (Some "sid=1"), snd (Worker.getCookies e1 s0)).
Proof.
  intros e1 e2 s0.
  assert (Worker.setCookieHeaders (Stub.response None ["sid=1; Path=/"]) <> []) as Hne
      by discriminate.
  assert (now e2 - now e1 < COOKIE_CACHE_DURATION) as Hlt by (vm_compute; reflexivity).
  exact (proj1 (proj2 (proj2
           (proj1 (proj2 (C5_ttl e1 e2 (Stub.response None ["sid=1; Path=/"]) eq_refl))
                  s0 eq_refl Hne eq_refl))) Hlt).
Defined.

(** * The end-to-end scenarios of the specification, on the Worker *)

Example scenario_full :
  let x := Worker.serve Worker.RStream (Stub.request (Some Stub.cdnUrl) None)
             (Stub.upstream 0 (Some "1000") []) Worker.initial [] in
  seenStatus x = 200
  /\ header "Content-Length" (seenHeaders x) = Some "1000"
  /\ header "Accept-Ranges" (seenHeaders x) = Some "bytes".
Proof. vm_compute. repeat split; reflexivity. Qed.

Example scenario_partial :
  let x := Worker.serve Worker.RStream
             (Stub.request (Some Stub.cdnUrl) (Some "bytes=200-299"))
             (Stub.upstream 0 (Some "1000") []) Worker.initial [] in
  seenStatus x = 206
  /\ header "Content-Range" (seenHeaders x) = Some "bytes 200-299/1000"
  /\ header "Content-Length" (seenHeaders x) = Some "100"
  /\ seenCalls x
     = [HEAD Stub.cdnUrl cdnHeaders;
        GET Stub.cdnUrl (app cdnHeaders [("Range", "bytes=200-299")])].
Proof. vm_compute. repeat split; reflexivity. Qed.

Example scenario_beyond_length :
  let x := Worker.serve Worker.RStream
             (Stub.request (Some Stub.cdnUrl) (Some "bytes=1000-1100"))
             (Stub.upstream 0 (Some "1000") []) Worker.initial [] in
  seenStatus x = 416
  /\ header "Content-Range" (seenHeaders x) = Some "bytes */1000".
Proof. vm_compute. split; reflexivity. Qed.

Example scenario_foreign_host :
  let x := Worker.serve Worker.RStream (Stub.request (Some Stub.foreignUrl) None)
             (Stub.upstream 0 (Some "1000") []) Worker.initial [] in
  seenStatus x = 400 /\ seenCalls x = [].
Proof. vm_compute. split; reflexivity. Qed.

(** * Further properties of the code *)

#[local] Arguments String.append : simpl nomatch.

(** ** More facts about the primitives *)

Lemma append_assoc (a b c : string) : (a ++ b) ++ c = a ++ (b ++ c).
Proof. induction a as [| x a IH]; simpl; [reflexivity | rewrite IH; reflexivity]. Qed.

Lemma append_empty_r (a : string) : a ++ "" = a.
Proof. induction a as [| x a IH]; simpl; [reflexivity | rewrite IH; reflexivity]. Qed.

Lemma app_two {A} (l : list A) (a b : A) : ((l ++ [a]) ++ [b] = l ++ [a; b])%list.
Proof. rewrite <- app_assoc. reflexivity. Qed.

Lemma app_three {A} (l : list A) (a b c : A) :
  (((l ++ [a]) ++ [b]) ++ [c] = l ++ [a; b; c])%list.
Proof. rewrite <- !app_assoc. reflexivity. Qed.

Lemma parseDigits_stop t acc :
  noDigitAhead t = true -> JS.parseDigits 10 t acc = acc.
Proof.
  destruct t as [| c t]; [reflexivity |].
  unfold noDigitAhead, isDecDigit. simpl.
  destruct (JS.digitVal c) as [d |]; [| reflexivity].
  intros H. apply negb_true_iff in H. rewrite H. reflexivity.
Qed.

(** [parseInt] of a string that begins with a decimal digit reads its
    leading digits. *)
Lemma parseInt_digit_first c r :
  isDecDigit c = true ->
  JS.parseInt (String c r) 10
  = match JS.parseDigits 10 (String c r) None with
    | Some v => JS.Num v
    | None => JS.NaN
    end.
Proof.
  intros Hc. unfold JS.parseInt.
  change (JS.trimStart (String c r))
    with (if JS.isWhite c then JS.trimStart r else String c r).
  rewrite (isDecDigit_not_white c Hc).
  unfold JS.stripSign.
  rewrite (isDecDigit_neq c "-" Hc) by (left; vm_compute; reflexivity).
  rewrite (isDecDigit_neq c "+" Hc) by (left; vm_compute; reflexivity).
  cbn -[JS.parseDigits Z.mul].
  destruct (JS.parseDigits 10 (String c r) None) as [v |]; [| reflexivity].
  f_equal. lia.
Qed.

(** [parseInt] reads a written number back whatever follows it, as long as
    that is not another digit. *)
Lemma parseInt_number_then n t :
  0 <= n -> noDigitAhead t = true ->
  JS.parseInt (JS.natToString n ++ t) 10 = JS.Num n.
Proof.
  intros Hn Ht.
  pose proof (natToString_digits n Hn) as Hd.
  pose proof (natToString_truthy n) as Hne.
  pose proof (parseDigits_digitsOf _ n (conj Hn (natToString_bound n Hn))) as Hp.
  fold (JS.natToString n) in Hp.
  assert (JS.parseDigits 10 (JS.natToString n ++ t) None = Some n) as Hall.
  { rewrite parseDigits_app by assumption. rewrite Hp. apply parseDigits_stop, Ht. }
  destruct (JS.natToString n) as [| c r] eqn:E; [discriminate |].
  simpl in Hd. apply andb_true_iff in Hd as [Hc _].
  change (String c r ++ t) with (String c (r ++ t)) in *.
  rewrite (parseInt_digit_first c (r ++ t) Hc), Hall. reflexivity.
Qed.

Lemma parseInt_empty : JS.parseInt "" 10 = JS.NaN.
Proof. reflexivity. Qed.

Lemma split_nonempty sep s : exists h t, JS.split sep s = h :: t.
Proof.
  induction s as [| c s (h & t & IH)]; simpl.
  - eexists; eexists; reflexivity.
  - destruct (Ascii.eqb c sep); [eexists; eexists; reflexivity |].
    rewrite IH. eexists; eexists; reflexivity.
Qed.

(** The first part of [x ++ y] when [x] holds no separator. *)
Lemma split_hd_app sep x y :
  strForall (fun c => negb (Ascii.eqb c sep)) x = true ->
  hd EmptyString (JS.split sep (x ++ y)) = x ++ hd EmptyString (JS.split sep y).
Proof.
  induction x as [| c x IH]; intros H; [reflexivity |].
  simpl in H. apply andb_true_iff in H as [Hc Hx]. apply negb_true_iff in Hc.
  change (String c x ++ y) with (String c (x ++ y)).
  cbn [JS.split]. rewrite Hc.
  destruct (split_nonempty sep (x ++ y)) as (h & t & E).
  rewrite E in IH |- *. cbn [hd] in IH |- *. rewrite (IH Hx). reflexivity.
Qed.

Lemma digits_no_dash s :
  strForall isDecDigit s = true ->
  strForall (fun c => negb (Ascii.eqb c "-")) s = true.
Proof.
  apply strForall_impl. intros c Hc.
  apply negb_true_iff, isDecDigit_neq; [assumption | left; vm_compute; reflexivity].
Qed.

(** ** The range window, further *)

Lemma removeFirst_bytes_prefix s : JS.removeFirst "bytes=" ("bytes=" ++ s) = s.
Proof. rewrite removeFirst_prefix. reflexivity. Qed.

(** The parts of [a-t] for a written number [a]. *)
Lemma rangeWindow_parts a t fileSize :
  0 <= a ->
  rangeWindow ("bytes=" ++ JS.natToString a ++ String "-" t) fileSize
  = let p := hd EmptyString (JS.split "-" t) in
    (JS.Num a, if JS.strTruthy p then JS.parseInt p 10 else JS.sub fileSize (JS.Num 1)).
Proof.
  intros Ha. unfold rangeWindow.
  rewrite removeFirst_bytes_prefix.
  rewrite (split_first "-" _ t (digits_no_dash _ (natToString_digits a Ha))).
  destruct (split_nonempty "-" t) as (h & l & E). rewrite E.
  cbn [hd nth_error].
  rewrite parseInt_natToString by assumption.
  reflexivity.
Qed.

(** The window of [bytes=a-b] for written numbers. *)
Lemma rangeWindow_explicit a b fileSize :
  0 <= a -> 0 <= b ->
  rangeWindow ("bytes=" ++ JS.numToString (JS.Num a) ++ "-" ++ JS.numToString (JS.Num b))
              fileSize
  = (JS.Num a, JS.Num b).
Proof.
  intros Ha Hb. rewrite !numToString_nonneg by assumption.
  change ("-" ++ JS.natToString b) with (String "-" (JS.natToString b)).
  rewrite rangeWindow_parts by assumption. cbv zeta.
  rewrite split_digits by (apply natToString_digits; assumption).
  cbn [hd]. rewrite natToString_truthy, parseInt_natToString by assumption.
  reflexivity.
Qed.

(** The window of [bytes=a-]. *)
Lemma rangeWindow_open a fileSize :
  0 <= a ->
  rangeWindow ("bytes=" ++ JS.numToString (JS.Num a) ++ "-") fileSize
  = (JS.Num a, JS.sub fileSize (JS.Num 1)).
Proof.
  intros Ha. rewrite numToString_nonneg by assumption.
  change "-" with (String "-" EmptyString).
  rewrite rangeWindow_parts by assumption. reflexivity.
Qed.

(** The window of [bytes=a-b,rest]: what follows the comma is not read. *)
Lemma rangeWindow_first_of_many a b rest fileSize :
  0 <= a -> 0 <= b ->
  rangeWindow ("bytes=" ++ JS.numToString (JS.Num a) ++ "-" ++ JS.numToString (JS.Num b)
                        ++ "," ++ rest) fileSize
  = (JS.Num a, JS.Num b).
Proof.
  intros Ha Hb. rewrite !numToString_nonneg by assumption.
  change ("-" ++ JS.natToString b ++ "," ++ rest)
    with (String "-" (JS.natToString b ++ String "," rest)).
  rewrite rangeWindow_parts by assumption. cbv zeta.
  rewrite split_hd_app by (apply digits_no_dash, natToString_digits; assumption).
  destruct (split_nonempty "-" rest) as (h & l & E).
  change (JS.split "-" (String "," rest))
    with (match JS.split "-" rest with
          | h :: t => String "," h :: t
          | [] => [String "," EmptyString]
          end).
  rewrite E. cbn [hd].
  rewrite parseInt_number_then by (assumption || reflexivity).
  pose proof (natToString_truthy b) as Ht.
  destruct (JS.natToString b); [discriminate | reflexivity].
Qed.

(** A header without a readable start and without an end. *)
Lemma rangeWindow_unreadable range N :
  let parts := JS.split "-" (JS.removeFirst "bytes=" range) in
  JS.parseInt (hd EmptyString parts) 10 = JS.NaN ->
  nth_error parts 1 = None \/ nth_error parts 1 = Some EmptyString ->
  rangeWindow range (JS.Num N) = (JS.Num 1, JS.Num (N - 1)).
Proof.
  intros parts Hs He. unfold rangeWindow. fold parts. rewrite Hs.
  destruct He as [-> | ->]; cbn; f_equal; f_equal; lia.
Qed.

(** ** X1-X4: what the stream handlers do with the forms of a Range header *)

(** The upstream calls of the three stream handlers for a window that is
    served: the probe, and one GET with the window as its [Range]. *)
Lemma stream_ranged_calls (e : Env) (req : InRequest) (url range : string)
      (hr : UpResponse) (N s t : Z) (log : list Request)
      (ve : Express.Vars) (vw : Worker.Vars) (va : Axios.Vars) :
  q_url req = Some url ->
  Probed e url hr N ->
  0 <= s -> s <= t -> t < N ->
  h_range req = Some range -> JS.strTruthy range = true ->
  rangeWindow range (JS.Num N) = (JS.Num s, JS.Num t) ->
  let log' :=
    (log ++ [HEAD url cdnHeaders; GET url (rangeHeaders (JS.Num s) (JS.Num t))])%list in
  (Express.invalidStreamUrl url = false ->
   seenCalls (serve (Express.stream req) e ve log) = log')
  /\ (Worker.invalidUrl url = false ->
      seenCalls (Worker.serve Worker.RStream req e vw log) = log')
  /\ (Axios.invalidUrl url = false ->
      seenCalls (serve (Axios.stream req) e va log) = log').
Proof.
  intros Hurl [Hhead Hsize] H0 H1 H2 Hr Ht Hw log'. subst log'.
  assert (N <> 0) as HN by lia.
  pose proof (parseIntOpt_absent _ "undefined" _ _ _ Hsize eq_refl) as HsizeA.
  assert (Satisfiable (JS.Num s) (JS.Num t) (JS.Num N)) as Hsat
      by (exists s, t, N; repeat split; assumption).
  pose proof (express_check_satisfiable _ _ _ Hsat) as HcheckE.
  apply rangeInvalid_false in Hsat.
  split; [| split]; intros Hok.
  - rewrite (Express_stream_ranged e ve log req url Hurl Hok hr Hhead N Hsize HN
               range _ _ Hr Ht Hw), HcheckE.
    cbn [seenCalls]. apply app_two.
  - rewrite (Worker_stream_ranged e vw log req url Hurl Hok hr Hhead N Hsize HN
               range _ _ Hr Ht Hw), Hsat.
    cbv zeta. destruct (fetch e (GET url (rangeHeaders (JS.Num s) (JS.Num t))));
      cbn [seenCalls]; apply app_two.
  - rewrite (Axios_stream_ranged e va log req url Hurl Hok hr Hhead N HsizeA HN
               range _ _ Hr Ht Hw), Hsat.
    cbv zeta. destruct (fetch e (GET url (rangeHeaders (JS.Num s) (JS.Num t))));
      cbn [seenCalls streamFailed]; apply app_two.
Qed.

(** X1.  A header [bytes=a-b] with [0 <= a <= b < N] is served with exactly
    these bounds by the three stream handlers: 206, [Content-Range:
    bytes a-b/N], [Content-Length] [b - a + 1].  Their upstream calls are the
    probe and one GET of the url, and the [Range] header of this GET is the
    header of the client. *)
Theorem X1_explicit_range_served (e : Env) (req : InRequest) (url : string)
        (hr gr : UpResponse) (N a b : Z) (log : list Request)
        (ve : Express.Vars) (vw : Worker.Vars) (va : Axios.Vars) :
  q_url req = Some url ->
  Probed e url hr N ->
  0 <= a -> a <= b -> b < N ->
  h_range req
  = Some ("bytes=" ++ JS.numToString (JS.Num a) ++ "-" ++ JS.numToString (JS.Num b)) ->
  fetch e (GET url (rangeHeaders (JS.Num a) (JS.Num b))) = FetchOk gr ->
  exists q,
    rq_url q = url /\ rq_method q = "GET"
    /\ header "Range" (rq_headers q) = h_range req
    /\ (Express.invalidStreamUrl url = false ->
        Framing (serve (Express.stream req) e ve log) true a b N
        /\ seenCalls (serve (Express.stream req) e ve log)
           = (log ++ [HEAD url cdnHeaders; q])%list)
    /\ (Worker.invalidUrl url = false ->
        Framing (Worker.serve Worker.RStream req e vw log) true a b N
        /\ seenCalls (Worker.serve Worker.RStream req e vw log)
           = (log ++ [HEAD url cdnHeaders; q])%list)
    /\ (Axios.invalidUrl url = false ->
        Framing (serve (Axios.stream req) e va log) true a b N
        /\ seenCalls (serve (Axios.stream req) e va log)
           = (log ++ [HEAD url cdnHeaders; q])%list).
Proof.
  intros Hurl HP Ha Hab HbN Hr Hget.
  assert (0 <= b) as Hb by lia.
  assert (JS.strTruthy
            ("bytes=" ++ JS.numToString (JS.Num a) ++ "-" ++ JS.numToString (JS.Num b))
          = true) as Ht by reflexivity.
  destruct (stream_ranged_framing e req url _ hr gr N a b log ve vw va
              Hurl HP Ha Hab HbN Hr Ht (rangeWindow_explicit a b _ Ha Hb) Hget)
    as (F1 & F2 & F3).
  destruct (stream_ranged_calls e req url _ hr N a b log ve vw va
              Hurl HP Ha Hab HbN Hr Ht (rangeWindow_explicit a b _ Ha Hb))
    as (C1 & C2 & C3).
  exists (GET url (rangeHeaders (JS.Num a) (JS.Num b))).
  split; [reflexivity |]. split; [reflexivity |].
  split; [rewrite Hr; reflexivity |].
  split; [| split]; intros Hok; split; auto.
Qed.

Lemma X1_witness :
  let x := Worker.serve Worker.RStream
             (Stub.request (Some Stub.cdnUrl) (Some "bytes=10-19"))
             (Stub.upstream 0 (Some "1000") []) Worker.initial [] in
  exists q,
    header "Range" (rq_headers q) = Some "bytes=10-19"
    /\ Framing x true 10 19 1000
    /\ seenCalls x = [HEAD Stub.cdnUrl cdnHeaders; q].
Proof.
  assert (0 <= 10) as Ha by lia.
  assert (10 <= 19) as Hab by lia.
  assert (19 < 1000) as HbN by lia.
  destruct (X1_explicit_range_served (Stub.upstream 0 (Some "1000") [])
              (Stub.request (Some Stub.cdnUrl) (Some "bytes=10-19")) Stub.cdnUrl
              (Stub.response (Some "1000") []) (Stub.response (Some "1000") [])
              1000 10 19 [] Express.initial Worker.initial Axios.initial
              eq_refl (conj eq_refl eq_refl) Ha Hab HbN eq_refl eq_refl)
    as (q & _ & _ & Hrange & _ & Hw & _).
  exists q. split; [exact Hrange |]. exact (Hw eq_refl).
Defined.

(** The three stream handlers on a window that starts at or after the end
    of the resource. *)
Lemma stream_start_beyond (e : Env) (req : InRequest) (url range : string)
      (hr : UpResponse) (N a : Z) (end_ : JS.num) (log : list Request)
      (ve : Express.Vars) (vw : Worker.Vars) (va : Axios.Vars) :
  q_url req = Some url ->
  Probed e url hr N -> N <> 0 -> N <= a ->
  h_range req = Some range -> JS.strTruthy range = true ->
  rangeWindow range (JS.Num N) = (JS.Num a, end_) ->
  (Express.invalidStreamUrl url = false ->
   Unsatisfied (serve (Express.stream req) e ve log) N)
  /\ (Worker.invalidUrl url = false ->
      Unsatisfied (Worker.serve Worker.RStream req e vw log) N)
  /\ (Axios.invalidUrl url = false ->
      Unsatisfied (serve (Axios.stream req) e va log) N).
Proof.
  intros Hurl HP HN Ha Hr Ht Hw.
  assert (~ Satisfiable (JS.Num a) end_ (JS.Num N)) as Hns.
  { intros (s & t & n & [= <-] & _ & [= <-] & H0 & H1 & H2). lia. }
  split; [| split]; intros Hok.
  - destruct HP as [Hhead Hsize].
    rewrite (Express_stream_ranged e ve log req url Hurl Hok hr Hhead N Hsize HN
               range _ _ Hr Ht Hw).
    cbn [JS.ge]. replace (N <=? a) with true by (symmetry; apply Z.leb_le; lia).
    split; reflexivity.
  - exact (Worker_stream_unsatisfiable e vw log req url range hr N _ _
             Hurl Hok HP HN Hr Ht Hw Hns).
  - exact (Axios_stream_unsatisfiable e va log req url range hr N _ _
             Hurl Hok HP HN Hr Ht Hw Hns).
Qed.

(** X2.  An open-ended header [bytes=a-] is served to the end of the
    resource, the window [[a, N - 1]], when [a < N], and answered 416 when
    [a >= N], by the three stream handlers alike. *)
Theorem X2_open_ended_range (e : Env) (req : InRequest) (url : string)
        (hr : UpResponse) (N a : Z) (log : list Request)
        (ve : Express.Vars) (vw : Worker.Vars) (va : Axios.Vars) :
  q_url req = Some url ->
  Probed e url hr N -> 0 < N -> 0 <= a ->
  h_range req = Some ("bytes=" ++ JS.numToString (JS.Num a) ++ "-") ->
  (a < N ->
   forall gr,
     fetch e (GET url (rangeHeaders (JS.Num a) (JS.Num (N - 1)))) = FetchOk gr ->
     (Express.invalidStreamUrl url = false ->
      Framing (serve (Express.stream req) e ve log) true a (N - 1) N)
     /\ (Worker.invalidUrl url = false ->
         Framing (Worker.serve Worker.RStream req e vw log) true a (N - 1) N)
     /\ (Axios.invalidUrl url = false ->
         Framing (serve (Axios.stream req) e va log) true a (N - 1) N))
  /\ (N <= a ->
      (Express.invalidStreamUrl url = false ->
       Unsatisfied (serve (Express.stream req) e ve log) N)
      /\ (Worker.invalidUrl url = false ->
          Unsatisfied (Worker.serve Worker.RStream req e vw log) N)
      /\ (Axios.invalidUrl url = false ->
          Unsatisfied (serve (Axios.stream req) e va log) N)).
Proof.
  intros Hurl HP HN Ha Hr.
  pose proof (rangeWindow_open a (JS.Num N) Ha) as Hw. cbn [JS.sub] in Hw.
  assert (JS.strTruthy ("bytes=" ++ JS.numToString (JS.Num a) ++ "-") = true) as Ht
      by reflexivity.
  split.
  - intros HaN gr Hget.
    refine (stream_ranged_framing e req url _ hr gr N a (N - 1) log ve vw va
              Hurl HP Ha _ _ Hr Ht Hw Hget); lia.
  - intros HaN.
    refine (stream_start_beyond e req url _ hr N a _ log ve vw va
              Hurl HP _ HaN Hr Ht Hw). lia.
Qed.

Lemma X2_witness :
  Framing (Worker.serve Worker.RStream
             (Stub.request (Some Stub.cdnUrl) (Some "bytes=900-"))
             (Stub.upstream 0 (Some "1000") []) Worker.initial [])
          true 900 999 1000.
Proof.
  assert (0 < 1000) as HN by lia.
  assert (0 <= 900) as Ha by lia.
  assert (900 < 1000) as HaN by lia.
  exact (proj1 (proj2
           (proj1 (X2_open_ended_range (Stub.upstream 0 (Some "1000") [])
                     (Stub.request (Some Stub.cdnUrl) (Some "bytes=900-")) Stub.cdnUrl
                     (Stub.response (Some "1000") []) 1000 900 []
                     Express.initial Worker.initial Axios.initial
                     eq_refl (conj eq_refl eq_refl) HN Ha eq_refl)
                  HaN (Stub.response (Some "1000") []) eq_refl)) eq_refl).
Defined.

(** The stream handlers and the download handler of the Worker read a
    [Range] header through its truthiness and its window alone. *)
Lemma answers_by_window (r1 r2 : string) (req : InRequest) (e : Env) :
  JS.strTruthy r1 = JS.strTruthy r2 ->
  (forall n, rangeWindow r1 n = rangeWindow r2 n) ->
  (forall s, Express.stream (withRange (Some r1) req) e s
             = Express.stream (withRange (Some r2) req) e s)
  /\ (forall s, Worker.handleStream (withRange (Some r1) req) e s
                = Worker.handleStream (withRange (Some r2) req) e s)
  /\ (forall s, Worker.handleDownload (withRange (Some r1) req) e s
                = Worker.handleDownload (withRange (Some r2) req) e s)
  /\ (forall s, Axios.stream (withRange (Some r1) req) e s
                = Axios.stream (withRange (Some r2) req) e s).
Proof.
  intros Ht Hw.
  split; [| split; [| split]]; intros s.
  - unfold Express.stream. cbn [withRange q_url h_range].
    destruct (q_url req) as [url |]; [| reflexivity].
    destruct (Express.invalidStreamUrl url); [reflexivity |].
    monad. destruct (fetch e (HEAD url cdnHeaders)) as [hr | m]; [| reflexivity].
    rewrite Ht, Hw. reflexivity.
  - unfold Worker.handleStream. cbn [withRange q_url h_range].
    destruct (q_url req) as [url |]; [| reflexivity].
    destruct (Worker.invalidUrl url); [reflexivity |].
    monad. destruct (fetch e (HEAD url cdnHeaders)) as [hr | m]; [| reflexivity].
    rewrite Ht, Hw. reflexivity.
  - unfold Worker.handleDownload. cbn [withRange q_url h_range].
    destruct (q_url req) as [url |]; [| reflexivity].
    destruct (Worker.invalidUrl url); [reflexivity |].
    monad. destruct (fetch e (HEAD url cdnHeaders)) as [hr | m]; [| reflexivity].
    rewrite Ht, Hw. reflexivity.
  - unfold Axios.stream. cbn [withRange q_url h_range].
    destruct (Axios.invalidUrl _); [reflexivity |].
    monad. destruct (Axios.probe _ e _) as [[[fileSize contentType] | m] s1];
      [| reflexivity].
    rewrite Ht, Hw. reflexivity.
Qed.

(** X3.  Of a list of ranges [bytes=a-b,rest] only the first is read: the
    window is [[a, b]] whatever follows the comma and whatever the length,
    and the stream handlers of the three variants and the download handler of
    the Worker answer the list as they answer [bytes=a-b] alone, with the same
    status, headers, body and upstream calls, be the first range satisfiable
    or not.  (For bounds that JavaScript holds exactly.) *)
Theorem X3_first_range_of_many (e : Env) (req : InRequest) (rest : string)
        (a b : Z) (log : list Request)
        (ve : Express.Vars) (vw : Worker.Vars) (va : Axios.Vars) :
  0 <= a <= 2 ^ 53 -> 0 <= b <= 2 ^ 53 ->
  let one := "bytes=" ++ JS.numToString (JS.Num a) ++ "-" ++ JS.numToString (JS.Num b) in
  let many := "bytes=" ++ JS.numToString (JS.Num a) ++ "-" ++ JS.numToString (JS.Num b)
                       ++ "," ++ rest in
  (forall n, rangeWindow many n = (JS.Num a, JS.Num b))
  /\ serve (Express.stream (withRange (Some many) req)) e ve log
     = serve (Express.stream (withRange (Some one) req)) e ve log
  /\ Worker.serve Worker.RStream (withRange (Some many) req) e vw log
     = Worker.serve Worker.RStream (withRange (Some one) req) e vw log
  /\ Worker.serve Worker.RDownload (withRange (Some many) req) e vw log
     = Worker.serve Worker.RDownload (withRange (Some one) req) e vw log
  /\ serve (Axios.stream (withRange (Some many) req)) e va log
     = serve (Axios.stream (withRange (Some one) req)) e va log.
Proof.
  intros [Ha _] [Hb _] one many.
  assert (forall n, rangeWindow many n = rangeWindow one n) as Hw.
  { intros n. subst one many.
    rewrite rangeWindow_first_of_many, rangeWindow_explicit by assumption.
    reflexivity. }
  assert (JS.strTruthy many = JS.strTruthy one) as Ht by reflexivity.
  destruct (answers_by_window many one req e Ht Hw) as (H1 & H2 & H3 & H4).
  split.
  { intros n. subst many. apply rangeWindow_first_of_many; assumption. }
  unfold serve, Worker.serve, Worker.fetchHandler, Worker.dispatch, tryCatch.
  rewrite H1, H2, H3, H4. repeat split; reflexivity.
Qed.

Lemma X3_witness :
  Worker.serve Worker.RStream
    (withRange (Some "bytes=0-9,500-599") (Stub.request (Some Stub.cdnUrl) None))
    (Stub.upstream 0 (Some "1000") []) Worker.initial []
  = Worker.serve Worker.RStream
      (withRange (Some "bytes=0-9") (Stub.request (Some Stub.cdnUrl) None))
      (Stub.upstream 0 (Some "1000") []) Worker.initial [].
Proof.
  assert (0 <= 0 <= 2 ^ 53) as Ha by lia.
  assert (0 <= 9 <= 2 ^ 53) as Hb by lia.
  exact (proj1 (proj2 (proj2
           (X3_first_range_of_many (Stub.upstream 0 (Some "1000") [])
              (Stub.request (Some Stub.cdnUrl) None) "500-599" 0 9 []
              Express.initial Worker.initial Axios.initial Ha Hb)))).
Defined.

(** A list whose first range is beyond the resource is answered 416, as
    that range alone is, whatever the second. *)
Example first_range_decides :
  seenStatus (Worker.serve Worker.RStream
                (Stub.request (Some Stub.cdnUrl) (Some "bytes=2000-2999,0-9"))
                (Stub.upstream 0 (Some "1000") []) Worker.initial []) = 416.
Proof. reflexivity. Qed.

(** X4.  A header whose start cannot be read and that has no end, such as
    [bytes=-] or a word without a dash, is not refused: the suffix rule turns
    it into the window [[1, N - 1]], which the three stream handlers serve
    with 206 when [N >= 2]. *)
Theorem X4_unreadable_range_served (e : Env) (req : InRequest) (url range : string)
        (hr gr : UpResponse) (N : Z) (log : list Request)
        (ve : Express.Vars) (vw : Worker.Vars) (va : Axios.Vars) :
  q_url req = Some url ->
  Probed e url hr N -> 2 <= N ->
  h_range req = Some range -> JS.strTruthy range = true ->
  JS.parseInt (hd EmptyString (JS.split "-" (JS.removeFirst "bytes=" range))) 10 = JS.NaN ->
  nth_error (JS.split "-" (JS.removeFirst "bytes=" range)) 1 = None
  \/ nth_error (JS.split "-" (JS.removeFirst "bytes=" range)) 1 = Some EmptyString ->
  fetch e (GET url (rangeHeaders (JS.Num 1) (JS.Num (N - 1)))) = FetchOk gr ->
  rangeWindow range (JS.Num N) = (JS.Num 1, JS.Num (N - 1))
  /\ (Express.invalidStreamUrl url = false ->
      Framing (serve (Express.stream req) e ve log) true 1 (N - 1) N)
  /\ (Worker.invalidUrl url = false ->
      Framing (Worker.serve Worker.RStream req e vw log) true 1 (N - 1) N)
  /\ (Axios.invalidUrl url = false ->
      Framing (serve (Axios.stream req) e va log) true 1 (N - 1) N).
Proof.
  intros Hurl HP HN Hr Ht Hs He Hget.
  pose proof (rangeWindow_unreadable range N Hs He) as Hw.
  split; [exact Hw |].
  refine (stream_ranged_framing e req url _ hr gr N 1 (N - 1) log ve vw va
            Hurl HP _ _ _ Hr Ht Hw Hget); lia.
Qed.

Lemma X4_witness :
  Framing (Worker.serve Worker.RStream
             (Stub.request (Some Stub.cdnUrl) (Some "bytes=-"))
             (Stub.upstream 0 (Some "1000") []) Worker.initial [])
          true 1 999 1000.
Proof.
  assert (2 <= 1000) as HN by lia.
  exact (proj1 (proj2 (proj2
           (X4_unreadable_range_served (Stub.upstream 0 (Some "1000") [])
              (Stub.request (Some Stub.cdnUrl) (Some "bytes=-")) Stub.cdnUrl "bytes=-"
              (Stub.response (Some "1000") []) (Stub.response (Some "1000") [])
              1000 [] Express.initial Worker.initial Axios.initial
              eq_refl (conj eq_refl eq_refl) HN eq_refl eq_refl eq_refl
              (or_intror eq_refl) eq_refl))) eq_refl).
Defined.

Example unreadable_word :
  rangeWindow "none" (JS.Num 1000) = (JS.Num 1, JS.Num 999).
Proof. reflexivity. Qed.

(** ** X5: a partial answer lies within the resource *)

Lemma truthy_number fs :
  negb (JS.numTruthy fs) || JS.isNaN fs = false -> exists n, fs = JS.Num n /\ n <> 0.
Proof.
  destruct fs as [| n]; [discriminate |]. cbn.
  rewrite orb_false_r. intros H. apply negb_false_iff, negb_true_iff, Z.eqb_neq in H.
  exists n. split; [reflexivity | assumption].
Qed.

Lemma last_snoc {A} (l : list A) (x d : A) : last (l ++ [x])%list d = x.
Proof.
  induction l as [| y l IH]; [reflexivity |].
  cbn [app]. destruct (l ++ [x])%list eqn:E; [destruct l; discriminate |].
  exact IH.
Qed.

(** The probe of the axios stream handler only adds to the log of calls. *)
Lemma Axios_probe_user url e (s : Store Axios.St) :
  user (snd (Axios.probe url e s)) = user s.
Proof.
  unfold Axios.probe. monad.
  destruct (fetch e (HEAD url cdnHeaders)); [reflexivity |].
  destruct (fetch e (GET url (app cdnHeaders [("Range", "bytes=0-0")]))); reflexivity.
Qed.

(** X5.  Whenever the stream or the download handler of the Worker, or the
    stream handler of the axios variant, answers 206, the window lies within
    the resource: [0 <= start <= end < N], the headers announce exactly that
    window and its length, and the body was asked upstream with that range. *)
Theorem X5_partial_within_resource (e : Env) (req : InRequest) (log : list Request)
        (vw : Worker.Vars) (va : Axios.Vars) :
  (seenStatus (Worker.serve Worker.RStream req e vw log) = 206 ->
   WithinResource (Worker.serve Worker.RStream req e vw log))
  /\ (seenStatus (Worker.serve Worker.RDownload req e vw log) = 206 ->
      WithinResource (Worker.serve Worker.RDownload req e vw log))
  /\ (seenStatus (serve (Axios.stream req) e va log) = 206 ->
      WithinResource (serve (Axios.stream req) e va log)).
Proof.
  split; [| split].
  - monad. unfold Worker.handleStream.
    destruct (q_url req) as [url |]; [| cbn; discriminate].
    destruct (Worker.invalidUrl url); [cbn; discriminate |].
    monad.
    destruct (fetch e (HEAD url cdnHeaders)) as [hr | m]; [| cbn; discriminate].
    set (fileSize := JS.parseIntOpt "null" (h_get (up_headers hr) "content-length") 0).
    destruct (negb (JS.numTruthy fileSize) || JS.isNaN fileSize) eqn:Hfs;
      [cbn; discriminate |].
    destruct (truthy_number _ Hfs) as (n & Hn & _). rewrite Hn.
    destruct (h_range req) as [range |];
      [destruct (JS.strTruthy range); cbn [negb] |];
      try (destruct (fetch e (GET url cdnHeaders)); cbn; discriminate).
    destruct (rangeWindow range (JS.Num n)) as [start end_].
    destruct (rangeInvalid start end_ (JS.Num n)) eqn:Hinv; [cbn; discriminate |].
    apply rangeInvalid_false in Hinv.
    destruct Hinv as (s & t & n' & -> & -> & [= <-] & H0 & H1 & H2).
    destruct (fetch e (GET url (rangeHeaders (JS.Num s) (JS.Num t)))) as [gr | m];
      [| cbn; discriminate].
    intros _. exists s, t, n, url.
    cbn [seenHeaders seenCalls calls user vars res resHeaders Worker.headers].
    rewrite last_snoc.
    repeat split; try assumption; reflexivity.
  - monad. unfold Worker.handleDownload.
    destruct (q_url req) as [url |]; [| cbn; discriminate].
    destruct (Worker.invalidUrl url); [cbn; discriminate |].
    monad.
    destruct (fetch e (HEAD url cdnHeaders)) as [hr | m]; [| cbn; discriminate].
    set (fileSize := JS.parseIntOpt "null" (h_get (up_headers hr) "content-length") 0).
    destruct (negb (JS.numTruthy fileSize) || JS.isNaN fileSize) eqn:Hfs;
      [cbn; discriminate |].
    destruct (truthy_number _ Hfs) as (n & Hn & _). rewrite Hn.
    destruct (h_range req) as [range |];
      [destruct (JS.strTruthy range); cbn [negb] |];
      try (destruct (fetch e (GET url cdnHeaders));
           [destruct (JS.fetchHeaderValue _) |]; cbn; discriminate).
    destruct (rangeWindow range (JS.Num n)) as [start end_].
    destruct (rangeInvalid start end_ (JS.Num n)) eqn:Hinv; [cbn; discriminate |].
    apply rangeInvalid_false in Hinv.
    destruct Hinv as (s & t & n' & -> & -> & [= <-] & H0 & H1 & H2).
    destruct (fetch e (GET url (rangeHeaders (JS.Num s) (JS.Num t)))) as [gr | m];
      [| cbn; discriminate].
    destruct (JS.fetchHeaderValue _); [| cbn; discriminate].
    intros _. exists s, t, n, url.
    cbn [seenHeaders seenCalls calls user vars res resHeaders Worker.headers].
    rewrite last_snoc.
    repeat split; try assumption; reflexivity.
  - unfold Axios.stream. monad.
    set (url := JS.orElse (q_url req) "").
    destruct (Axios.invalidUrl url); [cbn; discriminate |].
    monad.
    pose proof (Axios_probe_user url e
                  {| user := {| vars := va; res := freshRes |}; calls := log |}) as Hu.
    destruct (Axios.probe url e
                {| user := {| vars := va; res := freshRes |}; calls := log |})
      as [[[fileSize contentType] | m] [u1 log1]];
      cbn [snd user] in Hu; subst u1; [| cbn; discriminate].
    destruct (negb (JS.numTruthy fileSize) || JS.isNaN fileSize) eqn:Hfs;
      [cbn; discriminate |].
    destruct (truthy_number _ Hfs) as (n & Hn & _). rewrite Hn.
    destruct (h_range req) as [range |];
      [destruct (JS.strTruthy range); cbn [negb] |];
      try (destruct (fetch e (GET url cdnHeaders)); cbn; discriminate).
    destruct (rangeWindow range (JS.Num n)) as [start end_].
    destruct (rangeInvalid start end_ (JS.Num n)) eqn:Hinv; [cbn; discriminate |].
    apply rangeInvalid_false in Hinv.
    destruct Hinv as (s & t & n' & -> & -> & [= <-] & H0 & H1 & H2).
    destruct (fetch e (GET url (rangeHeaders (JS.Num s) (JS.Num t)))) as [gr | m];
      [| cbn; discriminate].
    intros _. exists s, t, n, url.
    monad. rewrite last_snoc.
    repeat split; try assumption; reflexivity.
Qed.

Lemma X5_witness :
  WithinResource (Worker.serve Worker.RDownload
                    (Stub.request (Some Stub.cdnUrl) (Some "bytes=10-19"))
                    (Stub.upstream 0 (Some "1000") []) Worker.initial []).
Proof.
  exact (proj1 (proj2
           (X5_partial_within_resource (Stub.upstream 0 (Some "1000") [])
              (Stub.request (Some Stub.cdnUrl) (Some "bytes=10-19")) []
              Worker.initial Axios.initial)) eq_refl).
Defined.

(** The Express stream handler has no such bound (see C2). *)
Example express_partial_beyond_resource :
  let x := serve (Express.stream (Stub.request (Some Stub.cdnUrl) (Some "bytes=0-2000")))
                 (Stub.upstream 0 (Some "1000") []) Express.initial [] in
  seenStatus x = 206
  /\ header "Content-Length" (seenHeaders x) = Some "2001".
Proof. vm_compute. split; reflexivity. Qed.

(** ** X6-X9: [sanitizeFilename] *)

Lemma removeHostile_clean s :
  strForall (fun c => negb (hostile c)) (removeHostile s) = true.
Proof.
  induction s as [| c s IH]; [reflexivity |].
  cbn [removeHostile]. destruct (hostile c) eqn:E; [exact IH |].
  cbn [strForall]. rewrite E, IH. reflexivity.
Qed.

Lemma collapseRuns_keeps (q p : ascii -> bool) b s :
  q "_"%char = true -> strForall q s = true -> strForall q (collapseRuns p b s) = true.
Proof.
  intros Hq. revert b. induction s as [| c s IH]; intros b H; [reflexivity |].
  cbn [strForall] in H. apply andb_true_iff in H as [Hc Hs].
  cbn [collapseRuns]. destruct (p c); [destruct b |]; cbn [strForall];
    rewrite ?Hq, ?Hc, IH by assumption; reflexivity.
Qed.

Lemma collapseRuns_removes (p : ascii -> bool) b s :
  p "_"%char = false -> strForall (fun c => negb (p c)) (collapseRuns p b s) = true.
Proof.
  intros Hp. revert b. induction s as [| c s IH]; intros b; [reflexivity |].
  cbn [collapseRuns]. destruct (p c) eqn:E; [destruct b |]; cbn [strForall];
    rewrite ?Hp, ?E, IH; reflexivity.
Qed.

Lemma collapseRuns_nothing (p : ascii -> bool) b s :
  strForall (fun c => negb (p c)) s = true -> collapseRuns p b s = s.
Proof.
  revert b. induction s as [| c s IH]; intros b H; [reflexivity |].
  cbn [strForall] in H. apply andb_true_iff in H as [Hc Hs].
  apply negb_true_iff in Hc. cbn [collapseRuns]. rewrite Hc, (IH false Hs). reflexivity.
Qed.

Lemma removeHostile_nothing s :
  strForall (fun c => negb (hostile c)) s = true -> removeHostile s = s.
Proof.
  induction s as [| c s IH]; intros H; [reflexivity |].
  cbn [strForall] in H. apply andb_true_iff in H as [Hc Hs].
  apply negb_true_iff in Hc. cbn [removeHostile]. rewrite Hc, (IH Hs). reflexivity.
Qed.

Lemma collapse_noDouble b s : noDouble b (collapseRuns (Ascii.eqb "_") b s) = true.
Proof.
  revert b. induction s as [| c s IH]; intros b; [reflexivity |].
  cbn [collapseRuns]. destruct (Ascii.eqb "_" c) eqn:E.
  - destruct b; [exact (IH true) |].
    cbn [noDouble]. rewrite Ascii.eqb_refl, (IH true). reflexivity.
  - cbn [noDouble]. rewrite E. exact (IH false).
Qed.

Lemma noDouble_collapse_nothing b s :
  noDouble b s = true -> collapseRuns (Ascii.eqb "_") b s = s.
Proof.
  revert b. induction s as [| c s IH]; intros b H; [reflexivity |].
  cbn [noDouble] in H. cbn [collapseRuns].
  destruct (Ascii.eqb "_" c) eqn:E.
  - apply andb_true_iff in H as [Hb Hs]. apply negb_true_iff in Hb. subst b.
    apply Ascii.eqb_eq in E. subst c. rewrite (IH true Hs). reflexivity.
  - rewrite (IH false H). reflexivity.
Qed.

Lemma trimEnd_nothing s :
  strForall (fun c => negb (JS.isWhite c)) s = true -> JS.trimEnd s = s.
Proof.
  induction s as [| c s IH]; intros H; [reflexivity |].
  cbn [strForall] in H. apply andb_true_iff in H as [Hc Hs].
  apply negb_true_iff in Hc. cbn [JS.trimEnd]. rewrite (IH Hs), Hc.
  destruct s; reflexivity.
Qed.

Lemma trim_nothing s :
  strForall (fun c => negb (JS.isWhite c)) s = true -> JS.trim s = s.
Proof.
  intros H. unfold JS.trim.
  assert (JS.trimStart s = s) as ->.
  { destruct s as [| c s]; [reflexivity |].
    cbn [strForall] in H. apply andb_true_iff in H as [Hc _].
    apply negb_true_iff in Hc. cbn [JS.trimStart]. rewrite Hc. reflexivity. }
  apply trimEnd_nothing, H.
Qed.

(** The name before the last step, [trim]. *)
Lemma untrimmed_plain s :
  let t := collapseRuns (Ascii.eqb "_") false
             (collapseRuns JS.isWhite false (removeHostile s)) in
  strForall (fun c => negb (hostile c)) t = true
  /\ strForall (fun c => negb (JS.isWhite c)) t = true.
Proof.
  split.
  - apply collapseRuns_keeps; [reflexivity |].
    apply collapseRuns_keeps; [reflexivity |].
    apply removeHostile_clean.
  - apply (collapseRuns_keeps (fun c => negb (JS.isWhite c))); [reflexivity |].
    apply collapseRuns_removes. reflexivity.
Qed.

Lemma sanitize_untrimmed s :
  sanitizeFilename s
  = collapseRuns (Ascii.eqb "_") false
      (collapseRuns JS.isWhite false (removeHostile s)).
Proof. unfold sanitizeFilename. apply trim_nothing, untrimmed_plain. Qed.

Lemma strForall_and (p q : ascii -> bool) s :
  strForall p s = true -> strForall q s = true ->
  strForall (fun c => p c && q c) s = true.
Proof.
  induction s as [| c s IH]; [reflexivity |]. cbn [strForall].
  intros Hp Hq. apply andb_true_iff in Hp as [Hp1 Hp2].
  apply andb_true_iff in Hq as [Hq1 Hq2]. rewrite Hp1, Hq1, IH by assumption.
  reflexivity.
Qed.

Lemma sanitized_parts s :
  strForall (fun c => negb (hostile c)) (sanitizeFilename s) = true
  /\ strForall (fun c => negb (JS.isWhite c)) (sanitizeFilename s) = true.
Proof. rewrite sanitize_untrimmed. apply untrimmed_plain. Qed.

(** X6.  A sanitized name holds none of the nine characters the first step
    removes (angle brackets, colon, double quote, slash, backslash, bar,
    question mark, asterisk) and no white space. *)
Theorem X6_sanitize_plain (s : string) :
  strForall plain (sanitizeFilename s) = true.
Proof.
  rewrite sanitize_untrimmed.
  destruct (untrimmed_plain s) as [H1 H2].
  apply strForall_and; assumption.
Qed.

(** X7.  A sanitized name never holds two underscores in a row. *)
Theorem X7_sanitize_single_underscores (s : string) :
  noDouble false (sanitizeFilename s) = true.
Proof. rewrite sanitize_untrimmed. apply collapse_noDouble. Qed.

(** X8.  Sanitizing is idempotent: a sanitized name is left as it is. *)
Theorem X8_sanitize_idempotent (s : string) :
  sanitizeFilename (sanitizeFilename s) = sanitizeFilename s.
Proof.
  pose proof (sanitized_parts s) as [Hh Hw].
  pose proof (collapse_noDouble false
                (collapseRuns JS.isWhite false (removeHostile s))) as Hd.
  rewrite <- sanitize_untrimmed in Hd.
  rewrite (sanitize_untrimmed (sanitizeFilename s)).
  rewrite (removeHostile_nothing _ Hh), (collapseRuns_nothing _ _ _ Hw).
  apply noDouble_collapse_nothing, Hd.
Qed.

Lemma white_not_hostile c : JS.isWhite c = true -> hostile c = false.
Proof.
  intros Hc. unfold JS.isWhite in Hc. unfold hostile. cbn [existsb].
  repeat match goal with
         | |- context [Ascii.eqb c ?k] =>
             replace (Ascii.eqb c k) with false
               by (symmetry; apply Ascii.eqb_neq; intros ->; vm_compute in Hc;
                   discriminate Hc)
         end.
  reflexivity.
Qed.

Lemma removeHostile_app a b : removeHostile (a ++ b) = removeHostile a ++ removeHostile b.
Proof.
  induction a as [| c a IH]; [reflexivity |].
  change (String c a ++ b) with (String c (a ++ b)).
  cbn [removeHostile]. rewrite IH. destruct (hostile c); reflexivity.
Qed.

(** A text that ends with a character of the class ends with an underscore
    after the runs are collapsed, unless it lies within a run that began
    before it. *)
Lemma collapse_last (p : ascii -> bool) c x :
  p c = true ->
  forall b,
    (exists t, collapseRuns p b (x ++ String c EmptyString) = t ++ "_")
    \/ (b = true /\ collapseRuns p b (x ++ String c EmptyString) = EmptyString).
Proof.
  intros Hc. induction x as [| d x IH]; intros b.
  - change (EmptyString ++ String c EmptyString) with (String c EmptyString).
    cbn [collapseRuns]. rewrite Hc. destruct b.
    + right. split; reflexivity.
    + left. exists EmptyString. reflexivity.
  - change (String d x ++ String c EmptyString) with (String d (x ++ String c EmptyString)).
    cbn [collapseRuns]. destruct (p d); [destruct b |].
    + exact (IH true).
    + left. destruct (IH true) as [[t ->] | [_ ->]].
      * exists (String "_" t). reflexivity.
      * exists EmptyString. reflexivity.
    + left. destruct (IH false) as [[t ->] | [H _]]; [| discriminate H].
      exists (String d t). reflexivity.
Qed.

(** X9.  The last step of [sanitizeFilename], [trim], never removes a
    character: white space at the ends has become an underscore before it
    runs.  So a title that begins with white space gives a name that begins
    with an underscore, and a title that ends with white space gives a name
    that ends with one. *)
Theorem X9_sanitize_trim_removes_nothing (s : string) :
  sanitizeFilename s
  = collapseRuns (Ascii.eqb "_") false
      (collapseRuns JS.isWhite false (removeHostile s))
  /\ (forall c r, s = String c r -> JS.isWhite c = true ->
      exists t, sanitizeFilename s = String "_" t)
  /\ (forall r c, s = r ++ String c EmptyString -> JS.isWhite c = true ->
      exists t, sanitizeFilename s = t ++ "_").
Proof.
  split; [apply sanitize_untrimmed | split].
  - intros c r -> Hc. rewrite sanitize_untrimmed.
    cbn [removeHostile]. rewrite (white_not_hostile c Hc). cbn [collapseRuns]. rewrite Hc.
    cbn [collapseRuns]. rewrite Ascii.eqb_refl. eexists. reflexivity.
  - intros r c -> Hc. rewrite sanitize_untrimmed, removeHostile_app.
    cbn [removeHostile]. rewrite (white_not_hostile c Hc).
    destruct (collapse_last JS.isWhite c (removeHostile r) Hc false)
      as [[t ->] | [H _]]; [| discriminate H].
    destruct (collapse_last (Ascii.eqb "_") "_" t (Ascii.eqb_refl _) false)
      as [[u ->] | [H _]]; [| discriminate H].
    exists u. reflexivity.
Qed.

Lemma X9_witness :
  (exists t, sanitizeFilename " A " = String "_" t)
  /\ (exists t, sanitizeFilename " A " = t ++ "_").
Proof.
  split.
  - exact (proj1 (proj2 (X9_sanitize_trim_removes_nothing " A ")) " "%char "A "
             eq_refl eq_refl).
  - exact (proj2 (proj2 (X9_sanitize_trim_removes_nothing " A ")) " A" " "%char
             eq_refl eq_refl).
Defined.

Example sanitize_spaces : sanitizeFilename "  The  Show: Part 1?  " = "_The_Show_Part_1_".
Proof. reflexivity. Qed.

(** ** X10: the extension of the download name *)

Lemma length_append (a b : string) :
  String.length (a ++ b) = (String.length a + String.length b)%nat.
Proof. induction a as [| c a IH]; simpl; [reflexivity | rewrite IH; reflexivity]. Qed.

Lemma drop_append (a b : string) : JS.drop (String.length a) (a ++ b) = b.
Proof. induction a as [| c a IH]; simpl; [reflexivity | exact IH]. Qed.

Lemma endsWith_append (a p : string) : JS.endsWith (a ++ p) p = true.
Proof.
  unfold JS.endsWith. rewrite length_append.
  replace (String.length a + String.length p - String.length p)%nat
    with (String.length a) by lia.
  rewrite drop_append, String.eqb_refl.
  replace (String.length p <=? String.length a + String.length p)%nat with true
    by (symmetry; apply Nat.leb_le; lia).
  reflexivity.
Qed.

(** X10.  On every 200 (and 206 in the Worker) of a download handler the
    name in [Content-Disposition] ends with [.mp4].  The Express handler
    leaves a name that already ends with [.mp4] as it is; the Worker and
    axios handlers append the extension in every case. *)
Theorem X10_download_name_extension (e : Env) (req : InRequest) (log : list Request)
        (ve : Express.Vars) (vw : Worker.Vars) (va : Axios.Vars) :
  (seenStatus (serve (Express.download req) e ve log) = 200 ->
   exists f,
     header "Content-Disposition" (seenHeaders (serve (Express.download req) e ve log))
     = Some (contentDisposition f)
     /\ JS.endsWith f ".mp4" = true
     /\ (JS.endsWith (baseFilename req) ".mp4" = true -> f = baseFilename req))
  /\ (seenStatus (Worker.serve Worker.RDownload req e vw log) = 200
      \/ seenStatus (Worker.serve Worker.RDownload req e vw log) = 206 ->
      header "Content-Disposition"
             (seenHeaders (Worker.serve Worker.RDownload req e vw log))
      = Some (contentDisposition (baseFilename req ++ ".mp4"))
      /\ JS.endsWith (baseFilename req ++ ".mp4") ".mp4" = true)
  /\ (seenStatus (serve (Axios.download req) e va log) = 200 ->
      header "Content-Disposition" (seenHeaders (serve (Axios.download req) e va log))
      = Some (contentDisposition (baseFilename req ++ ".mp4"))
      /\ JS.endsWith (baseFilename req ++ ".mp4") ".mp4" = true).
Proof.
  split; [| split].
  - unfold Express.download. monad.
    destruct (q_url req) as [[| c url] |]; try (cbn; discriminate).
    monad.
    destruct (fetch e (HEAD (String c url) cdnHeaders)) as [hr | m];
      try (cbn; discriminate).
    assert (exists f,
               (if negb (JS.endsWith (baseFilename req) ".mp4")
                then baseFilename req ++ ".mp4" else baseFilename req) = f
               /\ JS.endsWith f ".mp4" = true
               /\ (JS.endsWith (baseFilename req) ".mp4" = true -> f = baseFilename req))
      as (f & Hf & Hends & Hsame).
    { destruct (JS.endsWith (baseFilename req) ".mp4") eqn:E; cbn [negb].
      - exists (baseFilename req). repeat split. exact E.
      - exists (baseFilename req ++ ".mp4"). split; [reflexivity |].
        split; [apply endsWith_append | discriminate]. }
    rewrite Hf.
    destruct (JS.nodeHeaderValue (contentDisposition f)); [| cbn; discriminate].
    destruct (JS.optTruthy (h_get (up_headers hr) "content-length"));
      monad;
      (destruct (fetch e (GET (String c url) cdnHeaders)) as [gr | m];
       [cbn; intros _; exists f; repeat split; assumption | cbn; discriminate]).
  - intros H.
    destruct (Worker_download_as_stream e req log vw) as (_ & Hcd & _).
    split; [exact (proj2 (Hcd H)) | apply endsWith_append].
  - unfold Axios.download. monad.
    destruct (q_url req) as [url |]; try (cbn; discriminate).
    destruct (Axios.invalidUrl url); try (cbn; discriminate).
    monad.
    destruct (fetch e (GET url cdnHeaders)) as [gr | m]; try (cbn; discriminate).
    monad. destruct (JS.nodeHeaderValue _); [| cbn; discriminate].
    cbn. intros _. split; [reflexivity | apply endsWith_append].
Qed.

Lemma X10_witness :
  JS.endsWith (baseFilename (Stub.request (Some Stub.cdnUrl) None) ++ ".mp4") ".mp4" = true.
Proof.
  exact (proj2 (proj1 (proj2
           (X10_download_name_extension (Stub.upstream 0 (Some "1000") [])
              (Stub.request (Some Stub.cdnUrl) None) []
              Express.initial Worker.initial Axios.initial))
           (or_introl eq_refl))).
Defined.

(** A title that ends with the extension and no quality: one extension in
    the Express variant, two in the Worker. *)
Example extension_once_or_twice :
  let req := {| q_url := Some Stub.cdnUrl; q_title := Some "clip.mp4"; q_season := None;
                q_episode := None; q_quality := None; h_range := None |} in
  let e := Stub.upstream 0 (Some "1000") [] in
  header "Content-Disposition" (seenHeaders (serve (Express.download req) e Express.initial []))
  = Some (contentDisposition "clip.mp4")
  /\ header "Content-Disposition"
            (seenHeaders (Worker.serve Worker.RDownload req e Worker.initial []))
     = Some (contentDisposition "clip.mp4.mp4").
Proof. vm_compute. split; reflexivity. Qed.

(** ** X11-X13: the upstream calls of the stream and download handlers *)

Ltac traffic url probe :=
  right; exists url, probe; eexists;
  split; [first [assumption | reflexivity] |];
  split; [first [assumption | reflexivity] |];
  split; [cbn; auto |];
  unfold Worker.noFileSize, Worker.notSatisfiable, Worker.jsonResponse;
  cbn [seenCalls seenStatus calls Worker.status];
  split; [first [reflexivity | apply app_two | apply app_three] |];
  first [ apply (TrafficProbe url probe); auto; fail
        | apply (TrafficWhole url probe); auto; fail
        | apply (TrafficPart url probe); auto; fail ].

Lemma Worker_stream_traffic (e : Env) (req : InRequest) (v : Worker.Vars)
      (log : list Request) :
  let x := Worker.serve Worker.RStream req e v log in
  seenVars x = v
  /\ Proxied (fun url => negb (Worker.invalidUrl url)) headProbe req log x.
Proof.
  monad. unfold Worker.handleStream.
  destruct (q_url req) as [url |] eqn:Hurl; [| split; [reflexivity | left; split; reflexivity]].
  destruct (Worker.invalidUrl url) eqn:Hok; [split; [reflexivity | left; split; reflexivity] |].
  assert (negb (Worker.invalidUrl url) = true) as Hok' by (rewrite Hok; reflexivity).
  monad.
  destruct (fetch e (HEAD url cdnHeaders)) as [hr | m];
    [| split; [reflexivity | traffic url [HEAD url cdnHeaders]]].
  set (fileSize := JS.parseIntOpt "null" (h_get (up_headers hr) "content-length") 0).
  destruct (negb (JS.numTruthy fileSize) || JS.isNaN fileSize);
    [split; [reflexivity | traffic url [HEAD url cdnHeaders]] |].
  destruct (h_range req) as [range |];
    [destruct (JS.strTruthy range); cbn [negb] |];
    try (destruct (fetch e (GET url cdnHeaders));
         (split; [reflexivity | traffic url [HEAD url cdnHeaders]])).
  destruct (rangeWindow range fileSize) as [start end_].
  destruct (rangeInvalid start end_ fileSize);
    [split; [reflexivity | traffic url [HEAD url cdnHeaders]] |].
  destruct (fetch e (GET url (rangeHeaders start end_)));
    (split; [reflexivity | traffic url [HEAD url cdnHeaders]]).
Qed.

Lemma Worker_download_traffic (e : Env) (req : InRequest) (v : Worker.Vars)
      (log : list Request) :
  let x := Worker.serve Worker.RDownload req e v log in
  seenVars x = v
  /\ Proxied (fun url => negb (Worker.invalidUrl url)) headProbe req log x.
Proof.
  monad. unfold Worker.handleDownload.
  destruct (q_url req) as [url |] eqn:Hurl; [| split; [reflexivity | left; split; reflexivity]].
  destruct (Worker.invalidUrl url) eqn:Hok; [split; [reflexivity | left; split; reflexivity] |].
  assert (negb (Worker.invalidUrl url) = true) as Hok' by (rewrite Hok; reflexivity).
  monad.
  destruct (fetch e (HEAD url cdnHeaders)) as [hr | m];
    [| split; [reflexivity | traffic url [HEAD url cdnHeaders]]].
  set (fileSize := JS.parseIntOpt "null" (h_get (up_headers hr) "content-length") 0).
  destruct (negb (JS.numTruthy fileSize) || JS.isNaN fileSize);
    [split; [reflexivity | traffic url [HEAD url cdnHeaders]] |].
  destruct (h_range req) as [range |];
    [destruct (JS.strTruthy range); cbn [negb] |];
    try (destruct (fetch e (GET url cdnHeaders));
         [destruct (JS.fetchHeaderValue _) |];
         (split; [reflexivity | traffic url [HEAD url cdnHeaders]])).
  destruct (rangeWindow range fileSize) as [start end_].
  destruct (rangeInvalid start end_ fileSize);
    [split; [reflexivity | traffic url [HEAD url cdnHeaders]] |].
  destruct (fetch e (GET url (rangeHeaders start end_)));
    [destruct (JS.fetchHeaderValue _) |];
    (split; [reflexivity | traffic url [HEAD url cdnHeaders]]).
Qed.

Lemma Express_stream_traffic (e : Env) (req : InRequest) (v : Express.Vars)
      (log : list Request) :
  let x := serve (Express.stream req) e v log in
  seenVars x = v
  /\ Proxied (fun url => negb (Express.invalidStreamUrl url)) headProbe req log x.
Proof.
  unfold Express.stream, Express.rejectStream. monad.
  destruct (q_url req) as [url |] eqn:Hurl; [| split; [reflexivity | left; split; reflexivity]].
  destruct (Express.invalidStreamUrl url) eqn:Hok;
    [split; [reflexivity | left; split; reflexivity] |].
  assert (negb (Express.invalidStreamUrl url) = true) as Hok' by (rewrite Hok; reflexivity).
  monad.
  destruct (fetch e (HEAD url cdnHeaders)) as [hr | m];
    [| split; [reflexivity | traffic url [HEAD url cdnHeaders]]].
  set (fileSize := JS.parseIntOpt "null" (h_get (up_headers hr) "content-length") 0).
  destruct (negb (JS.numTruthy fileSize));
    [split; [reflexivity | traffic url [HEAD url cdnHeaders]] |].
  destruct (h_range req) as [range |];
    [destruct (JS.strTruthy range); cbn [negb] |];
    try (monad; destruct (fetch e (GET url cdnHeaders));
         (split; [reflexivity | traffic url [HEAD url cdnHeaders]])).
  destruct (rangeWindow range fileSize) as [start end_].
  destruct (JS.ge start fileSize || JS.gt start end_);
    [split; [reflexivity | traffic url [HEAD url cdnHeaders]] |].
  monad.
  destruct (fetch e (GET url (rangeHeaders start end_)));
    (split; [reflexivity | traffic url [HEAD url cdnHeaders]]).
Qed.

Lemma Express_download_traffic (e : Env) (req : InRequest) (v : Express.Vars)
      (log : list Request) :
  let x := serve (Express.download req) e v log in
  seenVars x = v /\ Proxied JS.strTruthy headProbe req log x.
Proof.
  unfold Express.download. monad.
  destruct (q_url req) as [[| c u] |] eqn:Hurl;
    try (split; [reflexivity | left; split; reflexivity]).
  monad.
  destruct (fetch e (HEAD (String c u) cdnHeaders)) as [hr | m];
    [| split; [reflexivity | traffic (String c u) [HEAD (String c u) cdnHeaders]]].
  destruct (JS.nodeHeaderValue _);
    [| split; [reflexivity | traffic (String c u) [HEAD (String c u) cdnHeaders]]].
  destruct (JS.optTruthy (h_get (up_headers hr) "content-length")); monad;
    destruct (fetch e (GET (String c u) cdnHeaders));
    (split; [reflexivity | traffic (String c u) [HEAD (String c u) cdnHeaders]]).
Qed.

Lemma Axios_download_traffic (e : Env) (req : InRequest) (v : Axios.Vars)
      (log : list Request) :
  let x := serve (Axios.download req) e v log in
  seenVars x = v
  /\ Proxied (fun url => negb (Axios.invalidUrl url)) noProbe req log x.
Proof.
  unfold Axios.download. monad.
  destruct (q_url req) as [url |] eqn:Hurl; [| split; [reflexivity | left; split; reflexivity]].
  destruct (Axios.invalidUrl url) eqn:Hok; [split; [reflexivity | left; split; reflexivity] |].
  assert (negb (Axios.invalidUrl url) = true) as Hok' by (rewrite Hok; reflexivity).
  monad.
  destruct (fetch e (GET url cdnHeaders));
    [monad; destruct (JS.nodeHeaderValue _) |];
    (split; [reflexivity | traffic url (@nil Request)]).
Qed.

Lemma Axios_stream_traffic (e : Env) (req : InRequest) (v : Axios.Vars)
      (log : list Request) :
  let x := serve (Axios.stream req) e v log in
  seenVars x = v
  /\ Proxied (fun url => negb (Axios.invalidUrl url)) axiosProbe req log x.
Proof.
  unfold Axios.stream. monad.
  destruct (q_url req) as [url |] eqn:Hurl;
    [| split; [reflexivity | left; split; reflexivity]].
  cbn [JS.orElse].
  change (JS.orElse (Some url) "") with (if JS.strTruthy url then url else "").
  destruct (JS.strTruthy url) eqn:Ht.
  2:{ replace (Axios.invalidUrl "") with true by reflexivity.
      split; [reflexivity | left; split; reflexivity]. }
  destruct (Axios.invalidUrl url) eqn:Hok; [split; [reflexivity | left; split; reflexivity] |].
  assert (negb (Axios.invalidUrl url) = true) as Hok' by (rewrite Hok; reflexivity).
  unfold Axios.probe. monad.
  set (zero := GET url (app cdnHeaders [("Range", "bytes=0-0")])).
  destruct (fetch e (HEAD url cdnHeaders)) as [hr | m].
  - set (fileSize := JS.parseIntOpt "undefined" (h_get (up_headers hr) "content-length") 0).
    destruct (negb (JS.numTruthy fileSize) || JS.isNaN fileSize);
      [split; [reflexivity | traffic url [HEAD url cdnHeaders]] |].
    destruct (h_range req) as [range |];
      [destruct (JS.strTruthy range); cbn [negb] |];
      try (monad; destruct (fetch e (GET url cdnHeaders));
           (split; [reflexivity | traffic url [HEAD url cdnHeaders]])).
    destruct (rangeWindow range fileSize) as [start end_].
    destruct (rangeInvalid start end_ fileSize);
      [split; [reflexivity | traffic url [HEAD url cdnHeaders]] |].
    monad.
    destruct (fetch e (GET url (rangeHeaders start end_)));
      (split; [reflexivity | traffic url [HEAD url cdnHeaders]]).
  - destruct (fetch e zero) as [tr | m'];
      [| split; [reflexivity | traffic url [HEAD url cdnHeaders; zero]]].
    match goal with
    | |- context [negb (JS.numTruthy ?f) || JS.isNaN ?f] => set (fileSize := f)
    end.
    destruct (negb (JS.numTruthy fileSize) || JS.isNaN fileSize);
      [split; [reflexivity | traffic url [HEAD url cdnHeaders; zero]] |].
    destruct (h_range req) as [range |];
      [destruct (JS.strTruthy range); cbn [negb] |];
      try (monad; destruct (fetch e (GET url cdnHeaders));
           (split; [reflexivity | traffic url [HEAD url cdnHeaders; zero]])).
    destruct (rangeWindow range fileSize) as [start end_].
    destruct (rangeInvalid start end_ fileSize);
      [split; [reflexivity | traffic url [HEAD url cdnHeaders; zero]] |].
    monad.
    destruct (fetch e (GET url (rangeHeaders start end_)));
      (split; [reflexivity | traffic url [HEAD url cdnHeaders; zero]]).
Qed.

Lemma worker_allowed url :
  negb (Worker.invalidUrl url) = true ->
  startsWithOneOf ["https://bcdnw.hakunaymatata.com/"; "https://valiw.hakunaymatata.com/"]
                  url = true.
Proof.
  unfold Worker.invalidUrl, startsWithOneOf. cbn [existsb].
  destruct (JS.strTruthy url), (JS.startsWith url "https://bcdnw.hakunaymatata.com/"),
    (JS.startsWith url "https://valiw.hakunaymatata.com/"); cbn; congruence.
Qed.

Lemma axios_allowed url :
  negb (Axios.invalidUrl url) = true ->
  startsWithOneOf ["https://bcdnw.hakunaymatata.com/"; "https://valiw.hakunaymatata.com/"]
                  url = true.
Proof.
  unfold Axios.invalidUrl, startsWithOneOf. cbn [existsb].
  destruct (JS.strTruthy url), (JS.startsWith url "https://bcdnw.hakunaymatata.com/"),
    (JS.startsWith url "https://valiw.hakunaymatata.com/"); cbn; congruence.
Qed.

Lemma express_allowed url :
  negb (Express.invalidStreamUrl url) = true ->
  startsWithOneOf ["https://bcdnxw.hakunaymatata.com/"; "https://valiw.hakunaymatata.com/";
                   "https://bcdnw.hakunaymatata.com/"] url = true.
Proof.
  unfold Express.invalidStreamUrl, startsWithOneOf. cbn [existsb].
  destruct (JS.strTruthy url), (JS.startsWith url "https://bcdnxw.hakunaymatata.com/"),
    (JS.startsWith url "https://bcdnw.hakunaymatata.com/"),
    (JS.startsWith url "https://valiw.hakunaymatata.com/"); cbn; congruence.
Qed.

(** The calls of a [Traffic] to [url] are GET and HEAD calls to [url]
    without a [Cookie] header, when those of the probe are. *)
Lemma Traffic_calls (P : Request -> Prop) url probe status new :
  Traffic url probe status new ->
  Forall P probe ->
  (forall hs, header "Cookie" hs = None -> P (GET url (app cdnHeaders hs))) ->
  Forall P new.
Proof.
  intros H Hp Hg.
  assert (P (GET url cdnHeaders)) as Hw.
  { rewrite <- (app_nil_r cdnHeaders). apply Hg. reflexivity. }
  destruct H as [st _ | st _ | st s t _].
  - exact Hp.
  - apply Forall_app. split; [exact Hp | constructor; [exact Hw | constructor]].
  - apply Forall_app. split; [exact Hp |].
    constructor; [| constructor]. apply Hg. reflexivity.
Qed.

Lemma cookie_after_cdn hs : header "Cookie" hs = None -> header "Cookie" (app cdnHeaders hs) = None.
Proof. intros H. exact H. Qed.

Lemma Proxied_ToCdn {V} (allowed : string -> bool) probes prefixes req log (x : Seen V) :
  Proxied allowed probes req log x ->
  (forall url, allowed url = true -> startsWithOneOf prefixes url = true) ->
  (forall url probe, In probe (probes url) ->
                     probe = []
                     \/ probe = [HEAD url cdnHeaders]
                     \/ probe = [HEAD url cdnHeaders;
                                 GET url (app cdnHeaders [("Range", "bytes=0-0")])]) ->
  exists new, seenCalls x = (log ++ new)%list /\ ToCdn prefixes req new.
Proof.
  intros [[_ Hc] | (url & probe & new & Hurl & Hok & Hin & Hc & Ht)] Hall Hprobes.
  - exists []. rewrite app_nil_r. split; [exact Hc | constructor].
  - exists new. split; [exact Hc |].
    pose proof (Hall url Hok) as Hcdn.
    unfold ToCdn.
    refine (Traffic_calls _ url probe _ new Ht _ _).
    + destruct (Hprobes url probe Hin) as [-> | [-> | ->]];
        repeat constructor; cbn [rq_url rq_method rq_headers GET HEAD];
        first [assumption | reflexivity | (left; reflexivity) | (right; reflexivity)].
    + intros hs Hhs. cbn [rq_url rq_method rq_headers GET].
      split; [exact Hurl | split; [exact Hcdn | split; [left; reflexivity |]]].
      exact (cookie_after_cdn hs Hhs).
Qed.

(** X11.  Whatever the request and whatever the upstream answers, every
    upstream call made by the stream handlers of the three variants and by
    the download handlers of the Worker and the axios variant asks for the
    url of the request, which starts with one of the allowed prefixes, by
    GET or HEAD and without a [Cookie] header; and these handlers leave the
    credential variables as they were. *)
Theorem X11_calls_stay_on_cdn (e : Env) (req : InRequest) (log : list Request)
        (ve : Express.Vars) (vw : Worker.Vars) (va : Axios.Vars) :
  let two := ["https://bcdnw.hakunaymatata.com/"; "https://valiw.hakunaymatata.com/"] in
  let three := ["https://bcdnxw.hakunaymatata.com/"; "https://valiw.hakunaymatata.com/";
                "https://bcdnw.hakunaymatata.com/"] in
  (exists new, seenCalls (serve (Express.stream req) e ve log) = (log ++ new)%list
               /\ ToCdn three req new)
  /\ (exists new, seenCalls (Worker.serve Worker.RStream req e vw log) = (log ++ new)%list
                  /\ ToCdn two req new)
  /\ (exists new, seenCalls (Worker.serve Worker.RDownload req e vw log) = (log ++ new)%list
                  /\ ToCdn two req new)
  /\ (exists new, seenCalls (serve (Axios.stream req) e va log) = (log ++ new)%list
                  /\ ToCdn two req new)
  /\ (exists new, seenCalls (serve (Axios.download req) e va log) = (log ++ new)%list
                  /\ ToCdn two req new)
  /\ seenVars (serve (Express.stream req) e ve log) = ve
  /\ seenVars (Worker.serve Worker.RStream req e vw log) = vw
  /\ seenVars (Worker.serve Worker.RDownload req e vw log) = vw
  /\ seenVars (serve (Axios.stream req) e va log) = va
  /\ seenVars (serve (Axios.download req) e va log) = va.
Proof.
  intros two three.
  destruct (Express_stream_traffic e req ve log) as [Hv1 H1].
  destruct (Worker_stream_traffic e req vw log) as [Hv2 H2].
  destruct (Worker_download_traffic e req vw log) as [Hv3 H3].
  destruct (Axios_stream_traffic e req va log) as [Hv4 H4].
  destruct (Axios_download_traffic e req va log) as [Hv5 H5].
  repeat apply conj; try assumption.
  - refine (Proxied_ToCdn _ _ three _ _ _ H1 express_allowed _).
    intros url probe [<- | []]. right. left. reflexivity.
  - refine (Proxied_ToCdn _ _ two _ _ _ H2 worker_allowed _).
    intros url probe [<- | []]. right. left. reflexivity.
  - refine (Proxied_ToCdn _ _ two _ _ _ H3 worker_allowed _).
    intros url probe [<- | []]. right. left. reflexivity.
  - refine (Proxied_ToCdn _ _ two _ _ _ H4 axios_allowed _).
    intros url probe [<- | [<- | []]]; [right; left | right; right]; reflexivity.
  - refine (Proxied_ToCdn _ _ two _ _ _ H5 axios_allowed _).
    intros url probe [<- | []]. left. reflexivity.
Qed.

(** The Express download handler is the exception (see C1): it calls any
    url that is not empty. *)
Example express_download_leaves_cdn :
  let req := Stub.request (Some Stub.foreignUrl) None in
  seenCalls (serve (Express.download req) (Stub.upstream 0 (Some "1000") [])
                   Express.initial [])
  = [HEAD Stub.foreignUrl cdnHeaders; GET Stub.foreignUrl cdnHeaders].
Proof. reflexivity. Qed.

Lemma Proxied_economy {V} (allowed : string -> bool) probes req log (x : Seen V) :
  Proxied allowed probes req log x -> Economy probes req log x.
Proof.
  intros [[Hs Hc] | (url & probe & new & Hurl & Hok & Hin & Hc & Ht)]; unfold Economy.
  - rewrite Hs. repeat split; try discriminate.
    + intros _. exact Hc.
    + cbn. auto.
  - destruct Ht as [st [-> | ->] | st [-> | ->] | st s t [-> | ->]];
      (split; [discriminate |]);
      (split; [first [discriminate | intros _; exists url, probe; auto] |]);
      (split; [first [discriminate | intros _; exists url, probe; auto] |]);
      (split; [first [discriminate | intros _; exists url, probe, s, t; auto] |]);
      cbn; auto 7.
Qed.

(** X12.  In every stream and download handler the status of the answer
    tells what was asked upstream: a 400 cost no call, a 416 only the probe
    for the length, a 200 the probe and one GET without a [Range] header, a
    206 the probe and one GET with one; the only other status is 500.  The
    probe is one HEAD call (in the axios stream handler possibly followed by
    a GET of [bytes=0-0]; the axios download handler has no probe). *)
Theorem X12_status_tells_calls (e : Env) (req : InRequest) (log : list Request)
        (ve : Express.Vars) (vw : Worker.Vars) (va : Axios.Vars) :
  Economy headProbe req log (serve (Express.stream req) e ve log)
  /\ Economy headProbe req log (serve (Express.download req) e ve log)
  /\ Economy headProbe req log (Worker.serve Worker.RStream req e vw log)
  /\ Economy headProbe req log (Worker.serve Worker.RDownload req e vw log)
  /\ Economy axiosProbe req log (serve (Axios.stream req) e va log)
  /\ Economy noProbe req log (serve (Axios.download req) e va log).
Proof.
  refine (conj _ (conj _ (conj _ (conj _ (conj _ _))))).
  - exact (Proxied_economy _ _ _ _ _ (proj2 (Express_stream_traffic e req ve log))).
  - exact (Proxied_economy _ _ _ _ _ (proj2 (Express_download_traffic e req ve log))).
  - exact (Proxied_economy _ _ _ _ _ (proj2 (Worker_stream_traffic e req vw log))).
  - exact (Proxied_economy _ _ _ _ _ (proj2 (Worker_download_traffic e req vw log))).
  - exact (Proxied_economy _ _ _ _ _ (proj2 (Axios_stream_traffic e req va log))).
  - exact (Proxied_economy _ _ _ _ _ (proj2 (Axios_download_traffic e req va log))).
Qed.

Lemma X12_witness :
  seenCalls (Worker.serve Worker.RStream
               (Stub.request (Some Stub.cdnUrl) (Some "bytes=1000-"))
               (Stub.upstream 0 (Some "1000") []) Worker.initial [])
  = [HEAD Stub.cdnUrl cdnHeaders].
Proof.
  destruct (proj1 (proj2 (proj1 (proj2 (proj2
              (X12_status_tells_calls (Stub.upstream 0 (Some "1000") [])
                 (Stub.request (Some Stub.cdnUrl) (Some "bytes=1000-")) []
                 Express.initial Worker.initial Axios.initial))))) eq_refl)
    as (url & probe & Hurl & Hin & Hc).
  injection Hurl as <-.
  destruct Hin as [<- | []]. exact Hc.
Defined.

(** ** X13: a failure after the headers are written *)



(** ** X14: [getCookies] is safe to call *)





(** ** X15: the headers of a catalog request *)

Lemma objGet_objSet_same k v o : objGet k (objSet k v o) = Some v.
Proof.
  induction o as [| [k' v'] o IH]; cbn [objSet objGet].
  - rewrite String.eqb_refl. reflexivity.
  - destruct (String.eqb k k') eqn:E; cbn [objGet]; rewrite ?String.eqb_refl, ?E; auto.
Qed.

Lemma objGet_objSet_other k k' v o : k <> k' -> objGet k (objSet k' v o) = objGet k o.
Proof.
  intros Hk. apply String.eqb_neq in Hk.
  induction o as [| [k2 v2] o IH]; cbn [objSet objGet].
  - rewrite Hk. reflexivity.
  - destruct (String.eqb k' k2) eqn:E; cbn [objGet].
    + apply String.eqb_eq in E. subst k2. rewrite Hk. reflexivity.
    + rewrite IH. reflexivity.
Qed.

Lemma objGet_app k a b :
  objGet k (a ++ b)%list = match objGet k a with Some v => Some v | None => objGet k b end.
Proof.
  induction a as [| [k' v'] a IH]; cbn [app objGet]; [reflexivity |].
  destruct (String.eqb k k'); [reflexivity | exact IH].
Qed.

(** [{...a, ...b}[k]]: the last entry of [b] for [k], or else that of [a]. *)
Lemma objGet_spread k a b :
  objGet k (spread a b)
  = match objGet k (rev b) with Some v => Some v | None => objGet k a end.
Proof.
  unfold spread. revert a. induction b as [| [k' v'] b IH]; intros a; [reflexivity |].
  cbn [fold_left fst snd rev]. rewrite IH, objGet_app. cbn [objGet].
  destruct (objGet k (rev b)); [reflexivity |].
  destruct (String.eqb k k') eqn:E.
  - apply String.eqb_eq in E. subst k'. apply objGet_objSet_same.
  - apply String.eqb_neq in E. apply objGet_objSet_other, E.
Qed.

(** The header [k] of the request [makeApiRequest] sends, when no credential
    replaces it. *)
Lemma apiRequest_header k url options cookies :
  k <> "Cookie" \/ JS.optTruthy cookies = false ->
  header k (rq_headers (apiRequest url options cookies))
  = match objGet k (rev (o_headers options)) with
    | Some v => Some v
    | None => objGet k DEFAULT_HEADERS
    end.
Proof.
  intros H. unfold apiRequest, header. cbn [rq_headers].
  rewrite <- objGet_spread.
  destruct cookies as [c |]; [| reflexivity].
  destruct (JS.strTruthy c) eqn:Ht; [| reflexivity].
  destruct H as [H | H]; [| cbn in H; congruence].
  apply objGet_objSet_other, H.
Qed.

Lemma apiRequest_cookie url options c :
  JS.strTruthy c = true ->
  header "Cookie" (rq_headers (apiRequest url options (Some c))) = Some c.
Proof.
  intros Ht. unfold apiRequest, header. cbn [rq_headers]. rewrite Ht.
  apply objGet_objSet_same.
Qed.

Lemma doFetch_calls {S} rq e (s : Store S) :
  calls (snd (doFetch rq e s)) = (calls s ++ [rq])%list.
Proof. unfold doFetch. destruct (fetch e rq); reflexivity. Qed.

(** X15.  [makeApiRequest] of the fetch variants sends, after the calls of
    [getCookies], one request to the url it is given, with the method and
    the body of its options.  In its headers the credential [getCookies]
    returned, when there is one, is the [Cookie] header, whatever [Cookie]
    header the options hold; every other header is the one of the options
    when they have it (the last one of that name), and the default one
    otherwise. *)
Theorem X15_request_headers (e : Env) (url : string) (options : Options) :
  (forall s : Store Express.St,
      exists cookies,
        fst (Express.getCookies e s) = Ok cookies
        /\ calls (snd (Express.makeApiRequest url options e s))
           = (calls (snd (Express.getCookies e s)) ++ [apiRequest url options cookies])%list)
  /\ (forall s : Store Worker.Vars,
         exists cookies,
           fst (Worker.getCookies e s) = Ok cookies
           /\ calls (snd (Worker.makeApiRequest url options e s))
              = (calls (snd (Worker.getCookies e s)) ++ [apiRequest url options cookies])%list)
  /\ (forall cookies,
         let rq := apiRequest url options cookies in
         rq_url rq = url
         /\ rq_method rq = match o_method options with Some m => m | None => "GET" end
         /\ rq_body rq = o_body options
         /\ (forall c, cookies = Some c -> JS.strTruthy c = true ->
                       header "Cookie" (rq_headers rq) = Some c)
         /\ (forall k, k <> "Cookie" \/ JS.optTruthy cookies = false ->
                       header k (rq_headers rq)
                       = match objGet k (rev (o_headers options)) with
                         | Some v => Some v
                         | None => objGet k DEFAULT_HEADERS
                         end)).
Proof.
  split; [| split].
  - intros s. unfold Express.makeApiRequest, bind.
    destruct (Express.cacheFresh (vars (user s)) (now e)) eqn:Hf.
    + rewrite (Express_getCookies_fresh e s Hf). eexists. split; [reflexivity |].
      apply doFetch_calls.
    + destruct (fetch e bootstrapRequest) as [r | m] eqn:Hb.
      * rewrite (Express_getCookies_refreshed e s Hf r Hb).
        destruct (Express.setCookieHeaders r); (eexists; split; [reflexivity |]);
          apply doFetch_calls.
      * rewrite (Express_getCookies_failed e s Hf m Hb). eexists. split; [reflexivity |].
        apply doFetch_calls.
  - intros s. unfold Worker.makeApiRequest, bind.
    destruct (Worker.cacheFresh (user s) (now e)) eqn:Hf.
    + rewrite (Worker_getCookies_fresh e s Hf). eexists. split; [reflexivity |].
      apply doFetch_calls.
    + destruct (fetch e bootstrapRequest) as [r | m] eqn:Hb.
      * rewrite (Worker_getCookies_refreshed e s Hf r Hb).
        destruct (Worker.setCookieHeaders r); (eexists; split; [reflexivity |]);
          apply doFetch_calls.
      * rewrite (Worker_getCookies_failed e s Hf m Hb). eexists. split; [reflexivity |].
        apply doFetch_calls.
  - intros cookies rq. subst rq.
    split; [reflexivity |]. split; [reflexivity |]. split; [reflexivity |].
    split.
    + intros c -> Ht. apply apiRequest_cookie, Ht.
    + intros k Hk. apply apiRequest_header, Hk.
Qed.

Lemma X15_witness :
  let options := {| o_method := None;
                    o_headers := [("Referer", "https://fmoviesunblocked.net/");
                                  ("Cookie", "mine=1")];
                    o_body := None |} in
  let rq := apiRequest "https://h5.aoneroom.com/x" options (Some "sid=1") in
  header "Cookie" (rq_headers rq) = Some "sid=1"
  /\ header "Referer" (rq_headers rq) = Some "https://fmoviesunblocked.net/".
Proof.
  intros options rq.
  pose proof (proj2 (proj2 (X15_request_headers (Stub.unreachable 0)
                              "https://h5.aoneroom.com/x" options)) (Some "sid=1"))
    as (_ & _ & _ & Hc & Hk).
  split.
  - exact (Hc "sid=1" eq_refl eq_refl).
  - assert ("Referer" <> "Cookie") as Hne by discriminate.
    exact (Hk "Referer" (or_introl Hne)).
Defined.

(** ** X16: the length read from [Content-Range] *)

Lemma isDigit_isDecDigit c : isDecDigit c = true -> Axios.isDigit c = true.
Proof.
  intros H. apply isDecDigit_code in H. unfold Axios.isDigit.
  apply andb_true_iff. split; apply Z.leb_le; lia.
Qed.

Lemma takeDigits_app d rest :
  strForall isDecDigit d = true -> noDigitNext rest = true ->
  Axios.takeDigits (d ++ rest) = (d, rest).
Proof.
  intros Hd Hr. induction d as [| c d IH].
  - cbn [String.append]. destruct rest as [| c r]; [reflexivity |].
    cbn [noDigitNext] in Hr. apply negb_true_iff in Hr.
    cbn [Axios.takeDigits]. rewrite Hr. reflexivity.
  - cbn [strForall] in Hd. apply andb_true_iff in Hd as [Hc Hd].
    change (String c d ++ rest) with (String c (d ++ rest)).
    cbn [Axios.takeDigits]. rewrite (isDigit_isDecDigit c Hc), (IH Hd). reflexivity.
Qed.

Lemma prefix_append pat s : String.prefix pat (pat ++ s) = true.
Proof.
  induction pat as [| c p IH]; cbn [String.append String.prefix]; [destruct s; reflexivity |].
  destruct (ascii_dec c c); [assumption | congruence].
Qed.

(** The pattern [/bytes \d+-\d+\/(\d+)/] on a header of that form. *)
Lemma matchContentRange_written da db dn :
  strForall isDecDigit da = true -> JS.strTruthy da = true ->
  strForall isDecDigit db = true -> JS.strTruthy db = true ->
  strForall isDecDigit dn = true -> JS.strTruthy dn = true ->
  Axios.matchContentRange ("bytes " ++ da ++ "-" ++ db ++ "/" ++ dn) = Some dn.
Proof.
  intros Ha Hna Hb Hnb Hn Hnn.
  assert (Axios.matchHere ("bytes " ++ da ++ "-" ++ db ++ "/" ++ dn) = Some dn) as H.
  { unfold Axios.matchHere. rewrite prefix_append.
    change (JS.drop 6 ("bytes " ++ da ++ "-" ++ db ++ "/" ++ dn))
      with (da ++ String "-" (db ++ String "/" dn)).
    rewrite (takeDigits_app da _ Ha) by reflexivity.
    destruct da as [| ca da']; [discriminate |].
    rewrite (takeDigits_app db _ Hb) by reflexivity.
    destruct db as [| cb db']; [discriminate |].
    rewrite <- (append_empty_r dn) at 1.
    rewrite (takeDigits_app dn _ Hn) by reflexivity.
    destruct dn as [| cn dn']; [discriminate | reflexivity]. }
  destruct ("bytes " ++ da ++ "-" ++ db ++ "/" ++ dn) eqn:E;
    cbn [Axios.matchContentRange]; rewrite H; reflexivity.
Qed.

Lemma digits_no_hex_prefix s :
  strForall isDecDigit s = true ->
  String.prefix "0x" s = false /\ String.prefix "0X" s = false.
Proof.
  intros H. destruct s as [| c [| b r]]; cbn [String.prefix]; [split; reflexivity | |].
  - split; [destruct (ascii_dec "0" c) | destruct (ascii_dec "0" c)]; reflexivity.
  - cbn [strForall] in H. apply andb_true_iff in H as [_ H].
    apply andb_true_iff in H as [Hb _].
    split.
    + destruct (ascii_dec "0" c); [| reflexivity].
      destruct (ascii_dec "x" b) as [<- |]; [discriminate | reflexivity].
    + destruct (ascii_dec "0" c); [| reflexivity].
      destruct (ascii_dec "X" b) as [<- |]; [discriminate | reflexivity].
Qed.

(** Without a radix [parseInt] reads a written number as with radix 10. *)
Lemma parseInt_no_radix n : 0 <= n -> JS.parseInt (JS.natToString n) 0 = JS.Num n.
Proof.
  intros Hn.
  pose proof (natToString_digits n Hn) as Hd.
  pose proof (natToString_truthy n) as Ht.
  pose proof (parseDigits_digitsOf _ n (conj Hn (natToString_bound n Hn))) as Hp.
  fold (JS.natToString n) in Hp.
  destruct (digits_no_hex_prefix _ Hd) as [Hx HX].
  unfold JS.parseInt.
  destruct (JS.natToString n) as [| c r] eqn:E; [discriminate |].
  pose proof Hd as Hd'. cbn [strForall] in Hd'. apply andb_true_iff in Hd' as [Hc Hr].
  change (JS.trimStart (String c r))
    with (if JS.isWhite c then JS.trimStart r else String c r).
  rewrite (isDecDigit_not_white c Hc).
  unfold JS.stripSign.
  rewrite (isDecDigit_neq c "-" Hc) by (left; vm_compute; reflexivity).
  rewrite (isDecDigit_neq c "+" Hc) by (left; vm_compute; reflexivity).
  rewrite Hx, HX.
  cbn -[JS.parseDigits Z.mul]. rewrite Hp. f_equal. lia.
Qed.

(** The probe of the axios stream handler when HEAD fails and the GET of
    the first byte announces the range. *)
Lemma Axios_probe_fallback (e : Env) (url m : string) (tr : UpResponse) (a b N : Z)
      (s : Store Axios.St) :
  fetch e (HEAD url cdnHeaders) = FetchFail m ->
  fetch e (GET url (app cdnHeaders [("Range", "bytes=0-0")])) = FetchOk tr ->
  h_get (up_headers tr) "content-range"
  = Some ("bytes " ++ JS.numToString (JS.Num a) ++ "-" ++ JS.numToString (JS.Num b)
                   ++ "/" ++ JS.numToString (JS.Num N)) ->
  0 <= a -> 0 <= b -> 0 <= N ->
  Axios.probe url e s
  = (Ok (JS.Num N, typeOf tr),
     {| user := user s;
        calls := ((calls s ++ [HEAD url cdnHeaders])
                    ++ [GET url (app cdnHeaders [("Range", "bytes=0-0")])])%list |}).
Proof.
  intros Hhead Hzero Hcr Ha Hb HN.
  unfold Axios.probe. monad. rewrite Hhead, Hzero, Hcr.
  rewrite !numToString_nonneg by assumption.
  rewrite matchContentRange_written
    by (first [apply natToString_digits; assumption | apply natToString_truthy]).
  rewrite parseInt_no_radix by assumption.
  reflexivity.
Qed.

(** X16.  When the HEAD probe of the axios stream handler fails and the GET
    of [bytes=0-0] is answered with [Content-Range: bytes a-b/N], the handler
    takes [N] for the length: without a [Range] header it answers 200 with
    [Content-Length] [N], and a window [[s, t]] within [N] is answered 206
    with [Content-Range: bytes s-t/N]; three upstream calls are made. *)
Theorem X16_length_from_content_range (e : Env) (req : InRequest) (url m : string)
        (tr gr : UpResponse) (a b N : Z) (log : list Request) (va : Axios.Vars) :
  q_url req = Some url ->
  Axios.invalidUrl url = false ->
  fetch e (HEAD url cdnHeaders) = FetchFail m ->
  fetch e (GET url (app cdnHeaders [("Range", "bytes=0-0")])) = FetchOk tr ->
  h_get (up_headers tr) "content-range"
  = Some ("bytes " ++ JS.numToString (JS.Num a) ++ "-" ++ JS.numToString (JS.Num b)
                   ++ "/" ++ JS.numToString (JS.Num N)) ->
  0 <= a -> 0 <= b -> 0 < N ->
  let probe := [HEAD url cdnHeaders; GET url (app cdnHeaders [("Range", "bytes=0-0")])] in
  (h_range req = None ->
   fetch e (GET url cdnHeaders) = FetchOk gr ->
   Whole (serve (Axios.stream req) e va log) N (up_body gr)
         (log ++ probe ++ [GET url cdnHeaders])%list)
  /\ (forall s t,
         0 <= s -> s <= t -> t < N ->
         h_range req
         = Some ("bytes=" ++ JS.numToString (JS.Num s) ++ "-" ++ JS.numToString (JS.Num t)) ->
         fetch e (GET url (rangeHeaders (JS.Num s) (JS.Num t))) = FetchOk gr ->
         Framing (serve (Axios.stream req) e va log) true s t N
         /\ seenCalls (serve (Axios.stream req) e va log)
            = (log ++ probe ++ [GET url (rangeHeaders (JS.Num s) (JS.Num t))])%list).
Proof.
  intros Hurl Hok Hhead Hzero Hcr Ha Hb HN probe. subst probe.
  assert (0 <= N) as HN0 by lia.
  assert (N <> 0) as HNz by lia.
  pose proof (fun s => Axios_probe_fallback e url m tr a b N s Hhead Hzero Hcr Ha Hb HN0)
    as Hprobe.
  split.
  - intros Hr Hget.
    eassert (serve (Axios.stream req) e va log = _) as Hx.
    { unfold Axios.stream.
      rewrite (orElse_allowed req url Hurl Hok), Hok, Hr.
      unfold serve, tryCatch, bind. rewrite Hprobe.
      monad. cbn [JS.numTruthy JS.isNaN]. nonzero N. cbn [negb orb].
      monad. rewrite Hget. monad. reflexivity. }
    rewrite Hx. unfold Whole. cbn [seenStatus seenHeaders seenBody seenCalls].
    repeat split; try reflexivity. rewrite <- !app_assoc. reflexivity.
  - intros s t Hs Hst HtN Hr Hget.
    eassert (serve (Axios.stream req) e va log = _) as Hx.
    { unfold Axios.stream.
      rewrite (orElse_allowed req url Hurl Hok), Hok, Hr.
      unfold serve, tryCatch, bind. rewrite Hprobe.
      monad. cbn [JS.numTruthy JS.isNaN]. nonzero N. cbn [negb orb].
      replace (JS.strTruthy ("bytes=" ++ JS.numToString (JS.Num s) ++ "-"
                                      ++ JS.numToString (JS.Num t))) with true by reflexivity.
      cbn [negb].
      rewrite rangeWindow_explicit by lia.
      replace (rangeInvalid (JS.Num s) (JS.Num t) (JS.Num N)) with false.
      2:{ symmetry. unfold rangeInvalid. cbn [JS.isNaN JS.lt JS.ge JS.gt orb].
          repeat (apply orb_false_iff; split);
            first [apply Z.ltb_ge; lia | apply Z.leb_gt; lia | reflexivity]. }
      monad. rewrite Hget. monad. reflexivity. }
    rewrite Hx. unfold Framing. cbn [seenStatus seenHeaders seenBody seenCalls JS.add JS.sub].
    repeat split; try reflexivity. rewrite <- !app_assoc. reflexivity.
Qed.

Lemma X16_witness :
  Whole (serve (Axios.stream (Stub.request (Some Stub.cdnUrl) None)) (noHead "1000")
               Axios.initial [])
        1000 "b"
        [HEAD Stub.cdnUrl cdnHeaders;
         GET Stub.cdnUrl (app cdnHeaders [("Range", "bytes=0-0")]);
         GET Stub.cdnUrl cdnHeaders].
Proof.
  assert (0 <= 0) as H0 by lia.
  assert (0 < 1000) as HN by lia.
  destruct (fetch (noHead "1000") (GET Stub.cdnUrl cdnHeaders)) as [gr | m] eqn:Hget;
    [| discriminate].
  injection Hget as <-.
  exact (proj1 (X16_length_from_content_range (noHead "1000")
                  (Stub.request (Some Stub.cdnUrl) None) Stub.cdnUrl
                  "Request failed with status code 405" _ _ 0 0 1000 [] Axios.initial
                  eq_refl eq_refl eq_refl eq_refl eq_refl H0 H0 HN) eq_refl eq_refl).
Defined.

(** * The catalog routes *)

(** ** Objects and loops *)

Lemma fieldOf_fieldSet_same k v fs : fieldOf k (Catalog.fieldSet k v fs) = Some v.
Proof.
  induction fs as [| [k' v'] fs IH]; cbn [Catalog.fieldSet fieldOf].
  - rewrite String.eqb_refl. reflexivity.
  - destruct (String.eqb k k') eqn:E; cbn [fieldOf]; rewrite ?String.eqb_refl, ?E; auto.
Qed.

Lemma fieldOf_fieldSet_other k k' v fs :
  k <> k' -> fieldOf k (Catalog.fieldSet k' v fs) = fieldOf k fs.
Proof.
  intros Hk. apply String.eqb_neq in Hk.
  induction fs as [| [k2 v2] fs IH]; cbn [Catalog.fieldSet fieldOf].
  - rewrite Hk. reflexivity.
  - destruct (String.eqb k' k2) eqn:E; cbn [fieldOf].
    + apply String.eqb_eq in E. subst k2. rewrite Hk. reflexivity.
    + rewrite IH. reflexivity.
Qed.

Lemma filterO_kept {A} (f : A -> Outcome bool) l l' :
  Catalog.filterO f l = Ok l' -> Forall (fun x => f x = Ok true) l'.
Proof.
  revert l'. induction l as [| x l IH]; intros l' H; cbn [Catalog.filterO] in H.
  - injection H as <-. constructor.
  - unfold Catalog.bindO in H.
    destruct (f x) as [keep | m] eqn:Ex; [| discriminate].
    destruct (Catalog.filterO f l) as [ys | m]; [| discriminate].
    injection H as <-. specialize (IH ys eq_refl).
    destruct keep; [constructor; assumption | assumption].
Qed.

Lemma mapO_each {A B} (f : A -> Outcome B) l l' :
  Catalog.mapO f l = Ok l' -> Forall2 (fun x y => f x = Ok y) l l'.
Proof.
  revert l'. induction l as [| x l IH]; intros l' H; cbn [Catalog.mapO] in H.
  - injection H as <-. constructor.
  - unfold Catalog.bindO in H.
    destruct (f x) as [y | m] eqn:Ex; [| discriminate].
    destruct (Catalog.mapO f l) as [ys | m]; [| discriminate].
    injection H as <-. constructor; [assumption | apply IH; reflexivity].
Qed.

Lemma hasType_true t item : Catalog.hasType t item = Ok true -> OfType t item.
Proof.
  destruct item as [| b | z | s | l | fs]; cbn; try discriminate.
  intros H. exists fs. split; [reflexivity |].
  destruct (fieldOf "subjectType" fs) as [[| b | z | s | l | fs'] |]; try discriminate.
  injection H as H. apply Z.eqb_eq in H. subst z. reflexivity.
Qed.

(** [fixThumbnail] writes no other field than [thumbnail]. *)
Lemma fixThumbnail_fields fs item' :
  Catalog.fixThumbnail (JObj fs) = Ok item' ->
  exists fs', item' = JObj fs'
              /\ forall k, k <> "thumbnail" -> fieldOf k fs' = fieldOf k fs.
Proof.
  cbn [Catalog.fixThumbnail]. intros [= <-]. eexists. split; [reflexivity |].
  intros k Hk.
  destruct (Catalog.urlOf (fieldOf "cover" fs)) as [u |].
  - destruct (Catalog.urlOf (fieldOf "stills" (Catalog.fieldSet "thumbnail" u fs)));
      [destruct (negb _) |];
      rewrite ?(fieldOf_fieldSet_other k "thumbnail") by assumption; reflexivity.
  - destruct (Catalog.urlOf (fieldOf "stills" fs)); [destruct (negb _) |];
      rewrite ?(fieldOf_fieldSet_other k "thumbnail") by assumption; reflexivity.
Qed.

Lemma fixThumbnail_type t item item' :
  OfType t item -> Catalog.fixThumbnail item = Ok item' -> OfType t item'.
Proof.
  intros (fs & -> & Ht) H.
  destruct (fixThumbnail_fields fs item' H) as (fs' & -> & Hsame).
  exists fs'. split; [reflexivity |]. rewrite Hsame by discriminate. exact Ht.
Qed.

Lemma urlOf_truthy c u : Catalog.urlOf c = Some u -> jsonTruthy u = true.
Proof.
  unfold Catalog.urlOf.
  destruct (Catalog.truthy c && Catalog.truthy (Catalog.optProp c "url")) eqn:E;
    [| discriminate].
  apply andb_true_iff in E as [_ E]. intros H. rewrite H in E. exact E.
Qed.

Lemma fixThumbnail_thumbed item item' :
  Catalog.fixThumbnail item = Ok item' -> Thumbed item'.
Proof.
  destruct item as [| b | z | s | l | fs]; cbn [Catalog.fixThumbnail];
    try discriminate; try (intros [= <-]; exact I).
  intros [= <-]. cbn [Thumbed].
  assert (forall u v, fieldOf "cover" (Catalog.fieldSet "thumbnail" v u) = fieldOf "cover" u)
    as Hcov by (intros; apply fieldOf_fieldSet_other; discriminate).
  assert (forall u v, fieldOf "stills" (Catalog.fieldSet "thumbnail" v u) = fieldOf "stills" u)
    as Hst by (intros; apply fieldOf_fieldSet_other; discriminate).
  destruct (Catalog.urlOf (fieldOf "cover" fs)) as [u |] eqn:Ec.
  - pose proof (urlOf_truthy _ _ Ec) as Hu.
    rewrite Hst, fieldOf_fieldSet_same. cbn [Catalog.truthy]. rewrite Hu. cbn [negb].
    destruct (Catalog.urlOf (fieldOf "stills" fs));
      (split; [intros u'; rewrite Hcov, Ec; intros [= <-]; apply fieldOf_fieldSet_same
              | intros _; rewrite fieldOf_fieldSet_same; exact Hu]).
  - destruct (Catalog.urlOf (fieldOf "stills" fs)) as [w |] eqn:Es.
    + pose proof (urlOf_truthy _ _ Es) as Hw.
      destruct (Catalog.truthy (fieldOf "thumbnail" fs)) eqn:Et; cbn [negb].
      * split; [intros u'; rewrite Ec; discriminate | intros _; exact Et].
      * split; [intros u'; rewrite Hcov, Ec; discriminate |].
        intros _. rewrite fieldOf_fieldSet_same. exact Hw.
    + split; [intros u'; rewrite Ec; discriminate | intros H; congruence].
Qed.

Lemma Forall2_Forall {A} (P Q : A -> Prop) (R : A -> A -> Prop) l l' :
  Forall2 R l l' -> (forall x y, R x y -> P x -> Q y) -> Forall P l -> Forall Q l'.
Proof.
  intros H HR. induction H as [| x y l l' Hxy _ IH]; intros HP; [constructor |].
  inversion HP; subst. constructor; [eapply HR; eassumption | apply IH; assumption].
Qed.

Lemma Forall2_right {A} (Q : A -> Prop) (R : A -> A -> Prop) l l' :
  Forall2 R l l' -> (forall x y, R x y -> Q y) -> Forall Q l'.
Proof.
  intros H HR. induction H as [| x y l l' Hxy _ IH]; constructor; eauto.
Qed.

(** The items [postSearch] leaves in the content. *)
Lemma postSearch_items t content content' items :
  Catalog.postSearch t content = Ok content' ->
  shownItems content' = Some items ->
  exists l, items = JArr l
            /\ Forall Thumbed l
            /\ (t <> 0 -> Forall (OfType t) l).
Proof.
  destruct content as [| b | z | s | l0 | fs]; cbn [Catalog.postSearch];
    try discriminate; try (intros [= <-]; cbn; discriminate).
  unfold Catalog.bindO.
  destruct (negb (t =? 0) && Catalog.truthy (fieldOf "items" fs)) eqn:Efirst.
  - apply andb_true_iff in Efirst as [Ht _]. apply negb_true_iff, Z.eqb_neq in Ht.
    destruct (fieldOf "items" fs) as [[| b | z | s | l | fs0] |]; try discriminate.
    destruct (Catalog.filterO (Catalog.hasType t) l) as [l1 | m] eqn:Ef; [| discriminate].
    rewrite fieldOf_fieldSet_same. cbn [Catalog.truthy jsonTruthy].
    destruct (Catalog.mapO Catalog.fixThumbnail l1) as [l2 | m] eqn:Em; [| discriminate].
    intros [= <-]. cbn [shownItems]. rewrite fieldOf_fieldSet_same.
    cbn [Catalog.truthy jsonTruthy]. intros [= <-].
    exists l2. split; [reflexivity |].
    pose proof (mapO_each _ _ _ Em) as H2.
    split.
    + exact (Forall2_right _ _ _ _ H2 (fun x y H => fixThumbnail_thumbed x y H)).
    + intros _.
      refine (Forall2_Forall (OfType t) (OfType t) _ _ _ H2 _ _).
      * intros x y Hxy Hx. exact (fixThumbnail_type t x y Hx Hxy).
      * refine (Forall_impl _ _ (filterO_kept _ _ _ Ef)). apply hasType_true.
  - destruct (Catalog.truthy (fieldOf "items" fs)) eqn:Eit.
    + destruct (t =? 0) eqn:Et; [| cbn in Efirst; discriminate].
      apply Z.eqb_eq in Et.
      destruct (fieldOf "items" fs) as [[| b | z | s | l | fs0] |] eqn:Ei; try discriminate.
      destruct (Catalog.mapO Catalog.fixThumbnail l) as [l2 | m] eqn:Em; [| discriminate].
      intros [= <-]. cbn [shownItems]. rewrite fieldOf_fieldSet_same.
      cbn [Catalog.truthy jsonTruthy]. intros [= <-].
      exists l2. split; [reflexivity |].
      pose proof (mapO_each _ _ _ Em) as H2.
      split; [| congruence].
      exact (Forall2_right _ _ _ _ H2 (fun x y H => fixThumbnail_thumbed x y H)).
    + intros [= <-]. cbn [shownItems]. rewrite Eit. discriminate.
Qed.

(** The subject [postInfo] leaves in the content. *)
Lemma postInfo_subject content fs subject :
  Catalog.postInfo content = Ok (JObj fs) ->
  fieldOf "subject" fs = Some subject ->
  jsonTruthy subject = true ->
  Thumbed subject.
Proof.
  destruct content as [| b | z | s | l0 | fs0]; cbn [Catalog.postInfo]; try discriminate.
  destruct (Catalog.truthy (fieldOf "subject" fs0)) eqn:Et.
  - destruct (fieldOf "subject" fs0) as [subject0 |]; [| discriminate].
    unfold Catalog.bindO.
    destruct (Catalog.fixThumbnail subject0) as [s1 | m] eqn:Ef; [| discriminate].
    intros [= <-]. rewrite fieldOf_fieldSet_same. intros [= <-] _.
    exact (fixThumbnail_thumbed _ _ Ef).
  - intros [= <-] Hs Ht. rewrite Hs in Et. cbn in Et. congruence.
Qed.

(** ** Running the catalog handlers *)

Ltac run_catalog :=
  unfold Success, Catalog.workerServe, Catalog.guarded, Catalog.handleSearch,
    Catalog.handleInfo, Catalog.search, Catalog.info,
    Worker.makeApiRequest, Express.makeApiRequest,
    Worker.responseJson, Express.responseJson, Catalog.liftO;
  monad.

Lemma Worker_search_success stringify e v log rq content :
  Success (Catalog.workerServe (Catalog.handleSearch stringify rq) e v log) content ->
  exists data,
    Catalog.postSearch (Catalog.orNum (JS.parseIntOpt "null" (Catalog.s_type rq) 0) 0)
                       (Worker.processApiResponse data)
    = Ok content.
Proof.
  run_catalog.
  destruct (Worker.getCookies e {| user := v; calls := log |}) as [[o | m] s1];
    [| cbn; intros [H _]; discriminate].
  monad.
  destruct (fetch e _) as [r | m]; [| cbn; intros [H _]; discriminate].
  destruct (up_data r) as [data |]; [| cbn; intros [H _]; discriminate].
  monad.
  destruct (Catalog.postSearch _ _) as [c | m] eqn:E; [| cbn; intros [H _]; discriminate].
  cbn. intros [_ [= <-]]. exists data. exact E.
Qed.

Lemma Express_search_success stringify e v log rq content :
  Success (serve (Catalog.search stringify rq) e v log) content ->
  exists data,
    Catalog.postSearch (Catalog.orNum (JS.parseIntOpt "undefined" (Catalog.s_type rq) 0) 0)
                       (Express.processApiResponse data)
    = Ok content.
Proof.
  run_catalog.
  destruct (Express.getCookies e _) as [[o | m] s1];
    [| cbn; intros [H _]; discriminate].
  monad.
  destruct (fetch e _) as [r | m]; [| cbn; intros [H _]; discriminate].
  destruct (up_data r) as [data |]; [| cbn; intros [H _]; discriminate].
  monad.
  destruct (Catalog.postSearch _ _) as [c | m] eqn:E; [| cbn; intros [H _]; discriminate].
  cbn. intros [_ [= <-]]. exists data. exact E.
Qed.

Lemma Worker_info_success formEncode e v log movieId content :
  Success (Catalog.workerServe (Catalog.handleInfo formEncode movieId) e v log) content ->
  exists data, Catalog.postInfo (Worker.processApiResponse data) = Ok content.
Proof.
  run_catalog.
  destruct (Worker.getCookies e {| user := v; calls := log |}) as [[o | m] s1];
    [| cbn; intros [H _]; discriminate].
  monad.
  destruct (fetch e _) as [r | m]; [| cbn; intros [H _]; discriminate].
  destruct (up_data r) as [data |]; [| cbn; intros [H _]; discriminate].
  monad.
  destruct (Catalog.postInfo _) as [c | m] eqn:E; [| cbn; intros [H _]; discriminate].
  cbn. intros [_ [= <-]]. exists data. exact E.
Qed.

Lemma Express_info_success formEncode e v log movieId content :
  Success (serve (Catalog.info formEncode movieId) e v log) content ->
  exists data, Catalog.postInfo (Express.processApiResponse data) = Ok content.
Proof.
  run_catalog.
  destruct (Express.getCookies e _) as [[o | m] s1];
    [| cbn; intros [H _]; discriminate].
  monad.
  destruct (fetch e _) as [r | m]; [| cbn; intros [H _]; discriminate].
  destruct (up_data r) as [data |]; [| cbn; intros [H _]; discriminate].
  monad.
  destruct (Catalog.postInfo _) as [c | m] eqn:E; [| cbn; intros [H _]; discriminate].
  cbn. intros [_ [= <-]]. exists data. exact E.
Qed.

(** ** X17, X18: what the search and info handlers return *)

(** X17.  When a search asks for a type [t] that is not 0 and is answered
    200, the [items] of the answer, when the content shows any, are an array
    of objects whose [subjectType] is [t]: in the Worker and in the Express
    server alike. *)
Theorem X17_search_filters_by_type (stringify : Json -> string) (e : Env)
        (rq : Catalog.SearchRequest) (log : list Request)
        (ve : Express.Vars) (vw : Worker.Vars) (content items : Json) :
  shownItems content = Some items ->
  (let t := Catalog.orNum (JS.parseIntOpt "null" (Catalog.s_type rq) 0) 0 in
   t <> 0 ->
   Success (Catalog.workerServe (Catalog.handleSearch stringify rq) e vw log) content ->
   exists l, items = JArr l /\ Forall (OfType t) l)
  /\ (let t := Catalog.orNum (JS.parseIntOpt "undefined" (Catalog.s_type rq) 0) 0 in
      t <> 0 ->
      Success (serve (Catalog.search stringify rq) e ve log) content ->
      exists l, items = JArr l /\ Forall (OfType t) l).
Proof.
  intros Hitems. split; intros t Ht Hs.
  - destruct (Worker_search_success _ _ _ _ _ _ Hs) as (data & Hpost).
    destruct (postSearch_items _ _ _ _ Hpost Hitems) as (l & -> & _ & Hall).
    exists l. split; [reflexivity | exact (Hall Ht)].
  - destruct (Express_search_success _ _ _ _ _ _ Hs) as (data & Hpost).
    destruct (postSearch_items _ _ _ _ Hpost Hitems) as (l & -> & _ & Hall).
    exists l. split; [reflexivity | exact (Hall Ht)].
Qed.

Lemma X17_witness :
  let items :=
    JArr [JObj [("title", JStr "A"); ("subjectType", JNum 1);
                ("cover", JObj [("url", JStr "https://img/a.jpg")]);
                ("thumbnail", JStr "https://img/a.jpg")];
          JObj [("title", JStr "C"); ("subjectType", JNum 1)]] in
  exists l, items = JArr l /\ Forall (OfType 1) l.
Proof.
  intros items.
  assert (1 <> 0) as H1 by discriminate.
  refine (proj1 (X17_search_filters_by_type (fun _ => EmptyString) (answering sampleItems)
                   (sampleSearch (Some "1")) [] Express.initial Worker.initial
                   (JObj [("items", items)]) items eq_refl) H1 _).
  split; reflexivity.
Defined.

(** X18.  In every 200 of a search handler the items shown are an array
    without [null] in which each object has the url of its cover as
    [thumbnail] when the cover has one, and a truthy [thumbnail] when its
    stills have one; and in every 200 of an info handler the subject of the
    content, when truthy, is such an object. *)
Theorem X18_thumbnails (stringify : Json -> string) (formEncode : string -> string)
        (e : Env) (rq : Catalog.SearchRequest) (movieId : string) (log : list Request)
        (ve : Express.Vars) (vw : Worker.Vars) (content : Json) :
  (Success (Catalog.workerServe (Catalog.handleSearch stringify rq) e vw log) content
   \/ Success (serve (Catalog.search stringify rq) e ve log) content ->
   forall items, shownItems content = Some items ->
                 exists l, items = JArr l /\ Forall Thumbed l)
  /\ (Success (Catalog.workerServe (Catalog.handleInfo formEncode movieId) e vw log) content
      \/ Success (serve (Catalog.info formEncode movieId) e ve log) content ->
      forall fs subject,
        content = JObj fs -> fieldOf "subject" fs = Some subject ->
        jsonTruthy subject = true -> Thumbed subject).
Proof.
  split.
  - intros [Hs | Hs] items Hitems.
    + destruct (Worker_search_success _ _ _ _ _ _ Hs) as (data & Hpost).
      destruct (postSearch_items _ _ _ _ Hpost Hitems) as (l & -> & Hall & _).
      exists l. split; [reflexivity | exact Hall].
    + destruct (Express_search_success _ _ _ _ _ _ Hs) as (data & Hpost).
      destruct (postSearch_items _ _ _ _ Hpost Hitems) as (l & -> & Hall & _).
      exists l. split; [reflexivity | exact Hall].
  - intros [Hs | Hs] fs subject -> Hsub Ht.
    + destruct (Worker_info_success _ _ _ _ _ _ Hs) as (data & Hpost).
      exact (postInfo_subject _ _ _ Hpost Hsub Ht).
    + destruct (Express_info_success _ _ _ _ _ _ Hs) as (data & Hpost).
      exact (postInfo_subject _ _ _ Hpost Hsub Ht).
Qed.

Lemma X18_witness :
  let items :=
    JArr [JObj [("title", JStr "B"); ("subjectType", JNum 2);
                ("stills", JObj [("url", JStr "https://img/b.jpg")]);
                ("thumbnail", JStr "https://img/b.jpg")]] in
  exists l, items = JArr l /\ Forall Thumbed l.
Proof.
  intros items.
  refine (proj1 (X18_thumbnails (fun _ => EmptyString) (fun s => s) (answering sampleItems)
                   (sampleSearch (Some "2")) EmptyString [] Express.initial Worker.initial
                   (JObj [("items", items)])) (or_introl _) items eq_refl).
  split; reflexivity.
Defined.

(** ** X19: the answers on which a search fails *)

Lemma fixThumbnail_throws item :
  (exists m, Catalog.fixThumbnail item = Throw m) <-> item = JNull.
Proof.
  split.
  - intros [m H]. destruct item; cbn in H; try discriminate. reflexivity.
  - intros ->. eexists. reflexivity.
Qed.

Lemma hasType_throws t item :
  (exists m, Catalog.hasType t item = Throw m) <-> item = JNull.
Proof.
  split.
  - intros [m H]. destruct item; cbn in H; try discriminate. reflexivity.
  - intros ->. eexists. reflexivity.
Qed.

Lemma mapO_throws {A B} (f : A -> Outcome B) l :
  (exists m, Catalog.mapO f l = Throw m) <-> exists x, In x l /\ exists m, f x = Throw m.
Proof.
  induction l as [| x l IH]; cbn [Catalog.mapO In].
  - split; [intros [m H]; discriminate | intros (x & [] & _)].
  - unfold Catalog.bindO. destruct (f x) as [y | m] eqn:Ex.
    + destruct (Catalog.mapO f l) as [ys | m'].
      * split; [intros [m H]; discriminate |].
        intros (x' & [<- | Hin] & m & Hm); [congruence |].
        destruct (proj2 IH (ex_intro _ x' (conj Hin (ex_intro _ m Hm)))) as [m' H].
        discriminate.
      * split; [| intros _; eexists; reflexivity].
        intros _. destruct (proj1 IH (ex_intro _ m' eq_refl)) as (x' & Hin & Hm).
        exists x'. split; [right; assumption | assumption].
    + split; [| intros _; eexists; reflexivity].
      intros _. exists x. split; [left; reflexivity | eexists; exact Ex].
Qed.

Lemma filterO_throws {A} (f : A -> Outcome bool) l :
  (exists m, Catalog.filterO f l = Throw m) <-> exists x, In x l /\ exists m, f x = Throw m.
Proof.
  induction l as [| x l IH]; cbn [Catalog.filterO In].
  - split; [intros [m H]; discriminate | intros (x & [] & _)].
  - unfold Catalog.bindO. destruct (f x) as [y | m] eqn:Ex.
    + destruct (Catalog.filterO f l) as [ys | m'].
      * split; [intros [m H]; discriminate |].
        intros (x' & [<- | Hin] & m & Hm); [congruence |].
        destruct (proj2 IH (ex_intro _ x' (conj Hin (ex_intro _ m Hm)))) as [m' H].
        discriminate.
      * split; [| intros _; eexists; reflexivity].
        intros _. destruct (proj1 IH (ex_intro _ m' eq_refl)) as (x' & Hin & Hm).
        exists x'. split; [right; assumption | assumption].
    + split; [| intros _; eexists; reflexivity].
      intros _. exists x. split; [left; reflexivity | eexists; exact Ex].
Qed.

Lemma filterO_sub {A} (f : A -> Outcome bool) l l' x :
  Catalog.filterO f l = Ok l' -> In x l' -> In x l.
Proof.
  revert l'. induction l as [| y l IH]; intros l' H Hin; cbn [Catalog.filterO] in H.
  - injection H as <-. exact Hin.
  - unfold Catalog.bindO in H.
    destruct (f y) as [keep |]; [| discriminate].
    destruct (Catalog.filterO f l) as [ys |]; [| discriminate].
    injection H as <-.
    destruct keep; [destruct Hin as [<- | Hin]; [left; reflexivity |] |];
      right; exact (IH ys eq_refl Hin).
Qed.

Lemma null_item_throws_map l :
  (exists m, Catalog.mapO Catalog.fixThumbnail l = Throw m) <-> In JNull l.
Proof.
  rewrite mapO_throws. split.
  - intros (x & Hin & Hm). apply fixThumbnail_throws in Hm. subst x. exact Hin.
  - intros Hin. exists JNull. split; [exact Hin | apply fixThumbnail_throws; reflexivity].
Qed.

Lemma null_item_throws_filter t l :
  (exists m, Catalog.filterO (Catalog.hasType t) l = Throw m) <-> In JNull l.
Proof.
  rewrite filterO_throws. split.
  - intros (x & Hin & Hm). apply hasType_throws in Hm. subst x. exact Hin.
  - intros Hin. exists JNull. split; [exact Hin | apply hasType_throws; reflexivity].
Qed.

(** [postSearch] throws on the unsearchable contents and on no other. *)
Lemma postSearch_throws t content :
  (exists m, Catalog.postSearch t content = Throw m) <-> Unsearchable content.
Proof.
  unfold Unsearchable.
  destruct content as [| b | z | s | l0 | fs]; cbn [Catalog.postSearch];
    try (split; [intros [m H]; discriminate
                | intros [H | (fs & H & _)]; discriminate]).
  - split; [intros _; left; reflexivity | intros _; eexists; reflexivity].
  - unfold Catalog.bindO.
    destruct (Catalog.truthy (fieldOf "items" fs)) eqn:Eit.
    2:{ rewrite andb_false_r, Eit.
        split; [intros [m H]; discriminate |].
        intros [H | (fs' & [= <-] & Ht & _)]; [discriminate | congruence]. }
    rewrite andb_true_r.
    destruct (fieldOf "items" fs) as [[| b | z | s | l | fs0] |] eqn:Ei;
      try discriminate Eit;
      try (split; [intros _; right; exists fs; split; [reflexivity |];
                   split; [rewrite Ei; exact Eit |];
                   intros l' H'; rewrite Ei in H'; discriminate H'
                  | intros _; destruct (negb (t =? 0)); [| rewrite Ei, Eit];
                    eexists; reflexivity]).
    destruct (negb (t =? 0)).
    + destruct (Catalog.filterO (Catalog.hasType t) l) as [l1 | m1] eqn:Ef.
      * rewrite fieldOf_fieldSet_same. cbn [Catalog.truthy jsonTruthy].
        assert (~ In JNull l) as Hno.
        { intros Hin. apply (null_item_throws_filter t) in Hin as [m Hm]. congruence. }
        assert (~ In JNull l1) as Hno1
            by (intros Hin; exact (Hno (filterO_sub _ _ _ _ Ef Hin))).
        destruct (Catalog.mapO Catalog.fixThumbnail l1) as [l2 | m2] eqn:Em.
        -- split; [intros [m H]; discriminate |].
           intros [H | (fs' & [= <-] & _ & Hall)]; [discriminate |].
           exfalso. exact (Hno (Hall l Ei)).
        -- exfalso. apply Hno1, null_item_throws_map. eexists; exact Em.
      * split; [| intros _; eexists; reflexivity].
        intros _. right. exists fs. split; [reflexivity |].
        split; [rewrite Ei; exact Eit |].
        intros l' H'. rewrite Ei in H'. injection H' as <-.
        apply (null_item_throws_filter t). eexists; exact Ef.
    + rewrite Ei, Eit.
      destruct (Catalog.mapO Catalog.fixThumbnail l) as [l2 | m2] eqn:Em.
      * split; [intros [m H]; discriminate |].
        intros [H | (fs' & [= <-] & _ & Hall)]; [discriminate |].
        exfalso. specialize (Hall l Ei). apply null_item_throws_map in Hall as [m Hm].
        congruence.
      * split; [| intros _; eexists; reflexivity].
        intros _. right. exists fs. split; [reflexivity |].
        split; [rewrite Ei; exact Eit |].
        intros l' H'. rewrite Ei in H'. injection H' as <-.
        apply null_item_throws_map. eexists; exact Em.
Qed.

Lemma Worker_getCookies_returns e s : exists o s', Worker.getCookies e s = (Ok o, s').
Proof.
  destruct (Worker.cacheFresh (user s) (now e)) eqn:Hf.
  - rewrite (Worker_getCookies_fresh e s Hf). eexists; eexists; reflexivity.
  - destruct (fetch e bootstrapRequest) as [r | m] eqn:Hb.
    + rewrite (Worker_getCookies_refreshed e s Hf r Hb).
      destruct (Worker.setCookieHeaders r); eexists; eexists; reflexivity.
    + rewrite (Worker_getCookies_failed e s Hf m Hb). eexists; eexists; reflexivity.
Qed.

Lemma Express_getCookies_returns e s :
  exists o s', Express.getCookies e s = (Ok o, s') /\ res (user s') = res (user s).
Proof.
  destruct (Express.cacheFresh (vars (user s)) (now e)) eqn:Hf.
  - rewrite (Express_getCookies_fresh e s Hf). eexists; eexists; split; reflexivity.
  - destruct (fetch e bootstrapRequest) as [r | m] eqn:Hb.
    + rewrite (Express_getCookies_refreshed e s Hf r Hb).
      destruct (Express.setCookieHeaders r); eexists; eexists; split; reflexivity.
    + rewrite (Express_getCookies_failed e s Hf m Hb). eexists; eexists; split; reflexivity.
Qed.

(** X19.  When the upstream answers the search request with a document,
    the search handlers answer 500 exactly when the content of the document
    is [null], or is an object whose [items] is truthy and is not an array,
    or is an array that holds a [null]; on every other document they
    answer 200. *)
Theorem X19_search_failure (stringify : Json -> string) (e : Env)
        (rq : Catalog.SearchRequest) (log : list Request)
        (ve : Express.Vars) (vw : Worker.Vars) (r : UpResponse) (data : Json) :
  (forall q, rq_url q = Catalog.searchUrl -> fetch e q = FetchOk r) ->
  up_data r = Some data ->
  let xw := Catalog.workerServe (Catalog.handleSearch stringify rq) e vw log in
  let xe := serve (Catalog.search stringify rq) e ve log in
  (Unsearchable (Worker.processApiResponse data) -> seenStatus xw = 500)
  /\ (~ Unsearchable (Worker.processApiResponse data) -> exists content, Success xw content)
  /\ (Unsearchable (Express.processApiResponse data) -> seenStatus xe = 500)
  /\ (~ Unsearchable (Express.processApiResponse data) -> exists content, Success xe content).
Proof.
  intros Hfetch Hdata xw xe.
  assert ((Unsearchable (Worker.processApiResponse data) -> seenStatus xw = 500)
                    /\ (~ Unsearchable (Worker.processApiResponse data) ->
                        exists content, Success xw content)) as Hw.
  { subst xw. run_catalog.
    destruct (Worker_getCookies_returns e {| user := vw; calls := log |})
      as (o & s1 & ->).
    monad.
    match goal with
    | |- context [fetch e ?q] => rewrite (Hfetch q eq_refl)
    end.
    rewrite Hdata. monad.
    match goal with
    | |- context [Catalog.postSearch ?t ?c] =>
        pose proof (postSearch_throws t c) as Hiff;
        destruct (Catalog.postSearch t c) as [c' | m] eqn:E
    end; cbn.
    - split.
      + intros Hu. apply Hiff in Hu as [m Hm]. discriminate.
      + intros _. exists c'. split; reflexivity.
    - split; [reflexivity |].
      intros Hn. exfalso. apply Hn, Hiff. eexists; reflexivity. }
  assert ((Unsearchable (Express.processApiResponse data) -> seenStatus xe = 500)
                    /\ (~ Unsearchable (Express.processApiResponse data) ->
                        exists content, Success xe content)) as He.
  { subst xe. run_catalog.
    destruct (Express_getCookies_returns e
                {| user := {| vars := ve; res := freshRes |}; calls := log |})
      as (o & [u1 log1] & -> & Hres). cbn [user res] in Hres.
    monad.
    match goal with
    | |- context [fetch e ?q] => rewrite (Hfetch q eq_refl)
    end.
    rewrite Hdata. monad.
    match goal with
    | |- context [Catalog.postSearch ?t ?c] =>
        pose proof (postSearch_throws t c) as Hiff;
        destruct (Catalog.postSearch t c) as [c' | m] eqn:E
    end; monad; rewrite ?Hres; cbn.
    - split.
      + intros Hu. apply Hiff in Hu as [m Hm]. discriminate.
      + intros _. exists c'. split; reflexivity.
    - split; [reflexivity |].
      intros Hn. exfalso. apply Hn, Hiff. eexists; reflexivity. }
  destruct Hw as [Hw1 Hw2]. destruct He as [He1 He2].
  repeat split; assumption.
Qed.

Lemma X19_witness :
  seenStatus (Catalog.workerServe
                (Catalog.handleSearch (fun _ => EmptyString) (sampleSearch None))
                (answering JNull) Worker.initial []) = 500.
Proof.
  refine (proj1 (X19_search_failure (fun _ => EmptyString) (answering JNull)
                   (sampleSearch None) [] Express.initial Worker.initial _ JNull
                   (fun q _ => eq_refl) eq_refl) _).
  left. reflexivity.
Defined.

(** The homepage passes the same document on. *)
Example homepage_null :
  Success (Worker.serve Worker.RHomepage (Stub.request None None) (answering JNull)
             Worker.initial []) JNull.
Proof. split; reflexivity. Qed.

(** ** X20-X22: the sources of a film *)

Ltac run_sources :=
  unfold Catalog.workerServe, Catalog.guarded, Catalog.handleSources,
    Worker.makeApiRequest, Worker.responseJson, Catalog.liftO;
  monad.

(** X20.  When the answer to the info request shows no detail path, the
    sources handler of the Worker answers 500 with the message [Could not
    get movie detail path] and asks nothing more: its last upstream call is
    the info request. *)
Theorem X20_sources_need_detail_path (formEncode encodeURIComponent : string -> string)
        (e : Env) (rq : Catalog.SourcesRequest) (log : list Request) (vw : Worker.Vars)
        (r : UpResponse) (data : Json) :
  (forall q, rq_url q = Catalog.infoUrl formEncode (Catalog.r_movieId rq) ->
             fetch e q = FetchOk r) ->
  up_data r = Some data ->
  Catalog.truthy (detailPathOf (Worker.processApiResponse data)) = false ->
  let x := Catalog.workerServe
             (Catalog.handleSources formEncode encodeURIComponent rq) e vw log in
  seenStatus x = 500
  /\ seenBody x = BodyJson (errorJson "Could not get movie detail path")
  /\ exists before cookies,
       seenCalls x
       = (before ++ [apiRequest (Catalog.infoUrl formEncode (Catalog.r_movieId rq))
                                noOptions cookies])%list
       /\ (before = log \/ before = (log ++ [bootstrapRequest])%list).
Proof.
  intros Hfetch Hdata Hpath x. subst x. run_sources.
  pose proof (Worker_getCookies_one_call e {| user := vw; calls := log |}) as Hone.
  pose proof (Worker_getCookies_fresh e {| user := vw; calls := log |}) as Hfresh.
  destruct (Worker_getCookies_returns e {| user := vw; calls := log |})
    as (o & s1 & Hg).
  assert (calls s1 = log \/ calls s1 = (log ++ [bootstrapRequest])%list) as Hcalls.
  { destruct (Worker.cacheFresh vw (now e)) eqn:Hf.
    - left. specialize (Hfresh Hf). rewrite Hg in Hfresh.
      injection Hfresh as _ ->. reflexivity.
    - right. specialize (Hone Hf). rewrite Hg in Hone. exact Hone. }
  rewrite Hg. monad.
  match goal with
  | |- context [fetch e ?q] => rewrite (Hfetch q eq_refl)
  end.
  rewrite Hdata. monad.
  unfold detailPathOf in Hpath.
  destruct (Catalog.optProp _ "detailPath") as [p |].
  - cbn [Catalog.truthy] in Hpath. rewrite Hpath. cbn.
    repeat split. exists (calls s1), o. split; [reflexivity | exact Hcalls].
  - cbn. repeat split. exists (calls s1), o. split; [reflexivity | exact Hcalls].
Qed.

Lemma X20_witness :
  seenStatus (Catalog.workerServe
                (Catalog.handleSources (fun s => s) (fun s => s) (sampleSources None None))
                (sourcesUpstream (JStr "")) Worker.initial []) = 500.
Proof.
  refine (proj1 (X20_sources_need_detail_path (fun s => s) (fun s => s)
                   (sourcesUpstream (JStr "")) (sampleSources None None) [] Worker.initial
                   (document (sampleInfo (JStr ""))) (sampleInfo (JStr "")) _
                   eq_refl eq_refl)).
  intros q H. cbn [fetch sourcesUpstream]. rewrite H. reflexivity.
Defined.

Lemma safe_small z : - 9007199254740992 <= z <= 9007199254740992 -> JS.safe z.
Proof. intros H. exact H. Qed.

(** X21.  When the answer to the info request shows a detail path, the
    sources handler of the Worker asks the download endpoint for the film,
    season and episode (numbers; a parameter that is absent or not a number
    counts as 0), and this request names the play page of the film as its
    [Referer] in place of the default one, adds the [Origin], and keeps the
    other default headers.  (For a season and an episode that JavaScript
    holds exactly.) *)
Theorem X21_sources_request (formEncode encodeURIComponent : string -> string)
        (e : Env) (rq : Catalog.SourcesRequest) (log : list Request) (vw : Worker.Vars)
        (r : UpResponse) (data path : Json) :
  (forall q, rq_url q = Catalog.infoUrl formEncode (Catalog.r_movieId rq) ->
             fetch e q = FetchOk r) ->
  up_data r = Some data ->
  detailPathOf (Worker.processApiResponse data) = Some path ->
  jsonTruthy path = true ->
  JS.safe (paging (Catalog.r_season rq) 0) ->
  JS.safe (paging (Catalog.r_episode rq) 0) ->
  let x := Catalog.workerServe
             (Catalog.handleSources formEncode encodeURIComponent rq) e vw log in
  let season := paging (Catalog.r_season rq) 0 in
  let episode := paging (Catalog.r_episode rq) 0 in
  exists before q,
    seenCalls x = (before ++ [q])%list
    /\ rq_url q
       = Catalog.downloadUrl ++ "?subjectId=" ++ formEncode (Catalog.r_movieId rq)
           ++ "&se=" ++ formEncode (JS.intToString season)
           ++ "&ep=" ++ formEncode (JS.intToString episode)
    /\ rq_method q = "GET"
    /\ header "Referer" (rq_headers q)
       = Some ("https://fmoviesunblocked.net/spa/videoPlayPage/movies/"
                 ++ Catalog.display path ++ "?id=" ++ Catalog.r_movieId rq
                 ++ "&type=/movie/detail")
    /\ header "Origin" (rq_headers q) = Some "https://fmoviesunblocked.net"
    /\ header "User-Agent" (rq_headers q) = Some "okhttp/4.12.0"
    /\ header "Host" (rq_headers q) = Some SELECTED_HOST
    /\ (Catalog.r_season rq = None -> season = 0)
    /\ (Catalog.r_episode rq = None -> episode = 0).
Proof.
  intros Hfetch Hdata Hpath Htruthy _ _ x season episode. subst x. run_sources.
  destruct (Worker_getCookies_returns e {| user := vw; calls := log |})
    as (o & s1 & ->).
  monad.
  match goal with
  | |- context [fetch e ?q] => rewrite (Hfetch q eq_refl)
  end.
  rewrite Hdata. monad.
  unfold detailPathOf in Hpath. rewrite Hpath, Htruthy. cbn [negb]. monad.
  match goal with
  | |- context [Worker.getCookies e ?s] =>
      destruct (Worker_getCookies_returns e s) as (o2 & s2 & ->)
  end.
  monad. unfold paging in season, episode. fold season episode.
  set (q2 := apiRequest _ (Catalog.sourcesOptions path (Catalog.r_movieId rq)) o2).
  assert (header "Referer" (rq_headers q2)
          = Some (Catalog.refererUrl path (Catalog.r_movieId rq))
          /\ header "Origin" (rq_headers q2) = Some "https://fmoviesunblocked.net"
          /\ header "User-Agent" (rq_headers q2) = Some "okhttp/4.12.0"
          /\ header "Host" (rq_headers q2) = Some SELECTED_HOST) as (H1 & H2 & H3 & H4).
  { subst q2. repeat split;
      (rewrite apiRequest_header by (left; discriminate)); reflexivity. }
  assert (Catalog.r_season rq = None -> season = 0) as Hs
      by (intros E; subst season; rewrite E; reflexivity).
  assert (Catalog.r_episode rq = None -> episode = 0) as He
      by (intros E; subst episode; rewrite E; reflexivity).
  exists (calls s2), q2.
  split.
  - destruct (fetch e q2) as [r2 | m]; [| reflexivity].
    destruct (up_data r2) as [data2 |]; [| reflexivity].
    monad. destruct (Catalog.postSources _ _ _ _ _ _ _); reflexivity.
  - repeat split; try assumption; reflexivity.
Qed.

Lemma X21_witness :
  exists before q,
    seenCalls (Catalog.workerServe
                 (Catalog.handleSources (fun s => s) (fun s => s)
                    (sampleSources (Some "2") (Some "x")))
                 (sourcesUpstream (JStr "film-1")) Worker.initial [])
    = (before ++ [q])%list
    /\ rq_url q = Catalog.downloadUrl ++ "?subjectId=42&se=2&ep=0"
    /\ header "Referer" (rq_headers q)
       = Some "https://fmoviesunblocked.net/spa/videoPlayPage/movies/film-1?id=42&type=/movie/detail".
Proof.
  assert (forall q, rq_url q = Catalog.infoUrl (fun s => s) "42" ->
                    fetch (sourcesUpstream (JStr "film-1")) q
                    = FetchOk (document (sampleInfo (JStr "film-1")))) as Hinfo.
  { intros q H. cbn [fetch sourcesUpstream]. rewrite H. reflexivity. }
  assert (JS.safe 2) as H2 by (apply safe_small; lia).
  assert (JS.safe 0) as H0 by (apply safe_small; lia).
  destruct (X21_sources_request (fun s => s) (fun s => s)
              (sourcesUpstream (JStr "film-1")) (sampleSources (Some "2") (Some "x"))
              [] Worker.initial (document (sampleInfo (JStr "film-1")))
              (sampleInfo (JStr "film-1")) (JStr "film-1")
              Hinfo eq_refl eq_refl eq_refl H2 H0)
    as (before & q & Hc & Hu & _ & Hr & _).
  exists before, q. split; [exact Hc |]. split; [exact Hu | exact Hr].
Defined.

Lemma processSource_source (formEncode encodeURIComponent : string -> string)
      baseUrl title season episode file :
  file <> JNull ->
  exists source,
    Catalog.processSource formEncode encodeURIComponent baseUrl title season episode file
    = Ok source
    /\ SourceOf formEncode encodeURIComponent baseUrl title (episodeTail formEncode season episode)
                file source.
Proof.
  intros Hfile.
  assert (Catalog.processSource formEncode encodeURIComponent baseUrl title season episode
            file
          = Ok (JObj (Catalog.literal
                  [("id", Catalog.optProp (Some file) "id");
                   ("quality",
                     Some (Catalog.orJson (Catalog.optProp (Some file) "resolution")
                             (JStr "Unknown")));
                   ("directUrl", Catalog.optProp (Some file) "url");
                   ("downloadUrl",
                     Some (JStr (baseUrl ++ "/api/download?url="
                                   ++ formEncode
                                        (Catalog.displayOpt
                                           (Catalog.optProp (Some file) "url"))
                                   ++ "&title=" ++ formEncode (Catalog.display title)
                                   ++ "&quality="
                                   ++ formEncode
                                        (Catalog.display
                                           (Catalog.orJson
                                              (Catalog.optProp (Some file) "resolution")
                                              (JStr "Unknown")))
                                   ++ episodeTail formEncode season episode)));
                   ("streamUrl",
                     Some (JStr (baseUrl ++ "/api/stream?url="
                                   ++ encodeURIComponent
                                        (Catalog.displayOpt
                                           (Catalog.optProp (Some file) "url")))));
                   ("size", Catalog.optProp (Some file) "size");
                   ("format", Some (JStr "mp4"))]))) as ->.
  { unfold Catalog.processSource, episodeTail.
    destruct file; try congruence;
      (destruct ((0 <? season) && (0 <? episode));
       [| rewrite !append_empty_r; reflexivity];
       do 3 f_equal; cbn [String.append];
       repeat (rewrite ?append_assoc; cbn [String.append]); reflexivity). }
  eexists. split; [reflexivity |].
  unfold SourceOf. eexists. split; [reflexivity |].
  destruct (Catalog.optProp (Some file) "id"), (Catalog.optProp (Some file) "url"),
    (Catalog.optProp (Some file) "size"); cbn [Catalog.literal];
    repeat split; reflexivity.
Qed.

Lemma mapO_sources (formEncode encodeURIComponent : string -> string)
      baseUrl title season episode l :
  ~ In JNull l ->
  exists sources,
    Catalog.mapO (Catalog.processSource formEncode encodeURIComponent baseUrl title
                    season episode) l = Ok sources
    /\ Forall2 (SourceOf formEncode encodeURIComponent baseUrl title
                         (episodeTail formEncode season episode)) l sources.
Proof.
  induction l as [| file l IH]; intros Hno.
  - exists []. split; [reflexivity | constructor].
  - destruct (processSource_source formEncode encodeURIComponent baseUrl title season
                episode file) as (source & Hs & Hof).
    { intros ->. apply Hno. left. reflexivity. }
    destruct IH as (sources & Hm & Hall).
    { intros Hin. apply Hno. right. exact Hin. }
    exists (source :: sources). cbn [Catalog.mapO]. rewrite Hs. unfold Catalog.bindO.
    rewrite Hm. split; [reflexivity | constructor; assumption].
Qed.

(** X22.  When the upstream answers the info request with a detail path and
    the download request with a content whose [downloads] are an array
    without [null], the sources handler of the Worker answers 200 with that
    content and one more field, [processedSources]: one entry for each
    download, in order, that repeats its id, size, url and quality ([Unknown]
    when it has no resolution), has the format [mp4], and links to the
    stream and download routes of this server (at the protocol of
    [x-forwarded-proto], [https] by default, and the [host] header) with the
    url of the file as parameter; the download link carries the title of the
    film ([video] when it has none) and, for a positive season and episode,
    their numbers.  (For a season and an episode that JavaScript holds
    exactly.) *)
Theorem X22_processed_sources (formEncode encodeURIComponent : string -> string)
        (e : Env) (rq : Catalog.SourcesRequest) (log : list Request) (vw : Worker.Vars)
        (r1 r2 : UpResponse) (data1 data2 path : Json)
        (fs : list (string * Json)) (l : list Json) :
  (forall q, rq_url q = Catalog.infoUrl formEncode (Catalog.r_movieId rq) ->
             fetch e q = FetchOk r1) ->
  (forall q, String.prefix (Catalog.downloadUrl ++ "?") (rq_url q) = true ->
             fetch e q = FetchOk r2) ->
  up_data r1 = Some data1 ->
  up_data r2 = Some data2 ->
  detailPathOf (Worker.processApiResponse data1) = Some path ->
  jsonTruthy path = true ->
  Worker.processApiResponse data2 = JObj fs ->
  fieldOf "downloads" fs = Some (JArr l) ->
  ~ In JNull l ->
  JS.safe (paging (Catalog.r_season rq) 0) ->
  JS.safe (paging (Catalog.r_episode rq) 0) ->
  let season := paging (Catalog.r_season rq) 0 in
  let episode := paging (Catalog.r_episode rq) 0 in
  let baseUrl :=
    JS.orElse (Catalog.r_proto rq) "https" ++ "://"
      ++ match Catalog.r_host rq with Some h => h | None => "null" end in
  let title :=
    Catalog.orJson
      (Catalog.optProp
         (Catalog.optProp (Some (Worker.processApiResponse data1)) "subject") "title")
      (JStr "video") in
  exists sources,
    Success (Catalog.workerServe
               (Catalog.handleSources formEncode encodeURIComponent rq) e vw log)
            (JObj (Catalog.fieldSet "processedSources" (JArr sources) fs))
    /\ Forall2 (SourceOf formEncode encodeURIComponent baseUrl title
                         (episodeTail formEncode season episode)) l sources.
Proof.
  intros Hinfo Hdown Hd1 Hd2 Hpath Htruthy Hcontent Hl Hno _ _
         season episode baseUrl title.
  unfold paging in season, episode.
  destruct (mapO_sources formEncode encodeURIComponent baseUrl title season episode l Hno)
    as (sources & Hmap & Hall).
  exists sources. split; [| exact Hall].
  run_sources.
  destruct (Worker_getCookies_returns e {| user := vw; calls := log |})
    as (o & s1 & ->).
  monad.
  match goal with
  | |- context [fetch e ?q] => rewrite (Hinfo q eq_refl)
  end.
  rewrite Hd1. monad.
  unfold detailPathOf in Hpath. rewrite Hpath, Htruthy. cbn [negb]. monad.
  match goal with
  | |- context [Worker.getCookies e ?s] =>
      destruct (Worker_getCookies_returns e s) as (o2 & s2 & ->)
  end.
  monad.
  match goal with
  | |- context [fetch e ?q] => rewrite (Hdown q (prefix_append _ _))
  end.
  rewrite Hd2. monad. rewrite Hcontent.
  unfold Catalog.postSources.
  cbn [jsonTruthy Catalog.optProp andb]. rewrite Hl. cbn [Catalog.truthy jsonTruthy].
  match goal with
  | |- context [Catalog.mapO ?f l] =>
      change (Catalog.mapO f l)
        with (Catalog.mapO (Catalog.processSource formEncode encodeURIComponent baseUrl
                              title season episode) l)
  end.
  rewrite Hmap. split; reflexivity.
Qed.

(** A url that begins with the download endpoint does not begin with the
    detail endpoint. *)
Lemma download_not_detail u :
  String.prefix (Catalog.downloadUrl ++ "?") u = true ->
  String.prefix Catalog.detailUrl u = false.
Proof.
  intros H.
  assert (forall a b c d v, String.prefix (a ++ String c b) v = true -> c <> d ->
                            String.prefix (a ++ String d EmptyString) v = false) as Hdiff.
  { intros a b c d. induction a as [| x a IH]; intros v Hv Hcd;
      destruct v as [| y v]; cbn [String.append String.prefix] in *; try reflexivity.
    - destruct (ascii_dec c y) as [<- |]; [| discriminate Hv].
      destruct (ascii_dec d c); [congruence | reflexivity].
    - destruct (ascii_dec x y); [exact (IH v Hv Hcd) | reflexivity]. }
  assert (forall a b v, String.prefix (a ++ String b EmptyString) v = false ->
                        forall t, String.prefix (a ++ String b t) v = false) as Hext.
  { intros a b. induction a as [| x a IH]; intros v Hv t;
      destruct v as [| y v]; cbn [String.append String.prefix] in *; try reflexivity.
    - destruct (ascii_dec b y); [destruct v; discriminate Hv | reflexivity].
    - destruct (ascii_dec x y); [exact (IH v Hv t) | reflexivity]. }
  refine (Hext (HOST_URL ++ "/wefeed-h5-bff/web/subject/d") "e"%char u _ "tail").
  refine (Hdiff (HOST_URL ++ "/wefeed-h5-bff/web/subject/d") "wnload?" "o"%char "e"%char
                u _ _); [exact H | discriminate].
Qed.

Lemma X22_witness :
  exists sources,
    Success (Catalog.workerServe
               (Catalog.handleSources (fun s => s) (fun s => s)
                  (sampleSources (Some "1") (Some "3")))
               (sourcesUpstream (JStr "film-1")) Worker.initial [])
            (JObj (Catalog.fieldSet "processedSources" (JArr sources)
                     [("downloads", JArr [sampleFile])]))
    /\ Forall2 (SourceOf (fun s => s) (fun s => s) "https://api.example" (JStr "Film")
                         "&season=1&episode=3")
               [sampleFile] sources.
Proof.
  assert (forall q, rq_url q = Catalog.infoUrl (fun s => s) "42" ->
                    fetch (sourcesUpstream (JStr "film-1")) q
                    = FetchOk (document (sampleInfo (JStr "film-1")))) as Hinfo.
  { intros q H. cbn [fetch sourcesUpstream]. rewrite H. reflexivity. }
  assert (forall q, String.prefix (Catalog.downloadUrl ++ "?") (rq_url q) = true ->
                    fetch (sourcesUpstream (JStr "film-1")) q
                    = FetchOk (document sampleDownloads)) as Hdown.
  { intros q H. cbn [fetch sourcesUpstream]. rewrite (download_not_detail _ H).
    reflexivity. }
  assert (~ In JNull [sampleFile]) as Hno by (intros [H | []]; discriminate).
  assert (JS.safe 1) as H1 by (apply safe_small; lia).
  assert (JS.safe 3) as H3 by (apply safe_small; lia).
  exact (X22_processed_sources (fun s => s) (fun s => s)
           (sourcesUpstream (JStr "film-1")) (sampleSources (Some "1") (Some "3"))
           [] Worker.initial (document (sampleInfo (JStr "film-1")))
           (document sampleDownloads) (sampleInfo (JStr "film-1")) sampleDownloads
           (JStr "film-1") [("downloads", JArr [sampleFile])] [sampleFile]
           Hinfo Hdown eq_refl eq_refl eq_refl eq_refl eq_refl eq_refl Hno H1 H3).
Defined.

(** ** X23: every answer of the Worker *)

Lemma cors_spread hs : Cors (spread hs Worker.corsHeaders).
Proof. unfold Cors, header. rewrite !objGet_spread. repeat split; reflexivity. Qed.

Lemma jsonResponse_fine st j : In st statuses -> Fine (Worker.jsonResponse st j).
Proof. intros H. split; [apply cors_spread | exact H]. Qed.

Ltac fine :=
  first [ discriminate
        | intros [= <- <-];
          first [ apply jsonResponse_fine; cbn; tauto
                | unfold Fine; cbn [Worker.headers Worker.status];
                  split; [first [apply cors_spread | repeat split; reflexivity]
                         | cbn; tauto] ] ].

Lemma handleHomepage_sound : Sound Worker.handleHomepage.
Proof.
  intros e s r s'. unfold Worker.handleHomepage, Worker.makeApiRequest,
    Worker.responseJson. monad.
  destruct (Worker.getCookies e s) as [[o | m] s1]; [| fine]. monad.
  destruct (fetch e _) as [r1 | m]; [| fine].
  destruct (up_data r1); monad; fine.
Qed.

Lemma handleTrending_sound formEncode page perPage :
  Sound (Catalog.handleTrending formEncode page perPage).
Proof.
  intros e s r s'. unfold Catalog.handleTrending, Worker.makeApiRequest,
    Worker.responseJson. monad.
  destruct (Worker.getCookies e s) as [[o | m] s1]; [| fine]. monad.
  destruct (fetch e _) as [r1 | m]; [| fine].
  destruct (up_data r1); monad; fine.
Qed.

Lemma handleSearch_sound stringify rq : Sound (Catalog.handleSearch stringify rq).
Proof.
  intros e s r s'. unfold Catalog.handleSearch, Worker.makeApiRequest,
    Worker.responseJson, Catalog.liftO. monad.
  destruct (Worker.getCookies e s) as [[o | m] s1]; [| fine]. monad.
  destruct (fetch e _) as [r1 | m]; [| fine].
  destruct (up_data r1); monad; [| fine].
  destruct (Catalog.postSearch _ _); fine.
Qed.

Lemma handleInfo_sound formEncode movieId : Sound (Catalog.handleInfo formEncode movieId).
Proof.
  intros e s r s'. unfold Catalog.handleInfo, Worker.makeApiRequest,
    Worker.responseJson, Catalog.liftO. monad.
  destruct (Worker.getCookies e s) as [[o | m] s1]; [| fine]. monad.
  destruct (fetch e _) as [r1 | m]; [| fine].
  destruct (up_data r1); monad; [| fine].
  destruct (Catalog.postInfo _); fine.
Qed.

Lemma handleSources_sound formEncode encodeURIComponent rq :
  Sound (Catalog.handleSources formEncode encodeURIComponent rq).
Proof.
  intros e s r s'. unfold Catalog.handleSources, Worker.makeApiRequest,
    Worker.responseJson, Catalog.liftO. monad.
  destruct (Worker.getCookies e s) as [[o | m] s1]; [| fine]. monad.
  destruct (fetch e _) as [r1 | m]; [| fine].
  destruct (up_data r1); monad; [| fine].
  destruct (Catalog.optProp _ "detailPath") as [p |]; [| fine].
  destruct (negb (jsonTruthy p)); [fine |]. monad.
  destruct (Worker.getCookies e _) as [[o2 | m] s2]; [| fine]. monad.
  destruct (fetch e _) as [r2 | m]; [| fine].
  destruct (up_data r2); monad; [| fine].
  destruct (Catalog.postSources _ _ _ _ _ _ _); fine.
Qed.

Lemma handleStream_sound req : Sound (Worker.handleStream req).
Proof.
  intros e s r s'. unfold Worker.handleStream, Worker.noFileSize, Worker.notSatisfiable.
  destruct (q_url req) as [url |]; [| monad; fine].
  destruct (Worker.invalidUrl url); [monad; fine |]. monad.
  destruct (fetch e (HEAD url cdnHeaders)) as [hr | m]; [| fine].
  destruct (negb _ || _); [fine |].
  destruct (h_range req) as [range |];
    [destruct (JS.strTruthy range); cbn [negb] |];
    try (destruct (fetch e (GET url cdnHeaders)); fine).
  destruct (rangeWindow range _) as [start end_].
  destruct (rangeInvalid start end_ _); [fine |].
  destruct (fetch e (GET url (rangeHeaders start end_))); fine.
Qed.

Lemma handleDownload_sound req : Sound (Worker.handleDownload req).
Proof.
  intros e s r s'. unfold Worker.handleDownload, Worker.noFileSize, Worker.notSatisfiable.
  destruct (q_url req) as [url |]; [| monad; fine].
  destruct (Worker.invalidUrl url); [monad; fine |]. monad.
  destruct (fetch e (HEAD url cdnHeaders)) as [hr | m]; [| fine].
  destruct (negb _ || _); [fine |].
  destruct (h_range req) as [range |];
    [destruct (JS.strTruthy range); cbn [negb] |];
    try (destruct (fetch e (GET url cdnHeaders));
         [destruct (JS.fetchHeaderValue _) |]; fine).
  destruct (rangeWindow range _) as [start end_].
  destruct (rangeInvalid start end_ _); [fine |].
  destruct (fetch e (GET url (rangeHeaders start end_)));
    [destruct (JS.fetchHeaderValue _) |]; fine.
Qed.

Lemma api_sound h e s reply s' :
  Sound h -> Router.api h e s = (Ok reply, s') ->
  Cors (Router.replyHeaders reply) /\ In (Router.replyStatus reply) statuses.
Proof.
  intros Hh. unfold Router.api. monad.
  destruct (h e s) as [[r | m] s1] eqn:E; [| discriminate].
  intros [= <- <-]. exact (Hh e s r s1 E).
Qed.

Lemma routes_sound stringify formEncode encodeURIComponent decodeURIComponent
      rq e s reply s' :
  Router.routes stringify formEncode encodeURIComponent decodeURIComponent rq e s
  = (Ok reply, s') ->
  Cors (Router.replyHeaders reply) /\ In (Router.replyStatus reply) statuses.
Proof.
  unfold Router.routes.
  destruct (String.eqb (Router.i_pathname rq) "/").
  { monad. intros [= <- <-]. split; [apply cors_spread | cbn; tauto]. }
  destruct (String.eqb (Router.i_pathname rq) "/api/homepage").
  { apply api_sound, handleHomepage_sound. }
  destruct (String.eqb (Router.i_pathname rq) "/api/trending").
  { apply api_sound, handleTrending_sound. }
  destruct (JS.startsWith (Router.i_pathname rq) "/api/search/").
  { unfold Catalog.liftO. unfold bind at 1.
    destruct (decodeURIComponent _) as [query | m]; [| discriminate].
    apply api_sound, handleSearch_sound. }
  destruct (JS.startsWith (Router.i_pathname rq) "/api/info/").
  { apply api_sound, handleInfo_sound. }
  destruct (JS.startsWith (Router.i_pathname rq) "/api/sources/").
  { apply api_sound, handleSources_sound. }
  destruct (String.eqb (Router.i_pathname rq) "/api/stream").
  { apply api_sound, handleStream_sound. }
  destruct (String.eqb (Router.i_pathname rq) "/api/download").
  { apply api_sound, handleDownload_sound. }
  monad. intros [= <- <-]. exact (jsonResponse_fine 404 _ ltac:(cbn; tauto)).
Qed.

(** X23.  The entry point of the Worker answers every request, whatever
    its method, path, parameters and headers and whatever the upstream does:
    it never throws; its answer carries the three CORS headers and one of
    the statuses 200, 206, 400, 404, 416 and 500; and a request whose method
    is OPTIONS is answered 200 at once, without an upstream call and without
    a change of the credential cache. *)
Theorem X23_worker_answers (stringify : Json -> string)
        (formEncode encodeURIComponent : string -> string)
        (decodeURIComponent : string -> Outcome string)
        (rq : Router.Incoming) (e : Env) (s : Store Worker.Vars) :
  exists reply s',
    Router.fetch stringify formEncode encodeURIComponent decodeURIComponent rq e s
    = (Ok reply, s')
    /\ Cors (Router.replyHeaders reply)
    /\ In (Router.replyStatus reply) statuses
    /\ (Router.i_method rq = "OPTIONS" -> s' = s /\ Router.replyStatus reply = 200).
Proof.
  unfold Router.fetch.
  destruct (String.eqb (Router.i_method rq) "OPTIONS") eqn:Em.
  - eexists; eexists. split; [reflexivity |].
    split; [repeat split; reflexivity |]. split; [cbn; tauto |].
    intros _. split; reflexivity.
  - apply String.eqb_neq in Em. unfold tryCatch.
    destruct (Router.routes _ _ _ _ rq e s) as [[reply | m] s1] eqn:E.
    + destruct (routes_sound _ _ _ _ _ _ _ _ _ E) as [Hc Hs].
      exists reply, s1. split; [reflexivity |]. split; [exact Hc |].
      split; [exact Hs | intros H; congruence].
    + eexists; eexists. split; [reflexivity |].
      destruct (jsonResponse_fine 500
                  (JObj [("status", JStr "error");
                         ("message", JStr "Internal server error");
                         ("error", JStr m)]) ltac:(cbn; tauto)) as [Hc Hs].
      split; [exact Hc |]. split; [exact Hs | intros H; congruence].
Qed.

Lemma X23_witness :
  exists reply,
    Router.fetch (fun _ => EmptyString) (fun s => s) (fun s => s) (fun s => Ok s)
      {| Router.i_method := "OPTIONS"; Router.i_pathname := "/api/stream";
         Router.i_param := fun _ => None; Router.i_header := fun _ => None |}
      (Stub.unreachable 0) {| user := Worker.initial; calls := [] |}
    = (Ok reply, {| user := Worker.initial; calls := [] |})
    /\ Router.replyStatus reply = 200.
Proof.
  destruct (X23_worker_answers (fun _ => EmptyString) (fun s => s) (fun s => s)
              (fun s => Ok s)
              {| Router.i_method := "OPTIONS"; Router.i_pathname := "/api/stream";
                 Router.i_param := fun _ => None; Router.i_header := fun _ => None |}
              (Stub.unreachable 0) {| user := Worker.initial; calls := [] |})
    as (reply & s' & Hrun & _ & _ & Hopt).
  destruct (Hopt eq_refl) as [-> Hs].
  exists reply. split; [exact Hrun | exact Hs].
Defined.

(** The entry point and [Worker.fetchHandler] agree on the routes they
    share. *)
Lemma fetch_stream_agrees stringify formEncode encodeURIComponent decodeURIComponent
      rq e s :
  Router.i_method rq <> "OPTIONS" ->
  Router.i_pathname rq = "/api/stream" ->
  Router.fetch stringify formEncode encodeURIComponent decodeURIComponent rq e s
  = Router.api (Worker.fetchHandler Worker.RStream (Router.proxied rq)) e s.
Proof.
  intros Hm Hp. apply String.eqb_neq in Hm.
  unfold Router.fetch, Router.routes, Router.api, Worker.fetchHandler, Worker.dispatch.
  rewrite Hm, Hp.
  repeat match goal with
         | |- context [JS.startsWith "/api/stream" ?p] =>
             let v := eval vm_compute in (JS.startsWith "/api/stream" p) in
             change (JS.startsWith "/api/stream" p) with v
         | |- context [String.eqb "/api/stream" ?p] =>
             let v := eval vm_compute in (String.eqb "/api/stream" p) in
             change (String.eqb "/api/stream" p) with v
         end.
  monad.
  destruct (Worker.handleStream (Router.proxied rq) e s) as [[r | m] s1]; reflexivity.
Qed.

(** ** X24: the CORS middleware of the Express servers *)

Lemma sub_objSet k v a b :
  (forall k0 w, objGet k0 a = Some w -> objGet k0 b = Some w) ->
  forall k0 w, objGet k0 (objSet k v a) = Some w -> objGet k0 (objSet k v b) = Some w.
Proof.
  intros H k0 w. destruct (String.eqb k0 k) eqn:E.
  - apply String.eqb_eq in E. subst k0. rewrite !objGet_objSet_same. auto.
  - apply String.eqb_neq in E. rewrite !objGet_objSet_other by assumption. apply H.
Qed.

Lemma sub_spread hs a b :
  (forall k0 w, objGet k0 a = Some w -> objGet k0 b = Some w) ->
  forall k0 w, objGet k0 (spread a hs) = Some w -> objGet k0 (spread b hs) = Some w.
Proof.
  intros H k0 w. rewrite !objGet_spread.
  destruct (objGet k0 (rev hs)); [auto | apply H].
Qed.

Lemma sub_nil b : forall k0 w, objGet k0 [] = Some w -> objGet k0 b = Some w.
Proof. intros k0 w H. discriminate H. Qed.

Ltac with_cors :=
  monad; unfold WithCors; cbn [seenStatus seenHeaders seenBody seenCalls seenVars];
  split; [unfold Cors; repeat split; reflexivity |];
  split; [reflexivity |]; split; [reflexivity |]; split; [reflexivity |];
  split; [reflexivity |];
  unfold header, freshRes; cbn [resHeaders];
  repeat first [apply sub_nil | apply sub_objSet | apply sub_spread].

(** [getCookies] and [ensureCookiesAreAssigned] do not look at the response
    in construction. *)
Lemma Express_getCookies_frame (e : Env) (v : Express.Vars) (log : list Request) :
  exists o v' log',
    forall r,
      Express.getCookies e {| user := {| vars := v; res := r |}; calls := log |}
      = (Ok o, {| user := {| vars := v'; res := r |}; calls := log' |}).
Proof.
  destruct (Express.cacheFresh v (now e)) eqn:Hf.
  - exists (Express.cookieCache v), v, log. intros r.
    exact (Express_getCookies_fresh e
             {| user := {| vars := v; res := r |}; calls := log |} Hf).
  - destruct (fetch e bootstrapRequest) as [r1 | m] eqn:Hb.
    + destruct (Express.setCookieHeaders r1) as [| h hs] eqn:Eh.
      * exists (Express.cookieCache v), v, (log ++ [bootstrapRequest])%list. intros r.
        rewrite (Express_getCookies_refreshed e
                   {| user := {| vars := v; res := r |}; calls := log |} Hf r1 Hb), Eh.
        reflexivity.
      * exists (Some (JS.join "; " (map cookiePair (h :: hs)))),
          {| Express.cookieCache := Some (JS.join "; " (map cookiePair (h :: hs)));
             Express.cookieCacheTime := now e |},
          (log ++ [bootstrapRequest])%list.
        intros r.
        rewrite (Express_getCookies_refreshed e
                   {| user := {| vars := v; res := r |}; calls := log |} Hf r1 Hb), Eh.
        reflexivity.
    + exists None, v, (log ++ [bootstrapRequest])%list. intros r.
      exact (Express_getCookies_failed e
               {| user := {| vars := v; res := r |}; calls := log |} Hf m Hb).
Qed.

Lemma Axios_ensure_frame (e : Env) (v : Axios.Vars) (log : list Request) :
  exists o v' log',
    forall r,
      Axios.ensureCookiesAreAssigned e {| user := {| vars := v; res := r |}; calls := log |}
      = (o, {| user := {| vars := v'; res := r |}; calls := log' |}).
Proof.
  destruct (Axios.cookiesInitialized v) eqn:Hi.
  - exists (Ok true), v, log. intros r.
    exact (Axios_ensure_initialised e
             {| user := {| vars := v; res := r |}; calls := log |} Hi).
  - destruct (fetch e bootstrapRequest) as [r1 | m] eqn:Hb.
    + exists (Ok true),
        {| Axios.movieboxAppInfo := Some (Axios.processApiResponse r1);
           Axios.cookiesInitialized := true |},
        (log ++ [bootstrapRequest])%list.
      intros r.
      exact (Axios_ensure_first e
               {| user := {| vars := v; res := r |}; calls := log |} Hi r1 Hb).
    + exists (Throw m), v, (log ++ [bootstrapRequest])%list. intros r.
      exact (Axios_ensure_failed e
               {| user := {| vars := v; res := r |}; calls := log |} Hi m Hb).
Qed.

Ltac app_start Hpass :=
  unfold Middleware.serveApp, Middleware.app, Middleware.cors, Middleware.route;
  change (String.eqb "GET" "OPTIONS") with false;
  change (String.eqb "GET" "GET") with true;
  monad; rewrite Hpass; monad.

Ltac with_cookies e v log :=
  let o := fresh "o" in
  let v1 := fresh "v1" in
  let log1 := fresh "log1" in
  let Hg := fresh "Hg" in
  destruct (Express_getCookies_frame e v log) as (o & v1 & log1 & Hg);
  rewrite !Hg.

Section ExpressApp.
Variables (bodyParsers : M Express.St unit) (otherMethod : string -> M Express.St unit).
Variable e : Env.
Hypothesis Hpass : forall s, bodyParsers e s = (Ok tt, s).

Let appE := Middleware.serveApp bodyParsers otherMethod.

Lemma Express_stream_cors (req : InRequest) (v : Express.Vars) (log : list Request) :
  WithCors (appE "GET" (Express.stream req) e v log)
           (serve (Express.stream req) e v log).
Proof.
  subst appE. app_start Hpass.
  unfold Express.stream, Express.rejectStream. monad.
  destruct (q_url req) as [url |]; [| with_cors].
  destruct (Express.invalidStreamUrl url); [with_cors |].
  monad.
  destruct (fetch e (HEAD url cdnHeaders)) as [hr | m]; [| with_cors].
  destruct (negb (JS.numTruthy _)); [with_cors |].
  destruct (h_range req) as [range |];
    [destruct (JS.strTruthy range); cbn [negb] |];
    try (monad; destruct (fetch e (GET url cdnHeaders)); with_cors).
  destruct (rangeWindow range _) as [start end_].
  destruct (JS.ge start _ || JS.gt start end_); [with_cors |].
  monad.
  destruct (fetch e (GET url (rangeHeaders start end_))); with_cors.
Qed.

Lemma Express_download_cors (req : InRequest) (v : Express.Vars) (log : list Request) :
  WithCors (appE "GET" (Express.download req) e v log)
           (serve (Express.download req) e v log).
Proof.
  subst appE. app_start Hpass. unfold Express.download. monad.
  destruct (q_url req) as [[| c u] |]; try with_cors.
  monad.
  destruct (fetch e (HEAD (String c u) cdnHeaders)) as [hr | m]; [| with_cors].
  destruct (JS.nodeHeaderValue _); [| with_cors].
  destruct (JS.optTruthy _); monad;
    destruct (fetch e (GET (String c u) cdnHeaders)); with_cors.
Qed.

Lemma Express_homepage_cors (v : Express.Vars) (log : list Request) :
  WithCors (appE "GET" Express.homepage e v log) (serve Express.homepage e v log).
Proof.
  subst appE. app_start Hpass.
  unfold Express.homepage, Express.makeApiRequest, Express.responseJson. monad.
  unfold freshRes. with_cookies e v log. monad.
  destruct (fetch e _) as [r1 | m]; [| with_cors].
  destruct (up_data r1); with_cors.
Qed.

Lemma Express_search_cors stringify rq (v : Express.Vars) (log : list Request) :
  WithCors (appE "GET" (Catalog.search stringify rq) e v log)
           (serve (Catalog.search stringify rq) e v log).
Proof.
  subst appE. app_start Hpass.
  unfold Catalog.search, Express.makeApiRequest, Express.responseJson, Catalog.liftO.
  monad. unfold freshRes. with_cookies e v log. monad.
  destruct (fetch e _) as [r1 | m]; [| with_cors].
  destruct (up_data r1); [| with_cors]. monad.
  destruct (Catalog.postSearch _ _); with_cors.
Qed.

Lemma Express_info_cors formEncode movieId (v : Express.Vars) (log : list Request) :
  WithCors (appE "GET" (Catalog.info formEncode movieId) e v log)
           (serve (Catalog.info formEncode movieId) e v log).
Proof.
  subst appE. app_start Hpass.
  unfold Catalog.info, Express.makeApiRequest, Express.responseJson, Catalog.liftO.
  monad. unfold freshRes. with_cookies e v log. monad.
  destruct (fetch e _) as [r1 | m]; [| with_cors].
  destruct (up_data r1); [| with_cors]. monad.
  destruct (Catalog.postInfo _); with_cors.
Qed.

End ExpressApp.

Section AxiosApp.
Variables (bodyParsers : M Axios.St unit) (otherMethod : string -> M Axios.St unit).
Variable e : Env.
Hypothesis Hpass : forall s, bodyParsers e s = (Ok tt, s).

Let appA := Middleware.serveApp bodyParsers otherMethod.

Lemma Axios_homepage_cors (v : Axios.Vars) (log : list Request) :
  WithCors (appA "GET" Axios.homepage e v log) (serve Axios.homepage e v log).
Proof.
  subst appA. app_start Hpass.
  unfold Axios.homepage, Axios.makeApiRequest. monad. unfold freshRes.
  destruct (Axios_ensure_frame e v log) as (o & v1 & log1 & Hg). rewrite !Hg.
  destruct o as [b | m]; [| with_cors]. monad.
  destruct (fetch e _) as [r1 | m]; [| with_cors].
  destruct (Axios.processApiResponse r1); with_cors.
Qed.

Lemma Axios_download_cors (req : InRequest) (v : Axios.Vars) (log : list Request) :
  WithCors (appA "GET" (Axios.download req) e v log)
           (serve (Axios.download req) e v log).
Proof.
  subst appA. app_start Hpass. unfold Axios.download. monad.
  destruct (q_url req) as [url |]; [| with_cors].
  destruct (Axios.invalidUrl url); [with_cors |]. monad.
  destruct (fetch e (GET url cdnHeaders)); [| with_cors].
  monad. destruct (JS.nodeHeaderValue _); with_cors.
Qed.

Lemma Axios_stream_cors (req : InRequest) (v : Axios.Vars) (log : list Request) :
  WithCors (appA "GET" (Axios.stream req) e v log)
           (serve (Axios.stream req) e v log).
Proof.
  subst appA. app_start Hpass. unfold Axios.stream, Axios.probe. monad.
  destruct (Axios.invalidUrl _); [with_cors |]. monad.
  set (url := JS.orElse (q_url req) "").
  destruct (fetch e (HEAD url cdnHeaders)) as [hr | m].
  - destruct (negb _ || _); [with_cors |].
    destruct (h_range req) as [range |];
      [destruct (JS.strTruthy range); cbn [negb] |];
      try (monad; destruct (fetch e (GET url cdnHeaders)); with_cors).
    destruct (rangeWindow range _) as [start end_].
    destruct (rangeInvalid start end_ _); [with_cors |]. monad.
    destruct (fetch e (GET url (rangeHeaders start end_))); with_cors.
  - destruct (fetch e (GET url (app cdnHeaders [("Range", "bytes=0-0")]))) as [tr | m'];
      [| with_cors].
    destruct (negb _ || _); [with_cors |].
    destruct (h_range req) as [range |];
      [destruct (JS.strTruthy range); cbn [negb] |];
      try (monad; destruct (fetch e (GET url cdnHeaders)); with_cors).
    destruct (rangeWindow range _) as [start end_].
    destruct (rangeInvalid start end_ _); [with_cors |]. monad.
    destruct (fetch e (GET url (rangeHeaders start end_))); with_cors.
Qed.

End AxiosApp.

Lemma preflight_answer {V} (bodyParsers : M (State V) unit)
      (otherMethod : string -> M (State V) unit) (h : M (State V) unit)
      (e : Env) (v : V) (log : list Request) :
  (forall s, bodyParsers e s = (Ok tt, s)) ->
  let x := Middleware.serveApp bodyParsers otherMethod "OPTIONS" h e v log in
  Preflight x v log /\ Cors (seenHeaders x).
Proof.
  intros Hpass x. subst x.
  unfold Middleware.serveApp, Middleware.app, Middleware.cors, Middleware.sendStatus200,
    Preflight, Cors.
  change (String.eqb "OPTIONS" "OPTIONS") with true.
  monad. rewrite Hpass. monad.
  repeat split; reflexivity.
Qed.

(** X24.  On a request that the body parsers pass on, such as one without
    a body, the two Express servers answer behind their CORS middleware as
    follows.  A request whose method is OPTIONS is answered 200 with the
    three CORS headers and the text OK, whatever its route: the handler is
    not run, no upstream call is made and the variables stay as they were.
    A GET request is answered as its handler answers alone (same status,
    body, upstream calls and variables), with every header of the handler
    and the three CORS headers, which no handler overwrites: on the
    homepage, search, info, stream and download routes of the server on
    fetch and the homepage, stream and download routes of the server on
    axios. *)
Theorem X24_express_cors
        (parseE : M Express.St unit) (otherE : string -> M Express.St unit)
        (parseA : M Axios.St unit) (otherA : string -> M Axios.St unit)
        (e : Env) (req : InRequest)
        (rq : Catalog.SearchRequest) (movieId : string)
        (stringify : Json -> string) (formEncode : string -> string)
        (log : list Request) (ve : Express.Vars) (va : Axios.Vars) :
  (forall s, parseE e s = (Ok tt, s)) ->
  (forall s, parseA e s = (Ok tt, s)) ->
  let appE := Middleware.serveApp parseE otherE in
  let appA := Middleware.serveApp parseA otherA in
  (forall h : M Express.St unit,
      Preflight (appE "OPTIONS" h e ve log) ve log
      /\ Cors (seenHeaders (appE "OPTIONS" h e ve log)))
  /\ (forall h : M Axios.St unit,
         Preflight (appA "OPTIONS" h e va log) va log
         /\ Cors (seenHeaders (appA "OPTIONS" h e va log)))
  /\ WithCors (appE "GET" Express.homepage e ve log) (serve Express.homepage e ve log)
  /\ WithCors (appE "GET" (Catalog.search stringify rq) e ve log)
              (serve (Catalog.search stringify rq) e ve log)
  /\ WithCors (appE "GET" (Catalog.info formEncode movieId) e ve log)
              (serve (Catalog.info formEncode movieId) e ve log)
  /\ WithCors (appE "GET" (Express.stream req) e ve log)
              (serve (Express.stream req) e ve log)
  /\ WithCors (appE "GET" (Express.download req) e ve log)
              (serve (Express.download req) e ve log)
  /\ WithCors (appA "GET" Axios.homepage e va log) (serve Axios.homepage e va log)
  /\ WithCors (appA "GET" (Axios.stream req) e va log)
              (serve (Axios.stream req) e va log)
  /\ WithCors (appA "GET" (Axios.download req) e va log)
              (serve (Axios.download req) e va log).
Proof.
  intros HE HA appE appA. subst appE appA.
  refine (conj _ (conj _ (conj _ (conj _ (conj _ (conj _ (conj _ (conj _
            (conj _ _))))))))).
  - intros h. exact (preflight_answer parseE otherE h e ve log HE).
  - intros h. exact (preflight_answer parseA otherA h e va log HA).
  - exact (Express_homepage_cors parseE otherE e HE ve log).
  - exact (Express_search_cors parseE otherE e HE stringify rq ve log).
  - exact (Express_info_cors parseE otherE e HE formEncode movieId ve log).
  - exact (Express_stream_cors parseE otherE e HE req ve log).
  - exact (Express_download_cors parseE otherE e HE req ve log).
  - exact (Axios_homepage_cors parseA otherA e HA va log).
  - exact (Axios_stream_cors parseA otherA e HA req va log).
  - exact (Axios_download_cors parseA otherA e HA req va log).
Qed.

Lemma X24_witness :
  Cors (seenHeaders
          (Middleware.serveApp (ret tt) (fun _ => ret tt) "GET"
             (Express.stream (Stub.request (Some Stub.cdnUrl) (Some "bytes=0-9")))
             (Stub.upstream 0 (Some "1000") []) Express.initial [])).
Proof.
  exact (proj1 (proj1 (proj2 (proj2 (proj2 (proj2 (proj2
           (X24_express_cors (ret tt) (fun _ => ret tt) (ret tt) (fun _ => ret tt)
              (Stub.upstream 0 (Some "1000") [])
              (Stub.request (Some Stub.cdnUrl) (Some "bytes=0-9"))
              (sampleSearch None) EmptyString (fun _ => EmptyString) (fun s => s)
              [] Express.initial Axios.initial
              (fun s => eq_refl) (fun s => eq_refl))))))))).
Defined.

(** ** X25: the routes of the Worker *)

(** A text without the first character of the separator is one part. *)
Lemma splitBy_none c sep s :
  strForall (fun x => negb (Ascii.eqb x c)) s = true ->
  Router.splitBy (String c sep) 0 s = [s].
Proof.
  induction s as [| x s IH]; intros H; [reflexivity |].
  cbn [strForall] in H. apply andb_true_iff in H as [Hx Hs].
  apply negb_true_iff in Hx.
  cbn [Router.splitBy String.prefix].
  destruct (ascii_dec c x) as [<- |]; [rewrite Ascii.eqb_refl in Hx; discriminate |].
  rewrite (IH Hs). reflexivity.
Qed.

(** Passing the characters of a separator that was found. *)
Lemma splitBy_skip sep a s :
  Router.splitBy sep (String.length a) (a ++ s) = Router.splitBy sep 0 s.
Proof. induction a as [| x a IH]; [reflexivity | exact IH]. Qed.

Lemma afterPrefix_rest c sep rest :
  strForall (fun x => negb (Ascii.eqb x c)) rest = true ->
  Router.afterPrefix (String c sep) (String c sep ++ rest) = Some rest.
Proof.
  intros H. unfold Router.afterPrefix.
  change (String c sep ++ rest) with (String c (sep ++ rest)).
  cbn [Router.splitBy].
  change (String c (sep ++ rest)) with (String c sep ++ rest).
  rewrite prefix_append.
  replace (String.length (String c sep) - 1)%nat with (String.length sep)
    by (cbn [String.length]; lia).
  rewrite splitBy_skip, (splitBy_none c sep rest H). reflexivity.
Qed.

Ltac decide_route p :=
  repeat match goal with
         | |- context [String.eqb p ?c] =>
             first [ change (String.eqb p c) with false
                   | change (String.eqb p c) with true ]
         | |- context [JS.startsWith p ?c] =>
             first [ change (JS.startsWith p c) with false
                   | change (JS.startsWith p c) with true
                   | change (JS.startsWith p c) with (String.prefix c p);
                     rewrite prefix_append ]
         end.

(** X25.  The routes of the Worker, for a method other than OPTIONS.  The
    path [/] is answered with the page and a path without a route with 404,
    both without an upstream call and without a change of the cache.  The
    path [/api/info/] followed by one segment is answered by [handleInfo] on
    that segment; the path [/api/search/] followed by one segment by
    [handleSearch] on the decoded segment, and with 500 and no upstream call
    when the segment cannot be decoded; the path [/api/sources/] followed by
    one segment by [handleSources] on that segment, with the season, the
    episode and the two headers of the request. *)
Theorem X25_worker_routes (stringify : Json -> string)
        (formEncode encodeURIComponent : string -> string)
        (decodeURIComponent : string -> Outcome string)
        (rq : Router.Incoming) (e : Env) (s : Store Worker.Vars) (segment : string) :
  Router.i_method rq <> "OPTIONS" ->
  let run := Router.fetch stringify formEncode encodeURIComponent decodeURIComponent
                          rq e s in
  (Router.i_pathname rq = "/" -> run = (Ok Router.getHomePage, s))
  /\ (routed (Router.i_pathname rq) = false -> run = (Ok (Router.Api Worker.notFound), s))
  /\ (oneSegment segment = true ->
      (Router.i_pathname rq = "/api/info/" ++ segment ->
       run = Router.api (Catalog.guarded (Catalog.handleInfo formEncode segment)) e s)
      /\ (Router.i_pathname rq = "/api/search/" ++ segment ->
          forall query, decodeURIComponent segment = Ok query ->
          run = Router.api
                  (Catalog.guarded
                     (Catalog.handleSearch stringify
                        {| Catalog.s_query := query;
                           Catalog.s_page := Router.i_param rq "page";
                           Catalog.s_perPage := Router.i_param rq "perPage";
                           Catalog.s_type := Router.i_param rq "type" |})) e s)
      /\ (Router.i_pathname rq = "/api/search/" ++ segment ->
          forall m, decodeURIComponent segment = Throw m ->
          exists reply, run = (Ok reply, s) /\ Router.replyStatus reply = 500)
      /\ (Router.i_pathname rq = "/api/sources/" ++ segment ->
          run = Router.api
                  (Catalog.guarded
                     (Catalog.handleSources formEncode encodeURIComponent
                        {| Catalog.r_movieId := segment;
                           Catalog.r_season := Router.i_param rq "season";
                           Catalog.r_episode := Router.i_param rq "episode";
                           Catalog.r_proto := Router.i_header rq "x-forwarded-proto";
                           Catalog.r_host := Router.i_header rq "host" |})) e s)).
Proof.
  intros Hm run. subst run. apply String.eqb_neq in Hm.
  unfold Router.fetch. rewrite Hm. unfold Router.routes, Router.api, Catalog.guarded.
  split; [| split].
  - intros ->. reflexivity.
  - unfold routed. intros H.
    repeat (apply orb_false_iff in H; destruct H as [H ?]).
    repeat match goal with
           | E : _ = false |- _ => rewrite E; clear E
           end.
    reflexivity.
  - intros Hseg. unfold oneSegment in Hseg.
    repeat split.
    + intros ->. decide_route ("/api/info/" ++ segment).
      rewrite (afterPrefix_rest "/" "api/info/" segment Hseg). cbn [Router.part].
      monad. destruct (Catalog.handleInfo formEncode segment e s) as [[r | m] s1];
        reflexivity.
    + intros -> query Hq. decide_route ("/api/search/" ++ segment).
      rewrite (afterPrefix_rest "/" "api/search/" segment Hseg). cbn [Router.part].
      unfold Catalog.liftO at 1. monad. rewrite Hq.
      destruct (Catalog.handleSearch _ _ e s) as [[r | m] s1]; reflexivity.
    + intros -> m Hq. decide_route ("/api/search/" ++ segment).
      rewrite (afterPrefix_rest "/" "api/search/" segment Hseg). cbn [Router.part].
      unfold Catalog.liftO at 1. monad. rewrite Hq.
      eexists. split; reflexivity.
    + intros ->. decide_route ("/api/sources/" ++ segment).
      rewrite (afterPrefix_rest "/" "api/sources/" segment Hseg). cbn [Router.part].
      monad. destruct (Catalog.handleSources _ _ _ e s) as [[r | m] s1]; reflexivity.
Qed.

Lemma X25_witness :
  Router.fetch (fun _ => EmptyString) (fun s => s) (fun s => s) (fun s => Ok s)
    {| Router.i_method := "GET"; Router.i_pathname := "/api/nothing";
       Router.i_param := fun _ => None; Router.i_header := fun _ => None |}
    (Stub.unreachable 0) {| user := Worker.initial; calls := [] |}
  = (Ok (Router.Api Worker.notFound), {| user := Worker.initial; calls := [] |}).
Proof.
  assert ("GET" <> "OPTIONS") as Hm by discriminate.
  exact (proj1 (proj2
           (X25_worker_routes (fun _ => EmptyString) (fun s => s) (fun s => s)
              (fun s => Ok s)
              {| Router.i_method := "GET"; Router.i_pathname := "/api/nothing";
                 Router.i_param := fun _ => None; Router.i_header := fun _ => None |}
              (Stub.unreachable 0) {| user := Worker.initial; calls := [] |}
              EmptyString Hm)) eq_refl).
Defined.

(** A second occurrence of the prefix cuts the segment. *)
Example info_path_cut :
  Router.afterPrefix "/api/info/" "/api/info/12/api/info/34" = Some "12".
Proof. reflexivity. Qed.

(** * The catalog routes of the server on axios *)

Ltac run_axios :=
  unfold Success, AxiosCatalog.trending, AxiosCatalog.search, AxiosCatalog.info,
    AxiosCatalog.sources, AxiosCatalog.makeApiRequestWithCookies,
    Axios.resSuccess, AxiosCatalog.resFailure, Catalog.liftO;
  monad; unfold freshRes;
  cbn [AxiosCatalog.a_params AxiosCatalog.a_method AxiosCatalog.a_headers
       AxiosCatalog.a_data].

Ltac amonad :=
  monad;
  cbn [AxiosCatalog.a_params AxiosCatalog.a_method AxiosCatalog.a_headers
       AxiosCatalog.a_data].

Ltac with_session e v log :=
  let o := fresh "o" in
  let v1 := fresh "v1" in
  let log1 := fresh "log1" in
  let Hg := fresh "Hg" in
  destruct (Axios_ensure_frame e v log) as (o & v1 & log1 & Hg);
  rewrite !Hg; destruct o as [? | ?].

Lemma Axios_search_success stringify buildURL e v log rq content :
  Success (serve (AxiosCatalog.search stringify buildURL rq) e v log) content ->
  exists j,
    Catalog.postSearch
      (Catalog.orNum (JS.parseIntOpt "undefined" (Catalog.s_type rq) 0) 0) j
    = Ok content.
Proof.
  run_axios. with_session e v log; [| cbn; intros [H _]; discriminate].
  monad.
  destruct (fetch e _) as [r | m]; [| cbn; intros [H _]; discriminate].
  monad. unfold AxiosCatalog.onJson.
  destruct (Axios.processApiResponse r) as [j | r'];
    [| monad; cbn; intros [_ H]; discriminate].
  unfold Catalog.bindO.
  destruct (Catalog.postSearch _ j) as [c | m] eqn:E; monad;
    [| cbn; intros [H _]; discriminate].
  cbn. intros [_ [= <-]]. exists j. exact E.
Qed.

Lemma Axios_info_success stringify buildURL e v log movieId content :
  Success (serve (AxiosCatalog.info stringify buildURL movieId) e v log) content ->
  exists j, Catalog.postInfo j = Ok content.
Proof.
  run_axios. with_session e v log; [| cbn; intros [H _]; discriminate].
  monad.
  destruct (fetch e _) as [r | m]; [| cbn; intros [H _]; discriminate].
  monad. unfold AxiosCatalog.onJson.
  destruct (Axios.processApiResponse r) as [j | r'];
    [| monad; cbn; intros [_ H]; discriminate].
  unfold Catalog.bindO.
  destruct (Catalog.postInfo j) as [c | m] eqn:E; monad;
    [| cbn; intros [H _]; discriminate].
  cbn. intros [_ [= <-]]. exists j. exact E.
Qed.

(** X26.  The search and info handlers of the server on axios return what
    those of the fetch variants return: in a 200 of the search handler the
    items shown are an array without [null] whose objects have their
    thumbnail, all of the type asked for when it is not 0; in a 200 of the
    info handler the subject, when truthy, has its thumbnail. *)
Theorem X26_axios_search_and_info (stringify : Json -> string)
        (buildURL : string -> list (string * string) -> string)
        (e : Env) (rq : Catalog.SearchRequest) (movieId : string)
        (log : list Request) (va : Axios.Vars) (content : Json) :
  (Success (serve (AxiosCatalog.search stringify buildURL rq) e va log) content ->
   forall items,
     shownItems content = Some items ->
     let t := Catalog.orNum (JS.parseIntOpt "undefined" (Catalog.s_type rq) 0) 0 in
     exists l, items = JArr l /\ Forall Thumbed l /\ (t <> 0 -> Forall (OfType t) l))
  /\ (Success (serve (AxiosCatalog.info stringify buildURL movieId) e va log) content ->
      forall fs subject,
        content = JObj fs -> fieldOf "subject" fs = Some subject ->
        jsonTruthy subject = true -> Thumbed subject).
Proof.
  split.
  - intros Hs items Hitems t.
    destruct (Axios_search_success _ _ _ _ _ _ _ Hs) as (j & Hpost).
    exact (postSearch_items _ _ _ _ Hpost Hitems).
  - intros Hs fs subject -> Hsub Ht.
    destruct (Axios_info_success _ _ _ _ _ _ _ Hs) as (j & Hpost).
    exact (postInfo_subject _ _ _ Hpost Hsub Ht).
Qed.

Lemma X26_witness :
  let items :=
    JArr [JObj [("title", JStr "B"); ("subjectType", JNum 2);
                ("stills", JObj [("url", JStr "https://img/b.jpg")]);
                ("thumbnail", JStr "https://img/b.jpg")]] in
  exists l, items = JArr l /\ Forall Thumbed l /\ (2 <> 0 -> Forall (OfType 2) l).
Proof.
  intros items.
  refine (proj1 (X26_axios_search_and_info (fun _ => EmptyString) (fun u _ => u)
                   (answering sampleItems) (sampleSearch (Some "2")) EmptyString []
                   Axios.initial (JObj [("items", items)])) _ items eq_refl).
  split; reflexivity.
Defined.

(** X27.  With its session initialised and a detail path in the answer to
    the info request, the sources handler of the server on axios calls axios
    twice: for the info, with a config that holds the default headers of the
    code, and for the sources, with a config whose headers are the five
    headers of its options alone.  The other default headers of the code,
    such as its [User-Agent], its [Accept] and its [Host], are not in that
    config, because the headers of the options replace the merged ones; what
    axios and Node put in their place is not the code's.  Without a detail
    path it answers 500 after the info request alone. *)
Theorem X27_axios_sources_headers (stringify : Json -> string)
        (buildURL : string -> list (string * string) -> string)
        (formEncode encodeURIComponent : string -> string)
        (e : Env) (rq : Catalog.SourcesRequest) (log : list Request) (va : Axios.Vars)
        (r : UpResponse) :
  Axios.cookiesInitialized va = true ->
  (forall q, rq_url q = buildURL Catalog.detailUrl [("subjectId", Catalog.r_movieId rq)] ->
             fetch e q = FetchOk r) ->
  let x := serve (AxiosCatalog.sources stringify buildURL formEncode encodeURIComponent rq)
                 e va log in
  let first :=
    {| rq_url := buildURL Catalog.detailUrl [("subjectId", Catalog.r_movieId rq)];
       rq_method := "GET"; rq_headers := spread DEFAULT_HEADERS []; rq_body := None |} in
  let path :=
    Catalog.optProp
      (Catalog.optProp (AxiosCatalog.jsonOf (Axios.processApiResponse r)) "subject")
      "detailPath" in
  header "User-Agent" (configHeaders first) = Some "okhttp/4.12.0"
  /\ (Catalog.truthy path = false ->
      Failed x "Failed to fetch streaming sources"
             "Could not get movie detail path for referer header"
      /\ seenCalls x = (log ++ [first])%list)
  /\ (forall p,
         path = Some p -> jsonTruthy p = true ->
         exists q,
           seenCalls x = (log ++ [first; q])%list
           /\ configHeaders q = AxiosCatalog.sourcesHeaders p (Catalog.r_movieId rq)
           /\ header "Referer" (configHeaders q)
              = Some (Catalog.refererUrl p (Catalog.r_movieId rq))
           /\ header "User-Agent" (configHeaders q) = None
           /\ header "Accept" (configHeaders q) = None
           /\ header "Host" (configHeaders q) = None).
Proof.
  intros Hinit Hfetch x first path.
  split; [reflexivity |].
  assert (forall res0,
             Axios.ensureCookiesAreAssigned e
               {| user := {| vars := va; res := res0 |}; calls := log |}
             = (Ok true, {| user := {| vars := va; res := res0 |}; calls := log |}))
    as Hens.
  { intros res0.
    exact (Axios_ensure_initialised e
             {| user := {| vars := va; res := res0 |}; calls := log |} Hinit). }
  split.
  - intros Hpath. subst x. run_axios. rewrite Hens. amonad.
    match goal with
    | |- context [fetch e ?q] => rewrite (Hfetch q eq_refl)
    end.
    monad. fold path.
    destruct path as [p |].
    + cbn [Catalog.truthy] in Hpath. rewrite Hpath. cbn.
      split; [split; reflexivity | reflexivity].
    + cbn. split; [split; reflexivity | reflexivity].
  - intros p Hp Ht. subst x. run_axios. rewrite Hens. amonad.
    match goal with
    | |- context [fetch e ?q] => rewrite (Hfetch q eq_refl)
    end.
    monad. fold path. rewrite Hp, Ht. cbn [negb].
    monad.
    match goal with
    | |- context [Axios.ensureCookiesAreAssigned e ?s] =>
        rewrite (Axios_ensure_initialised e s Hinit)
    end.
    amonad.
    match goal with
    | |- context [fetch e ?q] => exists q; destruct (fetch e q) as [r2 | m]
    end.
    + monad. destruct (AxiosCatalog.onJson _ _) as [c | m]; monad;
        [destruct c |]; cbn; rewrite <- app_assoc; repeat split; reflexivity.
    + cbn. rewrite <- app_assoc. repeat split; reflexivity.
Qed.

Lemma X27_witness :
  exists q,
    seenCalls (serve (AxiosCatalog.sources (fun _ => EmptyString) (fun u _ => u)
                        (fun s => s) (fun s => s) (sampleSources None None))
                     (sourcesUpstream (JStr "film-1"))
                     {| Axios.movieboxAppInfo := None; Axios.cookiesInitialized := true |}
                     [])
    = [GET Catalog.detailUrl (spread DEFAULT_HEADERS []); q]
    /\ header "User-Agent" (configHeaders q) = None.
Proof.
  assert (forall q, rq_url q = Catalog.detailUrl ->
                    fetch (sourcesUpstream (JStr "film-1")) q
                    = FetchOk (document (sampleInfo (JStr "film-1")))) as Hinfo.
  { intros q H. cbn [fetch sourcesUpstream]. rewrite H. reflexivity. }
  destruct (proj2 (proj2
              (X27_axios_sources_headers (fun _ => EmptyString) (fun u _ => u)
                 (fun s => s) (fun s => s) (sourcesUpstream (JStr "film-1"))
                 (sampleSources None None) []
                 {| Axios.movieboxAppInfo := None; Axios.cookiesInitialized := true |}
                 (document (sampleInfo (JStr "film-1"))) eq_refl Hinfo))
              (JStr "film-1") eq_refl eq_refl)
    as (q & Hc & _ & _ & Hua & _).
  exists q. split; [exact Hc | exact Hua].
Defined.

(** X28.  Without a session, no catalog request leaves the server on axios:
    when the session is not initialised and the bootstrap call fails, the
    trending, search, info and sources handlers answer 500 with the message
    of the failure, the bootstrap call is their only upstream call, and the
    session stays uninitialised, so that the next request tries again. *)
Theorem X28_axios_needs_session (stringify : Json -> string)
        (buildURL : string -> list (string * string) -> string)
        (formEncode encodeURIComponent : string -> string)
        (e : Env) (message : string) (log : list Request) (va : Axios.Vars)
        (page perPage : option string) (sq : Catalog.SearchRequest) (movieId : string)
        (rq : Catalog.SourcesRequest) :
  Axios.cookiesInitialized va = false ->
  fetch e bootstrapRequest = FetchFail message ->
  let quiet (x : Seen Axios.Vars) (what : string) :=
    Failed x what message
    /\ seenCalls x = (log ++ [bootstrapRequest])%list
    /\ seenVars x = va in
  quiet (serve (AxiosCatalog.trending stringify buildURL page perPage) e va log)
        "Failed to fetch trending content"
  /\ quiet (serve (AxiosCatalog.search stringify buildURL sq) e va log)
           "Failed to search content"
  /\ quiet (serve (AxiosCatalog.info stringify buildURL movieId) e va log)
           "Failed to fetch movie/series info"
  /\ quiet (serve (AxiosCatalog.sources stringify buildURL formEncode encodeURIComponent
                     rq) e va log)
           "Failed to fetch streaming sources".
Proof.
  intros Hinit Hboot quiet. subst quiet. cbv beta.
  assert (forall res0,
             Axios.ensureCookiesAreAssigned e
               {| user := {| vars := va; res := res0 |}; calls := log |}
             = (Throw message,
                {| user := {| vars := va; res := res0 |};
                   calls := (log ++ [bootstrapRequest])%list |})) as Hens.
  { intros res0.
    exact (Axios_ensure_failed e
             {| user := {| vars := va; res := res0 |}; calls := log |} Hinit message
             Hboot). }
  unfold Failed.
  repeat split; run_axios; rewrite Hens; reflexivity.
Qed.

Lemma X28_witness :
  seenCalls (serve (AxiosCatalog.info (fun _ => EmptyString) (fun u _ => u) "42")
                   (Stub.unreachable 0) Axios.initial [])
  = [bootstrapRequest].
Proof.
  exact (proj1 (proj2 (proj1 (proj2 (proj2
           (X28_axios_needs_session (fun _ => EmptyString) (fun u _ => u)
              (fun s => s) (fun s => s) (Stub.unreachable 0) "fetch failed" []
              Axios.initial None None (sampleSearch None) "42" (sampleSources None None)
              eq_refl eq_refl)))))).
Defined.

(** * The paging and the host of the catalog requests *)

Lemma paging_default d : paging None d = d.
Proof. reflexivity. Qed.

Lemma paging_nonzero o d : d <> 0 -> paging o d <> 0.
Proof.
  intros Hd. unfold paging, Catalog.orNum.
  destruct (JS.parseIntOpt "null" o 0) as [| z]; [exact Hd |].
  destruct (z =? 0) eqn:E; [exact Hd | apply Z.eqb_neq, E].
Qed.

Lemma paging_written n d : 0 < n -> paging (Some (JS.natToString n)) d = n.
Proof.
  intros Hn. unfold paging, Catalog.orNum, JS.parseIntOpt.
  rewrite parseInt_no_radix by lia.
  replace (n =? 0) with false by (symmetry; apply Z.eqb_neq; lia). reflexivity.
Qed.

Lemma Worker_makeApiRequest_calls url options e s :
  exists cookies before,
    calls (snd (Worker.makeApiRequest url options e s))
    = (before ++ [apiRequest url options cookies])%list
    /\ (before = calls s \/ before = (calls s ++ [bootstrapRequest])%list).
Proof.
  unfold Worker.makeApiRequest, bind.
  destruct (Worker.cacheFresh (user s) (now e)) eqn:Hf.
  - rewrite (Worker_getCookies_fresh e s Hf).
    eexists; eexists. split; [apply doFetch_calls | left; reflexivity].
  - pose proof (Worker_getCookies_one_call e s Hf) as Hone.
    destruct (Worker_getCookies_returns e s) as (o & s1 & Hg).
    rewrite Hg in *. cbn [snd] in Hone.
    exists o, (calls s1). split; [apply doFetch_calls | right; exact Hone].
Qed.

(** X29.  Whatever the [page] and [perPage] parameters of the request read
    as, within the integers JavaScript holds exactly, the Worker asks the
    catalog for pages numbered by integers and never for pages of 0 items: a
    parameter that is absent, is not a number or is 0 becomes the default
    (page 0 of 18 for trending, page 1 of 24 for a search), and a written
    positive number is passed on.  The trending request carries them in its
    url; the search request is a POST whose body is the payload and whose
    [Content-Type] is JSON, with the default headers beside it. *)
Theorem X29_worker_paging (stringify : Json -> string) (formEncode : string -> string)
        (e : Env) (s : Store Worker.Vars) (page perPage : option string)
        (rq : Catalog.SearchRequest) :
  JS.safe (paging page 0) -> JS.safe (paging perPage 18) ->
  JS.safe (paging (Catalog.s_page rq) 1) ->
  JS.safe (paging (Catalog.s_perPage rq) 24) ->
  JS.safe (paging (Catalog.s_type rq) 0) ->
  (exists cookies before,
      calls (snd (Catalog.handleTrending formEncode page perPage e s))
      = (before
           ++ [apiRequest
                 (Catalog.trendingUrl
                    ++ "?page=" ++ formEncode (JS.intToString (paging page 0))
                    ++ "&perPage=" ++ formEncode (JS.intToString (paging perPage 18))
                    ++ "&uid=" ++ formEncode "5591179548772780352")
                 noOptions cookies])%list)
  /\ (exists cookies before q,
         calls (snd (Catalog.handleSearch stringify rq e s)) = (before ++ [q])%list
         /\ q = apiRequest Catalog.searchUrl
                  (Catalog.searchOptions stringify
                     (JObj [("keyword", JStr (Catalog.s_query rq));
                            ("page", JNum (paging (Catalog.s_page rq) 1));
                            ("perPage", JNum (paging (Catalog.s_perPage rq) 24));
                            ("subjectType", JNum (paging (Catalog.s_type rq) 0))]))
                  cookies
         /\ rq_method q = "POST"
         /\ header "Content-Type" (rq_headers q) = Some "application/json"
         /\ header "User-Agent" (rq_headers q) = Some "okhttp/4.12.0")
  /\ paging perPage 18 <> 0
  /\ paging (Catalog.s_page rq) 1 <> 0
  /\ paging (Catalog.s_perPage rq) 24 <> 0
  /\ (forall n d, 0 < n -> JS.safe n -> paging (Some (JS.natToString n)) d = n)
  /\ (forall d, paging None d = d /\ paging (Some "0") d = d /\ paging (Some "all") d = d).
Proof.
  intros _ _ _ _ _.
  split; [| split].
  - unfold Catalog.handleTrending.
    destruct (Worker_makeApiRequest_calls
                (Catalog.trendingUrl
                   ++ "?page=" ++ formEncode (JS.intToString (paging page 0))
                   ++ "&perPage=" ++ formEncode (JS.intToString (paging perPage 18))
                   ++ "&uid=" ++ formEncode "5591179548772780352") noOptions e s)
      as (cookies & before & Hc & _).
    exists cookies, before. rewrite <- Hc. unfold paging, Worker.responseJson. monad.
    change (Catalog.trendingUrl ++ "?" ++ "page="
              ++ formEncode
                   (JS.intToString (Catalog.orNum (JS.parseIntOpt "null" page 0) 0))
              ++ "&perPage="
              ++ formEncode
                   (JS.intToString (Catalog.orNum (JS.parseIntOpt "null" perPage 0) 18))
              ++ "&uid=" ++ formEncode "5591179548772780352")
      with (Catalog.trendingUrl ++ "?page="
              ++ formEncode
                   (JS.intToString (Catalog.orNum (JS.parseIntOpt "null" page 0) 0))
              ++ "&perPage="
              ++ formEncode
                   (JS.intToString (Catalog.orNum (JS.parseIntOpt "null" perPage 0) 18))
              ++ "&uid=" ++ formEncode "5591179548772780352").
    destruct (Worker.makeApiRequest _ _ e s) as [[r | m] s1]; [| reflexivity].
    monad. destruct (up_data r); reflexivity.
  - unfold Catalog.handleSearch.
    destruct (Worker_makeApiRequest_calls Catalog.searchUrl
                (Catalog.searchOptions stringify
                   (JObj [("keyword", JStr (Catalog.s_query rq));
                          ("page", JNum (paging (Catalog.s_page rq) 1));
                          ("perPage", JNum (paging (Catalog.s_perPage rq) 24));
                          ("subjectType", JNum (paging (Catalog.s_type rq) 0))])) e s)
      as (cookies & before & Hc & _).
    exists cookies, before. eexists. split; [| split; [reflexivity |]].
    + rewrite <- Hc. unfold paging, Worker.responseJson, Catalog.liftO. monad.
      destruct (Worker.makeApiRequest _ _ e s) as [[r | m] s1]; [| reflexivity].
      monad. destruct (up_data r); [| reflexivity].
      monad. destruct (Catalog.postSearch _ _); reflexivity.
    + split; [reflexivity |].
      split; (rewrite apiRequest_header by (left; discriminate)); reflexivity.
  - split; [apply paging_nonzero; discriminate |].
    split; [apply paging_nonzero; discriminate |].
    split; [apply paging_nonzero; discriminate |].
    split; [intros n d Hn _; apply paging_written, Hn |].
    intros d. repeat split; reflexivity.
Qed.

Lemma X29_witness :
  paging (Some (JS.natToString 3)) 1 = 3.
Proof.
  assert (0 < 3) as H by lia.
  assert (JS.safe 0) as H0 by (apply safe_small; lia).
  assert (JS.safe 1) as H1 by (apply safe_small; lia).
  assert (JS.safe 3) as H3 by (apply safe_small; lia).
  assert (JS.safe 18) as H18 by (apply safe_small; lia).
  assert (JS.safe 24) as H24 by (apply safe_small; lia).
  exact (proj1 (proj2 (proj2 (proj2 (proj2 (proj2
           (X29_worker_paging (fun _ => EmptyString) (fun s => s) (Stub.unreachable 0)
              {| user := Worker.initial; calls := [] |} None None (sampleSearch None)
              H0 H18 H1 H24 H0))))))
           3 1 H H3).
Defined.

(** The Express server passes the parameters of a search on as they are. *)
Example express_search_page_as_text :
  let rq := {| Catalog.s_query := "a"; Catalog.s_page := Some "all";
               Catalog.s_perPage := Some "0"; Catalog.s_type := None |} in
  map rq_body
      (seenCalls (serve (Catalog.search Catalog.display rq) (answering sampleItems)
                        {| Express.cookieCache := Some "sid=1";
                           Express.cookieCacheTime := 0 |} []))
  = [Some (Catalog.display
             (JObj [("keyword", JStr "a"); ("page", JStr "all");
                    ("perPage", JStr "0"); ("subjectType", JNum 0)]))].
Proof. reflexivity. Qed.

(** ** X30: the catalog requests go to the catalog host *)

Section Footprint.
Context {S : Type}.

Lemma OnCatalog_ret {A} (a : A) : OnCatalog (S := S) (ret a).
Proof. intros e s. exists []. rewrite app_nil_r. split; [reflexivity | constructor]. Qed.

Lemma OnCatalog_throw {A} m : OnCatalog (S := S) (A := A) (throw m).
Proof. intros e s. exists []. rewrite app_nil_r. split; [reflexivity | constructor]. Qed.

Lemma OnCatalog_liftO {A} (o : Outcome A) : OnCatalog (S := S) (Catalog.liftO o).
Proof. intros e s. exists []. rewrite app_nil_r. split; [reflexivity | constructor]. Qed.

Lemma OnCatalog_bind {A B} (m : M S A) (k : A -> M S B) :
  OnCatalog m -> (forall a, OnCatalog (k a)) -> OnCatalog (bind m k).
Proof.
  intros Hm Hk e s. unfold bind.
  destruct (Hm e s) as (n1 & H1 & F1).
  destruct (m e s) as [[a | msg] s1]; cbn [snd] in H1.
  - destruct (Hk a e s1) as (n2 & H2 & F2).
    exists (n1 ++ n2)%list. rewrite H2, H1, app_assoc.
    split; [reflexivity | apply Forall_app; split; assumption].
  - exists n1. split; assumption.
Qed.

Lemma OnCatalog_tryCatch {A} (m : M S A) (h : string -> M S A) :
  OnCatalog m -> (forall msg, OnCatalog (h msg)) -> OnCatalog (tryCatch m h).
Proof.
  intros Hm Hh e s. unfold tryCatch.
  destruct (Hm e s) as (n1 & H1 & F1).
  destruct (m e s) as [[a | msg] s1]; cbn [snd] in H1.
  - exists n1. split; assumption.
  - destruct (Hh msg e s1) as (n2 & H2 & F2).
    exists (n1 ++ n2)%list. rewrite H2, H1, app_assoc.
    split; [reflexivity | apply Forall_app; split; assumption].
Qed.

Lemma OnCatalog_doFetch q :
  JS.startsWith (rq_url q) (HOST_URL ++ "/wefeed-h5-bff/") = true ->
  OnCatalog (S := S) (doFetch q).
Proof.
  intros Hq e s. exists [q]. rewrite doFetch_calls.
  split; [reflexivity | constructor; [exact Hq | constructor]].
Qed.

Lemma OnCatalog_get : OnCatalog (S := S) Http.get.
Proof. intros e s. exists []. rewrite app_nil_r. split; [reflexivity | constructor]. Qed.

Lemma OnCatalog_getNow : OnCatalog (S := S) getNow.
Proof. intros e s. exists []. rewrite app_nil_r. split; [reflexivity | constructor]. Qed.

Lemma OnCatalog_put u : OnCatalog (S := S) (put u).
Proof. intros e s. exists []. rewrite app_nil_r. split; [reflexivity | constructor]. Qed.

End Footprint.

Ltac footprint :=
  repeat first
    [ apply OnCatalog_ret
    | apply OnCatalog_throw
    | apply OnCatalog_liftO
    | apply OnCatalog_get
    | apply OnCatalog_getNow
    | apply OnCatalog_put
    | apply OnCatalog_doFetch; reflexivity
    | apply OnCatalog_bind; [| intros ?]
    | apply OnCatalog_tryCatch; [| intros ?]
    | match goal with
      | |- OnCatalog (if ?b then _ else _) => destruct b
      | |- OnCatalog (match ?x with _ => _ end) => destruct x
      end ].

Lemma Worker_getCookies_footprint : OnCatalog Worker.getCookies.
Proof. unfold Worker.getCookies, Worker.setVars. footprint. Qed.

Lemma Express_getCookies_footprint : OnCatalog Express.getCookies.
Proof.
  unfold Express.getCookies, setVars. footprint.
Qed.

Lemma Worker_makeApiRequest_footprint url options :
  JS.startsWith url (HOST_URL ++ "/wefeed-h5-bff/") = true ->
  OnCatalog (Worker.makeApiRequest url options).
Proof.
  intros H. unfold Worker.makeApiRequest.
  apply OnCatalog_bind; [apply Worker_getCookies_footprint |].
  intros cookies. apply OnCatalog_doFetch. exact H.
Qed.

Lemma Express_makeApiRequest_footprint url options :
  JS.startsWith url (HOST_URL ++ "/wefeed-h5-bff/") = true ->
  OnCatalog (Express.makeApiRequest url options).
Proof.
  intros H. unfold Express.makeApiRequest.
  apply OnCatalog_bind; [apply Express_getCookies_footprint |].
  intros cookies. apply OnCatalog_doFetch. exact H.
Qed.

Ltac catalog_footprint :=
  repeat first
    [ apply Worker_makeApiRequest_footprint; reflexivity
    | apply Express_makeApiRequest_footprint; reflexivity
    | progress footprint ].

(** X30.  Whatever the request, every upstream call of the catalog handlers
    goes to the catalog host, under the path [/wefeed-h5-bff/] of its API:
    the query, the id of a film, the season and the episode only reach the
    part of the url after [?] or the body.  This holds for the homepage,
    trending, search, info and sources handlers of the Worker and for the
    homepage, search and info handlers of the Express server on fetch, and
    for every encoding of the parameters. *)
Theorem X30_catalog_host (stringify : Json -> string)
        (formEncode encodeURIComponent : string -> string)
        (page perPage : option string) (sq : Catalog.SearchRequest) (movieId : string)
        (rq : Catalog.SourcesRequest) :
  OnCatalog Worker.handleHomepage
  /\ OnCatalog (Catalog.handleTrending formEncode page perPage)
  /\ OnCatalog (Catalog.handleSearch stringify sq)
  /\ OnCatalog (Catalog.handleInfo formEncode movieId)
  /\ OnCatalog (Catalog.handleSources formEncode encodeURIComponent rq)
  /\ OnCatalog Express.homepage
  /\ OnCatalog (Catalog.search stringify sq)
  /\ OnCatalog (Catalog.info formEncode movieId).
Proof.
  repeat split.
  - unfold Worker.handleHomepage, Worker.responseJson. catalog_footprint.
  - unfold Catalog.handleTrending, Worker.responseJson. catalog_footprint.
  - unfold Catalog.handleSearch, Worker.responseJson. catalog_footprint.
  - unfold Catalog.handleInfo, Worker.responseJson. catalog_footprint.
  - unfold Catalog.handleSources, Worker.responseJson. catalog_footprint.
  - unfold Express.homepage, Express.responseJson, resStatus, resJson, resEnd, modifyRes.
    catalog_footprint.
  - unfold Catalog.search, Express.responseJson, resStatus, resJson, resEnd, modifyRes.
    catalog_footprint.
  - unfold Catalog.info, Express.responseJson, resStatus, resJson, resEnd, modifyRes.
    catalog_footprint.
Qed.
